(** * DailyBoxOffice: the shard scrapers and the combiner, verified

    A shallow embedding of the three programs of the repository

    - [bmsdaily7.py]  (module [Bms7]):     sequential scraper of one shard, with
      the retry rounds, the merge with the previous snapshot and the summary;
    - [bmsdaily9.py]  (module [District9]): the District scraper's parser,
      de-duplication and summary;
    - [combine_dailyshards.py] (module [Combine]): normalisation, de-duplication
      and the final case-insensitive summary;

    together with the pieces of Python they rely on: the numeric tower of [int]
    and binary64 [float] (module [Py]), [str] methods (module [PyStr]) and the
    insertion-ordered [dict] (module [PyDict]).  The modules whose names end
    in [Facts] hold the lemmas; the theorems of the module [Claims] settle the
    claims C1 to C10 of the specification against these definitions, and the
    module [Extras] states further properties of the three programs. *)

From Stdlib Require Import ZArith String Ascii List.
From Stdlib Require Import Floats.SpecFloat.
From Stdlib Require Import Sorting.Sorted.
From stdpp Require Import gmap strings list fin_maps sets pretty.
From Equations Require Import Equations.

Open Scope Z_scope.

(* ===================================================================== *)
(** * Python numbers *)
(* ===================================================================== *)

(** Python's [float] is IEEE 754 binary64 with round-to-nearest-even; it is
    modelled by the Standard Library's [spec_float] at precision 53 and maximal
    exponent 1024, whose operations are plain functions on [Z] and compute.
    A Python [int] is a [Z].  The true division of two [int]s raises
    [OverflowError] as CPython's does.  The conversion of an [int] operand to
    a float, in [float(z)] and in mixed arithmetic, is the rounding to the
    nearest float, which is an infinity for an [int] of magnitude
    [float_limit] or more, where CPython raises [OverflowError]: the
    theorems that state that such a computation returns are stated for
    numbers that [convertible] accepts. *)
Module Py.

Definition prec : Z := 53.
Definition emax : Z := 1024.

Abbreviation float := spec_float.

Definition fadd : float -> float -> float := SFadd prec emax.
Definition fmul : float -> float -> float := SFmul prec emax.
Definition fdiv : float -> float -> float := SFdiv prec emax.

(** [float(z)]: the nearest binary64 value of an [int]. *)
Definition float_of_int (z : Z) : float := binary_normalize prec emax z 0 false.

(** An [int] as an unrounded binary number [z * 2^0]; the division below
    rounds the exact quotient once, as CPython's [long_true_divide] does. *)
Definition exact_int (z : Z) : float :=
  match z with
  | Z0 => S754_zero false
  | Zpos p => S754_finite false p 0
  | Zneg p => S754_finite true p 0
  end.

(** The least magnitude that rounds to [2^1024], one more than a float can
    hold: half-way between the largest float [2^1024 - 2^971] and [2^1024]. *)
Definition float_limit : Z := 2 ^ 1024 - 2 ^ 970.

(** The quotient [a / b] ([b] not 0) rounds to a value beyond the floats. *)
Definition overflows (a b : Z) : bool := float_limit * Z.abs b <=? Z.abs a.

(** [a / b] on two [int]s: [None] stands for the [ZeroDivisionError] of a
    zero divisor and for the [OverflowError] of a quotient that rounds beyond
    the range of a float. *)
Definition int_truediv (a b : Z) : option float :=
  if b =? 0 then None
  else if overflows a b then None
  else Some (fdiv (exact_int a) (exact_int b)).

Definition is_zero (x : float) : bool :=
  match x with S754_zero _ => true | _ => false end.

(** [x / y] on two [float]s: [None] stands for [ZeroDivisionError]. *)
Definition float_truediv (x y : float) : option float :=
  if is_zero y then None else Some (fdiv x y).

(** The sign and the exact value [m * 2^e] of a finite float, compared with an
    [int]: Python compares a float with an int exactly. *)
Definition cmp_finite_int (s : bool) (m : positive) (e : Z) (z : Z) : comparison :=
  let v := if s then Zneg m else Zpos m in
  match e with
  | Z0 => v ?= z
  | Zpos p => (v * 2 ^ Zpos p) ?= z
  | Zneg p => v ?= (z * 2 ^ Zpos p)
  end.

Definition float_cmp_int (x : float) (z : Z) : option comparison :=
  match x with
  | S754_nan => None
  | S754_infinity s => Some (if s then Lt else Gt)
  | S754_zero _ => Some (0 ?= z)
  | S754_finite s m e => Some (cmp_finite_int s m e z)
  end.

(** Round-half-even of the rational [n / d] ([d > 0]) to an integer. *)
Definition round_half_even (n d : Z) : Z :=
  let q := n / d in
  let r := n mod d in
  match (2 * r) ?= d with
  | Lt => q
  | Gt => q + 1
  | Eq => if Z.even q then q else q + 1
  end.

(** [round(x, ndigits)] on a float, for [ndigits >= 0]: the exact value of [x]
    is rounded half-even to [ndigits] decimals and the decimal is read back as
    the nearest float (CPython's [double_round]: [dtoa] in mode 3, then
    [strtod]).  Infinities and NaN are returned unchanged. *)
Definition float_round (x : float) (ndigits : nat) : float :=
  match x with
  | S754_finite s m e =>
      let p := 10 ^ Z.of_nat ndigits in
      let n := match e with
               | Zneg k => round_half_even (Zpos m * p) (2 ^ Zpos k)
               | _ => Zpos m * p * 2 ^ e
               end in
      match n with
      | Zpos n' => fdiv (S754_finite s n' 0) (exact_int p)
      | _ => S754_zero s
      end
  | _ => x
  end.

(** A Python number: an [int] or a [float]. *)
Inductive num : Type :=
  | PyInt (z : Z)
  | PyFloat (x : float).

Definition to_float (a : num) : float :=
  match a with PyInt z => float_of_int z | PyFloat x => x end.

(** [a + b], [a - b] and [a * b]: [int] arithmetic on two [int]s, float arithmetic as
    soon as one operand is a [float]. *)
Definition add (a b : num) : num :=
  match a, b with
  | PyInt x, PyInt y => PyInt (x + y)
  | _, _ => PyFloat (fadd (to_float a) (to_float b))
  end.

Definition sub (a b : num) : num :=
  match a, b with
  | PyInt x, PyInt y => PyInt (x - y)
  | _, _ => PyFloat (SFsub prec emax (to_float a) (to_float b))
  end.

Definition mul (a b : num) : num :=
  match a, b with
  | PyInt x, PyInt y => PyInt (x * y)
  | _, _ => PyFloat (fmul (to_float a) (to_float b))
  end.

(** [a / b]: always a float; [None] stands for [ZeroDivisionError]. *)
Definition truediv (a b : num) : option float :=
  match a, b with
  | PyInt x, PyInt y => int_truediv x y
  | _, _ => float_truediv (to_float a) (to_float b)
  end.

(** [round(a, ndigits)]: an [int] is returned as it is for [ndigits >= 0]. *)
Definition round (a : num) (ndigits : nat) : num :=
  match a with
  | PyInt z => PyInt z
  | PyFloat x => PyFloat (float_round x ndigits)
  end.

(** [a >= z] and [a <= z] for an [int] literal [z]; a NaN compares false. *)
Definition ge_int (a : num) (z : Z) : bool :=
  match a with
  | PyInt x => z <=? x
  | PyFloat x =>
      match float_cmp_int x z with
      | Some Gt | Some Eq => true
      | _ => false
      end
  end.

Definition le_int (a : num) (z : Z) : bool :=
  match a with
  | PyInt x => x <=? z
  | PyFloat x =>
      match float_cmp_int x z with
      | Some Lt | Some Eq => true
      | _ => false
      end
  end.

(** Truth value of a number: zero is false. *)
Definition truthy (a : num) : bool :=
  match a with
  | PyInt z => negb (z =? 0)
  | PyFloat x => negb (is_zero x)
  end.

(** [int(x)] on a float: truncation towards zero; [None] stands for the
    [ValueError] of a NaN and the [OverflowError] of an infinity. *)
Definition float_trunc (x : float) : option Z :=
  match x with
  | S754_zero _ => Some 0
  | S754_finite s m e =>
      let a := match e with
               | Zneg k => Zpos m / 2 ^ Zpos k
               | _ => Zpos m * 2 ^ e
               end in
      Some (if s then - a else a)
  | _ => None
  end.

(** [sum(xs)]: the left fold of [+] from the [int] 0. *)
Definition sum (xs : list num) : num := fold_left add xs (PyInt 0).

(** [float(a)]. *)
Definition float_ (a : num) : float := to_float a.

(** A number that CPython converts to a float without [OverflowError]: every
    float, and an [int] of magnitude below [float_limit]. *)
Definition convertible (a : num) : bool :=
  match a with
  | PyInt z => Z.abs z <? float_limit
  | PyFloat _ => true
  end.

(** The float written [z.0] in the source. *)
Definition lit (z : Z) : float := float_of_int z.

#[global] Instance float_eq_dec : EqDecision float.
Proof. solve_decision. Defined.

#[global] Instance num_eq_dec : EqDecision num.
Proof. solve_decision. Defined.

Arguments float_limit : simpl never.
Arguments overflows : simpl never.

End Py.

Abbreviation PyInt := Py.PyInt.
Abbreviation PyFloat := Py.PyFloat.

(* ===================================================================== *)
(** * Python strings *)
(* ===================================================================== *)

(** A [str] is modelled by the [string] of its bytes.  On ASCII text, which
    [is_ascii] recognises, the methods below are [str.strip], [str.lower],
    [str.upper], [str.title] and [str.isdigit]; they act on the ASCII letters
    and white space and leave every other byte alone, whereas Python's
    methods also act on the letters and spaces beyond ASCII.  The theorems
    that depend on what these methods do to a string are therefore stated for
    ASCII text. *)
Module PyStr.

Definition code (c : ascii) : N := N_of_ascii c.

(** [s.isascii()]: every character is below 128. *)
Fixpoint is_ascii (s : string) : bool :=
  match s with
  | EmptyString => true
  | String c s' => (code c <? 128)%N && is_ascii s'
  end.

(** [c.isspace()]: tab, line feed, vertical tab, form feed, carriage return,
    the four separators 0x1c to 0x1f, and the space. *)
Definition is_space (c : ascii) : bool :=
  ((9 <=? code c) && (code c <=? 13) || (28 <=? code c) && (code c <=? 32))%N.

Definition is_upper (c : ascii) : bool := ((65 <=? code c) && (code c <=? 90))%N.
Definition is_lower (c : ascii) : bool := ((97 <=? code c) && (code c <=? 122))%N.
Definition is_digit (c : ascii) : bool := ((48 <=? code c) && (code c <=? 57))%N.

Definition lower_char (c : ascii) : ascii :=
  if is_upper c then ascii_of_N (code c + 32) else c.
Definition upper_char (c : ascii) : ascii :=
  if is_lower c then ascii_of_N (code c - 32) else c.

Fixpoint lower (s : string) : string :=
  match s with
  | EmptyString => EmptyString
  | String c s' => String (lower_char c) (lower s')
  end.

Fixpoint upper (s : string) : string :=
  match s with
  | EmptyString => EmptyString
  | String c s' => String (upper_char c) (upper s')
  end.

Fixpoint lstrip (s : string) : string :=
  match s with
  | EmptyString => EmptyString
  | String c s' => if is_space c then lstrip s' else s
  end.

Fixpoint rstrip (s : string) : string :=
  match s with
  | EmptyString => EmptyString
  | String c s' =>
      match rstrip s' with
      | EmptyString => if is_space c then EmptyString else String c EmptyString
      | r => String c r
      end
  end.

(** [s.strip()]. *)
Definition strip (s : string) : string := rstrip (lstrip s).

(** [s.title()]: a letter that follows a letter is lower-cased, any other
    letter is upper-cased; [prev] tells whether the previous character was a
    letter. *)
Fixpoint title_from (prev : bool) (s : string) : string :=
  match s with
  | EmptyString => EmptyString
  | String c s' =>
      if is_lower c then
        String (if prev then c else upper_char c) (title_from true s')
      else if is_upper c then
        String (if prev then lower_char c else c) (title_from true s')
      else String c (title_from false s')
  end.

Definition title (s : string) : string := title_from false s.

Fixpoint all_digits (s : string) : bool :=
  match s with
  | EmptyString => true
  | String c s' => is_digit c && all_digits s'
  end.

(** [s.isdigit()]: at least one character, all of them digits. *)
Definition isdigit (s : string) : bool :=
  match s with
  | EmptyString => false
  | _ => all_digits s
  end.

(** [int(s)] on a string of digits. *)
Fixpoint int_of_digits_from (acc : Z) (s : string) : Z :=
  match s with
  | EmptyString => acc
  | String c s' => int_of_digits_from (10 * acc + Z.of_N (code c - 48)) s'
  end.

Definition int_of_digits (s : string) : Z := int_of_digits_from 0 s.

(** Truth value of a string: the empty string is false. *)
Definition truthy (s : string) : bool :=
  match s with EmptyString => false | _ => true end.

(** [o or d] where [o] is a string that may be missing or [None]. *)
Definition or_default (o : option string) (d : string) : string :=
  match o with
  | Some s => if truthy s then s else d
  | None => d
  end.

(** [d.get(k, default)] on a field that may be missing. *)
Definition get_default (o : option string) (d : string) : string :=
  match o with Some s => s | None => d end.

(** [s.replace(old, new)] where [old] is the single character [c]. *)
Fixpoint replace_char (c : ascii) (new : string) (s : string) : string :=
  match s with
  | EmptyString => EmptyString
  | String a s' =>
      if Ascii.eqb a c then (new ++ replace_char c new s')%string
      else String a (replace_char c new s')
  end.

End PyStr.

(* ===================================================================== *)
(** * Python dictionaries *)
(* ===================================================================== *)

(** A [dict] whose order of iteration matters is an association list in
    insertion order: assigning to a key that is present replaces its value in
    place, assigning to a new key appends it. *)
Module PyDict.
Section Defs.
Context {K : Type} `{EqDecision K} {V : Type}.

Definition t : Type := list (K * V).

Fixpoint get (k : K) (d : list (K * V)) : option V :=
  match d with
  | [] => None
  | (k', v) :: d' => if decide (k' = k) then Some v else get k d'
  end.

(** [k in d] *)
Definition mem (k : K) (d : list (K * V)) : bool :=
  match get k d with Some _ => true | None => false end.

(** [d[k] = v] *)
Fixpoint set (k : K) (v : V) (d : list (K * V)) : list (K * V) :=
  match d with
  | [] => [(k, v)]
  | (k', v') :: d' =>
      if decide (k' = k) then (k', v) :: d' else (k', v') :: set k v d'
  end.

Definition keys (d : list (K * V)) : list K := d.*1.
Definition values (d : list (K * V)) : list V := d.*2.
End Defs.
End PyDict.


(* ===================================================================== *)
(** * The summary buckets *)
(* ===================================================================== *)

(** [bmsdaily9.py] and [combine_dailyshards.py] fold the records into the same
    nested dictionaries: one bucket per movie, holding running totals and three
    dictionaries of buckets keyed by (city, state), by language and by format.
    Every bucket carries the same seven running figures, updated by the same
    lines of code at each of the four levels; they are the record [Totals] and
    the function [add_show] here. *)
Module Agg.

Record Totals := {
  venues : gset string;
  shows : Z;
  gross : Py.float;
  sold : Z;
  totalSeats : Z;
  fastfilling : Z;
  housefull : Z
}.

(** The figures of a bucket that has just been created. *)
Definition fresh : Totals :=
  {| venues := ∅; shows := 0; gross := Py.lit 0; sold := 0; totalSeats := 0;
     fastfilling := 0; housefull := 0 |}.

(** [b["venues"].add(venue); b["shows"] += 1; b["gross"] += gross;
     b["sold"] += sold; b["totalSeats"] += total;
     if occ >= 98: b["housefull"] += 1
     elif occ >= 50: b["fastfilling"] += 1] *)
Definition add_show (b : Totals) (venue : string) (gross_ : Py.num)
    (sold_ total : Z) (occ : Py.num) : Totals :=
  {| venues := {[ venue ]} ∪ venues b;
     shows := shows b + 1;
     gross := Py.to_float (Py.add (PyFloat (gross b)) gross_);
     sold := sold b + sold_;
     totalSeats := totalSeats b + total;
     fastfilling :=
       if Py.ge_int occ 98 then fastfilling b
       else if Py.ge_int occ 50 then fastfilling b + 1 else fastfilling b;
     housefull :=
       if Py.ge_int occ 98 then housefull b + 1 else housefull b |}.

Record CityBucket := { city : string; state : string; c_tot : Totals }.
Record LangBucket := { language : string; l_tot : Totals }.
Record FormatBucket := { dimension : string; f_tot : Totals }.

Record MovieBucket := {
  m_tot : Totals;
  cities : gset string;
  City_details : list ((string * string) * CityBucket);
  Language_details : list (string * LangBucket);
  Format_details : list (string * FormatBucket)
}.

Definition fresh_movie : MovieBucket :=
  {| m_tot := fresh; cities := ∅; City_details := [];
     Language_details := []; Format_details := [] |}.

(** What one record contributes, as the loop body reads it off the record. *)
Record Entry := {
  e_movie : string;
  e_venue : string;
  e_city_member : string;       (* what goes into the set [m["cities"]] *)
  e_ck : string * string;       (* the key of the city bucket *)
  e_city : string;              (* the city and state a new city bucket shows *)
  e_state : string;
  e_lang : string;
  e_dim : string;
  e_total : Z;
  e_sold : Z;
  e_gross : Py.num;
  e_occ : Py.num
}.

(** [if k not in d: d[k] = new] followed by [b = d[k]] and the update [f] of
    [b] in place. *)
Definition upsert {K : Type} `{EqDecision K} {V : Type}
    (k : K) (new : V) (f : V -> V) (d : list (K * V)) : list (K * V) :=
  PyDict.set k (f (default new (PyDict.get k d))) d.

(** The body of [for r in detailed] once the fields and the occupancy of the
    record are known. *)
Definition accumulate (summary : list (string * MovieBucket)) (e : Entry)
    : list (string * MovieBucket) :=
  let add (t : Totals) :=
    add_show t (e_venue e) (e_gross e) (e_sold e) (e_total e) (e_occ e) in
  upsert (e_movie e) fresh_movie
    (λ m,
       {| m_tot := add (m_tot m);
          cities := {[ e_city_member e ]} ∪ cities m;
          City_details :=
            upsert (e_ck e)
              {| city := e_city e; state := e_state e; c_tot := fresh |}
              (λ d, {| city := city d; state := state d; c_tot := add (c_tot d) |})
              (City_details m);
          Language_details :=
            upsert (e_lang e) {| language := e_lang e; l_tot := fresh |}
              (λ l, {| language := language l; l_tot := add (l_tot l) |})
              (Language_details m);
          Format_details :=
            upsert (e_dim e) {| dimension := e_dim e; f_tot := fresh |}
              (λ f, {| dimension := dimension f; f_tot := add (f_tot f) |})
              (Format_details m) |})
    summary.

(** ** The summary handed to the caller: counts and rounded totals only *)

Record Figures := {
  o_shows : Z;
  o_gross : Py.num;
  o_sold : Z;
  o_totalSeats : Z;
  o_venues : Z;
  o_fastfilling : Z;
  o_housefull : Z;
  o_occupancy : Py.num
}.

Record CityOut := { co_city : string; co_state : string; co_fig : Figures }.
Record LangOut := { lo_language : string; lo_fig : Figures }.
Record FormatOut := { fo_dimension : string; fo_fig : Figures }.

Record MovieOut := {
  mo_fig : Figures;
  mo_cities : Z;
  mo_City_details : list CityOut;
  mo_Language_details : list LangOut;
  mo_Format_details : list FormatOut
}.

Section Final.
(** [calc_occupancy] of the script at hand. *)
Variable calc_occupancy : Z -> Z -> option Py.num.

Definition figures (t : Totals) : option Figures :=
  occ ← calc_occupancy (sold t) (totalSeats t);
  Some {| o_shows := shows t;
          o_gross := Py.round (PyFloat (gross t)) 2;
          o_sold := sold t;
          o_totalSeats := totalSeats t;
          o_venues := Z.of_nat (size (venues t));
          o_fastfilling := fastfilling t;
          o_housefull := housefull t;
          o_occupancy := occ |}.

Definition final_movie (m : MovieBucket) : option MovieOut :=
  fig ← figures (m_tot m);
  cs ← mapM (λ d, f ← figures (c_tot d);
                  Some {| co_city := city d; co_state := state d; co_fig := f |})
            (PyDict.values (City_details m));
  ls ← mapM (λ l, f ← figures (l_tot l);
                  Some {| lo_language := language l; lo_fig := f |})
            (PyDict.values (Language_details m));
  fs ← mapM (λ x, f ← figures (f_tot x);
                  Some {| fo_dimension := dimension x; fo_fig := f |})
            (PyDict.values (Format_details m));
  Some {| mo_fig := fig;
          mo_cities := Z.of_nat (size (cities m));
          mo_City_details := cs;
          mo_Language_details := ls;
          mo_Format_details := fs |}.

(** [for movie, m in summary.items(): final[movie] = {...}] *)
Definition finalize (summary : list (string * MovieBucket))
    : option (list (string * MovieOut)) :=
  mapM (λ kv, o ← final_movie kv.2; Some (kv.1, o)) summary.
End Final.

End Agg.
(* ===================================================================== *)
(** * bmsdaily7.py: the sequential shard scraper *)
(* ===================================================================== *)

Module Bms7.

Definition CUTOFF_MINUTES : Z := 200.
Definition MAX_RETRIES : nat := 5.

(** [calc_occupancy(sold, total)]:
    [round((sold / total) * 100, 2) if total else 0.0].
    [None] stands for an exception: the [OverflowError] of a quotient beyond
    the range of a float; the divisor is never zero. *)
Definition calc_occupancy (sold total : Z) : option Py.num :=
  if Py.truthy (PyInt total) then
    q ← Py.truediv (PyInt sold) (PyInt total);
    Some (Py.round (Py.mul (PyFloat q) (PyInt 100)) 2)
  else Some (PyFloat (Py.lit 0)).

(** ** The vendor payload, as far as [parse_payload] reads it

    A field read with [.get(k)] or [.get(k, default)] may be missing: it is an
    [option].  Seat counts are the [int]s and prices the numbers that [int(..)]
    and [float(..)] return. *)
Record Category := {
  MaxSeats : option Z;
  SeatsAvail : option Z;
  CurPrice : option Py.num
}.

Record ShowTimeEntry := {
  ShowDateCode : option string;
  Categories : list Category;
  ShowTime : option string;
  Attributes : option string;
  SessionId : option string
}.

Record ChildEvent := {
  EventDimension : option string;
  EventLanguage : option string;
  ShowTimes : list ShowTimeEntry
}.

Record Event := {
  EventTitle : option string;
  ChildEvents : list ChildEvent
}.

Record Venue := {
  VenueName : option string;
  VenueAdd : option string;
  VenueCompName : option string
}.

Record ShowDetail := {
  Venues : Venue;
  Events : list Event
}.

Record Payload := { ShowDetails : list ShowDetail }.

(** The record [parse_payload] appends for one show. *)
Record Show := {
  movie : string;
  venue : string;
  address : string;
  language : string;
  dimension : string;
  chain : string;
  time : string;
  audi : string;
  session_id : string;
  totalSeats : Z;
  available : Z;
  sold : Z;
  gross : Py.num
}.

(** The four running figures of the loop over a show's seat categories. *)
Record Tiers := {
  t_total : Z;
  t_sold : Z;
  t_avail : Z;
  t_gross : Py.num
}.

(** One turn of [for cat in sh.get("Categories", [])]. *)
Definition tier_step (acc : Tiers) (cat : Category) : Tiers :=
  let seats := default 0 (MaxSeats cat) in
  let free := default 0 (SeatsAvail cat) in
  let price := Py.float_ (default (PyInt 0) (CurPrice cat)) in
  {| t_total := t_total acc + seats;
     t_avail := t_avail acc + free;
     t_sold := t_sold acc + (seats - free);
     t_gross := Py.add (t_gross acc) (Py.mul (PyInt (seats - free)) (PyFloat price)) |}.

(** [total = sold = avail = gross = 0] and the loop. *)
Definition tiers (cats : list Category) : Tiers :=
  fold_left tier_step cats
    {| t_total := 0; t_sold := 0; t_avail := 0; t_gross := PyInt 0 |}.

Section Parser.
(** [DATE_CODE]: today's date in IST, fixed when the script starts. *)
Variable DATE_CODE : string.

Definition show_of (venue_name venue_add chain title dim lang : string)
    (sh : ShowTimeEntry) : Show :=
  let t := tiers (Categories sh) in
  {| movie := title;
     venue := venue_name;
     address := venue_add;
     language := lang;
     dimension := dim;
     chain := chain;
     time := PyStr.get_default (ShowTime sh) "";
     audi := PyStr.get_default (Attributes sh) "";
     session_id := PyStr.get_default (SessionId sh) "";
     totalSeats := t_total t;
     available := t_avail t;
     sold := t_sold t;
     gross := Py.round (t_gross t) 2 |}.

(** [parse_payload(data)] *)
Definition parse_payload (data : Payload) : list Show :=
  match ShowDetails data with
  | [] => []
  | sd0 :: _ =>
      let venue := Venues sd0 in
      let venue_name := PyStr.get_default (VenueName venue) "" in
      let venue_add := PyStr.get_default (VenueAdd venue) "" in
      let chain := PyStr.get_default (VenueCompName venue) "Unknown" in
      ev ← Events sd0;
      let title := PyStr.get_default (EventTitle ev) "Unknown" in
      ch ← ChildEvents ev;
      let dim := PyStr.get_default (EventDimension ch) "UNKNOWN" in
      let lang := PyStr.get_default (EventLanguage ch) "UNKNOWN" in
      sh ← ShowTimes ch;
      if decide (ShowDateCode sh = Some DATE_CODE)
      then [show_of venue_name venue_add chain title dim lang sh]
      else []
  end.
End Parser.

(** ** Rows

    A row of [all_rows] is the dictionary of [parse_payload] after
    [r.update({...})] has added the five fields of the run.  The snapshot read
    back from [detailed7.json] is a list of JSON objects; a JSON object is a
    finite map from field names to values, of which the scrapers write strings
    and numbers. *)
Record Row := {
  show : Show;
  mins_left : Py.num;
  city : string;
  state : string;
  date : string;
  source : string
}.

Inductive value : Type :=
  | VStr (s : string)
  | VNum (n : Py.num).

#[global] Instance value_eq_dec : EqDecision value.
Proof. solve_decision. Defined.

(** [o.update(r)]: the fields of [r] replace those of [o], the other fields
    of [o] stay. *)
Definition update (o r : gmap string value) : gmap string value := r ∪ o.

Definition show_dict (s : Show) : gmap string value :=
  list_to_map
    [ ("movie", VStr (movie s)); ("venue", VStr (venue s));
      ("address", VStr (address s)); ("language", VStr (language s));
      ("dimension", VStr (dimension s)); ("chain", VStr (chain s));
      ("time", VStr (time s)); ("audi", VStr (audi s));
      ("session_id", VStr (session_id s)); ("totalSeats", VNum (PyInt (totalSeats s)));
      ("available", VNum (PyInt (available s))); ("sold", VNum (PyInt (sold s)));
      ("gross", VNum (gross s)) ]%string.

(** The dictionary a row of [all_rows] is. *)
Definition row_dict (r : Row) : gmap string value :=
  update (show_dict (show r))
    (list_to_map
       [ ("minutes_left", VNum (mins_left r)); ("city", VStr (city r));
         ("state", VStr (state r)); ("date", VStr (date r));
         ("source", VStr (source r)) ]%string).

Definition Key : Type := string * string * string * string.

(** [show_key(r)]: [(r["venue"], r["time"], r["session_id"], r["audi"])].
    [None] stands for the [KeyError] of a missing field; the four fields are
    strings in every file the scrapers write, and a record that holds another
    kind of value there is not covered by the model and yields [None] too. *)
Definition show_key (r : gmap string value) : option Key :=
  match r !! "venue"%string, r !! "time"%string,
        r !! "session_id"%string, r !! "audi"%string with
  | Some (VStr v), Some (VStr t), Some (VStr s), Some (VStr a) => Some (v, t, s, a)
  | _, _, _, _ => None
  end.

(** The key of a row of the run, read off its typed fields. *)
Definition row_key (r : Row) : Key :=
  (venue (show r), time (show r), session_id (show r), audi (show r)).

(** ** The run: first pass and retry rounds *)

(** The static metadata of a venue in [venues7.json]. *)
Record VenueMeta := {
  City : option string;
  State : option string
}.

(** The lines the controller writes to its log. *)
Inductive event : Type :=
  | LogVenue (i n : nat) (vcode : string)
  | LogIdentityReset
  | LogFailed (vcode : string)
  | LogRetrying (n : nat)
  | LogRetryRound (round n : nat)
  | LogRetry (vcode : string)
  | LogFailedAgain (vcode : string)
  | LogPermanent (retries n : nat)
  | LogRecovered.

#[global] Instance event_eq_dec : EqDecision event.
Proof. solve_decision. Defined.

Section Run.
(** Everything outside the controller is a state [W] of the world: the
    network, the vendor, the worker's identity and the clock. *)
Context {W : Type}.

(** [fetch_api_raw(venue_code)] as far as the [try] block of the two loops
    uses it: [Some data] is an answer that [parse_payload] reads without an
    exception, with the seat counts and prices that [int(..)] and [float(..)]
    return; [None] is a call that raises (block page, network error, hard
    timeout) or an answer on which [parse_payload] raises, which ends the
    [try] block in the same [except] branch. *)
Variable fetch_api_raw : string -> W -> option Payload * W.
(** [reset_identity()] and [time.sleep(random.uniform(0.4, 1))]. *)
Variable reset_identity : W -> W.
Variable sleep : W -> W.
(** [datetime.now(IST)]: the microseconds elapsed since today's midnight in
    IST, the fixed offset of 5 h 30 min that
    [t.replace(year, month, day, tzinfo=IST)] attaches to the show time too. *)
Variable now_us : W -> Z.
(** [datetime.strptime(s, "%I:%M %p")]: hour (0 to 23) and minute, or [None]
    when it raises [ValueError]. *)
Variable strptime_IMp : string -> option (Z * Z).
Variable DATE_CODE : string.

(** [minutes_left(show_time)]: the body is wrapped in [try]; whatever it
    raises, the result is [9999]. *)
Definition minutes_left (w : W) (show_time : string) : Py.num :=
  default (PyInt 9999)
    ('(h, m) ← strptime_IMp show_time;
     secs ← Py.int_truediv ((h * 3600 + m * 60) * 1000000 - now_us w) 1000000;
     PyFloat <$> Py.truediv (PyFloat secs) (PyInt 60)).

(** The body of [for r in parse_payload(raw)]: a show within the cut-off
    becomes a row of [all_rows]. *)
Definition keep (w : W) (r : Show) : bool :=
  Py.le_int (minutes_left w (time r)) CUTOFF_MINUTES.

Definition row_of (w : W) (meta : VenueMeta) (r : Show) : Row :=
  {| show := r;
     mins_left := Py.round (minutes_left w (time r)) 1;
     city := PyStr.get_default (City meta) "Unknown";
     state := PyStr.get_default (State meta) "Unknown";
     date := DATE_CODE;
     source := "BMS" |}.

(** The rows one payload adds; [venues[vcode]] is looked up when the first
    show passes the cut-off and raises [KeyError] ([None]) for an unknown
    venue code. *)
Definition rows_of (venues : list (string * VenueMeta)) (vcode : string)
    (w : W) (data : Payload) : option (list Row) :=
  match filter (λ r, keep w r = true) (parse_payload DATE_CODE data) with
  | [] => Some []
  | kept =>
      meta ← PyDict.get vcode venues;
      Some (row_of w meta <$> kept)
  end.

Record RunState := {
  world : W;
  all_rows : list Row;
  log : list event
}.

Definition log_ (e : event) (st : RunState) : RunState :=
  {| world := world st; all_rows := all_rows st; log := log st ++ [e] |}.

(** The [try] block of both loops: fetch, parse, filter, append. *)
Definition try_venue (venues : list (string * VenueMeta)) (vcode : string)
    (st : RunState) : bool * RunState :=
  let '(raw, w) := fetch_api_raw vcode (world st) in
  match raw ≫= rows_of venues vcode w with
  | Some rows =>
      (true, {| world := w; all_rows := all_rows st ++ rows; log := log st |})
  | None =>
      (false, {| world := w; all_rows := all_rows st; log := log st |})
  end.

(** The [except] block: [reset_identity()] logs its own line, then the
    failure is logged. *)
Definition on_failure (e : event) (st : RunState) : RunState :=
  log_ e (log_ LogIdentityReset
    {| world := reset_identity (world st); all_rows := all_rows st; log := log st |}).

Definition sleep_ (st : RunState) : RunState :=
  {| world := sleep (world st); all_rows := all_rows st; log := log st |}.

(** One turn of [for i, vcode in enumerate(venues, 1)]. *)
Definition first_pass_step (venues : list (string * VenueMeta))
    (acc : list string * RunState) (iv : nat * string) : list string * RunState :=
  let '(failed_venues, st) := acc in
  let '(i, vcode) := iv in
  let st := log_ (LogVenue i (length venues) vcode) st in
  let '(ok, st) := try_venue venues vcode st in
  if ok then (failed_venues, sleep_ st)
  else (failed_venues ++ [vcode], sleep_ (on_failure (LogFailed vcode) st)).

Definition first_pass (venues : list (string * VenueMeta)) (st : RunState)
    : list string * RunState :=
  fold_left (first_pass_step venues)
    (zip (seq 1 (length venues)) (PyDict.keys venues)) ([], st).

(** One turn of [for vcode in pending]. *)
Definition retry_step (venues : list (string * VenueMeta))
    (acc : list string * RunState) (vcode : string) : list string * RunState :=
  let '(next_pending, st) := acc in
  let st := log_ (LogRetry vcode) st in
  let '(ok, st) := try_venue venues vcode st in
  if ok then (next_pending, sleep_ st)
  else (next_pending ++ [vcode], sleep_ (on_failure (LogFailedAgain vcode) st)).

(** The body of the [while] loop: one retry round over [pending]. *)
Definition retry_round_body (venues : list (string * VenueMeta))
    (retry_round : nat) (pending : list string) (st : RunState)
    : list string * RunState :=
  fold_left (retry_step venues) pending
    ([], log_ (LogRetryRound retry_round (length pending)) st).

(** [while pending and retry_round <= MAX_RETRIES]: the rounds left,
    [MAX_RETRIES + 1 - retry_round], decrease at every turn. *)
Equations? retry_loop (venues : list (string * VenueMeta)) (retry_round : nat)
    (pending : list string) (st : RunState) : list string * RunState
    by wf (S MAX_RETRIES - retry_round)%nat lt :=
  retry_loop venues retry_round pending st with
    decide (pending ≠ [] ∧ (retry_round <= MAX_RETRIES)%nat) => {
    | left _ =>
        retry_loop venues (S retry_round)
          (retry_round_body venues retry_round pending st).1
          (retry_round_body venues retry_round pending st).2
    | right _ => (pending, st) }.
Proof. lia. Qed.

(** The scraping part of [__main__]: the first pass, the retry rounds from
    round 1 on, and the final report.  The result is the list [pending] of
    the venues that never answered, and the state with [all_rows]. *)
Definition scrape (venues : list (string * VenueMeta)) (w : W)
    : list string * RunState :=
  let '(failed_venues, st) :=
    first_pass venues {| world := w; all_rows := []; log := [] |} in
  let st := match failed_venues with
            | [] => st
            | _ => log_ (LogRetrying (length failed_venues)) st
            end in
  let '(pending, st) := retry_loop venues 1 failed_venues st in
  match pending with
  | [] => (pending, log_ LogRecovered st)
  | _ => (pending, log_ (LogPermanent MAX_RETRIES (length pending)) st)
  end.
End Run.


(** ** Merge with the previous snapshot *)

(** [old_map = {show_key(r): r for r in old_rows}], started from [m]: a later
    record with the same key replaces the earlier one in its place. *)
Fixpoint old_map_from (m : list (Key * gmap string value))
    (old_rows : list (gmap string value)) : option (list (Key * gmap string value)) :=
  match old_rows with
  | [] => Some m
  | r :: rest =>
      key ← show_key r;
      old_map_from (PyDict.set key r m) rest
  end.

(** [for r in all_rows]: a row whose key is in [old_map] updates the old record
    in place, and [new_map[key]] is that same object; a row with a new key is
    stored as it is.  The updated record is shared by the two dictionaries, so
    both hold the updated value. *)
Fixpoint merge_loop (old_map new_map : list (Key * gmap string value))
    (all_rows : list (gmap string value))
    : option (list (Key * gmap string value) * list (Key * gmap string value)) :=
  match all_rows with
  | [] => Some (old_map, new_map)
  | r :: rest =>
      key ← show_key r;
      match PyDict.get key old_map with
      | Some o =>
          let o' := update o r in
          merge_loop (PyDict.set key o' old_map) (PyDict.set key o' new_map) rest
      | None => merge_loop old_map (PyDict.set key r new_map) rest
      end
  end.

(** [for k, v in old_map.items(): if k not in new_map: new_map[k] = v] *)
Definition retain (old_map new_map : list (Key * gmap string value))
    : list (Key * gmap string value) :=
  fold_left
    (λ nm kv, if PyDict.mem kv.1 nm then nm else PyDict.set kv.1 kv.2 nm)
    old_map new_map.

(** The merge block of [__main__]: [detailed = list(new_map.values())]. *)
Definition merge (old_rows all_rows : list (gmap string value))
    : option (list (gmap string value)) :=
  old_map ← old_map_from [] old_rows;
  '(old_map, new_map) ← merge_loop old_map [] all_rows;
  Some (PyDict.values (retain old_map new_map)).

End Bms7.

(* ===================================================================== *)
(** * bmsdaily7.py: the summary and the whole run *)
(* ===================================================================== *)

Module Bms7Main.

(** The running figures of a movie in [summary]: the seven figures that every
    bucket of the other two scripts has too, and the set of its cities. *)
Record MovieSum := {
  tot : Agg.Totals;
  cities : gset string
}.

Definition fresh_movie : MovieSum := {| tot := Agg.fresh; cities := ∅ |}.

(** What the loop reads off a record of [detailed]:
    [r["movie"]], [r["city"]], [r["venue"]], [r["sold"]], [r["totalSeats"]]
    and [r["gross"]]. *)
Record Fields := {
  f_movie : string;
  f_city : string;
  f_venue : string;
  f_sold : Z;
  f_total : Z;
  f_gross : Py.num
}.

(** [None] stands for the [KeyError] of a missing field.  In every file the
    scraper writes the first three fields are strings, the seat counts are
    [int]s and the gross is a number; a record that holds another kind of
    value there is not covered by the model and yields [None] too. *)
Definition fields (r : gmap string Bms7.value) : option Fields :=
  match r !! "movie"%string, r !! "city"%string, r !! "venue"%string,
        r !! "sold"%string, r !! "totalSeats"%string, r !! "gross"%string with
  | Some (Bms7.VStr m), Some (Bms7.VStr c), Some (Bms7.VStr v),
    Some (Bms7.VNum (Py.PyInt s)), Some (Bms7.VNum (Py.PyInt t)), Some (Bms7.VNum g) =>
      Some {| f_movie := m; f_city := c; f_venue := v;
              f_sold := s; f_total := t; f_gross := g |}
  | _, _, _, _, _, _ => None
  end.

(** The body of [for r in detailed]. *)
Definition summary_step (summary : list (string * MovieSum)) (r : gmap string Bms7.value)
    : option (list (string * MovieSum)) :=
  f ← fields r;
  occ ← Bms7.calc_occupancy (f_sold f) (f_total f);
  Some (Agg.upsert (f_movie f) fresh_movie
          (λ m, {| tot := Agg.add_show (tot m) (f_venue f) (f_gross f)
                            (f_sold f) (f_total f) occ;
                   cities := {[ f_city f ]} ∪ cities m |})
          summary).

Fixpoint summary_loop (summary : list (string * MovieSum))
    (detailed : list (gmap string Bms7.value)) : option (list (string * MovieSum)) :=
  match detailed with
  | [] => Some summary
  | r :: rest => summary_step summary r ≫= λ s, summary_loop s rest
  end.

(** An entry of [final_summary]. *)
Record MovieOut := {
  fig : Agg.Figures;
  n_cities : Z
}.

(** [final_summary = {movie: {...} for movie, m in summary.items()}] *)
Definition final_summary (summary : list (string * MovieSum))
    : option (list (string * MovieOut)) :=
  mapM (λ kv, f ← Agg.figures Bms7.calc_occupancy (tot kv.2);
              Some (kv.1, {| fig := f; n_cities := Z.of_nat (size (cities kv.2)) |}))
       summary.

(** The summary block of [__main__]. *)
Definition summarize (detailed : list (gmap string Bms7.value))
    : option (list (string * MovieOut)) :=
  summary_loop [] detailed ≫= final_summary.

Section Main.
Context {W : Type}.
Variable fetch_api_raw : string -> W -> option Bms7.Payload * W.
Variable reset_identity : W -> W.
Variable sleep : W -> W.
Variable now_us : W -> Z.
Variable strptime_IMp : string -> option (Z * Z).
Variable DATE_CODE : string.

(** What a run writes: [detailed7.json] and [movie_summary7.json]. *)
Record Output := {
  detailed : list (gmap string Bms7.value);
  movies : list (string * MovieOut)
}.

(** [__main__] from the first pass to the two files: [old_rows] is what
    [detailed7.json] held before the run, the empty list when there was no
    such file.  [None] stands for an exception, which ends the run before
    anything is written. *)
Definition main (venues : list (string * Bms7.VenueMeta))
    (old_rows : list (gmap string Bms7.value)) (w : W) : option Output :=
  let run := Bms7.scrape fetch_api_raw reset_identity sleep now_us strptime_IMp
               DATE_CODE venues w in
  d ← Bms7.merge old_rows (Bms7.row_dict <$> Bms7.all_rows run.2);
  s ← summarize d;
  Some {| detailed := d; movies := s |}.
End Main.

End Bms7Main.

(* ===================================================================== *)
(** * bmsdaily9.py: the District scraper *)
(* ===================================================================== *)

Module District9.

Definition calc_occupancy (sold total : Z) : option Py.num :=
  if Py.truthy (PyInt total) then
    q ← Py.truediv (PyInt sold) (PyInt total);
    Some (Py.round (Py.mul (PyFloat q) (PyInt 100)) 2)
  else Some (PyFloat (Py.lit 0)).

(** The record [parse] appends for one session. *)
Record Row := {
  movie : string;
  city : string;
  state : string;
  venue : string;
  address : string;
  time : string;
  audi : string;
  session_id : string;
  totalSeats : Z;
  available : Z;
  sold : Z;
  gross : Py.num;
  language : string;
  dimension : string;
  source : string;
  date : string
}.

#[global] Instance row_eq_dec : EqDecision Row.
Proof. solve_decision. Defined.

Definition Key : Type := string * string * string * string.

(** [(r["venue"], r["time"], r["session_id"], r["audi"])] *)
Definition key_of (r : Row) : Key := (venue r, time r, session_id r, audi r).

(** One turn of the loop of [dedupe(rows)] on [(seen, out)]. *)
Definition dedupe_step (acc : gset Key * list Row) (r : Row) : gset Key * list Row :=
  let key := key_of r in
  if decide (key ∈ acc.1) then acc
  else ({[ key ]} ∪ acc.1, acc.2 ++ [r]).

(** [dedupe(rows)] *)
Definition dedupe (rows : list Row) : list Row :=
  (fold_left dedupe_step rows (∅, [])).2.

(** [norm(s)]: [s.strip() if s else "UNKNOWN"] *)
Definition norm (s : option string) : string :=
  match s with
  | Some s => if PyStr.truthy s then PyStr.strip s else "UNKNOWN"
  | None => "UNKNOWN"
  end.

(** ** The vendor payload, as far as [parse] reads it *)

(** A show time of the payload: an epoch in milliseconds (a number, or its
    digits in a string) or an ISO date and time. *)
Inductive timeval : Type :=
  | TInt (z : Z)
  | TFloat (x : Py.float)
  | TStr (s : string).

(** An identifier of the payload: a number or a string. *)
Inductive ident : Type :=
  | IdInt (z : Z)
  | IdStr (s : string).

#[global] Instance ident_eq_dec : EqDecision ident.
Proof. solve_decision. Defined.

(** [str(x)] on an identifier that may be missing ([str(None)] is ["None"]). *)
Definition str_ident (x : option ident) : string :=
  match x with
  | Some (IdInt z) => pretty z
  | Some (IdStr s) => s
  | None => "None"
  end.

Record Area := {
  sTotal : option Py.num;
  sAvail : option Py.num;
  price : option Py.num
}.

Record Session := {
  s_mid : option ident;
  s_lang : option string;
  s_scrnFmt : option string;
  s_total : option Z;
  s_avail : option Z;
  s_areas : list Area;
  s_showTime : option timeval;
  s_audi : option string;
  s_id : option ident
}.

Record Movie := {
  m_id : option ident;
  m_name : option string;
  m_lang : option string;
  m_other : bool       (* the object has fields besides id, name and lang *)
}.

(** Truth value of a movie object: an empty dictionary is false. *)
Definition movie_truthy (m : Movie) : bool :=
  bool_decide (is_Some (m_id m)) || bool_decide (is_Some (m_name m))
  || bool_decide (is_Some (m_lang m)) || m_other m.

Record Cinema := { c_name : option string; c_address : option string }.

Record VenueMeta := {
  v_city : option string;
  v_state : option string;
  v_name : option string;
  v_address : option string
}.

Record Data := {
  d_cinema : Cinema;
  d_movies : list Movie;
  d_sessions : list Session
}.

(** One element of [results]: [{"venue": venue, "data": data}]. *)
Record Result := { r_venue : VenueMeta; r_data : Data }.

Section Parser.
(** [datetime.fromtimestamp(ts, tz=pytz.UTC).astimezone(IST)
      .strftime("%I:%M %p")]: [None] when the call raises. *)
Variable clock_of_epoch : Py.float -> option string.
(** [datetime.strptime(s, "%Y-%m-%dT%H:%M").replace(tzinfo=pytz.UTC)
      .astimezone(IST).strftime("%I:%M %p")]: [None] when it raises. *)
Variable clock_of_iso : string -> option string.
Variable DATE_CODE : string.

(** [not show_time] *)
Definition time_falsy (show_time : option timeval) : bool :=
  match show_time with
  | None => true
  | Some (TInt z) => z =? 0
  | Some (TFloat x) => Py.is_zero x
  | Some (TStr s) => negb (PyStr.truthy s)
  end.

(** The body of the [try] of [parse_showtime]; [None] when it raises. *)
Definition parse_showtime_body (show_time : timeval) : option string :=
  match show_time with
  | TInt z =>
      ts ← Py.int_truediv z 1000; clock_of_epoch ts
  | TFloat x =>
      z ← Py.float_trunc x;
      ts ← Py.int_truediv z 1000; clock_of_epoch ts
  | TStr s =>
      if PyStr.isdigit s then
        ts ← Py.int_truediv (PyStr.int_of_digits s) 1000; clock_of_epoch ts
      else clock_of_iso s
  end.

(** [parse_showtime(show_time)]: the empty string for a missing time and for
    a time that cannot be converted. *)
Definition parse_showtime (show_time : option timeval) : string :=
  if time_falsy show_time then ""
  else default "" (show_time ≫= parse_showtime_body).

(** [movie_map[m.get("id")] = m; movie_map[str(m.get("id"))] = m] *)
Definition movie_map_of (movies : list Movie) : list (option ident * Movie) :=
  fold_left
    (λ mm m, PyDict.set (Some (IdStr (str_ident (m_id m)))) m
               (PyDict.set (m_id m) m mm))
    movies [].

(** [movie_map.get(s.get("mid")) or movie_map.get(str(s.get("mid")))] *)
Definition find_movie (movie_map : list (option ident * Movie)) (s : Session)
    : option Movie :=
  match PyDict.get (s_mid s) movie_map with
  | Some m => if movie_truthy m then Some m
              else PyDict.get (Some (IdStr (str_ident (s_mid s)))) movie_map
  | None => PyDict.get (Some (IdStr (str_ident (s_mid s)))) movie_map
  end.

(** [sum((a.get("sTotal", 0) - a.get("sAvail", 0)) * a.get("price", 0)
        for a in s.get("areas", []) or [])] *)
Definition areas_gross (areas : list Area) : Py.num :=
  Py.sum
    ((λ a, Py.mul (Py.sub (default (PyInt 0) (sTotal a)) (default (PyInt 0) (sAvail a)))
                  (default (PyInt 0) (price a))) <$> areas).

(** The dictionary appended for the session [s] of the movie [movie]. *)
Definition row_of (city_ state_ venue_name venue_addr : string)
    (movie_ : Movie) (s : Session) : Row :=
  let total := default 0 (s_total s) in
  let avail := default 0 (s_avail s) in
  {| movie := PyStr.get_default (m_name movie_) "Unknown";
     city := city_;
     state := state_;
     venue := venue_name;
     address := venue_addr;
     time := parse_showtime (s_showTime s);
     audi := PyStr.get_default (s_audi s) "";
     session_id := match s_id s with None => "" | x => str_ident x end;
     totalSeats := total;
     available := avail;
     sold := total - avail;
     gross := Py.round (areas_gross (s_areas s)) 2;
     language := norm (match s_lang s with
                       | Some l => if PyStr.truthy l then Some l else m_lang movie_
                       | None => m_lang movie_
                       end);
     dimension := PyStr.replace_char "-" " | " (norm (s_scrnFmt s));
     source := "District";
     date := DATE_CODE |}.

(** The rows of one element of [results], before de-duplication. *)
Definition rows_of_result (res : Result) : list Row :=
  let venue_meta := r_venue res in
  let data := r_data res in
  let city_ := PyStr.get_default (v_city venue_meta) "Unknown" in
  let state_ := PyStr.get_default (v_state venue_meta) "Unknown" in
  let cinema := d_cinema data in
  let venue_name :=
    PyStr.or_default (c_name cinema) (PyStr.or_default (v_name venue_meta) "Unknown") in
  let venue_addr :=
    PyStr.or_default (c_address cinema) (PyStr.or_default (v_address venue_meta) "") in
  let movie_map := movie_map_of (d_movies data) in
  s ← d_sessions data;
  match find_movie movie_map s with
  | Some m =>
      if movie_truthy m then [row_of city_ state_ venue_name venue_addr m s] else []
  | None => []
  end.

(** [parse(results)] *)
Definition parse (results : list Result) : list Row :=
  dedupe (results ≫= rows_of_result).
End Parser.

(** ** The summary of the shard *)

(** What [build_summary] reads off a record: the city bucket is keyed by the
    city and state as they stand in the record. *)
Definition entry_of (r : Row) (occ : Py.num) : Agg.Entry :=
  {| Agg.e_movie := movie r;
     Agg.e_venue := venue r;
     Agg.e_city_member := city r;
     Agg.e_ck := (city r, state r);
     Agg.e_city := city r;
     Agg.e_state := state r;
     Agg.e_lang := language r;
     Agg.e_dim := dimension r;
     Agg.e_total := totalSeats r;
     Agg.e_sold := sold r;
     Agg.e_gross := gross r;
     Agg.e_occ := occ |}.

(** The loop [for r in detailed] of [build_summary]. *)
Fixpoint summary_loop (summary : list (string * Agg.MovieBucket)) (detailed : list Row)
    : option (list (string * Agg.MovieBucket)) :=
  match detailed with
  | [] => Some summary
  | r :: rest =>
      occ ← calc_occupancy (sold r) (totalSeats r);
      summary_loop (Agg.accumulate summary (entry_of r occ)) rest
  end.

(** [build_summary(detailed)] *)
Definition build_summary (detailed : list Row) : option (list (string * Agg.MovieOut)) :=
  summary_loop [] detailed ≫= Agg.finalize calc_occupancy.

End District9.

(* ===================================================================== *)
(** * bmsdaily9.py: fetching the venues and the whole run *)
(* ===================================================================== *)

Module District9Main.

(** A venue of [districtvenues.json]: its [id], and the fields that [parse]
    reads. *)
Record DistVenue := {
  dv_id : option District9.ident;
  dv_meta : District9.VenueMeta
}.

(** The JSON body of an answer: [data["data"]["sessionDates"]] (the empty
    list when missing) and the parts of [data] that [parse] reads. *)
Record Body := {
  sessionDates : list string;
  data : District9.Data
}.

(** What the request for one venue comes to: [session.get] raises, or it
    answers with a status and a body, which [resp.json()] decodes or not. *)
Inductive response : Type :=
  | Raised
  | Answer (status : Z) (body : option Body).

Section Fetch.
(** [DATE_DISTRICT]: today's date in IST as ["%Y-%m-%d"]. *)
Variable DATE_DISTRICT : string.

(** [fetch_one(session, venue)], as a function of the answer. *)
Definition fetch_one (venue : DistVenue) (resp : response) : option District9.Result :=
  match resp with
  | Raised => None
  | Answer status body =>
      if decide (status ≠ 200) then None
      else
        b ← body;
        if decide (DATE_DISTRICT ∈ sessionDates b)
        then Some {| District9.r_venue := dv_meta venue; District9.r_data := data b |}
        else None
  end.

(** [fetch_all()]: [asyncio.gather] returns the results in the order of
    [DIST_VENUES], whatever the order in which the requests complete;
    [responses] holds the answer to the request of each venue, in that
    order. *)
Definition fetch_all (DIST_VENUES : list DistVenue) (responses : list response)
    : list District9.Result :=
  omap (λ vr, fetch_one vr.1 vr.2) (zip DIST_VENUES responses).
End Fetch.

Section Main.
Variable clock_of_epoch : Py.float -> option string.
Variable clock_of_iso : string -> option string.
Variable DATE_CODE : string.
Variable DATE_DISTRICT : string.

Record Output := {
  detailed : list District9.Row;
  summary : list (string * Agg.MovieOut)
}.

(** [main()]: what is written to [detailed9.json] and [movie_summary9.json];
    [None] stands for an exception. *)
Definition main (DIST_VENUES : list DistVenue) (responses : list response)
    : option Output :=
  let results := fetch_all DATE_DISTRICT DIST_VENUES responses in
  let detailed := District9.parse clock_of_epoch clock_of_iso DATE_CODE results in
  s ← District9.build_summary detailed;
  Some {| detailed := detailed; summary := s |}.
End Main.

End District9Main.

(* ===================================================================== *)
(** * combine_dailyshards.py: the combiner *)
(* ===================================================================== *)

Module Combine.

Definition calc_occupancy (sold total : Z) : option Py.num :=
  if Py.truthy (PyInt total) then
    q ← Py.truediv (PyInt sold) (PyInt total);
    Some (Py.round (Py.mul (PyFloat q) (PyInt 100)) 2)
  else Some (PyFloat (Py.lit 0)).

(** A record of a shard file [detailed<i>.json] as it is read: every field may
    be missing. *)
Record RawRow := {
  raw_movie : option string;
  raw_city : option string;
  raw_state : option string;
  raw_venue : option string;
  raw_address : option string;
  raw_time : option string;
  raw_audi : option string;
  raw_session_id : option string;
  raw_source : option string;
  raw_date : option string;
  raw_language : option string;
  raw_dimension : option string;
  raw_totalSeats : option Z;
  raw_available : option Z;
  raw_sold : option Z;
  raw_gross : option Py.num
}.

(** The record after [normalize_row]: every field is set, and the two grouping
    keys [_city_key] and [_state_key] have been added. *)
Record Row := {
  movie : string;
  city_key : string;
  state_key : string;
  city : string;
  state : string;
  venue : string;
  address : string;
  time : string;
  audi : string;
  session_id : string;
  source : string;
  date : string;
  language : string;
  dimension : string;
  totalSeats : Z;
  available : Z;
  sold : Z;
  gross : Py.float
}.

#[global] Instance row_eq_dec : EqDecision Row.
Proof. solve_decision. Defined.

(** [int(x or 0)] *)
Definition int_or_0 (x : option Z) : Z := default 0 x.

(** [float(x or 0.0)] *)
Definition float_or_0 (x : option Py.num) : Py.float :=
  match x with
  | Some a => if Py.truthy a then Py.float_ a else Py.lit 0
  | None => Py.lit 0
  end.

(** The four fields of a record that [normalize_row] trims and changes the
    case of are ASCII text. *)
Definition ascii_raw (r : RawRow) : bool :=
  PyStr.is_ascii (default EmptyString (raw_city r))
  && PyStr.is_ascii (default EmptyString (raw_state r))
  && PyStr.is_ascii (default EmptyString (raw_language r))
  && PyStr.is_ascii (default EmptyString (raw_dimension r)).

Section Normalize.
Variable DATE_CODE : string.

(** [normalize_row(r)] *)
Definition normalize_row (r : RawRow) : Row :=
  let raw_city_ := PyStr.or_default (raw_city r) "Unknown" in
  let raw_state_ := PyStr.or_default (raw_state r) "Unknown" in
  {| movie := PyStr.or_default (raw_movie r) "Unknown";
     city_key := PyStr.lower (PyStr.strip raw_city_);
     state_key := PyStr.lower (PyStr.strip raw_state_);
     city := PyStr.title (PyStr.strip raw_city_);
     state := PyStr.title (PyStr.strip raw_state_);
     venue := PyStr.or_default (raw_venue r) "Unknown";
     address := PyStr.or_default (raw_address r) "";
     time := PyStr.or_default (raw_time r) "";
     audi := PyStr.or_default (raw_audi r) "";
     session_id := PyStr.or_default (raw_session_id r) "";
     source := PyStr.or_default (raw_source r) "Unknown";
     date := PyStr.or_default (raw_date r) DATE_CODE;
     language := PyStr.upper (PyStr.or_default (raw_language r) "UNKNOWN");
     dimension := PyStr.upper (PyStr.or_default (raw_dimension r) "UNKNOWN");
     totalSeats := int_or_0 (raw_totalSeats r);
     available := int_or_0 (raw_available r);
     sold := int_or_0 (raw_sold r);
     gross := float_or_0 (raw_gross r) |}.
End Normalize.

Definition Key : Type := string * string * string * string.

(** [(r["venue"], r["time"], r["session_id"], r["audi"])] *)
Definition key_of (r : Row) : Key := (venue r, time r, session_id r, audi r).

(** One turn of the loop of [dedupe(rows)] on [(seen, out, dupes)]. *)
Definition dedupe_step (acc : gset Key * list Row * Z) (r : Row)
    : gset Key * list Row * Z :=
  let '(seen, out, dupes) := acc in
  let key := key_of r in
  if decide (key ∈ seen) then (seen, out, dupes + 1)
  else ({[ key ]} ∪ seen, out ++ [r], dupes).

(** [dedupe(rows)]: the rows kept and the number of duplicates dropped. *)
Definition dedupe (rows : list Row) : list Row * Z :=
  let '(_, out, dupes) := fold_left dedupe_step rows (∅, [], 0) in
  (out, dupes).

(** ** Sorting the final rows

    [final_rows.sort(key=lambda x: (x["movie"], x["city"], x["venue"], x["time"]))]:
    tuples of strings are compared field by field, strings character by
    character; the sort is stable. *)
Definition sort_key (r : Row) : list string := [movie r; city r; venue r; time r].

Fixpoint key_le (a b : list string) : bool :=
  match a, b with
  | [], _ => true
  | _ :: _, [] => false
  | x :: a', y :: b' =>
      match String.compare x y with
      | Lt => true
      | Gt => false
      | Eq => key_le a' b'
      end
  end.

Fixpoint insert_sorted (r : Row) (l : list Row) : list Row :=
  match l with
  | [] => [r]
  | x :: l' =>
      if key_le (sort_key r) (sort_key x) then r :: l
      else x :: insert_sorted r l'
  end.

Definition sort (l : list Row) : list Row := foldr insert_sorted [] l.

(** ** The final summary *)

(** [occ = (sold / total * 100) if total else 0] *)
Definition show_occ (sold_ total : Z) : option Py.num :=
  if Py.truthy (PyInt total) then
    q ← Py.truediv (PyInt sold_) (PyInt total);
    Some (Py.mul (PyFloat q) (PyInt 100))
  else Some (PyInt 0).

(** What the summary loop reads off a record: the city bucket is keyed by the
    lower-cased keys and shows the title-cased city and state. *)
Definition entry_of (r : Row) (occ : Py.num) : Agg.Entry :=
  {| Agg.e_movie := movie r;
     Agg.e_venue := venue r;
     Agg.e_city_member := city_key r;
     Agg.e_ck := (city_key r, state_key r);
     Agg.e_city := city r;
     Agg.e_state := state r;
     Agg.e_lang := language r;
     Agg.e_dim := dimension r;
     Agg.e_total := totalSeats r;
     Agg.e_sold := sold r;
     Agg.e_gross := PyFloat (gross r);
     Agg.e_occ := occ |}.

(** The loop [for r in final_rows]. *)
Fixpoint summary_loop (summary : list (string * Agg.MovieBucket)) (final_rows : list Row)
    : option (list (string * Agg.MovieBucket)) :=
  match final_rows with
  | [] => Some summary
  | r :: rest =>
      occ ← show_occ (sold r) (totalSeats r);
      summary_loop (Agg.accumulate summary (entry_of r occ)) rest
  end.

Section Main.
Variable DATE_CODE : string.

(** The rows of [finaldetailed.json]: the shards that hold data are
    concatenated, normalised, de-duplicated and sorted. *)
Definition final_rows (shards : list (list RawRow)) : list Row :=
  sort (dedupe (normalize_row DATE_CODE <$> concat shards)).1.

(** The movies of [finalsummary.json]. *)
Definition final_summary (shards : list (list RawRow))
    : option (list (string * Agg.MovieOut)) :=
  summary_loop [] (final_rows shards) ≫= Agg.finalize calc_occupancy.
End Main.

End Combine.

(* ===================================================================== *)
(** * Facts about lists *)
(* ===================================================================== *)

Module ListFacts.
Section Facts.
Context {A : Type}.

Lemma filter_ext_in (P1 P2 : A → Prop)
    `{!∀ x, Decision (P1 x), !∀ x, Decision (P2 x)} (l : list A) :
  (∀ x, x ∈ l → P1 x ↔ P2 x) → filter P1 l = filter P2 l.
Proof.
  induction l as [|a l IH]; intros Hl; [done|].
  assert (filter P1 l = filter P2 l) as IH'.
  { apply IH. intros x Hx. apply Hl. apply elem_of_cons; by right. }
  destruct (decide (P1 a)) as [Ha|Ha].
  - rewrite !filter_cons_True; [by rewrite IH' | | done].
    apply Hl; [apply elem_of_cons; by left | done].
  - rewrite !filter_cons_False; [done | | done].
    intros Ha'. apply Ha. apply Hl; [apply elem_of_cons; by left | done].
Qed.

Lemma filter_all (P : A → Prop) `{!∀ x, Decision (P x)} (l : list A) :
  Forall P l → filter P l = l.
Proof.
  induction 1 as [|x l Hx Hl IH]; [done|].
  rewrite filter_cons_True by done. by rewrite IH.
Qed.

Lemma filter_none (P : A → Prop) `{!∀ x, Decision (P x)} (l : list A) :
  Forall (λ x, ¬ P x) l → filter P l = [].
Proof.
  induction 1 as [|x l Hx Hl IH]; [done|].
  by rewrite filter_cons_False by done.
Qed.
End Facts.
End ListFacts.

(* ===================================================================== *)
(** * Facts about insertion-ordered dictionaries *)
(* ===================================================================== *)

Module PyDictFacts.
Section Facts.
Context {K : Type} `{EqDecision K} {V : Type}.
Implicit Types (k : K) (v : V) (d : list (K * V)).

Lemma get_None k d : PyDict.get k d = None ↔ k ∉ PyDict.keys d.
Proof.
  unfold PyDict.keys. induction d as [|[k' v'] d IH]; simpl.
  - split; [intros _; apply not_elem_of_nil | done].
  - rewrite not_elem_of_cons. destruct (decide (k' = k)) as [->|Hne].
    + split; [done | intros [? _]; done].
    + rewrite IH. split; [intros ?; split; [congruence | done] | intros [_ ?]; done].
Qed.

Lemma get_Some_elem k v d : PyDict.get k d = Some v → (k, v) ∈ d.
Proof.
  induction d as [|[k' v'] d IH]; simpl; [done|].
  destruct (decide (k' = k)) as [->|Hne].
  - intros [= ->]. apply elem_of_cons; by left.
  - intros ?. apply elem_of_cons; right; auto.
Qed.

Lemma get_Some_key k v d : PyDict.get k d = Some v → k ∈ PyDict.keys d.
Proof.
  intros Hg. destruct (decide (k ∈ PyDict.keys d)) as [|Hn]; [done|].
  apply get_None in Hn. congruence.
Qed.

Lemma elem_get k v d : NoDup (PyDict.keys d) → (k, v) ∈ d → PyDict.get k d = Some v.
Proof.
  unfold PyDict.keys. induction d as [|[k' v'] d IH]; simpl.
  - intros _ Hin. by apply elem_of_nil in Hin.
  - intros Hnd Hin. apply NoDup_cons in Hnd as [Hk Hnd].
    apply elem_of_cons in Hin as [Heq|Hin].
    + injection Heq as -> ->. by rewrite decide_True.
    + rewrite decide_False; [by apply IH|].
      intros ->. apply Hk. apply list_elem_of_fmap. by exists (k, v).
Qed.

Lemma mem_true k d : PyDict.mem k d = true ↔ k ∈ PyDict.keys d.
Proof.
  unfold PyDict.mem. destruct (PyDict.get k d) eqn:Hg.
  - split; [intros _; by eapply get_Some_key | done].
  - apply get_None in Hg. split; [done | intros ?; done].
Qed.

Lemma mem_false k d : PyDict.mem k d = false ↔ k ∉ PyDict.keys d.
Proof.
  rewrite <- get_None. unfold PyDict.mem.
  destruct (PyDict.get k d); split; congruence.
Qed.

Lemma get_set_eq k v d : PyDict.get k (PyDict.set k v d) = Some v.
Proof.
  induction d as [|[k' v'] d IH]; simpl.
  - by rewrite decide_True.
  - destruct (decide (k' = k)) as [->|Hne]; simpl.
    + by rewrite decide_True.
    + by rewrite decide_False.
Qed.

Lemma get_set_ne k k' v d :
  k ≠ k' → PyDict.get k' (PyDict.set k v d) = PyDict.get k' d.
Proof.
  intros Hne. induction d as [|[k0 v0] d IH]; simpl.
  - by rewrite decide_False.
  - destruct (decide (k0 = k)) as [->|Hne0]; simpl.
    + by rewrite !decide_False.
    + by rewrite IH.
Qed.

Lemma get_set k k' v d :
  PyDict.get k' (PyDict.set k v d) = if decide (k = k') then Some v else PyDict.get k' d.
Proof.
  destruct (decide (k = k')) as [->|Hne]; [apply get_set_eq | by apply get_set_ne].
Qed.

Lemma set_absent k v d : k ∉ PyDict.keys d → PyDict.set k v d = d ++ [(k, v)].
Proof.
  unfold PyDict.keys. induction d as [|[k' v'] d IH]; simpl; [done|].
  rewrite not_elem_of_cons. intros [Hne Hnin].
  rewrite decide_False by congruence. by rewrite IH.
Qed.

Lemma keys_set_present k v d :
  k ∈ PyDict.keys d → PyDict.keys (PyDict.set k v d) = PyDict.keys d.
Proof.
  unfold PyDict.keys. induction d as [|[k' v'] d IH]; simpl.
  - intros Hin. by apply elem_of_nil in Hin.
  - intros Hin. destruct (decide (k' = k)) as [->|Hne]; simpl; [done|].
    apply elem_of_cons in Hin as [->|Hin]; [done|]. f_equal. by apply IH.
Qed.

Lemma keys_set_absent k v d :
  k ∉ PyDict.keys d → PyDict.keys (PyDict.set k v d) = PyDict.keys d ++ [k].
Proof.
  intros Hn. rewrite set_absent by done. unfold PyDict.keys. by rewrite fmap_app.
Qed.

Lemma keys_set k v d :
  PyDict.keys (PyDict.set k v d)
  = if decide (k ∈ PyDict.keys d) then PyDict.keys d else PyDict.keys d ++ [k].
Proof.
  case_decide; [by apply keys_set_present | by apply keys_set_absent].
Qed.

Lemma NoDup_keys_set k v d :
  NoDup (PyDict.keys d) → NoDup (PyDict.keys (PyDict.set k v d)).
Proof.
  intros Hnd. rewrite keys_set. case_decide; [done|].
  apply NoDup_app. split; [done|]. split; [|apply NoDup_singleton].
  intros x Hx Hx'. apply list_elem_of_singleton in Hx'. by subst.
Qed.

Lemma elem_of_set k v k' v' d :
  (k', v') ∈ PyDict.set k v d → (k' = k ∧ v' = v) ∨ (k', v') ∈ d.
Proof.
  induction d as [|[k0 v0] d IH]; simpl.
  - intros Hin. apply list_elem_of_singleton in Hin. injection Hin as -> ->. by left.
  - destruct (decide (k0 = k)) as [->|Hne].
    + rewrite !elem_of_cons. intros [Heq|Hin]; [injection Heq as -> ->; by left|].
      right. by right.
    + rewrite !elem_of_cons. intros [Heq|Hin]; [right; by left|].
      destruct (IH Hin) as [?|?]; [by left | right; by right].
Qed.

(** Two dictionaries with the same keys in the same order and the same value
    at every key are equal. *)
Lemma ext d1 d2 :
  NoDup (PyDict.keys d1) →
  PyDict.keys d1 = PyDict.keys d2 →
  (∀ k, PyDict.get k d1 = PyDict.get k d2) →
  d1 = d2.
Proof.
  unfold PyDict.keys. revert d2.
  induction d1 as [|[k1 v1] d1 IH]; intros [|[k2 v2] d2] Hnd Hk Hg;
    rewrite ?fmap_cons, ?fmap_nil in Hk, Hnd; try done.
  simpl in Hk. injection Hk as -> Hk. apply NoDup_cons in Hnd as [Hk2 Hnd].
  pose proof (Hg k2) as Hg2. simpl in Hg2. rewrite !decide_True in Hg2 by done.
  injection Hg2 as ->. f_equal. apply IH; [done..|].
  intros k. specialize (Hg k). simpl in Hg.
  destruct (decide (k2 = k)) as [->|Hne]; [|done].
  change (list_fmap _ _ fst d2) with (d2.*1) in Hk. simpl in Hk2.
  assert (k ∉ d2.*1) as Hk2' by (by rewrite <- Hk).
  apply (proj2 (get_None k d1)) in Hk2. apply (proj2 (get_None k d2)) in Hk2'.
  congruence.
Qed.

Lemma get_app k d1 d2 :
  PyDict.get k (d1 ++ d2)
  = match PyDict.get k d1 with Some v => Some v | None => PyDict.get k d2 end.
Proof.
  induction d1 as [|[k' v'] d1 IH]; simpl; [done|].
  by destruct (decide (k' = k)).
Qed.

Lemma keys_app d1 d2 : PyDict.keys (d1 ++ d2) = PyDict.keys d1 ++ PyDict.keys d2.
Proof. unfold PyDict.keys. apply fmap_app. Qed.
End Facts.
End PyDictFacts.

(* ===================================================================== *)
(** * The merge of bmsdaily7.py *)
(* ===================================================================== *)

Module MergeFacts.
Import Bms7.

(** A dictionary every value of which carries the key it is stored under. *)
Definition keyed (d : list (Key * gmap string value)) : Prop :=
  ∀ k v, (k, v) ∈ d → show_key v = Some k.

(** The rows of a list that bear the key [k]. *)
Definition with_key (k : Key) (rows : list (gmap string value))
    : list (gmap string value) :=
  filter (λ r, show_key r = Some k) rows.

(** [o.update(r1); o.update(r2); ...] *)
Definition updates (o : gmap string value) (rs : list (gmap string value))
    : gmap string value :=
  fold_left update rs o.

(** [new_map] gains a key at its end unless it holds it already. *)
Definition add_key (acc : list Key) (k : Key) : list Key :=
  if decide (k ∈ acc) then acc else acc ++ [k].

Lemma show_key_update o r k : show_key r = Some k → show_key (update o r) = Some k.
Proof.
  unfold show_key, update. intros Hk.
  destruct (r !! "venue"%string) as [[v|?]|] eqn:E1; try done.
  destruct (r !! "time"%string) as [[t|?]|] eqn:E2; try done.
  destruct (r !! "session_id"%string) as [[s|?]|] eqn:E3; try done.
  destruct (r !! "audi"%string) as [[a|?]|] eqn:E4; try done.
  by rewrite (lookup_union_Some_l r o _ _ E1), (lookup_union_Some_l r o _ _ E2),
    (lookup_union_Some_l r o _ _ E3), (lookup_union_Some_l r o _ _ E4).
Qed.

Lemma show_key_row_dict r : show_key (row_dict r) = Some (row_key r).
Proof. reflexivity. Qed.

Lemma keyed_nil : keyed [].
Proof. intros k v Hin. by apply elem_of_nil in Hin. Qed.

Lemma keyed_set k v d : keyed d → show_key v = Some k → keyed (PyDict.set k v d).
Proof.
  intros Hd Hv k' v' Hin.
  apply PyDictFacts.elem_of_set in Hin as [[-> ->]|Hin]; [done | by apply Hd].
Qed.

Lemma keyed_app d1 d2 : keyed d1 → keyed d2 → keyed (d1 ++ d2).
Proof.
  intros H1 H2 k v Hin. apply elem_of_app in Hin as [?|?]; [by apply H1 | by apply H2].
Qed.

Lemma keyed_show_keys d :
  keyed d → show_key <$> PyDict.values d = Some <$> PyDict.keys d.
Proof.
  unfold PyDict.values, PyDict.keys. induction d as [|[k v] d IH]; intros Hd; [done|].
  rewrite !fmap_cons. simpl. f_equal.
  - apply Hd. apply elem_of_cons; by left.
  - apply IH. intros k' v' Hin. apply Hd. apply elem_of_cons; by right.
Qed.

(** ** [old_map] *)

Lemma old_map_from_inv m S om :
  old_map_from m S = Some om →
  NoDup (PyDict.keys m) → keyed m →
  NoDup (PyDict.keys om) ∧ keyed om.
Proof.
  revert m. induction S as [|r S IH]; simpl; intros m Hom Hnd Hk.
  - by injection Hom as <-.
  - destruct (show_key r) as [k|] eqn:Hr; simpl in Hom; [|done].
    apply (IH _ Hom).
    + by apply PyDictFacts.NoDup_keys_set.
    + by apply keyed_set.
Qed.

(** A key that no later record bears keeps its entry. *)
Lemma old_map_from_other m S om k :
  old_map_from m S = Some om →
  Forall (λ r, show_key r ≠ Some k) S →
  PyDict.get k om = PyDict.get k m.
Proof.
  revert m. induction S as [|r S IH]; simpl; intros m Hom HS.
  - by injection Hom as <-.
  - destruct (show_key r) as [k'|] eqn:Hr; simpl in Hom; [|done].
    apply Forall_cons in HS as [Hne HS].
    rewrite (IH _ Hom HS). apply PyDictFacts.get_set_ne. congruence.
Qed.

(** The record of the snapshot that is the last one with its key is the
    entry of [old_map] at that key. *)
Lemma old_map_from_last m S1 r S2 om k :
  old_map_from m (S1 ++ r :: S2) = Some om →
  show_key r = Some k →
  Forall (λ r', show_key r' ≠ Some k) S2 →
  PyDict.get k om = Some r.
Proof.
  revert m. induction S1 as [|r1 S1 IH]; simpl; intros m Hom Hr HS2.
  - rewrite Hr in Hom. simpl in Hom.
    rewrite (old_map_from_other _ _ _ _ Hom HS2). apply PyDictFacts.get_set_eq.
  - destruct (show_key r1) as [k1|] eqn:Hr1; simpl in Hom; [|done].
    by apply (IH _ Hom).
Qed.

(** A keyed dictionary is rebuilt from its values. *)
Lemma old_map_from_values m d :
  NoDup (PyDict.keys (m ++ d)) → keyed d →
  old_map_from m (PyDict.values d) = Some (m ++ d).
Proof.
  unfold PyDict.values. revert m.
  induction d as [|[k v] d IH]; intros m Hnd Hk.
  - simpl. by rewrite app_nil_r.
  - rewrite fmap_cons. simpl.
    rewrite (Hk k v) by (apply elem_of_cons; by left). simpl.
    rewrite PyDictFacts.keys_app in Hnd. unfold PyDict.keys in Hnd.
    rewrite fmap_cons in Hnd. simpl in Hnd.
    assert (k ∉ PyDict.keys m) as Hkm.
    { apply NoDup_app in Hnd as (_ & Hdis & _). intros Hin.
      apply (Hdis k Hin). apply elem_of_cons; by left. }
    rewrite PyDictFacts.set_absent by done.
    rewrite (IH (m ++ [(k, v)])).
    + by rewrite <- app_assoc.
    + rewrite PyDictFacts.keys_app, PyDictFacts.keys_app. unfold PyDict.keys at 2.
      simpl. rewrite <- app_assoc. simpl. done.
    + intros k' v' Hin. apply Hk. apply elem_of_cons; by right.
Qed.

(** ** The loop over [all_rows] *)

Lemma merge_loop_inv om nm N om' nm' :
  merge_loop om nm N = Some (om', nm') →
  NoDup (PyDict.keys om) → NoDup (PyDict.keys nm) → keyed om → keyed nm →
  NoDup (PyDict.keys om') ∧ NoDup (PyDict.keys nm') ∧ keyed om' ∧ keyed nm'.
Proof.
  revert om nm. induction N as [|r N IH]; simpl; intros om nm Hl Ho Hn Hko Hkn.
  - by injection Hl as <- <-.
  - destruct (show_key r) as [k|] eqn:Hr; simpl in Hl; [|done].
    destruct (PyDict.get k om) as [o|] eqn:Hg.
    + apply (IH _ _ Hl); auto using PyDictFacts.NoDup_keys_set, keyed_set, show_key_update.
    + apply (IH _ _ Hl); auto using PyDictFacts.NoDup_keys_set, keyed_set.
Qed.

Lemma with_key_cons_eq k r N :
  show_key r = Some k → with_key k (r :: N) = r :: with_key k N.
Proof. intros Hr. unfold with_key. by rewrite filter_cons_True. Qed.

Lemma with_key_cons_ne k r N :
  show_key r ≠ Some k → with_key k (r :: N) = with_key k N.
Proof. intros Hr. unfold with_key. by rewrite filter_cons_False. Qed.

(** The two dictionaries after the loop, key by key. *)
Lemma merge_loop_get om nm N om' nm' k :
  merge_loop om nm N = Some (om', nm') →
  PyDict.get k om' = (λ o, updates o (with_key k N)) <$> PyDict.get k om
  ∧ PyDict.get k nm'
    = match last (with_key k N) with
      | None => PyDict.get k nm
      | Some r => Some (match PyDict.get k om with
                        | Some o => updates o (with_key k N)
                        | None => r
                        end)
      end.
Proof.
  revert om nm. induction N as [|r N IH]; simpl; intros om nm Hl.
  - injection Hl as <- <-. simpl. by destruct (PyDict.get k om).
  - destruct (show_key r) as [kr|] eqn:Hr; simpl in Hl; [|done].
    destruct (decide (kr = k)) as [->|Hne].
    + rewrite with_key_cons_eq by done.
      destruct (PyDict.get k om) as [o|] eqn:Hg.
      * destruct (IH _ _ Hl) as [IH1 IH2].
        rewrite PyDictFacts.get_set_eq in IH1, IH2.
        rewrite PyDictFacts.get_set_eq in IH2.
        split; [by rewrite IH1|]. rewrite IH2.
        rewrite last_cons. destruct (last (with_key k N)) eqn:El; [done|].
        apply last_None in El. by rewrite ?El.
      * destruct (IH _ _ Hl) as [IH1 IH2].
        rewrite Hg in IH1, IH2. rewrite PyDictFacts.get_set_eq in IH2.
        split; [by rewrite IH1|]. rewrite IH2.
        rewrite last_cons. destruct (last (with_key k N)) eqn:El; [done|].
        apply last_None in El. by rewrite ?El.
    + rewrite with_key_cons_ne by congruence.
      destruct (PyDict.get kr om) as [o|] eqn:Hg.
      * destruct (IH _ _ Hl) as [IH1 IH2].
        rewrite !PyDictFacts.get_set_ne in IH1 by done.
        rewrite !PyDictFacts.get_set_ne in IH2 by done. by split.
      * destruct (IH _ _ Hl) as [IH1 IH2].
        rewrite !PyDictFacts.get_set_ne in IH2 by done. by split.
Qed.

(** The keys of the two dictionaries after the loop, in order. *)
Lemma merge_loop_keys om nm N om' nm' :
  merge_loop om nm N = Some (om', nm') →
  PyDict.keys om' = PyDict.keys om
  ∧ ∃ ks, Forall2 (λ r k, show_key r = Some k) N ks
          ∧ PyDict.keys nm' = fold_left add_key ks (PyDict.keys nm).
Proof.
  revert om nm. induction N as [|r N IH]; simpl; intros om nm Hl.
  - injection Hl as <- <-. split; [done|]. exists []. by split.
  - destruct (show_key r) as [kr|] eqn:Hr; simpl in Hl; [|done].
    destruct (PyDict.get kr om) as [o|] eqn:Hg;
      destruct (IH _ _ Hl) as (IH1 & ks & Hks & IH2).
    + split.
      * rewrite IH1. apply PyDictFacts.keys_set_present.
        by eapply PyDictFacts.get_Some_key.
      * exists (kr :: ks). split; [by constructor|].
        rewrite IH2. simpl. by rewrite PyDictFacts.keys_set.
    + split; [done|]. exists (kr :: ks). split; [by constructor|].
      rewrite IH2. simpl. by rewrite PyDictFacts.keys_set.
Qed.

(** ** The retention loop *)

Lemma retain_closed om nm :
  NoDup (PyDict.keys om) →
  retain om nm = nm ++ filter (λ kv, kv.1 ∉ PyDict.keys nm) om.
Proof.
  unfold retain. revert nm. induction om as [|[k v] om IH]; intros nm Hnd.
  - simpl. by rewrite app_nil_r.
  - unfold PyDict.keys in Hnd. rewrite fmap_cons in Hnd.
    apply NoDup_cons in Hnd as [Hk Hnd]. simpl in Hk. simpl fold_left.
    destruct (PyDict.mem k nm) eqn:Hm.
    + apply PyDictFacts.mem_true in Hm. rewrite IH by done.
      by rewrite filter_cons_False by (simpl; auto).
    + apply PyDictFacts.mem_false in Hm. rewrite IH by done.
      rewrite PyDictFacts.set_absent by done.
      rewrite filter_cons_True by done. rewrite <- app_assoc. simpl. do 2 f_equal.
      apply ListFacts.filter_ext_in. intros [k' v'] Hin. simpl.
      rewrite PyDictFacts.keys_app, elem_of_app. unfold PyDict.keys at 2. simpl.
      rewrite list_elem_of_singleton. split; [intros Hn; tauto|].
      intros Hn [?|Heq]; [done|]. subst k'. apply Hk. apply list_elem_of_fmap. by exists (k, v').
Qed.

Lemma retain_inv om nm :
  NoDup (PyDict.keys om) → NoDup (PyDict.keys nm) → keyed om → keyed nm →
  NoDup (PyDict.keys (retain om nm)) ∧ keyed (retain om nm).
Proof.
  intros Ho Hn Hko Hkn. rewrite retain_closed by done. split.
  - rewrite PyDictFacts.keys_app. apply NoDup_app. split; [done|]. split.
    + intros k Hk Hk'. unfold PyDict.keys in Hk'.
      apply list_elem_of_fmap in Hk' as ([k' v'] & -> & Hin).
      apply list_elem_of_filter in Hin as [Hnin _]. by apply Hnin.
    + unfold PyDict.keys. eapply sublist_NoDup; [exact Ho|].
      apply fmap_sublist. apply sublist_filter.
  - apply keyed_app; [done|]. intros k v Hin.
    apply list_elem_of_filter in Hin as [_ Hin]. by apply Hko.
Qed.

(** ** The merge as a whole *)

Lemma merge_Some S N D :
  merge S N = Some D ↔
  ∃ om0 om nm, old_map_from [] S = Some om0
               ∧ merge_loop om0 [] N = Some (om, nm)
               ∧ D = PyDict.values (retain om nm).
Proof.
  unfold merge. split.
  - intros Hm. destruct (old_map_from [] S) as [om0|] eqn:H0; simpl in Hm; [|done].
    destruct (merge_loop om0 [] N) as [[om nm]|] eqn:Hl; simpl in Hm; [|done].
    injection Hm as <-. by exists om0, om, nm.
  - intros (om0 & om & nm & H0 & Hl & ->). rewrite H0. simpl. by rewrite Hl.
Qed.

Lemma old_map_from_keys m S om :
  old_map_from m S = Some om → Forall (λ r, is_Some (show_key r)) S.
Proof.
  revert m. induction S as [|r S IH]; simpl; intros m Hom; [constructor|].
  destruct (show_key r) as [k|] eqn:Hr; simpl in Hom; [|done].
  constructor; [by rewrite Hr | by eapply IH].
Qed.

Lemma old_map_from_succeeds m S :
  Forall (λ r, is_Some (show_key r)) S → is_Some (old_map_from m S).
Proof.
  revert m. induction S as [|r S IH]; simpl; intros m HS; [done|].
  apply Forall_cons in HS as [[k Hr] HS]. rewrite Hr. simpl. by apply IH.
Qed.

Lemma merge_loop_succeeds om nm N :
  Forall (λ r, is_Some (show_key r)) N → is_Some (merge_loop om nm N).
Proof.
  revert om nm. induction N as [|r N IH]; simpl; intros om nm HN; [done|].
  apply Forall_cons in HN as [[k Hr] HN]. rewrite Hr. simpl.
  destruct (PyDict.get k om); by apply IH.
Qed.

Lemma merge_loop_rows_keys om nm N om' nm' :
  merge_loop om nm N = Some (om', nm') → Forall (λ r, is_Some (show_key r)) N.
Proof.
  revert om nm. induction N as [|r N IH]; simpl; intros om nm Hl; [constructor|].
  destruct (show_key r) as [k|] eqn:Hr; simpl in Hl; [|done].
  constructor; [by rewrite Hr|]. destruct (PyDict.get k om); by eapply IH.
Qed.

(** The merge returns a list as soon as every record of the snapshot and every
    new row has the four key fields. *)
Lemma merge_succeeds S N :
  Forall (λ r, is_Some (show_key r)) S →
  Forall (λ r, is_Some (show_key r)) N →
  is_Some (merge S N).
Proof.
  intros HS HN. unfold merge.
  destruct (old_map_from_succeeds [] S HS) as [om0 ->]. simpl.
  destruct (merge_loop_succeeds om0 [] N HN) as [[om nm] ->]. by simpl.
Qed.

(** The dictionary whose values are the merged list. *)
Lemma merge_dict S N D :
  merge S N = Some D →
  ∃ d, D = PyDict.values d ∧ NoDup (PyDict.keys d) ∧ keyed d.
Proof.
  intros (om0 & om & nm & H0 & Hl & ->)%merge_Some.
  destruct (old_map_from_inv _ _ _ H0) as [Hnd0 Hk0];
    [apply NoDup_nil_2 | apply keyed_nil |].
  destruct (merge_loop_inv _ _ _ _ _ Hl) as (Hnd & Hndn & Hk & Hkn);
    [done | apply NoDup_nil_2 | done | apply keyed_nil |].
  destruct (retain_inv om nm) as [? ?]; [done..|].
  by exists (retain om nm).
Qed.

(** No two records of the merged list bear the same key. *)
Lemma merge_keys_NoDup S N D :
  merge S N = Some D →
  Forall (λ r, is_Some (show_key r)) D ∧ NoDup (show_key <$> D).
Proof.
  intros (d & -> & Hnd & Hk)%merge_dict. rewrite keyed_show_keys by done. split.
  - apply Forall_forall. intros v Hv. unfold PyDict.values in Hv.
    apply list_elem_of_fmap in Hv as ([k v'] & -> & Hin). simpl.
    rewrite (Hk k v' Hin). by eexists.
  - apply NoDup_fmap_2; [|done]. intros x y [= ->]. done.
Qed.

(** A record of the snapshot that is the last one with its key, and whose key
    no new row bears, is in the merged list as it was. *)
Lemma merge_keeps_last S1 r S2 N D k :
  merge (S1 ++ r :: S2) N = Some D →
  show_key r = Some k →
  Forall (λ r', show_key r' ≠ Some k) S2 →
  Forall (λ r', show_key r' ≠ Some k) N →
  r ∈ D.
Proof.
  intros (om0 & om & nm & H0 & Hl & ->)%merge_Some Hr HS2 HN.
  pose proof (old_map_from_last _ _ _ _ _ _ H0 Hr HS2) as Hg0.
  destruct (old_map_from_inv _ _ _ H0) as [Hnd0 _];
    [apply NoDup_nil_2 | apply keyed_nil |].
  destruct (merge_loop_get _ _ _ _ _ k Hl) as [Hgo Hgn].
  destruct (merge_loop_keys _ _ _ _ _ Hl) as [Hkeys _].
  assert (with_key k N = []) as HNk.
  { unfold with_key. by apply ListFacts.filter_none. }
  rewrite HNk, Hg0 in Hgo. simpl in Hgo. rewrite HNk in Hgn. simpl in Hgn.
  rewrite retain_closed by (by rewrite Hkeys).
  unfold PyDict.values. apply list_elem_of_fmap. exists (k, r). split; [done|].
  apply elem_of_app. right. apply list_elem_of_filter. split.
  - simpl. by apply PyDictFacts.get_None.
  - by apply PyDictFacts.get_Some_elem.
Qed.

(** ** Rows of one shape *)

(** The rows of a run all have the same fields. *)
Definition uniform (N : list (gmap string value)) : Prop :=
  ∀ r1 r2, r1 ∈ N → r2 ∈ N → dom r1 = dom r2.

Lemma union_same_dom (r1 r2 o : gmap string value) :
  dom r1 = dom r2 → r2 ∪ (r1 ∪ o) = r2 ∪ o.
Proof.
  intros Hd. apply map_eq. intros i. rewrite !lookup_union.
  destruct (r2 !! i) as [x2|] eqn:E2; destruct (r1 !! i) as [x1|] eqn:E1;
    destruct (o !! i); try done.
  all: assert (i ∈ dom r2) as Hi by (rewrite <- Hd; apply elem_of_dom; by eexists).
  all: apply elem_of_dom in Hi as [? Hi]; congruence.
Qed.

Lemma updates_last rs r o :
  uniform rs → last rs = Some r → updates o rs = r ∪ o.
Proof.
  revert o. induction rs as [|r0 rs IH]; intros o Hu Hl; [done|].
  rewrite last_cons in Hl. unfold updates. simpl. fold (updates (update o r0) rs).
  destruct (last rs) as [r'|] eqn:El.
  - injection Hl as ->. rewrite IH; [| |done].
    + unfold update. apply union_same_dom. apply Hu; [apply elem_of_cons; by left|].
      apply elem_of_cons; right. by apply last_Some_elem_of.
    + intros r1 r2 H1 H2. apply Hu; apply elem_of_cons; by right.
  - injection Hl as ->. apply last_None in El. by subst rs.
Qed.

Lemma uniform_with_key k N : uniform N → uniform (with_key k N).
Proof.
  intros Hu r1 r2 H1 H2. unfold with_key in *.
  apply list_elem_of_filter in H1 as [_ H1]. apply list_elem_of_filter in H2 as [_ H2].
  by apply Hu.
Qed.

Lemma uniform_rows (rows : list Row) : uniform (row_dict <$> rows).
Proof.
  intros r1 r2 H1 H2.
  apply list_elem_of_fmap in H1 as (x1 & -> & _).
  apply list_elem_of_fmap in H2 as (x2 & -> & _).
  transitivity (dom (show_dict (show x1)) ∪ ({[ "minutes_left"; "city"; "state"; "date"; "source" ]}
                 : gset string))%string.
  - unfold row_dict, update. rewrite dom_union_L. rewrite (union_comm_L _ (dom (show_dict _))).
    f_equal.
  - unfold row_dict, update. rewrite dom_union_L. rewrite (union_comm_L _ (dom (show_dict _))).
    f_equal.
Qed.

(** Updating a value once more with the rows it was built from changes
    nothing. *)
Lemma updates_again rs r o :
  uniform rs → last rs = Some r →
  updates (updates o rs) rs = updates o rs ∧ updates r rs = r.
Proof.
  intros Hu Hl. rewrite !(updates_last rs r) by done. split.
  - rewrite (assoc (∪) r r o). by rewrite (idemp (∪) r).
  - apply (idemp (∪) r).
Qed.

(** Merging the same rows a second time returns the merged list. *)
Lemma merge_idempotent_uniform S N D :
  uniform N → merge S N = Some D → merge D N = Some D.
Proof.
  intros Hu (om0 & om1 & nm1 & H0 & Hl1 & ->)%merge_Some.
  destruct (old_map_from_inv _ _ _ H0) as [Hnd0 Hk0];
    [apply NoDup_nil_2 | apply keyed_nil |].
  destruct (merge_loop_inv _ _ _ _ _ Hl1) as (Hnd1 & Hndn1 & Hk1 & Hkn1);
    [done | apply NoDup_nil_2 | done | apply keyed_nil |].
  destruct (retain_inv om1 nm1) as [HndF HkF]; [done..|].
  pose proof (retain_closed om1 nm1 Hnd1) as HF.
  set (nmF := retain om1 nm1) in *.
  set (R := filter (λ kv, kv.1 ∉ PyDict.keys nm1) om1) in *.
  apply merge_Some.
  destruct (merge_loop_succeeds nmF [] N (merge_loop_rows_keys _ _ _ _ _ Hl1))
    as [[om2 nm2] Hl2].
  exists nmF, om2, nm2. split; [|split; [done|]].
  { by apply (old_map_from_values [] nmF). }
  (* the value stored for a key of the new rows absorbs them *)
  assert (∀ k r, last (with_key k N) = Some r →
            ∃ v, PyDict.get k nm1 = Some v ∧ PyDict.get k nmF = Some v
                 ∧ updates v (with_key k N) = v) as Habs.
  { intros k r Hlast.
    destruct (merge_loop_get _ _ _ _ _ k Hl1) as [_ Hg]. rewrite Hlast in Hg.
    eexists. split; [exact Hg|]. split.
    - rewrite HF, PyDictFacts.get_app. by rewrite Hg.
    - pose proof (updates_again (with_key k N) r) as Hag.
      destruct (PyDict.get k om0) as [o|].
      + apply Hag; [by apply uniform_with_key | done].
      + apply (Hag r); [by apply uniform_with_key | done]. }
  destruct (merge_loop_keys _ _ _ _ _ Hl1) as (_ & ks1 & Hks1 & Hkn1').
  destruct (merge_loop_keys _ _ _ _ _ Hl2) as (Hko2 & ks2 & Hks2 & Hkn2').
  assert (ks1 = ks2) as <-.
  { clear -Hks1 Hks2. revert ks2 Hks2.
    induction Hks1 as [|r k N ks Hr _ IH]; intros ks2 Hks2; inversion Hks2; subst; [done|].
    f_equal; [congruence | by apply IH]. }
  assert (nm2 = nm1) as ->.
  { apply PyDictFacts.ext.
    - rewrite Hkn2'. by rewrite <- Hkn1'.
    - by rewrite Hkn2', Hkn1'.
    - intros k. destruct (merge_loop_get _ _ _ _ _ k Hl2) as [_ Hg2].
      destruct (merge_loop_get _ _ _ _ _ k Hl1) as [_ Hg1].
      rewrite Hg2. destruct (last (with_key k N)) as [r|] eqn:Hlast.
      + destruct (Habs k r Hlast) as (v & Hv1 & HvF & Hv). rewrite HvF, Hv. done.
      + rewrite Hg1. done. }
  assert (om2 = nmF) as ->.
  { apply PyDictFacts.ext.
    - by rewrite Hko2.
    - done.
    - intros k. destruct (merge_loop_get _ _ _ _ _ k Hl2) as [Hg2 _]. rewrite Hg2.
      destruct (last (with_key k N)) as [r|] eqn:Hlast.
      + destruct (Habs k r Hlast) as (v & Hv1 & HvF & Hv). rewrite HvF. simpl. by rewrite Hv.
      + apply last_None in Hlast. rewrite Hlast. by destruct (PyDict.get k nmF). }
  f_equal. rewrite (retain_closed nmF nm1 HndF). rewrite HF at 2. rewrite HF at 1.
  f_equal. rewrite filter_app.
  rewrite (ListFacts.filter_none _ nm1).
  - simpl. symmetry. apply ListFacts.filter_all. apply Forall_forall. intros [k v] Hin.
    subst R. by apply list_elem_of_filter in Hin as [? _].
  - apply Forall_forall. intros [k v] Hin Hn. simpl in Hn. apply Hn.
    unfold PyDict.keys. apply list_elem_of_fmap. by exists (k, v).
Qed.

End MergeFacts.

(* ===================================================================== *)
(** * De-duplication *)
(* ===================================================================== *)

Module DedupeFacts.
Section Generic.
Context {A K : Type} `{!EqDecision K, !Countable K} (key : A → K).

(** The rows kept by a first-wins pass that has seen the keys [seen]. *)
Fixpoint first_wins (seen : gset K) (rows : list A) : list A :=
  match rows with
  | [] => []
  | r :: rest =>
      if decide (key r ∈ seen) then first_wins seen rest
      else r :: first_wins ({[ key r ]} ∪ seen) rest
  end.

Lemma first_wins_sublist seen rows : first_wins seen rows `sublist_of` rows.
Proof.
  revert seen. induction rows as [|r rows IH]; intros seen; simpl; [done|].
  case_decide; [by apply sublist_cons | by apply sublist_skip].
Qed.

Lemma first_wins_fresh seen rows r :
  r ∈ first_wins seen rows → key r ∉ seen.
Proof.
  revert seen. induction rows as [|r0 rows IH]; intros seen; simpl.
  - intros Hin. by apply elem_of_nil in Hin.
  - case_decide as Hs; [by apply IH|].
    intros [->|Hin]%elem_of_cons; [done|].
    apply IH in Hin. intros Hk. apply Hin. apply elem_of_union; by right.
Qed.

Lemma first_wins_NoDup seen rows : NoDup (key <$> first_wins seen rows).
Proof.
  revert seen. induction rows as [|r rows IH]; intros seen; simpl.
  - apply NoDup_nil_2.
  - case_decide as Hs; [by apply IH|].
    rewrite fmap_cons. apply NoDup_cons. split; [|by apply IH].
    intros (r' & Hk & Hin)%list_elem_of_fmap.
    apply first_wins_fresh in Hin. apply Hin. apply elem_of_union; left.
    apply elem_of_singleton. by symmetry.
Qed.

(** The rows kept under a key: none when the key was seen before, the first
    row of the input with that key otherwise. *)
Lemma first_wins_filter seen rows k :
  filter (λ r, key r = k) (first_wins seen rows)
  = if decide (k ∈ seen) then [] else take 1 (filter (λ r, key r = k) rows).
Proof.
  revert seen. induction rows as [|r rows IH]; intros seen; simpl.
  - by case_decide.
  - destruct (decide (key r ∈ seen)) as [Hs|Hs].
    + rewrite IH. destruct (decide (key r = k)) as [<-|Hne].
      * by rewrite !decide_True.
      * by rewrite (filter_cons_False _ r) by done.
    + destruct (decide (key r = k)) as [<-|Hne].
      * rewrite !filter_cons_True by done. rewrite IH.
        rewrite decide_True by (apply elem_of_union; left; by apply elem_of_singleton).
        by rewrite decide_False.
      * rewrite !filter_cons_False by done. rewrite IH.
        destruct (decide (k ∈ seen)) as [Hk|Hk].
        -- by rewrite decide_True by (apply elem_of_union; by right).
        -- rewrite decide_False; [done|].
           intros [Hk'%elem_of_singleton|Hk']%elem_of_union; [by subst|done].
Qed.

Lemma first_wins_length seen rows :
  (length (first_wins seen rows) <= length rows)%nat.
Proof. apply sublist_length, first_wins_sublist. Qed.
End Generic.

(** [dedupe] of [bmsdaily9.py] is the first-wins pass. *)
Lemma district_fold seen out rows :
  ∃ seen',
    fold_left District9.dedupe_step rows (seen, out)
    = (seen', out ++ first_wins District9.key_of seen rows).
Proof.
  revert seen out. induction rows as [|r rows IH]; intros seen out; simpl.
  - exists seen. by rewrite app_nil_r.
  - unfold District9.dedupe_step at 2. simpl.
    destruct (decide (District9.key_of r ∈ seen)) as [Hs|Hs].
    + apply IH.
    + destruct (IH ({[ District9.key_of r ]} ∪ seen) (out ++ [r])) as [seen' ->].
      exists seen'. by rewrite <- app_assoc.
Qed.

Lemma district_dedupe rows :
  District9.dedupe rows = first_wins District9.key_of ∅ rows.
Proof.
  unfold District9.dedupe. by destruct (district_fold ∅ [] rows) as [seen' ->].
Qed.

(** [dedupe] of [combine_dailyshards.py] is the first-wins pass, and [dupes]
    counts the rows it drops. *)
Lemma combine_fold seen out dupes rows :
  ∃ seen',
    fold_left Combine.dedupe_step rows (seen, out, dupes)
    = (seen', out ++ first_wins Combine.key_of seen rows,
       dupes + (Z.of_nat (length rows)
                - Z.of_nat (length (first_wins Combine.key_of seen rows)))).
Proof.
  revert seen out dupes. induction rows as [|r rows IH]; intros seen out dupes; simpl.
  - exists seen. rewrite app_nil_r. apply pair_equal_spec. split; [done|lia].
  - destruct (decide (Combine.key_of r ∈ seen)) as [Hs|Hs].
    + destruct (IH seen out (dupes + 1)) as [seen' ->]. exists seen'.
      apply pair_equal_spec. split; [done|lia].
    + destruct (IH ({[ Combine.key_of r ]} ∪ seen) (out ++ [r]) dupes) as [seen' ->].
      exists seen'. rewrite <- app_assoc. simpl length.
      apply pair_equal_spec. split; [done|lia].
Qed.

Lemma combine_dedupe rows :
  Combine.dedupe rows
  = (first_wins Combine.key_of ∅ rows,
     Z.of_nat (length rows) - Z.of_nat (length (first_wins Combine.key_of ∅ rows))).
Proof.
  unfold Combine.dedupe. destruct (combine_fold ∅ [] 0 rows) as [seen' ->].
  simpl. apply pair_equal_spec. split; [done|lia].
Qed.

End DedupeFacts.

(* ===================================================================== *)
(** * Occupancy and the status counters *)
(* ===================================================================== *)

Module OccupancyFacts.

(** The status of a show as the glossary defines it: housefull from 98 per
    cent, fast-filling from 50 per cent up to 98, neither below. *)
Inductive status : Type := Housefull | FastFilling | Neither.

#[global] Instance status_eq_dec : EqDecision status.
Proof. solve_decision. Defined.

Definition status_of (occ : Py.num) : status :=
  if Py.ge_int occ 98 then Housefull
  else if Py.ge_int occ 50 then FastFilling
  else Neither.

(** [calc_occupancy] is the same function in the three scripts. *)
Lemma calc_occupancy_same sold total :
  District9.calc_occupancy sold total = Bms7.calc_occupancy sold total
  ∧ Combine.calc_occupancy sold total = Bms7.calc_occupancy sold total.
Proof. by split. Qed.

(** The occupancy of a bucket: 0.0 for no seats; otherwise the quotient
    [sold / total], times 100, rounded to two decimals, and [OverflowError]
    when the quotient is beyond the range of a float.  The division by zero
    does not occur. *)
Lemma calc_occupancy_value sold total :
  Bms7.calc_occupancy sold total
  = if total =? 0 then Some (PyFloat (Py.lit 0))
    else if Py.overflows sold total then None
    else Some (Py.round
                 (Py.mul (PyFloat (Py.fdiv (Py.exact_int sold) (Py.exact_int total)))
                         (PyInt 100)) 2).
Proof.
  unfold Bms7.calc_occupancy, Py.truthy, Py.truediv, Py.int_truediv.
  destruct (total =? 0); [done|]. simpl. by destruct (Py.overflows sold total).
Qed.

(** The occupancy of one show in the combiner: 0 for no seats, otherwise the
    quotient times 100, not rounded. *)
Lemma show_occ_value sold total :
  Combine.show_occ sold total
  = if total =? 0 then Some (PyInt 0)
    else if Py.overflows sold total then None
    else Some (Py.mul (PyFloat (Py.fdiv (Py.exact_int sold) (Py.exact_int total)))
                      (PyInt 100)).
Proof.
  unfold Combine.show_occ, Py.truthy, Py.truediv, Py.int_truediv.
  destruct (total =? 0); [done|]. simpl. by destruct (Py.overflows sold total).
Qed.

(** No quotient of a part by the whole overflows. *)
Lemma overflows_part sold total :
  0 <= sold <= total → total ≠ 0 → Py.overflows sold total = false.
Proof.
  intros Hs Ht. unfold Py.overflows. apply Z.leb_gt.
  assert (2 <= Py.float_limit) as Hl by (vm_compute; discriminate).
  rewrite !Z.abs_eq by lia. nia.
Qed.

Lemma overflows_small sold total :
  Z.abs sold < Py.float_limit → total ≠ 0 → Py.overflows sold total = false.
Proof.
  intros Hs Ht. unfold Py.overflows. apply Z.leb_gt.
  assert (0 < Py.float_limit) as Hl by (vm_compute; reflexivity).
  assert (1 <= Z.abs total) by lia. nia.
Qed.

(** The occupancy is computed when no more seats are sold than there are. *)
Lemma calc_occupancy_part sold total :
  0 <= sold <= total → is_Some (Bms7.calc_occupancy sold total).
Proof.
  intros Hs. rewrite calc_occupancy_value.
  destruct (total =? 0) eqn:Ht; [by eexists|].
  apply Z.eqb_neq in Ht. rewrite overflows_part by done. by eexists.
Qed.

Lemma show_occ_part sold total :
  0 <= sold <= total → is_Some (Combine.show_occ sold total).
Proof.
  intros Hs. rewrite show_occ_value.
  destruct (total =? 0) eqn:Ht; [by eexists|].
  apply Z.eqb_neq in Ht. rewrite overflows_part by done. by eexists.
Qed.

(** What one show adds to a bucket. *)
Lemma add_show_counts b venue gross sold total occ :
  let b' := Agg.add_show b venue gross sold total occ in
  Agg.shows b' = Agg.shows b + 1
  ∧ Agg.sold b' = Agg.sold b + sold
  ∧ Agg.totalSeats b' = Agg.totalSeats b + total
  ∧ Agg.gross b' = Py.to_float (Py.add (PyFloat (Agg.gross b)) gross)
  ∧ Agg.venues b' = {[ venue ]} ∪ Agg.venues b
  ∧ (Agg.housefull b', Agg.fastfilling b')
    = match status_of occ with
      | Housefull => (Agg.housefull b + 1, Agg.fastfilling b)
      | FastFilling => (Agg.housefull b, Agg.fastfilling b + 1)
      | Neither => (Agg.housefull b, Agg.fastfilling b)
      end.
Proof.
  simpl. repeat split; try done. unfold status_of.
  by destruct (Py.ge_int occ 98), (Py.ge_int occ 50).
Qed.

Section Upsert.
Context {K : Type} `{EqDecision K} {V : Type}.

Lemma upsert_get (k : K) (new : V) f d :
  PyDict.get k (Agg.upsert k new f d) = Some (f (default new (PyDict.get k d))).
Proof. apply PyDictFacts.get_set_eq. Qed.

Lemma upsert_get_ne (k k' : K) (new : V) f d :
  k ≠ k' → PyDict.get k' (Agg.upsert k new f d) = PyDict.get k' d.
Proof. apply PyDictFacts.get_set_ne. Qed.

Lemma upsert_keys (k : K) (new : V) f d :
  PyDict.keys (Agg.upsert k new f d)
  = if decide (k ∈ PyDict.keys d) then PyDict.keys d else PyDict.keys d ++ [k].
Proof. apply PyDictFacts.keys_set. Qed.

Lemma upsert_NoDup (k : K) (new : V) f d :
  NoDup (PyDict.keys d) → NoDup (PyDict.keys (Agg.upsert k new f d)).
Proof. apply PyDictFacts.NoDup_keys_set. Qed.
End Upsert.

(** The figures of the four buckets a record falls into, before the record is
    added: those of the bucket when it exists, those of a fresh one
    otherwise. *)
Definition movie_before (s : list (string * Agg.MovieBucket)) (e : Agg.Entry)
    : Agg.MovieBucket :=
  default Agg.fresh_movie (PyDict.get (Agg.e_movie e) s).

Definition city_before (s : list (string * Agg.MovieBucket)) (e : Agg.Entry)
    : Agg.Totals :=
  default Agg.fresh
    (Agg.c_tot <$> PyDict.get (Agg.e_ck e) (Agg.City_details (movie_before s e))).

Definition lang_before (s : list (string * Agg.MovieBucket)) (e : Agg.Entry)
    : Agg.Totals :=
  default Agg.fresh
    (Agg.l_tot <$> PyDict.get (Agg.e_lang e) (Agg.Language_details (movie_before s e))).

Definition format_before (s : list (string * Agg.MovieBucket)) (e : Agg.Entry)
    : Agg.Totals :=
  default Agg.fresh
    (Agg.f_tot <$> PyDict.get (Agg.e_dim e) (Agg.Format_details (movie_before s e))).

(** One record is added to its movie, city, language and format bucket by the
    same [add_show] with the same figures and the same occupancy. *)
Definition added_at_four_levels (s : list (string * Agg.MovieBucket)) (e : Agg.Entry)
    (s' : list (string * Agg.MovieBucket)) : Prop :=
  let add t := Agg.add_show t (Agg.e_venue e) (Agg.e_gross e) (Agg.e_sold e)
                 (Agg.e_total e) (Agg.e_occ e) in
  ∃ m d l f,
    PyDict.get (Agg.e_movie e) s' = Some m
    ∧ Agg.m_tot m = add (Agg.m_tot (movie_before s e))
    ∧ PyDict.get (Agg.e_ck e) (Agg.City_details m) = Some d
    ∧ Agg.c_tot d = add (city_before s e)
    ∧ PyDict.get (Agg.e_lang e) (Agg.Language_details m) = Some l
    ∧ Agg.l_tot l = add (lang_before s e)
    ∧ PyDict.get (Agg.e_dim e) (Agg.Format_details m) = Some f
    ∧ Agg.f_tot f = add (format_before s e).

Lemma accumulate_four_levels s e : added_at_four_levels s e (Agg.accumulate s e).
Proof.
  unfold added_at_four_levels, Agg.accumulate. rewrite upsert_get.
  fold (movie_before s e). eexists _, _, _, _.
  split; [reflexivity|]. simpl. rewrite !upsert_get.
  split; [reflexivity|]. split; [reflexivity|].
  split; [unfold city_before; by destruct (PyDict.get _ (Agg.City_details _))|].
  split; [reflexivity|].
  split; [unfold lang_before; by destruct (PyDict.get _ (Agg.Language_details _))|].
  split; [reflexivity|].
  unfold format_before; by destruct (PyDict.get _ (Agg.Format_details _)).
Qed.

End OccupancyFacts.

(* ===================================================================== *)
(** * Case and white space *)
(* ===================================================================== *)

Module StrFacts.
Import PyStr.

(** Two strings that are equal up to the case of their letters. *)
Inductive caseless : string → string → Prop :=
  | caseless_nil : caseless EmptyString EmptyString
  | caseless_cons c1 c2 s1 s2 :
      lower_char c1 = lower_char c2 → caseless s1 s2 →
      caseless (String c1 s1) (String c2 s2).

(** A string of white space only. *)
Fixpoint blank (s : string) : bool :=
  match s with
  | EmptyString => true
  | String c s' => is_space c && blank s'
  end.

(** Two strings that differ only in the case of their letters and in the
    white space around them. *)
Definition variant (a b : string) : Prop :=
  ∃ wa1 ca wa2 wb1 cb wb2,
    a = (wa1 ++ ca ++ wa2)%string ∧ b = (wb1 ++ cb ++ wb2)%string
    ∧ blank wa1 = true ∧ blank wa2 = true ∧ blank wb1 = true ∧ blank wb2 = true
    ∧ caseless ca cb.

(** The character [str.title] writes for [c]. *)
Definition title_char (prev : bool) (c : ascii) : ascii :=
  if is_lower c then (if prev then c else upper_char c)
  else if is_upper c then (if prev then lower_char c else c)
  else c.

Definition cased (c : ascii) : bool := is_lower c || is_upper c.

Ltac each_char c :=
  destruct c as [[] [] [] [] [] [] [] []]; vm_compute; reflexivity.

Lemma is_space_lower c : is_space (lower_char c) = is_space c.
Proof. each_char c. Qed.

Lemma cased_lower c : cased (lower_char c) = cased c.
Proof. each_char c. Qed.

Lemma title_char_lower prev c : title_char prev (lower_char c) = title_char prev c.
Proof. destruct prev; each_char c. Qed.

Lemma lower_char_idem c : lower_char (lower_char c) = lower_char c.
Proof. each_char c. Qed.

Lemma title_from_cons prev c s :
  title_from prev (String c s) = String (title_char prev c) (title_from (cased c) s).
Proof.
  simpl. unfold title_char, cased.
  destruct (is_lower c); [done|]. by destruct (is_upper c).
Qed.

Lemma caseless_refl s : caseless s s.
Proof. induction s; by constructor. Qed.

Lemma caseless_lower a b : caseless a b → lower a = lower b.
Proof. induction 1 as [|c1 c2 s1 s2 Hc _ IH]; simpl; [done|]. by rewrite Hc, IH. Qed.

Lemma lower_caseless a b : lower a = lower b → caseless a b.
Proof.
  revert b. induction a as [|c a IH]; intros [|c' b]; simpl; try done.
  - intros _. constructor.
  - intros [= Hc Hs]. constructor; [done | by apply IH].
Qed.

Lemma caseless_title_from prev a b :
  caseless a b → title_from prev a = title_from prev b.
Proof.
  intros Hab. revert prev.
  induction Hab as [|c1 c2 s1 s2 Hc _ IH]; intros prev; [done|].
  rewrite !title_from_cons.
  rewrite <- (title_char_lower prev c1), <- (title_char_lower prev c2), Hc.
  rewrite <- (cased_lower c1), <- (cased_lower c2), Hc. by rewrite IH.
Qed.

Lemma caseless_space c1 c2 : lower_char c1 = lower_char c2 → is_space c1 = is_space c2.
Proof. intros Hc. by rewrite <- (is_space_lower c1), <- (is_space_lower c2), Hc. Qed.

Lemma caseless_lstrip a b : caseless a b → caseless (lstrip a) (lstrip b).
Proof.
  induction 1 as [|c1 c2 s1 s2 Hc Hs IH]; simpl; [constructor|].
  rewrite (caseless_space c1 c2 Hc). destruct (is_space c2); [done | by constructor].
Qed.

Lemma caseless_rstrip a b : caseless a b → caseless (rstrip a) (rstrip b).
Proof.
  induction 1 as [|c1 c2 s1 s2 Hc Hs IH]; simpl; [constructor|].
  rewrite (caseless_space c1 c2 Hc).
  inversion IH as [E1 E2|x1 x2 t1 t2 Hx Ht E1 E2].
  - destruct (is_space c2); constructor; [done | constructor].
  - constructor; [done|]. by constructor.
Qed.

Lemma caseless_strip a b : caseless a b → caseless (strip a) (strip b).
Proof. intros. unfold strip. by apply caseless_rstrip, caseless_lstrip. Qed.

Lemma lstrip_blank w s : blank w = true → lstrip (w ++ s) = lstrip s.
Proof.
  induction w as [|c w IH]; simpl; [done|].
  intros [Hc Hw]%andb_prop. rewrite Hc. by apply IH.
Qed.

Lemma rstrip_blank_only w : blank w = true → rstrip w = EmptyString.
Proof.
  induction w as [|c w IH]; simpl; [done|].
  intros [Hc Hw]%andb_prop. rewrite (IH Hw). by rewrite Hc.
Qed.

Lemma rstrip_blank s w : blank w = true → rstrip (s ++ w) = rstrip s.
Proof.
  intros Hw. induction s as [|c s IH]; simpl.
  - by apply rstrip_blank_only.
  - by rewrite IH.
Qed.

Lemma strip_blank_r s w : blank w = true → strip (s ++ w) = strip s.
Proof.
  intros Hw. unfold strip. induction s as [|c s IH]; simpl.
  - assert (∀ v, blank v = true → lstrip v = EmptyString) as Hl.
    { clear. induction v as [|c v IH]; simpl; [done|].
      intros [Hc Hv]%andb_prop. rewrite Hc. by apply IH. }
    by rewrite Hl.
  - destruct (is_space c); [done|].
    change (String c (s ++ w)) with (String c s ++ w)%string.
    by apply rstrip_blank.
Qed.

Lemma strip_pad w1 s w2 :
  blank w1 = true → blank w2 = true → strip (w1 ++ s ++ w2) = strip s.
Proof.
  intros H1 H2. unfold strip. rewrite lstrip_blank by done.
  by apply strip_blank_r.
Qed.

(** The grouping key and the displayed form of two variants agree. *)
Lemma variant_lower_strip a b : variant a b → lower (strip a) = lower (strip b).
Proof.
  intros (wa1 & ca & wa2 & wb1 & cb & wb2 & -> & -> & ? & ? & ? & ? & Hc).
  rewrite !strip_pad by done. by apply caseless_lower, caseless_strip.
Qed.

Lemma variant_title_strip a b : variant a b → title (strip a) = title (strip b).
Proof.
  intros (wa1 & ca & wa2 & wb1 & cb & wb2 & -> & -> & ? & ? & ? & ? & Hc).
  rewrite !strip_pad by done. by apply caseless_title_from, caseless_strip.
Qed.

(** Strings with the same lower-cased form have the same title-cased form. *)
Lemma lower_title a b : lower a = lower b → title a = title b.
Proof. intros. by apply caseless_title_from, lower_caseless. Qed.

End StrFacts.

(* ===================================================================== *)
(** * What the summary loop puts into a bucket *)
(* ===================================================================== *)

Module GroupFacts.
Import OccupancyFacts.

(** [add_show] with the figures of an entry. *)
Definition add_entry (t : Agg.Totals) (e : Agg.Entry) : Agg.Totals :=
  Agg.add_show t (Agg.e_venue e) (Agg.e_gross e) (Agg.e_sold e) (Agg.e_total e)
    (Agg.e_occ e).

(** The city bucket of a movie under a key, when there is one. *)
Definition city_bucket (s : list (string * Agg.MovieBucket)) (mv : string)
    (ck : string * string) : option Agg.CityBucket :=
  PyDict.get mv s ≫= λ m, PyDict.get ck (Agg.City_details m).

(** Every dictionary of the summary holds each key once. *)
Definition well_keyed (s : list (string * Agg.MovieBucket)) : Prop :=
  NoDup (PyDict.keys s)
  ∧ Forall (λ kv, NoDup (PyDict.keys (Agg.City_details kv.2))) s.

Lemma well_keyed_nil : well_keyed [].
Proof. split; [apply NoDup_nil_2 | constructor]. Qed.

Lemma well_keyed_accumulate s e : well_keyed s → well_keyed (Agg.accumulate s e).
Proof.
  intros [Hnd Hall]. unfold Agg.accumulate. split.
  - by apply upsert_NoDup.
  - apply Forall_forall. intros [k m] Hin.
    apply PyDictFacts.elem_of_set in Hin as [[-> ->]|Hin].
    + simpl. apply upsert_NoDup.
      destruct (PyDict.get (Agg.e_movie e) s) as [m0|] eqn:Hg; simpl.
      * apply PyDictFacts.get_Some_elem in Hg.
        by apply (proj1 (Forall_forall _ _) Hall (Agg.e_movie e, m0)).
      * apply NoDup_nil_2.
    + by apply (proj1 (Forall_forall _ _) Hall (k, m)).
Qed.

Lemma well_keyed_city s mv m :
  well_keyed s → PyDict.get mv s = Some m → NoDup (PyDict.keys (Agg.City_details m)).
Proof.
  intros [_ Hall] Hg. apply PyDictFacts.get_Some_elem in Hg.
  by apply (proj1 (Forall_forall _ _) Hall (mv, m)).
Qed.

Lemma accumulate_city_hit s e :
  city_bucket (Agg.accumulate s e) (Agg.e_movie e) (Agg.e_ck e)
  = Some match city_bucket s (Agg.e_movie e) (Agg.e_ck e) with
         | Some d => {| Agg.city := Agg.city d; Agg.state := Agg.state d;
                        Agg.c_tot := add_entry (Agg.c_tot d) e |}
         | None => {| Agg.city := Agg.e_city e; Agg.state := Agg.e_state e;
                      Agg.c_tot := add_entry Agg.fresh e |}
         end.
Proof.
  unfold city_bucket, Agg.accumulate. rewrite upsert_get. simpl.
  rewrite upsert_get.
  destruct (PyDict.get (Agg.e_movie e) s) as [m|]; simpl; [|done].
  by destruct (PyDict.get (Agg.e_ck e) (Agg.City_details m)).
Qed.

Lemma accumulate_city_miss s e mv ck :
  ¬ (Agg.e_movie e = mv ∧ Agg.e_ck e = ck) →
  city_bucket (Agg.accumulate s e) mv ck = city_bucket s mv ck.
Proof.
  intros Hne. unfold city_bucket, Agg.accumulate.
  destruct (decide (Agg.e_movie e = mv)) as [<-|Hm].
  - rewrite upsert_get. simpl. rewrite upsert_get_ne by tauto.
    by destruct (PyDict.get (Agg.e_movie e) s).
  - by rewrite upsert_get_ne.
Qed.

Lemma accumulate_movie_hit s e :
  PyDict.get (Agg.e_movie e) (Agg.accumulate s e)
  = Some (let m := movie_before s e in
          {| Agg.m_tot := add_entry (Agg.m_tot m) e;
             Agg.cities := {[ Agg.e_city_member e ]} ∪ Agg.cities m;
             Agg.City_details :=
               Agg.upsert (Agg.e_ck e)
                 {| Agg.city := Agg.e_city e; Agg.state := Agg.e_state e;
                    Agg.c_tot := Agg.fresh |}
                 (λ d, {| Agg.city := Agg.city d; Agg.state := Agg.state d;
                          Agg.c_tot := add_entry (Agg.c_tot d) e |})
                 (Agg.City_details m);
             Agg.Language_details :=
               Agg.upsert (Agg.e_lang e)
                 {| Agg.language := Agg.e_lang e; Agg.l_tot := Agg.fresh |}
                 (λ l, {| Agg.language := Agg.language l;
                          Agg.l_tot := add_entry (Agg.l_tot l) e |})
                 (Agg.Language_details m);
             Agg.Format_details :=
               Agg.upsert (Agg.e_dim e)
                 {| Agg.dimension := Agg.e_dim e; Agg.f_tot := Agg.fresh |}
                 (λ f, {| Agg.dimension := Agg.dimension f;
                          Agg.f_tot := add_entry (Agg.f_tot f) e |})
                 (Agg.Format_details m) |}).
Proof. unfold Agg.accumulate. by rewrite upsert_get. Qed.

Lemma accumulate_movie_miss s e mv :
  Agg.e_movie e ≠ mv → PyDict.get mv (Agg.accumulate s e) = PyDict.get mv s.
Proof. intros. unfold Agg.accumulate. by rewrite upsert_get_ne. Qed.

Section Fold.
(** The records of a script and the entry its loop body reads off each. *)
Context {R : Type} (ent : R → Agg.Entry).

Definition fold_rows (s : list (string * Agg.MovieBucket)) (rows : list R)
    : list (string * Agg.MovieBucket) :=
  fold_left (λ s r, Agg.accumulate s (ent r)) rows s.

Definition add_rows (t : Agg.Totals) (rows : list R) : Agg.Totals :=
  fold_left (λ t r, add_entry t (ent r)) rows t.

(** The rows that fall into the city bucket [ck] of the movie [mv]. *)
Definition hits (mv : string) (ck : string * string) (rows : list R) : list R :=
  filter (λ r, Agg.e_movie (ent r) = mv ∧ Agg.e_ck (ent r) = ck) rows.

(** The rows of the movie [mv]. *)
Definition of_movie (mv : string) (rows : list R) : list R :=
  filter (λ r, Agg.e_movie (ent r) = mv) rows.

Lemma fold_rows_well_keyed s rows : well_keyed s → well_keyed (fold_rows s rows).
Proof.
  unfold fold_rows. revert s. induction rows as [|r rows IH]; intros s Hs; [done|].
  simpl. by apply IH, well_keyed_accumulate.
Qed.

(** The city bucket after the loop: it exists as soon as a row falls into
    it, shows the city and state of the first such row, and has received
    exactly the rows that fall into it. *)
Lemma fold_rows_city s rows mv ck :
  city_bucket (fold_rows s rows) mv ck
  = match hits mv ck rows with
    | [] => city_bucket s mv ck
    | r0 :: _ =>
        Some {| Agg.city := match city_bucket s mv ck with
                            | Some d => Agg.city d
                            | None => Agg.e_city (ent r0)
                            end;
                Agg.state := match city_bucket s mv ck with
                             | Some d => Agg.state d
                             | None => Agg.e_state (ent r0)
                             end;
                Agg.c_tot :=
                  add_rows (match city_bucket s mv ck with
                            | Some d => Agg.c_tot d
                            | None => Agg.fresh
                            end) (hits mv ck rows) |}
    end.
Proof.
  unfold fold_rows, hits. revert s. induction rows as [|r rows IH]; intros s; [done|].
  simpl fold_left. rewrite IH.
  destruct (decide (Agg.e_movie (ent r) = mv ∧ Agg.e_ck (ent r) = ck)) as [[<- <-]|Hne].
  - rewrite filter_cons_True by done. rewrite accumulate_city_hit.
    destruct (city_bucket s _ _) as [d|]; simpl;
      by destruct (filter _ rows).
  - rewrite filter_cons_False by done. by rewrite accumulate_city_miss.
Qed.

(** The totals of the movie bucket after the loop. *)
Lemma fold_rows_movie s rows mv :
  Agg.m_tot <$> PyDict.get mv (fold_rows s rows)
  = match of_movie mv rows with
    | [] => Agg.m_tot <$> PyDict.get mv s
    | _ => Some (add_rows (default Agg.fresh (Agg.m_tot <$> PyDict.get mv s))
                   (of_movie mv rows))
    end.
Proof.
  unfold fold_rows, of_movie. revert s. induction rows as [|r rows IH]; intros s; [done|].
  simpl fold_left. rewrite IH.
  destruct (decide (Agg.e_movie (ent r) = mv)) as [<-|Hne].
  - rewrite filter_cons_True by done. rewrite accumulate_movie_hit. simpl.
    unfold movie_before.
    destruct (PyDict.get _ s) as [m|]; simpl; by destruct (filter _ rows).
  - rewrite filter_cons_False by done. by rewrite accumulate_movie_miss.
Qed.

Lemma add_rows_figures t rows :
  Agg.shows (add_rows t rows) = Agg.shows t + Z.of_nat (length rows)
  ∧ Agg.sold (add_rows t rows)
    = Agg.sold t + foldr Z.add 0 ((λ r, Agg.e_sold (ent r)) <$> rows)
  ∧ Agg.totalSeats (add_rows t rows)
    = Agg.totalSeats t + foldr Z.add 0 ((λ r, Agg.e_total (ent r)) <$> rows)
  ∧ Agg.venues (add_rows t rows)
    = list_to_set ((λ r, Agg.e_venue (ent r)) <$> rows) ∪ Agg.venues t.
Proof.
  unfold add_rows. revert t. induction rows as [|r rows IH]; intros t.
  - simpl. repeat split; try lia. by rewrite (left_id_L ∅ (∪)).
  - simpl fold_left. destruct (IH (add_entry t (ent r))) as (-> & -> & -> & ->).
    rewrite !fmap_cons, list_to_set_cons.
    cbn [foldr add_entry Agg.add_show Agg.shows Agg.sold Agg.totalSeats Agg.venues length].
    repeat split; try lia.
    apply set_eq. intros x. rewrite !elem_of_union. tauto.
Qed.
End Fold.

(** The occupancy the loop of the combiner computes for a row, and the entry
    it adds for it; the loop is the fold of [accumulate] over these entries
    when it returns, and it returns when the occupancy of every row is
    computed. *)
Definition combine_occ (r : Combine.Row) : Py.num :=
  default (PyInt 0) (Combine.show_occ (Combine.sold r) (Combine.totalSeats r)).

Definition combine_entry (r : Combine.Row) : Agg.Entry :=
  Combine.entry_of r (combine_occ r).

Lemma combine_loop_is_Some s rows :
  is_Some (Combine.summary_loop s rows)
  ↔ Forall (λ r, is_Some (Combine.show_occ (Combine.sold r) (Combine.totalSeats r))) rows.
Proof.
  revert s. induction rows as [|r rows IH]; intros s; simpl.
  - split; [constructor|by eexists].
  - rewrite Forall_cons.
    destruct (Combine.show_occ (Combine.sold r) (Combine.totalSeats r)) as [occ|]; simpl.
    + rewrite IH. split; [by split; [eexists|]|by intros [_ ?]].
    + split; [by intros [? ?]|by intros [[? ?] _]].
Qed.

Lemma combine_loop_fold s rows s' :
  Combine.summary_loop s rows = Some s' → s' = fold_rows combine_entry s rows.
Proof.
  unfold fold_rows. revert s. induction rows as [|r rows IH]; intros s; simpl.
  - by intros [= <-].
  - unfold combine_entry at 2, combine_occ.
    destruct (Combine.show_occ (Combine.sold r) (Combine.totalSeats r)) as [occ|];
      simpl; [apply IH|done].
Qed.

(** The same for the loop of [build_summary] in [bmsdaily9.py]. *)
Definition district_occ (r : District9.Row) : Py.num :=
  default (PyInt 0)
    (District9.calc_occupancy (District9.sold r) (District9.totalSeats r)).

Definition district_entry (r : District9.Row) : Agg.Entry :=
  District9.entry_of r (district_occ r).

Lemma district_loop_is_Some s rows :
  is_Some (District9.summary_loop s rows)
  ↔ Forall (λ r, is_Some (District9.calc_occupancy (District9.sold r)
                            (District9.totalSeats r))) rows.
Proof.
  revert s. induction rows as [|r rows IH]; intros s; simpl.
  - split; [constructor|by eexists].
  - rewrite Forall_cons.
    destruct (District9.calc_occupancy (District9.sold r) (District9.totalSeats r))
      as [occ|]; simpl.
    + rewrite IH. split; [by split; [eexists|]|by intros [_ ?]].
    + split; [by intros [? ?]|by intros [[? ?] _]].
Qed.

Lemma district_loop_fold s rows s' :
  District9.summary_loop s rows = Some s' → s' = fold_rows district_entry s rows.
Proof.
  unfold fold_rows. revert s. induction rows as [|r rows IH]; intros s; simpl.
  - by intros [= <-].
  - unfold district_entry at 2, district_occ.
    destruct (District9.calc_occupancy (District9.sold r) (District9.totalSeats r))
      as [occ|]; simpl; [apply IH|done].
Qed.

End GroupFacts.

(* ===================================================================== *)
(** * The retry controller of bmsdaily7.py *)
(* ===================================================================== *)

Module RetryFacts.
Import Bms7.

(** The log line written just before a fetch of the venue [v]: the line of the
    first pass or the line of a retry. *)
Definition is_attempt (v : string) (e : event) : bool :=
  match e with
  | LogVenue _ _ u => bool_decide (u = v)
  | LogRetry u => bool_decide (u = v)
  | _ => false
  end.

Definition attempts (v : string) (l : list event) : nat :=
  length (filter (λ e, is_attempt v e = true) l).

Definition is_round (e : event) : bool :=
  match e with LogRetryRound _ _ => true | _ => false end.

(** The number of retry rounds the log reports. *)
Definition rounds (l : list event) : nat :=
  length (filter (λ e, is_round e = true) l).

(** How often a venue code stands in a list. *)
Definition occurrences (v : string) (l : list string) : nat :=
  length (filter (λ u, u = v) l).

Definition one_if (P : Prop) `{Decision P} : nat := if decide P then 1%nat else 0%nat.

Lemma attempts_app v l1 l2 : attempts v (l1 ++ l2) = (attempts v l1 + attempts v l2)%nat.
Proof. unfold attempts. by rewrite filter_app, length_app. Qed.

Lemma rounds_app l1 l2 : rounds (l1 ++ l2) = (rounds l1 + rounds l2)%nat.
Proof. unfold rounds. by rewrite filter_app, length_app. Qed.

Lemma attempts_one v e : attempts v [e] = if is_attempt v e then 1%nat else 0%nat.
Proof.
  unfold attempts. destruct (is_attempt v e) eqn:He.
  - by rewrite filter_cons_True.
  - by rewrite filter_cons_False by (rewrite He; done).
Qed.

Lemma rounds_one e : rounds [e] = if is_round e then 1%nat else 0%nat.
Proof.
  unfold rounds. destruct (is_round e) eqn:He.
  - by rewrite filter_cons_True.
  - by rewrite filter_cons_False by (rewrite He; done).
Qed.

Lemma occurrences_app v l1 l2 :
  occurrences v (l1 ++ l2) = (occurrences v l1 + occurrences v l2)%nat.
Proof. unfold occurrences. by rewrite filter_app, length_app. Qed.

Lemma occurrences_one v u : occurrences v [u] = one_if (u = v).
Proof.
  unfold occurrences, one_if. destruct (decide (u = v)).
  - by rewrite filter_cons_True.
  - by rewrite filter_cons_False.
Qed.

Lemma occurrences_cons v u l :
  occurrences v (u :: l) = (one_if (u = v) + occurrences v l)%nat.
Proof. by rewrite <- occurrences_one, <- occurrences_app. Qed.

Lemma occurrences_NoDup v l : NoDup l → v ∈ l → occurrences v l = 1%nat.
Proof.
  induction 1 as [|u l Hu Hnd IH]; intros Hin; [by apply elem_of_nil in Hin|].
  rewrite occurrences_cons. unfold one_if.
  apply elem_of_cons in Hin as [->|Hin].
  - rewrite decide_True by done.
    assert (occurrences u l = 0%nat) as ->; [|done].
    unfold occurrences. rewrite ListFacts.filter_none; [done|].
    apply Forall_forall. intros x Hx ->. done.
  - rewrite decide_False by (intros ->; done). by rewrite IH.
Qed.

Section Run.
Context {W : Type}.
Variable fetch_api_raw : string → W → option Payload * W.
Variable reset_identity : W → W.
Variable sleep : W → W.
Variable now_us : W → Z.
Variable strptime_IMp : string → option (Z * Z).
Variable DATE_CODE : string.
Variable venues : list (string * VenueMeta).

(** The venue under study, and a counter of the fetches made for it that
    the world keeps. *)
Variable v : string.
Variable calls : W → nat.
Hypothesis calls_fetch :
  ∀ u w, calls (fetch_api_raw u w).2 = (calls w + one_if (u = v))%nat.
Hypothesis calls_reset : ∀ w, calls (reset_identity w) = calls w.
Hypothesis calls_sleep : ∀ w, calls (sleep w) = calls w.
(** The venue fails on every attempt. *)
Hypothesis always_fails : ∀ w, (fetch_api_raw v w).1 = None.

Let try_venue := try_venue fetch_api_raw now_us strptime_IMp DATE_CODE venues.
Let first_pass_step :=
  first_pass_step fetch_api_raw reset_identity sleep now_us strptime_IMp DATE_CODE venues.
Let retry_step :=
  retry_step fetch_api_raw reset_identity sleep now_us strptime_IMp DATE_CODE venues.
Let retry_round_body :=
  retry_round_body fetch_api_raw reset_identity sleep now_us strptime_IMp DATE_CODE venues.
Let retry_loop :=
  retry_loop fetch_api_raw reset_identity sleep now_us strptime_IMp DATE_CODE venues.

(** What the run has done for [v] so far: the entries of [v] in the list of
    failed venues, the attempts logged for it, the rounds logged, and the
    fetches counted by the world. *)
Record tally := { in_list : nat; logged : nat; rounds_ : nat; fetched : nat }.

Definition tally_of (acc : list string * RunState) : tally :=
  {| in_list := occurrences v acc.1;
     logged := attempts v (log acc.2);
     rounds_ := rounds (log acc.2);
     fetched := calls (world acc.2) |}.

Lemma try_venue_spec u (st : RunState) :
  log (try_venue u st).2 = log st
  ∧ calls (world (try_venue u st).2) = (calls (world st) + one_if (u = v))%nat
  ∧ (u = v → (try_venue u st).1 = false).
Proof.
  unfold try_venue, Bms7.try_venue.
  pose proof (calls_fetch u (world st)) as Hc.
  pose proof (always_fails (world st)) as Hf.
  destruct (fetch_api_raw u (world st)) as [raw w] eqn:Hfetch. simpl in Hc.
  destruct (raw ≫= rows_of now_us strptime_IMp DATE_CODE venues u w) as [rows|] eqn:Hrows;
    simpl; (split; [done|]); (split; [done|]); intros ->; [|done].
  rewrite Hfetch in Hf. simpl in Hf. subst raw. done.
Qed.

Lemma first_pass_step_tally acc i u :
  tally_of (first_pass_step acc (i, u))
  = {| in_list := in_list (tally_of acc) + one_if (u = v);
       logged := logged (tally_of acc) + one_if (u = v);
       rounds_ := rounds_ (tally_of acc);
       fetched := fetched (tally_of acc) + one_if (u = v) |}.
Proof.
  destruct acc as [failed st]. unfold first_pass_step, Bms7.first_pass_step.
  remember (log_ (LogVenue i (length venues) u) st) as st1 eqn:Hst1.
  destruct (try_venue_spec u st1) as (Hlog & Hcalls & Hfail).
  fold try_venue. destruct (try_venue u st1) as [ok st2]. simpl in Hlog, Hcalls, Hfail.
  unfold tally_of. simpl fst. simpl snd.
  assert (world st1 = world st) as Hw by (by rewrite Hst1).
  rewrite Hw in Hcalls.
  assert (attempts v (log st1) = (attempts v (log st) + one_if (u = v))%nat
          ∧ rounds (log st1) = rounds (log st)) as [Ha Hr].
  { rewrite Hst1. simpl. rewrite attempts_app, rounds_app, attempts_one, rounds_one.
    simpl. unfold one_if. split; [|lia].
    destruct (decide (u = v)); [by rewrite bool_decide_true | by rewrite bool_decide_false]. }
  destruct (decide (u = v)) as [Huv|Hne].
  - rewrite (Hfail Huv). simpl.
    rewrite occurrences_app, occurrences_one.
    rewrite calls_sleep, calls_reset, Hcalls, Hlog.
    rewrite !attempts_app, !rounds_app, !attempts_one, !rounds_one, Ha, Hr. simpl.
    f_equal; lia.
  - assert (one_if (u = v) = 0%nat) as Hz by (unfold one_if; by rewrite decide_False).
    destruct ok; simpl.
    + rewrite calls_sleep, Hcalls, Hlog, Ha, Hr, Hz. f_equal; lia.
    + rewrite occurrences_app, occurrences_one.
      rewrite calls_sleep, calls_reset, Hcalls, Hlog.
      rewrite !attempts_app, !rounds_app, !attempts_one, !rounds_one, Ha, Hr, Hz. simpl.
      f_equal; lia.
Qed.

Lemma retry_step_tally acc u :
  tally_of (retry_step acc u)
  = {| in_list := in_list (tally_of acc) + one_if (u = v);
       logged := logged (tally_of acc) + one_if (u = v);
       rounds_ := rounds_ (tally_of acc);
       fetched := fetched (tally_of acc) + one_if (u = v) |}.
Proof.
  destruct acc as [next st]. unfold retry_step, Bms7.retry_step.
  remember (log_ (LogRetry u) st) as st1 eqn:Hst1.
  destruct (try_venue_spec u st1) as (Hlog & Hcalls & Hfail).
  fold try_venue. destruct (try_venue u st1) as [ok st2]. simpl in Hlog, Hcalls, Hfail.
  unfold tally_of. simpl fst. simpl snd.
  assert (world st1 = world st) as Hw by (by rewrite Hst1).
  rewrite Hw in Hcalls.
  assert (attempts v (log st1) = (attempts v (log st) + one_if (u = v))%nat
          ∧ rounds (log st1) = rounds (log st)) as [Ha Hr].
  { rewrite Hst1. simpl. rewrite attempts_app, rounds_app, attempts_one, rounds_one.
    simpl. unfold one_if. split; [|lia].
    destruct (decide (u = v)); [by rewrite bool_decide_true | by rewrite bool_decide_false]. }
  destruct (decide (u = v)) as [Huv|Hne].
  - rewrite (Hfail Huv). simpl.
    rewrite occurrences_app, occurrences_one.
    rewrite calls_sleep, calls_reset, Hcalls, Hlog.
    rewrite !attempts_app, !rounds_app, !attempts_one, !rounds_one, Ha, Hr. simpl.
    f_equal; lia.
  - assert (one_if (u = v) = 0%nat) as Hz by (unfold one_if; by rewrite decide_False).
    destruct ok; simpl.
    + rewrite calls_sleep, Hcalls, Hlog, Ha, Hr, Hz. f_equal; lia.
    + rewrite occurrences_app, occurrences_one.
      rewrite calls_sleep, calls_reset, Hcalls, Hlog.
      rewrite !attempts_app, !rounds_app, !attempts_one, !rounds_one, Ha, Hr, Hz. simpl.
      f_equal; lia.
Qed.


Lemma first_pass_fold_tally ivs acc :
  tally_of (fold_left first_pass_step ivs acc)
  = {| in_list := in_list (tally_of acc) + occurrences v ivs.*2;
       logged := logged (tally_of acc) + occurrences v ivs.*2;
       rounds_ := rounds_ (tally_of acc);
       fetched := fetched (tally_of acc) + occurrences v ivs.*2 |}.
Proof.
  revert acc. induction ivs as [|[i u] ivs IH]; intros acc.
  - simpl. change (occurrences v []) with 0%nat. unfold tally_of. simpl. f_equal; lia.
  - simpl fold_left. rewrite IH, first_pass_step_tally. rewrite fmap_cons.
    simpl. rewrite occurrences_cons. f_equal; lia.
Qed.

Lemma retry_fold_tally pending acc :
  tally_of (fold_left retry_step pending acc)
  = {| in_list := in_list (tally_of acc) + occurrences v pending;
       logged := logged (tally_of acc) + occurrences v pending;
       rounds_ := rounds_ (tally_of acc);
       fetched := fetched (tally_of acc) + occurrences v pending |}.
Proof.
  revert acc. induction pending as [|u pending IH]; intros acc.
  - simpl. change (occurrences v []) with 0%nat. unfold tally_of. simpl. f_equal; lia.
  - simpl fold_left. rewrite IH, retry_step_tally.
    simpl. rewrite occurrences_cons. f_equal; lia.
Qed.

(** One retry round: the venue is fetched once for each of its entries in
    [pending], stays in the queue as often, and one round is logged. *)
Lemma retry_round_body_tally rr pending st :
  tally_of (retry_round_body rr pending st)
  = {| in_list := occurrences v pending;
       logged := attempts v (log st) + occurrences v pending;
       rounds_ := rounds (log st) + 1;
       fetched := calls (world st) + occurrences v pending |}.
Proof.
  unfold retry_round_body, Bms7.retry_round_body. fold retry_step.
  rewrite retry_fold_tally. unfold tally_of. simpl.
  rewrite attempts_app, rounds_app, attempts_one, rounds_one. simpl.
  unfold occurrences at 1. simpl. f_equal; lia.
Qed.

(** The [while] loop from round [rr] on, for a queue that holds [v]: it runs
    the [n] rounds that are left up to [MAX_RETRIES] and then stops. *)
Lemma retry_loop_tally n rr pending st :
  (rr + n = S MAX_RETRIES)%nat →
  (0 < occurrences v pending)%nat →
  tally_of (retry_loop rr pending st)
  = {| in_list := occurrences v pending;
       logged := attempts v (log st) + n * occurrences v pending;
       rounds_ := rounds (log st) + n;
       fetched := calls (world st) + n * occurrences v pending |}.
Proof.
  revert rr pending st. induction n as [|n IH]; intros rr pending st Hrr Hocc.
  - unfold retry_loop. rewrite retry_loop_equation_1.
    destruct (decide (pending ≠ [] ∧ (rr <= MAX_RETRIES)%nat)) as [[Hp Hle]|Hn]; [lia|].
    simpl. unfold tally_of. simpl. f_equal; lia.
  - unfold retry_loop. rewrite retry_loop_equation_1.
    destruct (decide (pending ≠ [] ∧ (rr <= MAX_RETRIES)%nat)) as [Hy|Hn].
    + simpl. fold retry_loop. fold retry_round_body.
      pose proof (retry_round_body_tally rr pending st) as Hb.
      destruct (retry_round_body rr pending st) as [next st'] eqn:Hbody.
      simpl. injection Hb as Hin Hlog Hrounds Hcalls. simpl in *.
      rewrite IH by lia. rewrite Hin, Hlog, Hrounds, Hcalls. f_equal; lia.
    + exfalso. apply Hn. split; [|lia]. intros ->. unfold occurrences in Hocc.
      simpl in Hocc. lia.
Qed.

(** The whole run for a venue of the list that fails on every attempt. *)
Lemma scrape_tally w :
  NoDup (PyDict.keys venues) → v ∈ PyDict.keys venues →
  let run := scrape fetch_api_raw reset_identity sleep now_us strptime_IMp
               DATE_CODE venues w in
  occurrences v run.1 = 1%nat
  ∧ attempts v (log run.2) = (1 + MAX_RETRIES)%nat
  ∧ rounds (log run.2) = MAX_RETRIES
  ∧ calls (world run.2) = (calls w + 1 + MAX_RETRIES)%nat
  ∧ last (log run.2) = Some (LogPermanent MAX_RETRIES (length run.1)).
Proof.
  intros Hnd Hin. unfold scrape, first_pass. fold first_pass_step.
  set (st0 := {| world := w; all_rows := []; log := [] |}).
  pose proof (first_pass_fold_tally
                (zip (seq 1 (length venues)) (PyDict.keys venues)) ([], st0)) as H1.
  rewrite snd_zip in H1
    by (rewrite length_seq; unfold PyDict.keys; by rewrite length_fmap).
  rewrite (occurrences_NoDup v _ Hnd Hin) in H1.
  destruct (fold_left _ _ ([], st0)) as [failed st1].
  unfold tally_of in H1. simpl in H1. injection H1 as Hf Ha Hr Hc.
  assert (failed ≠ []) as Hne.
  { intros ->. unfold occurrences in Hf. simpl in Hf. lia. }
  set (st2 := match failed with
              | [] => st1
              | _ :: _ => log_ (LogRetrying (length failed)) st1
              end).
  assert (attempts v (log st2) = 1%nat ∧ rounds (log st2) = 0%nat
          ∧ calls (world st2) = (calls w + 1)%nat) as (Ha2 & Hr2 & Hc2).
  { unfold st2. destruct failed; [done|]. simpl.
    rewrite attempts_app, rounds_app, attempts_one, rounds_one. simpl.
    change (rounds []) with 0%nat in Hr. lia. }
  fold retry_loop.
  pose proof (retry_loop_tally MAX_RETRIES 1 failed st2 eq_refl) as H2.
  rewrite Hf in H2. specialize (H2 ltac:(lia)).
  destruct (retry_loop 1 failed st2) as [pending st3].
  unfold tally_of in H2. simpl in H2. injection H2 as Hp Ha3 Hr3 Hc3.
  assert (pending ≠ []) as Hpne.
  { intros ->. unfold occurrences in Hp. simpl in Hp. lia. }
  destruct pending as [|p pending]; [done|]. simpl.
  rewrite attempts_app, rounds_app, attempts_one, rounds_one, last_snoc. simpl.
  unfold MAX_RETRIES in *. repeat split; [done | lia | lia | lia].
Qed.
End Run.

End RetryFacts.

(* ===================================================================== *)
(** * Seats, sold seats and gross *)
(* ===================================================================== *)

Module SeatFacts.

(** The figures of one seat category as [parse_payload] reads them. *)
Definition seats_of (c : Bms7.Category) : Z := default 0 (Bms7.MaxSeats c).
Definition free_of (c : Bms7.Category) : Z := default 0 (Bms7.SeatsAvail c).
Definition price_of (c : Bms7.Category) : Py.float :=
  Py.float_ (default (PyInt 0) (Bms7.CurPrice c)).

(** The sum of a list of [int]s. *)
Definition total_of (l : list Z) : Z := foldr Z.add 0 l.

Lemma total_of_snoc l x : total_of (l ++ [x]) = total_of l + x.
Proof. unfold total_of. induction l as [|y l IH]; simpl; lia. Qed.

(** The loop over the categories, figure by figure, from any start. *)
Lemma tiers_from acc cats :
  Bms7.t_total (fold_left Bms7.tier_step cats acc)
  = Bms7.t_total acc + total_of (seats_of <$> cats)
  ∧ Bms7.t_avail (fold_left Bms7.tier_step cats acc)
    = Bms7.t_avail acc + total_of (free_of <$> cats)
  ∧ Bms7.t_sold (fold_left Bms7.tier_step cats acc)
    = Bms7.t_sold acc + total_of ((λ c, seats_of c - free_of c) <$> cats)
  ∧ Bms7.t_gross (fold_left Bms7.tier_step cats acc)
    = fold_left Py.add
        ((λ c, Py.mul (PyInt (seats_of c - free_of c)) (PyFloat (price_of c))) <$> cats)
        (Bms7.t_gross acc).
Proof.
  revert acc. induction cats as [|c cats IH]; intros acc.
  - simpl. unfold total_of. simpl. repeat split; lia.
  - simpl fold_left. destruct (IH (Bms7.tier_step acc c)) as (-> & -> & -> & ->).
    rewrite !fmap_cons. unfold total_of. simpl.
    fold (seats_of c) (free_of c) (price_of c).
    repeat split; try lia.
Qed.

(** In every show of a payload, [sold], [total] and [available] are the sums
    over the seat categories, and the gross is the sum of sold seats times
    price, added up from the [int] 0 in the order of the categories. *)
Lemma tiers_sums cats :
  Bms7.t_total (Bms7.tiers cats) = total_of (seats_of <$> cats)
  ∧ Bms7.t_avail (Bms7.tiers cats) = total_of (free_of <$> cats)
  ∧ Bms7.t_sold (Bms7.tiers cats)
    = total_of ((λ c, seats_of c - free_of c) <$> cats)
  ∧ Bms7.t_gross (Bms7.tiers cats)
    = Py.sum ((λ c, Py.mul (PyInt (seats_of c - free_of c)) (PyFloat (price_of c)))
                <$> cats).
Proof.
  unfold Bms7.tiers.
  destruct (tiers_from {| Bms7.t_total := 0; Bms7.t_sold := 0; Bms7.t_avail := 0;
                          Bms7.t_gross := PyInt 0 |} cats) as (-> & -> & -> & ->).
  simpl. repeat split; lia.
Qed.

Lemma total_of_sub (f g : Bms7.Category → Z) cats :
  total_of ((λ c, f c - g c) <$> cats) = total_of (f <$> cats) - total_of (g <$> cats).
Proof.
  unfold total_of. induction cats as [|c cats IH]; [done|].
  rewrite !fmap_cons. cbn [foldr]. rewrite IH. lia.
Qed.

Lemma tiers_sold_balance cats :
  Bms7.t_sold (Bms7.tiers cats)
  = Bms7.t_total (Bms7.tiers cats) - Bms7.t_avail (Bms7.tiers cats).
Proof.
  destruct (tiers_sums cats) as (-> & -> & -> & _). apply total_of_sub.
Qed.

(** Every show [parse_payload] returns was built by [show_of] from an entry of
    today's date. *)
Lemma parse_payload_shows DATE_CODE data r :
  r ∈ Bms7.parse_payload DATE_CODE data →
  ∃ vn va ch title dim lang sh,
    r = Bms7.show_of vn va ch title dim lang sh
    ∧ Bms7.ShowDateCode sh = Some DATE_CODE.
Proof.
  unfold Bms7.parse_payload. destruct (Bms7.ShowDetails data) as [|sd0 ?].
  - intros Hin. by apply elem_of_nil in Hin.
  - intros (ev & Hin & _)%list_elem_of_bind.
    apply list_elem_of_bind in Hin as (ch & Hin & _).
    apply list_elem_of_bind in Hin as (sh & Hin & _).
    destruct (decide (Bms7.ShowDateCode sh = Some DATE_CODE)) as [Hd|Hd].
    + apply list_elem_of_singleton in Hin. by eexists _, _, _, _, _, _, sh.
    + by apply elem_of_nil in Hin.
Qed.

(** The show-time entries of today's date that [parse_payload] visits: those
    of the first element of [ShowDetails], in the order of the three nested
    loops. *)
Definition dated_entries (DATE_CODE : string) (data : Bms7.Payload)
    : list Bms7.ShowTimeEntry :=
  match Bms7.ShowDetails data with
  | [] => []
  | sd0 :: _ =>
      filter (λ sh, Bms7.ShowDateCode sh = Some DATE_CODE)
        (ev ← Bms7.Events sd0; ch ← Bms7.ChildEvents ev; Bms7.ShowTimes ch)
  end.

(** The show [r] is the show of the entry [sh]: it bears its time, its
    auditorium and its session, and its figures are the sums over all the
    seat categories of the entry, the gross being the sum of sold seats times
    price, added up in floating point in the order of the categories and
    rounded to two decimals. *)
Definition show_figures (r : Bms7.Show) (sh : Bms7.ShowTimeEntry) : Prop :=
  Bms7.time r = PyStr.get_default (Bms7.ShowTime sh) ""
  ∧ Bms7.audi r = PyStr.get_default (Bms7.Attributes sh) ""
  ∧ Bms7.session_id r = PyStr.get_default (Bms7.SessionId sh) ""
  ∧ Bms7.totalSeats r = total_of (seats_of <$> Bms7.Categories sh)
  ∧ Bms7.available r = total_of (free_of <$> Bms7.Categories sh)
  ∧ Bms7.sold r = total_of ((λ c, seats_of c - free_of c) <$> Bms7.Categories sh)
  ∧ Bms7.gross r
    = Py.round
        (Py.sum ((λ c, Py.mul (PyInt (seats_of c - free_of c)) (PyFloat (price_of c)))
                   <$> Bms7.Categories sh)) 2.

Lemma show_of_figures vn va ch title dim lang sh :
  show_figures (Bms7.show_of vn va ch title dim lang sh) sh.
Proof.
  unfold show_figures. simpl.
  destruct (tiers_sums (Bms7.Categories sh)) as (-> & -> & -> & ->). done.
Qed.

(** [parse_payload] returns one show for each entry of today's date, in the
    order of the payload, with the figures of that entry. *)
Lemma parse_payload_figures DATE_CODE data :
  Forall2 show_figures (Bms7.parse_payload DATE_CODE data) (dated_entries DATE_CODE data).
Proof.
  unfold Bms7.parse_payload, dated_entries.
  destruct (Bms7.ShowDetails data) as [|sd0 rest]; [constructor|].
  induction (Bms7.Events sd0) as [|ev evs IHev]; [constructor|].
  rewrite !bind_cons, filter_app. apply Forall2_app; [|exact IHev]. clear IHev.
  induction (Bms7.ChildEvents ev) as [|ch chs IHch]; [constructor|].
  rewrite !bind_cons, filter_app. apply Forall2_app; [|exact IHch]. clear IHch.
  induction (Bms7.ShowTimes ch) as [|sh shs IHsh]; [constructor|].
  rewrite bind_cons, filter_cons.
  destruct (decide (Bms7.ShowDateCode sh = Some DATE_CODE)); [|exact IHsh].
  simpl. constructor; [|exact IHsh]. apply show_of_figures.
Qed.

(** The record of a show balances: sold seats are the total minus the
    available seats. *)
Lemma parse_payload_balance DATE_CODE data r :
  r ∈ Bms7.parse_payload DATE_CODE data →
  Bms7.sold r = Bms7.totalSeats r - Bms7.available r.
Proof.
  intros (vn & va & ch & title & dim & lang & sh & -> & _)%parse_payload_shows.
  simpl. apply tiers_sold_balance.
Qed.

Section District.
Variable clock_of_epoch : Py.float → option string.
Variable clock_of_iso : string → option string.
Variable DATE_CODE : string.

(** Every row of a result was built by [row_of] from a session whose movie
    was found. *)
Lemma rows_of_result_rows res r :
  r ∈ District9.rows_of_result clock_of_epoch clock_of_iso DATE_CODE res →
  ∃ c st vn va m s,
    s ∈ District9.d_sessions (District9.r_data res)
    ∧ r = District9.row_of clock_of_epoch clock_of_iso DATE_CODE c st vn va m s.
Proof.
  unfold District9.rows_of_result.
  intros (s & Hin & Hs)%list_elem_of_bind.
  destruct (District9.find_movie _ s) as [m|]; [|by apply elem_of_nil in Hin].
  destruct (District9.movie_truthy m); [|by apply elem_of_nil in Hin].
  apply list_elem_of_singleton in Hin. by eexists _, _, _, _, m, s.
Qed.

(** The rows [parse] returns are rows of the results. *)
Lemma parse_rows results r :
  r ∈ District9.parse clock_of_epoch clock_of_iso DATE_CODE results →
  ∃ res, res ∈ results
         ∧ r ∈ District9.rows_of_result clock_of_epoch clock_of_iso DATE_CODE res.
Proof.
  unfold District9.parse. rewrite DedupeFacts.district_dedupe. intros Hin.
  eapply elem_of_sublist in Hin; [|apply DedupeFacts.first_wins_sublist].
  apply list_elem_of_bind in Hin as (res & Hin & Hres). by exists res.
Qed.

(** The record of a session balances, and its gross is the sum over the
    areas of sold seats times price, rounded to two decimals. *)
Lemma parse_balance results r :
  r ∈ District9.parse clock_of_epoch clock_of_iso DATE_CODE results →
  District9.sold r = District9.totalSeats r - District9.available r.
Proof.
  intros (res & _ & Hin)%parse_rows.
  by apply rows_of_result_rows in Hin as (c & st & vn & va & m & s & _ & ->).
Qed.

(** The movie of a session is found in the answer, and is not an empty
    object. *)
Definition has_movie (res : District9.Result) (s : District9.Session) : bool :=
  match District9.find_movie
          (District9.movie_map_of (District9.d_movies (District9.r_data res))) s with
  | Some m => District9.movie_truthy m
  | None => false
  end.

(** The sessions of a result whose movie is found, in the order of the
    answer. *)
Definition sessions_with_movie (res : District9.Result) : list District9.Session :=
  filter (λ s, has_movie res s = true) (District9.d_sessions (District9.r_data res)).

(** The row [r] is the row of the session [s]: it bears its time, its
    auditorium and its identifier; its seats, available seats and sold seats
    are those of the totals of the session; and its gross is the sum over all
    the areas of the session of seats sold times price, rounded to two
    decimals. *)
Definition session_figures (r : District9.Row) (s : District9.Session) : Prop :=
  District9.time r = District9.parse_showtime clock_of_epoch clock_of_iso
                       (District9.s_showTime s)
  ∧ District9.audi r = PyStr.get_default (District9.s_audi s) ""
  ∧ District9.session_id r
    = match District9.s_id s with None => "" | x => District9.str_ident x end
  ∧ District9.totalSeats r = default 0 (District9.s_total s)
  ∧ District9.available r = default 0 (District9.s_avail s)
  ∧ District9.sold r = default 0 (District9.s_total s) - default 0 (District9.s_avail s)
  ∧ District9.gross r
    = Py.round
        (Py.sum ((λ a, Py.mul (Py.sub (default (PyInt 0) (District9.sTotal a))
                                      (default (PyInt 0) (District9.sAvail a)))
                              (default (PyInt 0) (District9.price a)))
                   <$> District9.s_areas s)) 2.

(** A result gives one row for each of its sessions whose movie is found, in
    the order of the sessions, with the figures of that session. *)
Lemma rows_of_result_figures res :
  Forall2 session_figures
    (District9.rows_of_result clock_of_epoch clock_of_iso DATE_CODE res)
    (sessions_with_movie res).
Proof.
  unfold District9.rows_of_result, sessions_with_movie.
  induction (District9.d_sessions (District9.r_data res)) as [|s l IH]; [constructor|].
  rewrite bind_cons, filter_cons.
  destruct (decide (has_movie res s = true)) as [Hb|Hb]; unfold has_movie in Hb.
  - destruct (District9.find_movie _ s) as [m|]; [|done]. rewrite Hb. simpl.
    constructor; [|exact IH]. by repeat split.
  - destruct (District9.find_movie _ s) as [m|]; [|exact IH].
    destruct (District9.movie_truthy m); [done|exact IH].
Qed.

(** Every row [parse] returns is the row of a session of a result. *)
Lemma parse_session results r :
  r ∈ District9.parse clock_of_epoch clock_of_iso DATE_CODE results →
  ∃ res s, res ∈ results ∧ s ∈ sessions_with_movie res ∧ session_figures r s.
Proof.
  intros (res & Hres & Hin)%parse_rows. exists res.
  pose proof (rows_of_result_figures res) as Hall.
  apply list_elem_of_lookup in Hin as [i Hi].
  destruct (Forall2_lookup_l _ _ _ _ _ Hall Hi) as (s & Hs & Hrs).
  exists s. split; [done|]. split; [|done]. by eapply list_elem_of_lookup_2.
Qed.

Lemma parse_gross results r :
  r ∈ District9.parse clock_of_epoch clock_of_iso DATE_CODE results →
  ∃ s, District9.gross r
       = Py.round
           (Py.sum ((λ a, Py.mul (Py.sub (default (PyInt 0) (District9.sTotal a))
                                         (default (PyInt 0) (District9.sAvail a)))
                                 (default (PyInt 0) (District9.price a)))
                      <$> District9.s_areas s)) 2
       ∧ District9.sold r
         = default 0 (District9.s_total s) - default 0 (District9.s_avail s).
Proof.
  intros (res & _ & Hin)%parse_rows.
  apply rows_of_result_rows in Hin as (c & st & vn & va & m & s & _ & ->).
  by exists s.
Qed.
End District.

(** The combiner adds the figures of the rows of a movie as they are. *)
Lemma combine_movie_sums rows s mv r :
  Combine.summary_loop [] rows = Some s →
  r ∈ rows → Combine.movie r = mv →
  ∃ m, PyDict.get mv s = Some m
       ∧ Agg.shows (Agg.m_tot m)
         = Z.of_nat (length (filter (λ x, Combine.movie x = mv) rows))
       ∧ Agg.sold (Agg.m_tot m)
         = total_of (Combine.sold <$> filter (λ x, Combine.movie x = mv) rows)
       ∧ Agg.totalSeats (Agg.m_tot m)
         = total_of (Combine.totalSeats <$> filter (λ x, Combine.movie x = mv) rows).
Proof.
  intros -> %GroupFacts.combine_loop_fold Hin Hmv.
  pose proof (GroupFacts.fold_rows_movie GroupFacts.combine_entry [] rows mv) as Hm.
  unfold GroupFacts.of_movie in Hm. simpl in Hm.
  change (λ r0, Combine.movie r0 = mv) with (λ x, Combine.movie x = mv) in Hm.
  assert (r ∈ filter (λ x, Combine.movie x = mv) rows) as Hr
    by (by apply list_elem_of_filter).
  destruct (filter (λ x, Combine.movie x = mv) rows) as [|r0 l] eqn:Hf;
    [by apply elem_of_nil in Hr|].
  destruct (PyDict.get mv (GroupFacts.fold_rows GroupFacts.combine_entry [] rows))
    as [m|]; [|done].
  simpl in Hm. injection Hm as Hm. exists m. split; [done|]. rewrite Hm.
  change (GroupFacts.add_rows GroupFacts.combine_entry
            (GroupFacts.add_entry Agg.fresh (GroupFacts.combine_entry r0)) l)
    with (GroupFacts.add_rows GroupFacts.combine_entry Agg.fresh (r0 :: l)).
  destruct (GroupFacts.add_rows_figures GroupFacts.combine_entry Agg.fresh (r0 :: l))
    as (-> & -> & -> & _).
  simpl Agg.shows. simpl Agg.sold. simpl Agg.totalSeats.
  unfold total_of. rewrite !Z.add_0_l. done.
Qed.

End SeatFacts.

(* ===================================================================== *)
(** * Show times that cannot be read *)
(* ===================================================================== *)

Module TimeFacts.

Section District.
Variable clock_of_epoch : Py.float → option string.
Variable clock_of_iso : string → option string.
Variable DATE_CODE : string.

Let parse_showtime := District9.parse_showtime clock_of_epoch clock_of_iso.
Let parse_showtime_body := District9.parse_showtime_body clock_of_epoch clock_of_iso.
Let row_of := District9.row_of clock_of_epoch clock_of_iso DATE_CODE.
Let parse := District9.parse clock_of_epoch clock_of_iso DATE_CODE.

(** A show time that is there and that the conversion rejects. *)
Definition rejected (show_time : option District9.timeval) : Prop :=
  ∃ x, show_time = Some x ∧ parse_showtime_body x = None.

(** [parse_showtime] returns a string whatever it is given: the converted
    time, or the empty string when the time is missing, zero or rejected. *)
Lemma parse_showtime_total show_time :
  parse_showtime show_time
  = if District9.time_falsy show_time then EmptyString
    else match show_time ≫= parse_showtime_body with
         | Some s => s
         | None => EmptyString
         end.
Proof.
  unfold parse_showtime, District9.parse_showtime.
  destruct (District9.time_falsy show_time); [done|].
  by destruct (show_time ≫= _).
Qed.

Lemma parse_showtime_rejected show_time :
  rejected show_time → parse_showtime show_time = EmptyString.
Proof.
  intros (x & -> & Hx). rewrite parse_showtime_total.
  replace (Some x ≫= parse_showtime_body) with (@None string)
    by (symmetry; exact Hx).
  by destruct (District9.time_falsy (Some x)).
Qed.

(** The session of a known movie yields a row, and [parse] returns a row
    with the same venue, time, session and auditorium. *)
Lemma parse_emits results res s m :
  res ∈ results →
  s ∈ District9.d_sessions (District9.r_data res) →
  District9.find_movie
    (District9.movie_map_of (District9.d_movies (District9.r_data res))) s = Some m →
  District9.movie_truthy m = true →
  ∃ r r',
    r ∈ District9.rows_of_result clock_of_epoch clock_of_iso DATE_CODE res
    ∧ District9.time r = parse_showtime (District9.s_showTime s)
    ∧ r' ∈ parse results
    ∧ District9.key_of r' = District9.key_of r.
Proof.
  intros Hres Hs Hm Ht.
  set (r := row_of
              (PyStr.get_default (District9.v_city (District9.r_venue res)) "Unknown")
              (PyStr.get_default (District9.v_state (District9.r_venue res)) "Unknown")
              (PyStr.or_default (District9.c_name (District9.d_cinema (District9.r_data res)))
                 (PyStr.or_default (District9.v_name (District9.r_venue res)) "Unknown"))
              (PyStr.or_default (District9.c_address (District9.d_cinema (District9.r_data res)))
                 (PyStr.or_default (District9.v_address (District9.r_venue res)) ""))
              m s).
  assert (r ∈ District9.rows_of_result clock_of_epoch clock_of_iso DATE_CODE res) as Hr.
  { unfold District9.rows_of_result. apply list_elem_of_bind. exists s.
    split; [|done]. rewrite Hm, Ht. by apply list_elem_of_singleton. }
  assert (r ∈ results ≫= District9.rows_of_result clock_of_epoch clock_of_iso DATE_CODE)
    as Hall.
  { apply list_elem_of_bind. by exists res. }
  pose proof (DedupeFacts.first_wins_filter District9.key_of ∅
                (results ≫= District9.rows_of_result clock_of_epoch clock_of_iso DATE_CODE)
                (District9.key_of r)) as Hf.
  rewrite decide_False in Hf by apply not_elem_of_empty.
  assert (r ∈ filter (λ x, District9.key_of x = District9.key_of r)
                (results ≫= District9.rows_of_result clock_of_epoch clock_of_iso DATE_CODE))
    as Hin by (by apply list_elem_of_filter).
  destruct (filter _ (results ≫= _)) as [|r' l] eqn:Hl in Hf, Hin;
    [by apply elem_of_nil in Hin|].
  simpl in Hf. exists r, r'. split; [done|]. split; [done|].
  assert (r' ∈ filter (λ x, District9.key_of x = District9.key_of r)
                 (DedupeFacts.first_wins District9.key_of ∅
                    (results ≫= District9.rows_of_result clock_of_epoch clock_of_iso
                                   DATE_CODE))) as Hr'.
  { rewrite Hf. by apply list_elem_of_singleton. }
  apply list_elem_of_filter in Hr' as [Hk Hr'].
  split; [|done]. unfold parse, District9.parse.
  by rewrite DedupeFacts.district_dedupe.
Qed.
End District.

Section Bms.
Context {W : Type}.
Variable fetch_api_raw : string → W → option Bms7.Payload * W.
Variable reset_identity : W → W.
Variable sleep : W → W.
Variable now_us : W → Z.
Variable strptime_IMp : string → option (Z * Z).
Variable DATE_CODE : string.
Variable venues : list (string * Bms7.VenueMeta).

Let minutes_left := Bms7.minutes_left now_us strptime_IMp.
Let keep := Bms7.keep now_us strptime_IMp.
Let rows_of := Bms7.rows_of now_us strptime_IMp DATE_CODE venues.
Let try_venue := Bms7.try_venue fetch_api_raw now_us strptime_IMp DATE_CODE venues.
Let first_pass_step :=
  Bms7.first_pass_step fetch_api_raw reset_identity sleep now_us strptime_IMp
    DATE_CODE venues.
Let retry_step :=
  Bms7.retry_step fetch_api_raw reset_identity sleep now_us strptime_IMp DATE_CODE venues.
Let retry_round_body :=
  Bms7.retry_round_body fetch_api_raw reset_identity sleep now_us strptime_IMp
    DATE_CODE venues.
Let retry_loop :=
  Bms7.retry_loop fetch_api_raw reset_identity sleep now_us strptime_IMp DATE_CODE venues.

(** [minutes_left] returns a number whatever it is given; for a time that
    [strptime] rejects the number is 9999. *)
Lemma minutes_left_unparsed w show_time :
  strptime_IMp show_time = None → minutes_left w show_time = PyInt 9999.
Proof.
  intros Hs. unfold minutes_left, Bms7.minutes_left. by rewrite Hs.
Qed.

(** 9999 minutes are beyond the cut-off: the show is not kept. *)
Lemma keep_unparsed w r :
  strptime_IMp (Bms7.time r) = None → keep w r = false.
Proof.
  intros Hs. unfold keep, Bms7.keep. fold minutes_left.
  by rewrite minutes_left_unparsed.
Qed.

(** The time of a row can be read by [strptime]. *)
Definition readable (row : Bms7.Row) : Prop :=
  is_Some (strptime_IMp (Bms7.time (Bms7.show row))).

Lemma rows_of_readable u w data rows :
  rows_of u w data = Some rows → Forall readable rows.
Proof.
  unfold rows_of, Bms7.rows_of. fold keep.
  set (kept := filter (λ r, keep w r = true) (Bms7.parse_payload DATE_CODE data)).
  assert (Forall (λ r, is_Some (strptime_IMp (Bms7.time r))) kept) as Hk.
  { apply Forall_forall. intros r [Hr _]%list_elem_of_filter.
    destruct (strptime_IMp (Bms7.time r)) eqn:Hs; [done|].
    by rewrite keep_unparsed in Hr. }
  destruct kept as [|r0 kept]; [intros [= <-]; constructor|].
  revert Hk. generalize (r0 :: kept). intros l Hk.
  destruct (PyDict.get u venues) as [meta|]; simpl; [|done].
  intros [= <-]. apply Forall_forall. intros row (r & -> & Hr)%list_elem_of_fmap.
  unfold readable. simpl. by apply (proj1 (Forall_forall _ _) Hk).
Qed.

Definition all_readable (st : @Bms7.RunState W) : Prop :=
  Forall readable (Bms7.all_rows st).

Lemma try_venue_readable u st :
  all_readable st → all_readable (try_venue u st).2.
Proof.
  unfold all_readable, try_venue, Bms7.try_venue. intros Hst.
  destruct (fetch_api_raw u (Bms7.world st)) as [raw w].
  destruct raw as [data|]; simpl; [|done].
  fold rows_of. destruct (rows_of u w data) as [rows|] eqn:Hrows; simpl; [|done].
  apply Forall_app. split; [done|]. by eapply rows_of_readable.
Qed.

Lemma first_pass_step_readable acc iv :
  all_readable acc.2 → all_readable (first_pass_step acc iv).2.
Proof.
  destruct acc as [failed st], iv as [i u]. simpl. intros Hst.
  unfold first_pass_step, Bms7.first_pass_step. fold try_venue.
  pose proof (try_venue_readable u (Bms7.log_ (Bms7.LogVenue i (length venues) u) st) Hst)
    as Ht.
  destruct (try_venue u _) as [ok st']. simpl in Ht. by destruct ok.
Qed.

Lemma retry_step_readable acc u :
  all_readable acc.2 → all_readable (retry_step acc u).2.
Proof.
  destruct acc as [next st]. simpl. intros Hst.
  unfold retry_step, Bms7.retry_step. fold try_venue.
  pose proof (try_venue_readable u (Bms7.log_ (Bms7.LogRetry u) st) Hst) as Ht.
  destruct (try_venue u _) as [ok st']. simpl in Ht. by destruct ok.
Qed.

Lemma fold_readable {A}
    (step : list string * @Bms7.RunState W → A → list string * @Bms7.RunState W)
    (l : list A) acc :
  (∀ acc x, all_readable acc.2 → all_readable (step acc x).2) →
  all_readable acc.2 → all_readable (fold_left step l acc).2.
Proof.
  intros Hstep. revert acc. induction l as [|x l IH]; intros acc Hacc; [done|].
  simpl. by apply IH, Hstep.
Qed.

Lemma retry_round_body_readable rr pending st :
  all_readable st → all_readable (retry_round_body rr pending st).2.
Proof.
  intros Hst. unfold retry_round_body, Bms7.retry_round_body. fold retry_step.
  apply fold_readable; [apply retry_step_readable | done].
Qed.

Lemma retry_loop_readable n rr pending st :
  (S Bms7.MAX_RETRIES - rr <= n)%nat →
  all_readable st → all_readable (retry_loop rr pending st).2.
Proof.
  revert rr pending st. induction n as [|n IH]; intros rr pending st Hn Hst;
    unfold retry_loop; rewrite Bms7.retry_loop_equation_1;
    destruct (decide (pending ≠ [] ∧ (rr <= Bms7.MAX_RETRIES)%nat)) as [[Hp Hle]|Hno];
    simpl; try done; try lia.
  fold retry_loop retry_round_body. apply IH; [lia|].
  by apply retry_round_body_readable.
Qed.

(** No row of a run carries a time that [strptime] rejects: a show with such
    a time never passes the cut-off. *)
Lemma scrape_readable w :
  all_readable
    (Bms7.scrape fetch_api_raw reset_identity sleep now_us strptime_IMp
       DATE_CODE venues w).2.
Proof.
  unfold Bms7.scrape, Bms7.first_pass. fold first_pass_step.
  pose proof (fold_readable first_pass_step
                (zip (seq 1 (length venues)) (PyDict.keys venues))
                ([], {| Bms7.world := w; Bms7.all_rows := []; Bms7.log := [] |})
                first_pass_step_readable) as H1.
  specialize (H1 ltac:(constructor)).
  destruct (fold_left _ _ _) as [failed st1]. simpl in H1.
  set (st2 := match failed with
              | [] => st1
              | _ :: _ => Bms7.log_ (Bms7.LogRetrying (length failed)) st1
              end).
  assert (all_readable st2) as H2 by (unfold st2; by destruct failed).
  fold retry_loop.
  pose proof (retry_loop_readable (S Bms7.MAX_RETRIES) 1 failed st2 ltac:(lia) H2) as H3.
  destruct (retry_loop 1 failed st2) as [pending st3]. simpl in H3.
  by destruct pending.
Qed.
End Bms.

End TimeFacts.

(* ===================================================================== *)
(** * The rows of the combiner *)
(* ===================================================================== *)

Module CombineFacts.

Lemma insert_sorted_elem r x l : x ∈ Combine.insert_sorted r l ↔ x = r ∨ x ∈ l.
Proof.
  induction l as [|y l IH]; cbn [Combine.insert_sorted].
  - rewrite list_elem_of_singleton. split; [by left | intros [?|Hin]; [done|]].
    by apply elem_of_nil in Hin.
  - destruct (Combine.key_le (Combine.sort_key r) (Combine.sort_key y)).
    + apply elem_of_cons.
    + rewrite !elem_of_cons, IH. tauto.
Qed.

(** Sorting neither adds nor drops a row. *)
Lemma sort_elem x l : x ∈ Combine.sort l ↔ x ∈ l.
Proof.
  unfold Combine.sort. induction l as [|y l IH]; simpl; [done|].
  by rewrite insert_sorted_elem, IH, elem_of_cons.
Qed.

Lemma insert_sorted_length r l : length (Combine.insert_sorted r l) = S (length l).
Proof.
  induction l as [|y l IH]; cbn [Combine.insert_sorted]; [done|].
  destruct (Combine.key_le (Combine.sort_key r) (Combine.sort_key y)); simpl;
    [done | by rewrite IH].
Qed.

(** Every final row is a record of some shard, normalised. *)
Lemma final_rows_normalized DATE_CODE shards r :
  r ∈ Combine.final_rows DATE_CODE shards →
  ∃ x, x ∈ concat shards ∧ r = Combine.normalize_row DATE_CODE x.
Proof.
  unfold Combine.final_rows. rewrite sort_elem, DedupeFacts.combine_dedupe. simpl.
  intros Hin. eapply elem_of_sublist in Hin; [|apply DedupeFacts.first_wins_sublist].
  apply list_elem_of_fmap in Hin as (x & -> & Hx). by exists x.
Qed.

(** The rows that fall into the city bucket of a row. *)
Definition bucket_rows (r : Combine.Row) (rows : list Combine.Row) : list Combine.Row :=
  filter (λ x, Combine.movie x = Combine.movie r
               ∧ (Combine.city_key x, Combine.state_key x)
                 = (Combine.city_key r, Combine.state_key r)) rows.

(** The city bucket of a final row in the summary the loop returns: it
    exists, it is the only bucket of the movie under its key, it shows the
    title-cased city and state of the row, and it has counted exactly the
    final rows of the movie with the same lower-cased city and state. *)
Lemma city_bucket_of_row DATE_CODE shards s r :
  Combine.summary_loop [] (Combine.final_rows DATE_CODE shards) = Some s →
  r ∈ Combine.final_rows DATE_CODE shards →
  ∃ m d,
    PyDict.get (Combine.movie r) s = Some m
    ∧ NoDup (PyDict.keys (Agg.City_details m))
    ∧ PyDict.get (Combine.city_key r, Combine.state_key r) (Agg.City_details m) = Some d
    ∧ Agg.city d = Combine.city r
    ∧ Agg.state d = Combine.state r
    ∧ Agg.shows (Agg.c_tot d)
      = Z.of_nat (length (bucket_rows r (Combine.final_rows DATE_CODE shards)))
    ∧ Agg.venues (Agg.c_tot d)
      = list_to_set (Combine.venue <$> bucket_rows r (Combine.final_rows DATE_CODE shards)).
Proof.
  intros -> %GroupFacts.combine_loop_fold Hr.
  set (rows := Combine.final_rows DATE_CODE shards) in *.
  pose proof (GroupFacts.fold_rows_city GroupFacts.combine_entry [] rows
                (Combine.movie r) (Combine.city_key r, Combine.state_key r)) as Hc.
  unfold GroupFacts.hits in Hc. simpl in Hc. fold (bucket_rows r rows) in Hc.
  assert (r ∈ bucket_rows r rows) as Hrb by (by apply list_elem_of_filter).
  destruct (bucket_rows r rows) as [|r0 l] eqn:Hb; [by apply elem_of_nil in Hrb|].
  unfold GroupFacts.city_bucket in Hc.
  destruct (PyDict.get (Combine.movie r) (GroupFacts.fold_rows _ [] rows)) as [m|] eqn:Hm;
    simpl in Hc; [|done].
  exists m. eexists.
  split; [done|]. split.
  { eapply GroupFacts.well_keyed_city; [|exact Hm].
    apply GroupFacts.fold_rows_well_keyed, GroupFacts.well_keyed_nil. }
  split; [exact Hc|]. cbn [Agg.city Agg.state Agg.c_tot].
  change (GroupFacts.add_rows GroupFacts.combine_entry
            (GroupFacts.add_entry Agg.fresh (GroupFacts.combine_entry r0)) l)
    with (GroupFacts.add_rows GroupFacts.combine_entry Agg.fresh (r0 :: l)).
  destruct (GroupFacts.add_rows_figures GroupFacts.combine_entry Agg.fresh (r0 :: l))
    as (-> & _ & _ & ->).
  assert (Combine.city r0 = Combine.city r ∧ Combine.state r0 = Combine.state r)
    as [-> ->].
  { assert (r0 ∈ bucket_rows r rows) as Hr0 by (rewrite Hb; apply elem_of_cons; by left).
    apply list_elem_of_filter in Hr0 as [[_ [= Hck Hsk]] Hr0].
    apply final_rows_normalized in Hr0 as (x0 & _ & ->).
    apply final_rows_normalized in Hr as (x & _ & ->).
    simpl in Hck, Hsk. cbn [Agg.e_city Agg.e_state GroupFacts.combine_entry Combine.entry_of
      Combine.city Combine.state Combine.normalize_row].
    split; by apply StrFacts.lower_title. }
  split; [done|]. split; [done|].
  cbn [Agg.shows Agg.venues Agg.fresh]. split; [lia|].
  change (λ r1, Agg.e_venue (GroupFacts.combine_entry r1)) with Combine.venue.
  apply set_eq. intros v. rewrite elem_of_union. split; [intros [?|Hv]; [done|]|by left].
  by apply not_elem_of_empty in Hv.
Qed.

End CombineFacts.

(* ===================================================================== *)
(** * Concrete inputs *)
(* ===================================================================== *)

(** Inputs on which the definitions above are run in the examples that
    accompany the theorems. *)
Module Examples.

(** A reading of [datetime.strptime(s, "%I:%M %p")] for ASCII strings: an hour
    from 1 to 12 in one or two digits, a colon, a minute in one or two digits,
    white space, and AM or PM in either case. *)
Definition digit_value (c : ascii) : Z := Z.of_N (PyStr.code c - 48).

Definition read_hour (s : string) : option (Z * string) :=
  match s with
  | String c1 (String c2 rest) =>
      if Ascii.eqb c1 "1" && PyStr.is_digit c2 && (digit_value c2 <=? 2)
      then Some (10 + digit_value c2, rest)
      else if Ascii.eqb c1 "0" && PyStr.is_digit c2 && (1 <=? digit_value c2)
      then Some (digit_value c2, rest)
      else if PyStr.is_digit c1 && (1 <=? digit_value c1)
      then Some (digit_value c1, String c2 rest)
      else None
  | String c1 EmptyString =>
      if PyStr.is_digit c1 && (1 <=? digit_value c1)
      then Some (digit_value c1, EmptyString) else None
  | EmptyString => None
  end.

Definition read_minute (s : string) : option (Z * string) :=
  match s with
  | String c1 (String c2 rest) =>
      if PyStr.is_digit c1 && (digit_value c1 <=? 5) && PyStr.is_digit c2
      then Some (10 * digit_value c1 + digit_value c2, rest)
      else if PyStr.is_digit c1 then Some (digit_value c1, String c2 rest)
      else None
  | String c1 EmptyString =>
      if PyStr.is_digit c1 then Some (digit_value c1, EmptyString) else None
  | EmptyString => None
  end.

Definition strptime_12h (s : string) : option (Z * Z) :=
  '(h, s1) ← read_hour s;
  match s1 with
  | String ":" s2 =>
      '(m, s3) ← read_minute s2;
      match s3 with
      | String c s4 =>
          if PyStr.is_space c then
            let h12 := if h =? 12 then 0 else h in
            match PyStr.lower (PyStr.lstrip s4) with
            | "am"%string => Some (h12, m)
            | "pm"%string => Some (h12 + 12, m)
            | _ => None
            end
          else None
      | EmptyString => None
      end
  | _ => None
  end.

(** ** A snapshot and the rows of a run *)

Definition show_a : Bms7.Show :=
  {| Bms7.movie := "Dune"; Bms7.venue := "PVR Forum"; Bms7.address := "Koramangala";
     Bms7.language := "English"; Bms7.dimension := "2D"; Bms7.chain := "PVR";
     Bms7.time := "07:30 PM"; Bms7.audi := "AUDI 1"; Bms7.session_id := "101";
     Bms7.totalSeats := 100; Bms7.available := 60; Bms7.sold := 40;
     Bms7.gross := PyFloat (Py.lit 8000) |}.

(** The same show seen by a later run, with more seats sold. *)
Definition show_a' : Bms7.Show :=
  {| Bms7.movie := "Dune"; Bms7.venue := "PVR Forum"; Bms7.address := "Koramangala";
     Bms7.language := "English"; Bms7.dimension := "2D"; Bms7.chain := "PVR";
     Bms7.time := "07:30 PM"; Bms7.audi := "AUDI 1"; Bms7.session_id := "101";
     Bms7.totalSeats := 100; Bms7.available := 10; Bms7.sold := 90;
     Bms7.gross := PyFloat (Py.lit 18000) |}.

Definition show_b : Bms7.Show :=
  {| Bms7.movie := "Dune"; Bms7.venue := "INOX Garuda"; Bms7.address := "Magrath Road";
     Bms7.language := "English"; Bms7.dimension := "IMAX"; Bms7.chain := "INOX";
     Bms7.time := "09:00 PM"; Bms7.audi := "AUDI 3"; Bms7.session_id := "202";
     Bms7.totalSeats := 80; Bms7.available := 80; Bms7.sold := 0;
     Bms7.gross := PyFloat (Py.lit 0) |}.

Definition show_c : Bms7.Show :=
  {| Bms7.movie := "Pushpa"; Bms7.venue := "Cinepolis"; Bms7.address := "Binnypet";
     Bms7.language := "Telugu"; Bms7.dimension := "2D"; Bms7.chain := "Cinepolis";
     Bms7.time := "06:15 PM"; Bms7.audi := "SCREEN 2"; Bms7.session_id := "303";
     Bms7.totalSeats := 50; Bms7.available := 1; Bms7.sold := 49;
     Bms7.gross := PyFloat (Py.lit 9800) |}.

Definition row_with (s : Bms7.Show) (mins : Z) : Bms7.Row :=
  {| Bms7.show := s; Bms7.mins_left := PyFloat (Py.lit mins);
     Bms7.city := "Bengaluru"; Bms7.state := "Karnataka";
     Bms7.date := "20260101"; Bms7.source := "BMS" |}.

(** The snapshot of an earlier run: shows [a] and [b]; the record of [b]
    carries a field that the scraper does not write. *)
Definition old_snapshot : list (gmap string Bms7.value) :=
  [ Bms7.row_dict (row_with show_a 180);
    <["note" := Bms7.VStr "kept by hand"]> (Bms7.row_dict (row_with show_b 190)) ].

(** The rows of the new run: show [a] again, twice, and the new show [c]. *)
Definition new_rows : list Bms7.Row :=
  [ row_with show_a 120; row_with show_a' 60; row_with show_c 30 ].

(** ** Rows of the District parser and of the combiner *)

Definition district_row (city_ venue_ sid : string) (total sold_ : Z) : District9.Row :=
  {| District9.movie := "Dune"; District9.city := city_; District9.state := "Maharashtra";
     District9.venue := venue_; District9.address := ""; District9.time := "07:30 PM";
     District9.audi := "AUDI 1"; District9.session_id := sid;
     District9.totalSeats := total; District9.available := total - sold_;
     District9.sold := sold_; District9.gross := PyInt 0;
     District9.language := "ENGLISH"; District9.dimension := "2D";
     District9.source := "District"; District9.date := "20260101" |}.

Definition raw_row (city_ venue_ sid : string) (total sold_ : Z) : Combine.RawRow :=
  {| Combine.raw_movie := Some "Dune"%string; Combine.raw_city := Some city_;
     Combine.raw_state := Some "Maharashtra"%string; Combine.raw_venue := Some venue_;
     Combine.raw_address := None; Combine.raw_time := Some "07:30 PM"%string;
     Combine.raw_audi := Some "AUDI 1"%string; Combine.raw_session_id := Some sid;
     Combine.raw_source := Some "District"%string; Combine.raw_date := None;
     Combine.raw_language := Some "English"%string; Combine.raw_dimension := Some "2d"%string;
     Combine.raw_totalSeats := Some total; Combine.raw_available := Some (total - sold_);
     Combine.raw_sold := Some sold_; Combine.raw_gross := Some (PyInt 0) |}.

(** ** Clocks

    A reading of the two conversions of [parse_showtime] for well-formed
    inputs: the time of day in IST (UTC + 5:30), printed as ["%I:%M %p"]. *)
Definition digit_char (d : Z) : ascii := ascii_of_N (48 + Z.to_N d).

Definition two_digits (n : Z) : string :=
  String (digit_char (n / 10)) (String (digit_char (n mod 10)) EmptyString).

(** The minute of the day [mins] (0 to 1439) on a 12-hour clock. *)
Definition clock_string (mins : Z) : string :=
  let h := mins / 60 in
  let h12 := if h mod 12 =? 0 then 12 else h mod 12 in
  let half : string := if h <? 12 then "AM" else "PM" in
  String.append (two_digits h12)
    (String ":" (String.append (two_digits (mins mod 60)) (String " " half))).

(** An epoch in seconds, for the years 1970 to 9999. *)
Definition epoch_clock (ts : Py.float) : option string :=
  secs ← Py.float_trunc ts;
  if (0 <=? secs) && (secs <? 253402300800)
  then Some (clock_string (((secs + 19800) / 60) mod 1440))
  else None.

Definition number_at (s : string) (i : nat) : option Z :=
  match String.get i s, String.get (S i) s with
  | Some a, Some b =>
      if PyStr.is_digit a && PyStr.is_digit b
      then Some (10 * digit_value a + digit_value b) else None
  | _, _ => None
  end.

(** A zero-padded ISO date and time, ["YYYY-MM-DDTHH:MM"], read as UTC. *)
Definition iso_clock (s : string) : option string :=
  if negb (Nat.eqb (String.length s) 16) then None else
  match String.get 4 s, String.get 7 s, String.get 10 s, String.get 13 s with
  | Some "-"%char, Some "-"%char, Some "T"%char, Some ":"%char =>
      _ ← number_at s 0; _ ← number_at s 2;
      mo ← number_at s 5; d ← number_at s 8;
      h ← number_at s 11; m ← number_at s 14;
      if (1 <=? mo) && (mo <=? 12) && (1 <=? d) && (d <=? 31) && (h <? 24) && (m <? 60)
      then Some (clock_string ((h * 60 + m + 330) mod 1440))
      else None
  | _, _, _, _ => None
  end.

(** ** A District venue

    A session of the movie 7 with the two areas of the gross example of the
    specification, and the totals [total] and [avail] of the session. *)
Definition district_session (id_ : Z) (t : string) (total avail : Z)
    : District9.Session :=
  {| District9.s_mid := Some (District9.IdInt 7);
     District9.s_lang := Some "Hindi"%string;
     District9.s_scrnFmt := Some "3D-IMAX"%string;
     District9.s_total := Some total; District9.s_avail := Some avail;
     District9.s_areas :=
       [ {| District9.sTotal := Some (PyInt 50); District9.sAvail := Some (PyInt 10);
            District9.price := Some (PyInt 200) |};
         {| District9.sTotal := Some (PyInt 30); District9.sAvail := Some (PyInt 30);
            District9.price := Some (PyInt 150) |} ];
     District9.s_showTime := Some (District9.TStr t);
     District9.s_audi := Some "AUDI 2"%string;
     District9.s_id := Some (District9.IdInt id_) |}.

Definition district_movie : District9.Movie :=
  {| District9.m_id := Some (District9.IdInt 7); District9.m_name := Some "Dune"%string;
     District9.m_lang := None; District9.m_other := false |}.

Definition district_result (sessions : list District9.Session) : District9.Result :=
  {| District9.r_venue :=
       {| District9.v_city := Some "Pune"%string; District9.v_state := None;
          District9.v_name := Some "City Pride"%string; District9.v_address := None |};
     District9.r_data :=
       {| District9.d_cinema := {| District9.c_name := None; District9.c_address := None |};
          District9.d_movies := [district_movie];
          District9.d_sessions := sessions |} |}.

(** ** A BMS venue with one show of today *)

Definition tier (seats free price : Z) : Bms7.Category :=
  {| Bms7.MaxSeats := Some seats; Bms7.SeatsAvail := Some free;
     Bms7.CurPrice := Some (PyInt price) |}.

Definition bms_payload (show_time : string) (cats : list Bms7.Category) : Bms7.Payload :=
  {| Bms7.ShowDetails :=
       [ {| Bms7.Venues := {| Bms7.VenueName := Some "PVR Forum"%string;
                              Bms7.VenueAdd := Some "Koramangala"%string;
                              Bms7.VenueCompName := Some "PVR"%string |};
            Bms7.Events :=
              [ {| Bms7.EventTitle := Some "Dune"%string;
                   Bms7.ChildEvents :=
                     [ {| Bms7.EventDimension := Some "2D"%string;
                          Bms7.EventLanguage := Some "English"%string;
                          Bms7.ShowTimes :=
                            [ {| Bms7.ShowDateCode := Some "20260101"%string;
                                 Bms7.Categories := cats;
                                 Bms7.ShowTime := Some show_time;
                                 Bms7.Attributes := Some "AUDI 1"%string;
                                 Bms7.SessionId := Some "101"%string |} ] |} ] |} ] |} ] |}.

(** The two seat tiers of the gross example of the specification. *)
Definition two_tiers : list Bms7.Category := [tier 50 10 200; tier 30 30 150].

(** A run of the scraper over one venue that answers with [payload], while
    the clock reads 18:00. *)
Definition one_venue : list (string * Bms7.VenueMeta) :=
  [ ("V1"%string, {| Bms7.City := Some "Bengaluru"%string;
                     Bms7.State := Some "Karnataka"%string |}) ].

Definition run_at_six (payload : Bms7.Payload) : list string * @Bms7.RunState unit :=
  Bms7.scrape (λ _ w, (Some payload, w)) id id (λ _, 18 * 3600 * 1000000)
    strptime_12h "20260101" one_venue tt.

(** The record of a shard file that a row of a run becomes. *)
Definition raw_of_row (r : Bms7.Row) : Combine.RawRow :=
  let s := Bms7.show r in
  {| Combine.raw_movie := Some (Bms7.movie s); Combine.raw_city := Some (Bms7.city r);
     Combine.raw_state := Some (Bms7.state r); Combine.raw_venue := Some (Bms7.venue s);
     Combine.raw_address := Some (Bms7.address s); Combine.raw_time := Some (Bms7.time s);
     Combine.raw_audi := Some (Bms7.audi s);
     Combine.raw_session_id := Some (Bms7.session_id s);
     Combine.raw_source := Some (Bms7.source r); Combine.raw_date := Some (Bms7.date r);
     Combine.raw_language := Some (Bms7.language s);
     Combine.raw_dimension := Some (Bms7.dimension s);
     Combine.raw_totalSeats := Some (Bms7.totalSeats s);
     Combine.raw_available := Some (Bms7.available s);
     Combine.raw_sold := Some (Bms7.sold s);
     Combine.raw_gross := Some (Bms7.gross s) |}.

End Examples.


(* ===================================================================== *)
(** * More on strings: trimming twice, case, replaced characters *)
(* ===================================================================== *)

Module TextFacts.
Import PyStr.

Lemma lstrip_head s c s' : lstrip s = String c s' → is_space c = false.
Proof.
  induction s as [|a s IH]; simpl; [done|].
  destruct (is_space a) eqn:Ha; [exact IH|]. by intros [= <- _].
Qed.

Lemma lstrip_fixed c s : is_space c = false → lstrip (String c s) = String c s.
Proof. intros Hc. simpl. by rewrite Hc. Qed.

Lemma rstrip_head c s :
  is_space c = false → ∃ r, rstrip (String c s) = String c r.
Proof.
  intros Hc. simpl. destruct (rstrip s) as [|d r]; [|by eexists].
  rewrite Hc. by eexists.
Qed.

Lemma rstrip_idem s : rstrip (rstrip s) = rstrip s.
Proof.
  induction s as [|c s IH]; [done|]. simpl.
  destruct (rstrip s) as [|d r] eqn:Hr.
  - destruct (is_space c) eqn:Hc; [done|]. simpl. by rewrite Hc.
  - simpl. simpl in IH. by rewrite IH.
Qed.

(** Trimming a trimmed string changes nothing. *)
Lemma strip_idem s : strip (strip s) = strip s.
Proof.
  unfold strip. destruct (lstrip s) as [|c t] eqn:Ht; [done|].
  pose proof (lstrip_head _ _ _ Ht) as Hc.
  destruct (rstrip_head c t Hc) as [r Hr]. rewrite Hr.
  rewrite lstrip_fixed by done. rewrite <- Hr. apply rstrip_idem.
Qed.

(** A string of white space trims to the empty string. *)
Lemma strip_blank w : StrFacts.blank w = true → strip w = EmptyString.
Proof.
  intros Hw. unfold strip.
  replace (lstrip w) with EmptyString; [done|].
  induction w as [|c w IH]; [done|]. simpl in *.
  apply andb_true_iff in Hw as [-> Hw]. by apply IH.
Qed.

Lemma lower_title_char prev c : lower_char (StrFacts.title_char prev c) = lower_char c.
Proof. destruct prev; StrFacts.each_char c. Qed.

Lemma lower_title_from prev s : lower (title_from prev s) = lower s.
Proof.
  revert prev. induction s as [|c s IH]; intros prev; [done|].
  rewrite StrFacts.title_from_cons. simpl. by rewrite lower_title_char, IH.
Qed.

(** Title case and lower case agree up to case: the lower-cased title is the
    lower-cased string. *)
Lemma lower_of_title s : lower (title s) = lower s.
Proof. apply lower_title_from. Qed.

Lemma upper_lower_char c : upper_char (lower_char c) = upper_char c.
Proof. StrFacts.each_char c. Qed.

Lemma upper_char_idem c : upper_char (upper_char c) = upper_char c.
Proof. StrFacts.each_char c. Qed.

Lemma is_lower_upper_char c : is_lower (upper_char c) = false.
Proof. StrFacts.each_char c. Qed.

Lemma caseless_upper a b : StrFacts.caseless a b → upper a = upper b.
Proof.
  induction 1 as [|c1 c2 s1 s2 Hc _ IH]; [done|]. simpl.
  rewrite <- (upper_lower_char c1), <- (upper_lower_char c2), Hc, IH. done.
Qed.

Lemma lower_upper_char c : lower_char (upper_char c) = lower_char c.
Proof. StrFacts.each_char c. Qed.

Lemma upper_caseless a b : upper a = upper b → StrFacts.caseless a b.
Proof.
  revert b. induction a as [|c a IH]; intros [|d b]; simpl; try done.
  - constructor.
  - intros [= Hc Hs]. constructor; [|by apply IH].
    by rewrite <- (lower_upper_char c), Hc, lower_upper_char.
Qed.

Lemma upper_idem s : upper (upper s) = upper s.
Proof. induction s as [|c s IH]; [done|]. simpl. by rewrite upper_char_idem, IH. Qed.

(** [c in s] for a character [c]. *)
Fixpoint occurs (c : ascii) (s : string) : bool :=
  match s with
  | EmptyString => false
  | String a s' => Ascii.eqb a c || occurs c s'
  end.

Lemma occurs_app c s1 s2 : occurs c (s1 ++ s2) = occurs c s1 || occurs c s2.
Proof.
  induction s1 as [|a s1 IH]; [done|]. simpl. rewrite IH. by rewrite orb_assoc.
Qed.

(** After [s.replace(c, new)] no [c] is left, when [new] holds none. *)
Lemma occurs_replace_char c new s :
  occurs c new = false → occurs c (replace_char c new s) = false.
Proof.
  intros Hnew. induction s as [|a s IH]; [done|]. simpl.
  destruct (Ascii.eqb a c) eqn:Ha.
  - rewrite occurs_app, Hnew, IH. done.
  - simpl. by rewrite Ha, IH.
Qed.

(** A string without [c] is left as it is. *)
Lemma replace_char_absent c new s :
  occurs c s = false → replace_char c new s = s.
Proof.
  induction s as [|a s IH]; [done|]. simpl.
  intros [Ha Hs]%orb_false_iff. rewrite Ha. by rewrite IH.
Qed.

Lemma truthy_or_default o d : truthy d = true → truthy (or_default o d) = true.
Proof.
  intros Hd. destruct o as [s|]; simpl; [|done].
  by destruct (truthy s) eqn:Hs.
Qed.

End TextFacts.

(* ===================================================================== *)
(** * The order of the final rows *)
(* ===================================================================== *)

Module SortFacts.

Lemma ascii_compare_refl c : Ascii.compare c c = Eq.
Proof. unfold Ascii.compare. apply N.compare_refl. Qed.

Lemma ascii_compare_lt_trans a b c :
  Ascii.compare a b = Lt → Ascii.compare b c = Lt → Ascii.compare a c = Lt.
Proof.
  unfold Ascii.compare. rewrite !N.compare_lt_iff. apply N.lt_trans.
Qed.

Lemma string_compare_refl s : String.compare s s = Eq.
Proof.
  induction s as [|c s IH]; [done|]. simpl. by rewrite ascii_compare_refl.
Qed.

Lemma string_compare_lt_trans s1 s2 s3 :
  String.compare s1 s2 = Lt → String.compare s2 s3 = Lt → String.compare s1 s3 = Lt.
Proof.
  revert s2 s3. induction s1 as [|a s1 IH]; intros [|b s2] [|c s3]; simpl; try done.
  destruct (Ascii.compare a b) eqn:Hab; try done.
  - apply Ascii.compare_eq_iff in Hab as ->.
    destruct (Ascii.compare b c) eqn:Hbc; try done. apply IH.
  - destruct (Ascii.compare b c) eqn:Hbc; try done.
    + apply Ascii.compare_eq_iff in Hbc as <-. by rewrite Hab.
    + by rewrite (ascii_compare_lt_trans _ _ _ Hab Hbc).
Qed.

Lemma string_compare_gt_lt s1 s2 :
  String.compare s1 s2 = Gt → String.compare s2 s1 = Lt.
Proof. intros H. rewrite String.compare_antisym, H. done. Qed.

(** [<=] on tuples of strings is reflexive, total, transitive and
    antisymmetric. *)
Lemma key_le_refl a : Combine.key_le a a = true.
Proof.
  induction a as [|x a IH]; [done|]. simpl. by rewrite string_compare_refl.
Qed.

Lemma key_le_total a b : Combine.key_le a b = false → Combine.key_le b a = true.
Proof.
  revert b. induction a as [|x a IH]; intros [|y b]; simpl; try done.
  destruct (String.compare x y) eqn:Hxy; try done.
  - apply String.compare_eq_iff in Hxy as ->. rewrite string_compare_refl. apply IH.
  - intros _. by rewrite (string_compare_gt_lt _ _ Hxy).
Qed.

Lemma key_le_trans a b c :
  Combine.key_le a b = true → Combine.key_le b c = true → Combine.key_le a c = true.
Proof.
  revert b c. induction a as [|x a IH]; intros [|y b] [|z c]; simpl; try done.
  destruct (String.compare x y) eqn:Hxy; try done.
  - apply String.compare_eq_iff in Hxy as ->.
    destruct (String.compare y z) eqn:Hyz; try done. apply IH.
  - intros _. destruct (String.compare y z) eqn:Hyz; try done.
    + apply String.compare_eq_iff in Hyz as <-. by rewrite Hxy.
    + by rewrite (string_compare_lt_trans _ _ _ Hxy Hyz).
Qed.

Lemma key_le_antisym a b :
  Combine.key_le a b = true → Combine.key_le b a = true → a = b.
Proof.
  revert b. induction a as [|x a IH]; intros [|y b]; simpl; try done.
  destruct (String.compare x y) eqn:Hxy; try done.
  - apply String.compare_eq_iff in Hxy as ->. rewrite string_compare_refl.
    intros H1 H2. f_equal. by apply IH.
  - rewrite String.compare_antisym, Hxy. done.
Qed.

(** The order of two rows in the sort. *)
Definition row_le (a b : Combine.Row) : Prop :=
  Combine.key_le (Combine.sort_key a) (Combine.sort_key b) = true.

Lemma insert_sorted_perm r l : Combine.insert_sorted r l ≡ₚ r :: l.
Proof.
  induction l as [|x l IH]; [done|]. cbn [Combine.insert_sorted].
  destruct (Combine.key_le (Combine.sort_key r) (Combine.sort_key x)); [done|].
  rewrite IH. apply Permutation_swap.
Qed.

Lemma sort_perm l : Combine.sort l ≡ₚ l.
Proof.
  induction l as [|x l IH]; [done|]. unfold Combine.sort in *. cbn [foldr].
  rewrite insert_sorted_perm. by rewrite IH.
Qed.

Lemma insert_sorted_sorted r l :
  StronglySorted row_le l → StronglySorted row_le (Combine.insert_sorted r l).
Proof.
  induction 1 as [|x l Hl IH Hx]; [repeat constructor|].
  cbn [Combine.insert_sorted].
  destruct (Combine.key_le (Combine.sort_key r) (Combine.sort_key x)) eqn:Hrx.
  - constructor; [by constructor|]. constructor; [done|].
    eapply Forall_impl; [exact Hx|]. intros y Hy. by eapply key_le_trans.
  - constructor; [done|].
    apply Forall_forall. intros y Hy. apply CombineFacts.insert_sorted_elem in Hy as [->|Hy].
    + by apply key_le_total.
    + by eapply Forall_forall in Hx.
Qed.

Lemma sort_sorted l : StronglySorted row_le (Combine.sort l).
Proof.
  induction l as [|x l IH]; [constructor|]. unfold Combine.sort in *. cbn [foldr].
  by apply insert_sorted_sorted.
Qed.

(** The sort is stable: rows with the same sort key keep their order. *)
Lemma insert_sorted_stable k r l :
  filter (λ x, Combine.sort_key x = k) (Combine.insert_sorted r l)
  = filter (λ x, Combine.sort_key x = k) (r :: l).
Proof.
  induction l as [|x l IH]; [done|]. cbn [Combine.insert_sorted].
  destruct (Combine.key_le (Combine.sort_key r) (Combine.sort_key x)) eqn:Hrx; [done|].
  rewrite filter_cons, IH, !filter_cons.
  destruct (decide (Combine.sort_key x = k)) as [Hx|Hx];
    destruct (decide (Combine.sort_key r = k)) as [Hr|Hr]; try done.
  rewrite Hx, Hr, key_le_refl in Hrx. done.
Qed.

Lemma sort_stable k l :
  filter (λ x, Combine.sort_key x = k) (Combine.sort l)
  = filter (λ x, Combine.sort_key x = k) l.
Proof.
  induction l as [|x l IH]; [done|]. unfold Combine.sort in *. cbn [foldr].
  rewrite insert_sorted_stable, !filter_cons, IH. done.
Qed.

(** What the sort keeps: the rows, and with them the identity keys. *)
Lemma sort_NoDup_keys l :
  NoDup (Combine.key_of <$> l) → NoDup (Combine.key_of <$> Combine.sort l).
Proof.
  intros H. by rewrite sort_perm.
Qed.

(** A part of a sorted list is sorted, and a sorted list without repetition
    is strictly sorted. *)
Lemma sorted_sublist {A : Type} (R : relation A) (l k : list A) :
  l `sublist_of` k → StronglySorted R k → StronglySorted R l.
Proof.
  induction 1 as [|x l k Hlk IH|x l k Hlk IH]; intros Hk; [done| |].
  - apply StronglySorted_inv in Hk as [Hk Hx]. constructor; [by apply IH|].
    apply Forall_forall. intros y Hy. eapply Forall_forall in Hx; [done|].
    by eapply elem_of_sublist.
  - apply StronglySorted_inv in Hk as [Hk _]. by apply IH.
Qed.

Lemma sorted_strict {A : Type} (R : relation A) (l : list A) :
  StronglySorted R l → NoDup l → StronglySorted (λ a b, R a b ∧ a ≠ b) l.
Proof.
  induction 1 as [|x l Hl IH Hx]; intros Hnd; [constructor|].
  apply NoDup_cons in Hnd as [Hxl Hnd]. constructor; [by apply IH|].
  apply Forall_forall. intros y Hy. split; [by eapply Forall_forall in Hx|].
  by intros ->.
Qed.

(** [a < b] on strings. *)
Definition str_lt (a b : string) : Prop := String.compare a b = Lt.

Lemma row_le_movie a b :
  row_le a b → Combine.movie a ≠ Combine.movie b →
  str_lt (Combine.movie a) (Combine.movie b).
Proof.
  unfold row_le, str_lt, Combine.sort_key. simpl.
  destruct (String.compare (Combine.movie a) (Combine.movie b)) eqn:Hc; try done.
  apply String.compare_eq_iff in Hc. done.
Qed.

End SortFacts.

(* ===================================================================== *)
(** * De-duplication, once more *)
(* ===================================================================== *)

Module DedupeMore.
Import DedupeFacts.

Section Generic.
Context {A K : Type} `{!EqDecision K, !Countable K} (key : A → K).

(** Rows with distinct keys, none of them seen before, are all kept. *)
Lemma first_wins_distinct seen rows :
  NoDup (key <$> rows) → (∀ r, r ∈ rows → key r ∉ seen) →
  first_wins key seen rows = rows.
Proof.
  revert seen. induction rows as [|r rows IH]; intros seen Hnd Hseen; [done|].
  rewrite fmap_cons in Hnd. apply NoDup_cons in Hnd as [Hr Hnd]. simpl.
  rewrite decide_False by (apply Hseen; apply elem_of_cons; by left).
  f_equal. apply IH; [done|]. intros r' Hr'.
  intros [Hk%elem_of_singleton|Hk]%elem_of_union.
  - apply Hr. apply list_elem_of_fmap. by exists r'.
  - revert Hk. apply Hseen. apply elem_of_cons. by right.
Qed.

Lemma first_wins_idem rows :
  first_wins key ∅ (first_wins key ∅ rows) = first_wins key ∅ rows.
Proof.
  apply first_wins_distinct; [apply first_wins_NoDup|].
  intros r _. apply not_elem_of_empty.
Qed.

(** The keys that are kept, in the order in which they are first seen. *)
Lemma first_wins_keys seen rows :
  key <$> first_wins key seen rows = first_wins id seen (key <$> rows).
Proof.
  revert seen. induction rows as [|r rows IH]; intros seen; [done|].
  rewrite fmap_cons. simpl. case_decide; [apply IH|].
  rewrite fmap_cons. f_equal. apply IH.
Qed.
End Generic.

End DedupeMore.

(* ===================================================================== *)
(** * What every summary keeps *)
(* ===================================================================== *)

Module SummaryFacts.
Import OccupancyFacts GroupFacts.

Section Upsert.
Context {K : Type} `{EqDecision K} {V : Type}.

(** A property of the entries of a dictionary that the update of one bucket
    keeps. *)
Lemma upsert_Forall (P : K → V → Prop) (k : K) (new : V) g d :
  Forall (λ kv, P kv.1 kv.2) d →
  P k (g new) → (∀ v, P k v → P k (g v)) →
  Forall (λ kv, P kv.1 kv.2) (Agg.upsert k new g d).
Proof.
  intros Hd Hnew Hg. apply Forall_forall. intros [k' v'] Hin.
  apply PyDictFacts.elem_of_set in Hin as [[-> ->]|Hin].
  - simpl. destruct (PyDict.get k d) as [v0|] eqn:Hget; simpl; [|done].
    apply Hg. apply PyDictFacts.get_Some_elem in Hget.
    by apply (proj1 (Forall_forall _ _) Hd (k, v0)).
  - by apply (proj1 (Forall_forall _ _) Hd (k', v')).
Qed.

(** The sum of a figure over the buckets of a dictionary grows by what the
    updated bucket gains. *)
Lemma set_total (f : V → Z) (k : K) (v : V) d :
  SeatFacts.total_of (f <$> PyDict.values (PyDict.set k v d))
  = SeatFacts.total_of (f <$> PyDict.values d) + f v
    - default 0 (f <$> PyDict.get k d).
Proof.
  unfold SeatFacts.total_of, PyDict.values.
  induction d as [|[k' v'] d IH]; cbn [PyDict.set PyDict.get].
  - simpl. lia.
  - destruct (decide (k' = k)) as [->|Hne].
    + rewrite !fmap_cons. simpl. lia.
    + rewrite !fmap_cons. cbn [foldr snd]. rewrite IH. simpl. lia.
Qed.

Lemma upsert_total (f : V → Z) (δ : Z) (k : K) (new : V) g d :
  f new = 0 → (∀ v, f (g v) = f v + δ) →
  SeatFacts.total_of (f <$> PyDict.values (Agg.upsert k new g d))
  = SeatFacts.total_of (f <$> PyDict.values d) + δ.
Proof.
  intros Hnew Hg. unfold Agg.upsert. rewrite set_total, Hg.
  destruct (PyDict.get k d) as [v0|]; simpl; lia.
Qed.
End Upsert.

(** The update of the bucket of a movie by one record. *)
Definition step (e : Agg.Entry) (m : Agg.MovieBucket) : Agg.MovieBucket :=
  {| Agg.m_tot := add_entry (Agg.m_tot m) e;
     Agg.cities := {[ Agg.e_city_member e ]} ∪ Agg.cities m;
     Agg.City_details :=
       Agg.upsert (Agg.e_ck e)
         {| Agg.city := Agg.e_city e; Agg.state := Agg.e_state e; Agg.c_tot := Agg.fresh |}
         (λ d, {| Agg.city := Agg.city d; Agg.state := Agg.state d;
                  Agg.c_tot := add_entry (Agg.c_tot d) e |})
         (Agg.City_details m);
     Agg.Language_details :=
       Agg.upsert (Agg.e_lang e) {| Agg.language := Agg.e_lang e; Agg.l_tot := Agg.fresh |}
         (λ l, {| Agg.language := Agg.language l; Agg.l_tot := add_entry (Agg.l_tot l) e |})
         (Agg.Language_details m);
     Agg.Format_details :=
       Agg.upsert (Agg.e_dim e) {| Agg.dimension := Agg.e_dim e; Agg.f_tot := Agg.fresh |}
         (λ f, {| Agg.dimension := Agg.dimension f; Agg.f_tot := add_entry (Agg.f_tot f) e |})
         (Agg.Format_details m) |}.

Lemma accumulate_step s e :
  Agg.accumulate s e = Agg.upsert (Agg.e_movie e) Agg.fresh_movie (step e) s.
Proof. reflexivity. Qed.

Section Fold.
Context {R : Type} (ent : R → Agg.Entry).

(** A property of the movie buckets that holds after the first record of a
    movie and that every further record keeps, holds in the end. *)
Lemma fold_rows_inv (P : string → Agg.MovieBucket → Prop) s rows :
  (∀ r, r ∈ rows → P (Agg.e_movie (ent r)) (step (ent r) Agg.fresh_movie)) →
  (∀ r m, r ∈ rows → P (Agg.e_movie (ent r)) m → P (Agg.e_movie (ent r)) (step (ent r) m)) →
  Forall (λ kv, P kv.1 kv.2) s →
  Forall (λ kv, P kv.1 kv.2) (fold_rows ent s rows).
Proof.
  revert s. induction rows as [|r rows IH]; intros s Hnew Hstep Hs; [done|].
  unfold fold_rows in *. simpl. apply IH.
  - intros r' Hr'. apply Hnew. apply elem_of_cons. by right.
  - intros r' m Hr'. apply Hstep. apply elem_of_cons. by right.
  - rewrite accumulate_step. apply upsert_Forall; [done| |].
    + apply Hnew. apply elem_of_cons. by left.
    + intros m. apply Hstep. apply elem_of_cons. by left.
Qed.

(** The movies of the summary, in the order in which the rows bring them. *)
Lemma fold_rows_keys s rows :
  PyDict.keys (fold_rows ent s rows)
  = PyDict.keys s
    ++ DedupeFacts.first_wins id (list_to_set (PyDict.keys s))
         ((λ r, Agg.e_movie (ent r)) <$> rows).
Proof.
  revert s. induction rows as [|r rows IH]; intros s.
  - simpl. by rewrite app_nil_r.
  - unfold fold_rows in *. simpl. rewrite IH. unfold Agg.accumulate.
    rewrite upsert_keys. unfold id at 2.
    destruct (decide (Agg.e_movie (ent r) ∈ PyDict.keys s)) as [Hin|Hin].
    + rewrite decide_True by (by apply elem_of_list_to_set).
      done.
    + rewrite decide_False by (by rewrite elem_of_list_to_set).
      rewrite <- app_assoc. simpl. do 3 f_equal.
      rewrite list_to_set_app_L. simpl. rewrite (right_id_L ∅ (∪)).
      by rewrite (comm_L (∪)).
Qed.
End Fold.

(** ** Figures that add up *)

(** A figure of a bucket that every record raises by an amount of its own. *)
Definition additive (f : Agg.Totals → Z) (δ : Agg.Entry → Z) : Prop :=
  f Agg.fresh = 0 ∧ ∀ t e, f (add_entry t e) = f t + δ e.

Lemma additive_shows : additive Agg.shows (λ _, 1).
Proof. by split. Qed.
Lemma additive_sold : additive Agg.sold Agg.e_sold.
Proof. by split. Qed.
Lemma additive_totalSeats : additive Agg.totalSeats Agg.e_total.
Proof. by split. Qed.
Lemma additive_housefull :
  additive Agg.housefull (λ e, if Py.ge_int (Agg.e_occ e) 98 then 1 else 0).
Proof.
  split; [done|]. intros t e. simpl. destruct (Py.ge_int (Agg.e_occ e) 98); lia.
Qed.
Lemma additive_fastfilling :
  additive Agg.fastfilling
    (λ e, if Py.ge_int (Agg.e_occ e) 98 then 0
          else if Py.ge_int (Agg.e_occ e) 50 then 1 else 0).
Proof.
  split; [done|]. intros t e. simpl.
  destruct (Py.ge_int (Agg.e_occ e) 98), (Py.ge_int (Agg.e_occ e) 50); lia.
Qed.

(** The figure [f] of a movie is the sum of the figures [f] of its cities, of
    its languages and of its formats. *)
Definition balanced (f : Agg.Totals → Z) (m : Agg.MovieBucket) : Prop :=
  SeatFacts.total_of ((f ∘ Agg.c_tot) <$> PyDict.values (Agg.City_details m))
  = f (Agg.m_tot m)
  ∧ SeatFacts.total_of ((f ∘ Agg.l_tot) <$> PyDict.values (Agg.Language_details m))
    = f (Agg.m_tot m)
  ∧ SeatFacts.total_of ((f ∘ Agg.f_tot) <$> PyDict.values (Agg.Format_details m))
    = f (Agg.m_tot m).

Lemma balanced_fresh f δ : additive f δ → balanced f Agg.fresh_movie.
Proof. intros [H0 _]. unfold balanced. simpl. unfold SeatFacts.total_of. simpl. by rewrite H0. Qed.

Lemma balanced_step f δ e m : additive f δ → balanced f m → balanced f (step e m).
Proof.
  intros [H0 Hadd] (Hc & Hl & Hf). unfold balanced. simpl.
  rewrite !(upsert_total _ (δ e)); try done; try (intros v; simpl; apply Hadd).
  rewrite Hc, Hl, Hf, Hadd. done.
Qed.

Lemma fold_rows_balanced {R : Type} (ent : R → Agg.Entry) f δ rows :
  additive f δ →
  Forall (λ kv, balanced f kv.2) (fold_rows ent [] rows).
Proof.
  intros Hf. apply (fold_rows_inv ent (λ _, balanced f)); [| |constructor].
  - intros r _. eapply balanced_step; [done|]. by eapply balanced_fresh.
  - intros r m _. by eapply balanced_step.
Qed.

(** ** Counters within bounds *)

(** A bucket that has received a record: its counters are not negative, a
    show is counted at most once as housefull or fast-filling, and it has
    between one venue and as many venues as shows. *)
Definition counted (t : Agg.Totals) : Prop :=
  0 <= Agg.housefull t ∧ 0 <= Agg.fastfilling t
  ∧ Agg.housefull t + Agg.fastfilling t <= Agg.shows t
  ∧ 1 <= Z.of_nat (size (Agg.venues t)) <= Agg.shows t.

Lemma size_add_1 (x : string) (X : gset string) :
  (1 <= size ({[ x ]} ∪ X) <= 1 + size X)%nat.
Proof.
  rewrite size_union_alt, size_singleton.
  assert (size (X ∖ {[ x ]}) <= size X)%nat; [|lia].
  apply subseteq_size. apply subseteq_difference_l. done.
Qed.

Ltac agg_fields :=
  cbn [Agg.housefull Agg.fastfilling Agg.shows Agg.venues Agg.sold Agg.totalSeats
       Agg.gross Agg.m_tot Agg.cities Agg.City_details Agg.Language_details
       Agg.Format_details Agg.c_tot Agg.l_tot Agg.f_tot Agg.fresh Agg.fresh_movie
       add_entry Agg.add_show step compose].

Lemma counted_first e : counted (add_entry Agg.fresh e).
Proof.
  unfold counted. agg_fields.
  pose proof (size_add_1 (Agg.e_venue e) ∅) as Hs. rewrite size_empty in Hs.
  destruct (Py.ge_int (Agg.e_occ e) 98), (Py.ge_int (Agg.e_occ e) 50); lia.
Qed.

Lemma counted_next t e : counted t → counted (add_entry t e).
Proof.
  unfold counted. agg_fields. intros (H1 & H2 & H3 & H4).
  pose proof (size_add_1 (Agg.e_venue e) (Agg.venues t)).
  destruct (Py.ge_int (Agg.e_occ e) 98), (Py.ge_int (Agg.e_occ e) 50); lia.
Qed.

(** A movie whose buckets are all within bounds, with between one city and as
    many cities as shows. *)
Definition sound (m : Agg.MovieBucket) : Prop :=
  counted (Agg.m_tot m)
  ∧ 1 <= Z.of_nat (size (Agg.cities m)) <= Agg.shows (Agg.m_tot m)
  ∧ Forall (counted ∘ Agg.c_tot) (PyDict.values (Agg.City_details m))
  ∧ Forall (counted ∘ Agg.l_tot) (PyDict.values (Agg.Language_details m))
  ∧ Forall (counted ∘ Agg.f_tot) (PyDict.values (Agg.Format_details m)).

Lemma Forall_values {K V : Type} (P : V → Prop) (d : list (K * V)) :
  Forall P (PyDict.values d) ↔ Forall (λ kv, P kv.2) d.
Proof. unfold PyDict.values. by rewrite Forall_fmap. Qed.

Lemma sound_first e : sound (step e Agg.fresh_movie).
Proof.
  unfold sound. agg_fields. split; [apply counted_first|]. split.
  - pose proof (size_add_1 (Agg.e_city_member e) ∅) as Hs. rewrite size_empty in Hs.
    lia.
  - repeat split; apply Forall_values;
      (apply (upsert_Forall (λ _, _)); [constructor| |]); agg_fields;
      try apply counted_first; intros ?; apply counted_next.
Qed.

Lemma sound_next e m : sound m → sound (step e m).
Proof.
  intros (Hm & Hc & Hcs & Hls & Hfs). unfold sound. agg_fields.
  split; [by apply counted_next|]. split.
  - pose proof (size_add_1 (Agg.e_city_member e) (Agg.cities m)). lia.
  - repeat split; apply Forall_values;
      (apply (upsert_Forall (λ _, _)); [by apply Forall_values| |]); agg_fields;
      try apply counted_first; intros ?; apply counted_next.
Qed.

Lemma fold_rows_sound {R : Type} (ent : R → Agg.Entry) rows :
  Forall (λ kv, sound kv.2) (fold_rows ent [] rows).
Proof.
  apply (fold_rows_inv ent (λ _, sound)); [| |constructor].
  - intros r _. apply sound_first.
  - intros r m _. apply sound_next.
Qed.

(** ** A property of every bucket *)

(** The figures of the movie and of each of its cities, languages and formats
    have the property [Q]. *)
Definition every_bucket (Q : Agg.Totals → Prop) (m : Agg.MovieBucket) : Prop :=
  Q (Agg.m_tot m)
  ∧ Forall (Q ∘ Agg.c_tot) (PyDict.values (Agg.City_details m))
  ∧ Forall (Q ∘ Agg.l_tot) (PyDict.values (Agg.Language_details m))
  ∧ Forall (Q ∘ Agg.f_tot) (PyDict.values (Agg.Format_details m)).

Lemma every_bucket_step (Q : Agg.Totals → Prop) e m :
  Q (add_entry Agg.fresh e) → (∀ t, Q t → Q (add_entry t e)) →
  m = Agg.fresh_movie ∨ every_bucket Q m → every_bucket Q (step e m).
Proof.
  intros Hfirst Hnext Hm. unfold every_bucket. agg_fields.
  destruct Hm as [->|(Hm & Hcs & Hls & Hfs)].
  - split; [done|]. cbn [Agg.fresh_movie Agg.City_details Agg.Language_details
      Agg.Format_details].
    repeat split; apply Forall_values;
      (apply (upsert_Forall (λ _, _)); [constructor| |]); agg_fields;
      try done; intros ?; apply Hnext.
  - split; [by apply Hnext|].
    repeat split; apply Forall_values;
      (apply (upsert_Forall (λ _, _)); [by apply Forall_values| |]); agg_fields;
      try done; intros ?; apply Hnext.
Qed.

(** A property that the first record of a bucket establishes and every
    further record keeps holds of every bucket in the end. *)
Lemma fold_rows_every_bucket {R : Type} (ent : R → Agg.Entry) (Q : Agg.Totals → Prop) rows :
  (∀ r, r ∈ rows → Q (add_entry Agg.fresh (ent r))) →
  (∀ r t, r ∈ rows → Q t → Q (add_entry t (ent r))) →
  Forall (λ kv, every_bucket Q kv.2) (fold_rows ent [] rows).
Proof.
  intros Hfirst Hnext.
  apply (fold_rows_inv ent (λ _, every_bucket Q)); [| |constructor].
  - intros r Hr. apply every_bucket_step; [by apply Hfirst| |by left].
    intros t. by apply Hnext.
  - intros r m Hr Hm. apply every_bucket_step; [by apply Hfirst| |by right].
    intros t. by apply Hnext.
Qed.

(** No bucket sells more seats than it has when no record does. *)
Definition seated (t : Agg.Totals) : Prop := 0 <= Agg.sold t <= Agg.totalSeats t.

Lemma fold_rows_seated {R : Type} (ent : R → Agg.Entry) rows :
  Forall (λ r, 0 <= Agg.e_sold (ent r) <= Agg.e_total (ent r)) rows →
  Forall (λ kv, every_bucket seated kv.2) (fold_rows ent [] rows).
Proof.
  intros Hrows. apply fold_rows_every_bucket.
  - intros r Hr. apply (proj1 (Forall_forall _ _) Hrows) in Hr.
    unfold seated. agg_fields. lia.
  - intros r t Hr Ht. apply (proj1 (Forall_forall _ _) Hrows) in Hr.
    unfold seated in *. agg_fields. lia.
Qed.

(** ** From the buckets to the summary that is written *)

Lemma total_of_Forall2 {A B : Type} (a : A → Z) (b : B → Z) l k :
  Forall2 (λ x y, a x = b y) l k →
  SeatFacts.total_of (a <$> l) = SeatFacts.total_of (b <$> k).
Proof.
  unfold SeatFacts.total_of. induction 1 as [|x y l k Hxy _ IH]; [done|].
  rewrite !fmap_cons. simpl. by rewrite Hxy, IH.
Qed.

Section Final.
Variable calc_occupancy : Z → Z → option Py.num.

Lemma figures_Some t fig :
  Agg.figures calc_occupancy t = Some fig →
  Agg.o_shows fig = Agg.shows t
  ∧ Agg.o_sold fig = Agg.sold t
  ∧ Agg.o_totalSeats fig = Agg.totalSeats t
  ∧ Agg.o_venues fig = Z.of_nat (size (Agg.venues t))
  ∧ Agg.o_fastfilling fig = Agg.fastfilling t
  ∧ Agg.o_housefull fig = Agg.housefull t
  ∧ Agg.o_gross fig = Py.round (PyFloat (Agg.gross t)) 2
  ∧ calc_occupancy (Agg.sold t) (Agg.totalSeats t) = Some (Agg.o_occupancy fig).
Proof.
  unfold Agg.figures.
  destruct (calc_occupancy (Agg.sold t) (Agg.totalSeats t)) as [occ|]; [|done].
  simpl. intros [= <-]. done.
Qed.

Lemma final_movie_Some m o :
  Agg.final_movie calc_occupancy m = Some o →
  Agg.figures calc_occupancy (Agg.m_tot m) = Some (Agg.mo_fig o)
  ∧ Agg.mo_cities o = Z.of_nat (size (Agg.cities m))
  ∧ Forall2 (λ d c, Agg.figures calc_occupancy (Agg.c_tot d) = Some (Agg.co_fig c)
                    ∧ Agg.co_city c = Agg.city d ∧ Agg.co_state c = Agg.state d)
      (PyDict.values (Agg.City_details m)) (Agg.mo_City_details o)
  ∧ Forall2 (λ l c, Agg.figures calc_occupancy (Agg.l_tot l) = Some (Agg.lo_fig c)
                    ∧ Agg.lo_language c = Agg.language l)
      (PyDict.values (Agg.Language_details m)) (Agg.mo_Language_details o)
  ∧ Forall2 (λ f c, Agg.figures calc_occupancy (Agg.f_tot f) = Some (Agg.fo_fig c)
                    ∧ Agg.fo_dimension c = Agg.dimension f)
      (PyDict.values (Agg.Format_details m)) (Agg.mo_Format_details o).
Proof.
  unfold Agg.final_movie.
  destruct (Agg.figures calc_occupancy (Agg.m_tot m)) as [fig|]; [|done]. simpl.
  destruct (mapM _ (PyDict.values (Agg.City_details m))) as [cs|] eqn:Hcs; [|done].
  simpl.
  destruct (mapM _ (PyDict.values (Agg.Language_details m))) as [ls|] eqn:Hls; [|done].
  simpl.
  destruct (mapM _ (PyDict.values (Agg.Format_details m))) as [fs|] eqn:Hfs; [|done].
  simpl. intros [= <-]. simpl.
  apply mapM_Some_1 in Hcs, Hls, Hfs.
  repeat split; try done.
  - eapply Forall2_impl; [exact Hcs|]. intros d c. simpl.
    destruct (Agg.figures calc_occupancy (Agg.c_tot d)); [|done].
    simpl. by intros [= <-].
  - eapply Forall2_impl; [exact Hls|]. intros l c. simpl.
    destruct (Agg.figures calc_occupancy (Agg.l_tot l)); [|done].
    simpl. by intros [= <-].
  - eapply Forall2_impl; [exact Hfs|]. intros f c. simpl.
    destruct (Agg.figures calc_occupancy (Agg.f_tot f)); [|done].
    simpl. by intros [= <-].
Qed.

Lemma finalize_Some s out :
  Agg.finalize calc_occupancy s = Some out →
  Forall2 (λ kv ko, ko.1 = kv.1 ∧ Agg.final_movie calc_occupancy kv.2 = Some ko.2) s out.
Proof.
  unfold Agg.finalize. intros H%mapM_Some_1.
  eapply Forall2_impl; [exact H|]. intros [k m] [k' o]. simpl.
  destruct (Agg.final_movie calc_occupancy m); [|done]. simpl. by intros [= <- <-].
Qed.

Lemma finalize_keys s out :
  Agg.finalize calc_occupancy s = Some out → out.*1 = PyDict.keys s.
Proof.
  intros H%finalize_Some. unfold PyDict.keys.
  induction H as [|kv ko s out [Hk _] _ IH]; [done|].
  rewrite !fmap_cons. by rewrite Hk, IH.
Qed.

Lemma finalize_elem s out mv o :
  Agg.finalize calc_occupancy s = Some out → (mv, o) ∈ out →
  ∃ m, (mv, m) ∈ s ∧ Agg.final_movie calc_occupancy m = Some o.
Proof.
  intros H%finalize_Some Hin.
  induction H as [|[k m] [k' o'] s out [Hk Hf] _ IH]; [by apply elem_of_nil in Hin|].
  simpl in Hk, Hf. subst k'.
  apply elem_of_cons in Hin as [[= -> ->]|Hin].
  - exists m. split; [apply elem_of_cons; by left | done].
  - destruct (IH Hin) as (m' & Hm' & Hf'). exists m'.
    split; [apply elem_of_cons; by right | done].
Qed.

(** The last step returns when the occupancy of every bucket is computed. *)
Lemma finalize_is_Some s :
  Forall (λ kv, every_bucket
                  (λ t, is_Some (calc_occupancy (Agg.sold t) (Agg.totalSeats t))) kv.2) s →
  is_Some (Agg.finalize calc_occupancy s).
Proof.
  intros Hs. unfold Agg.finalize. apply mapM_is_Some.
  eapply Forall_impl; [exact Hs|]. intros [k m] (Hm & Hc & Hl & Hf). simpl in *.
  assert (∀ t, is_Some (calc_occupancy (Agg.sold t) (Agg.totalSeats t)) →
               is_Some (Agg.figures calc_occupancy t)) as Hfig.
  { intros t [occ Hocc]. unfold Agg.figures. rewrite Hocc. by eexists. }
  unfold Agg.final_movie.
  destruct (Hfig _ Hm) as [fig ->]. simpl.
  assert (is_Some (mapM
    (λ d, f ← Agg.figures calc_occupancy (Agg.c_tot d);
          Some {| Agg.co_city := Agg.city d; Agg.co_state := Agg.state d; Agg.co_fig := f |})
    (PyDict.values (Agg.City_details m)))) as [cs ->].
  { apply mapM_is_Some. eapply Forall_impl; [exact Hc|]. intros d Hd. simpl in Hd.
    destruct (Hfig _ Hd) as [? Hd']. simpl. rewrite Hd'. by eexists. }
  simpl.
  assert (is_Some (mapM
    (λ l, f ← Agg.figures calc_occupancy (Agg.l_tot l);
          Some {| Agg.lo_language := Agg.language l; Agg.lo_fig := f |})
    (PyDict.values (Agg.Language_details m)))) as [ls ->].
  { apply mapM_is_Some. eapply Forall_impl; [exact Hl|]. intros d Hd. simpl in Hd.
    destruct (Hfig _ Hd) as [? Hd']. simpl. rewrite Hd'. by eexists. }
  simpl.
  assert (is_Some (mapM
    (λ x, f ← Agg.figures calc_occupancy (Agg.f_tot x);
          Some {| Agg.fo_dimension := Agg.dimension x; Agg.fo_fig := f |})
    (PyDict.values (Agg.Format_details m)))) as [fs ->].
  { apply mapM_is_Some. eapply Forall_impl; [exact Hf|]. intros d Hd. simpl in Hd.
    destruct (Hfig _ Hd) as [? Hd']. simpl. rewrite Hd'. by eexists. }
  simpl. done.
Qed.
End Final.

Lemma fmap_Forall2 {A B C : Type} (a : A → C) (b : B → C) l k :
  Forall2 (λ x y, a x = b y) l k → a <$> l = b <$> k.
Proof.
  induction 1 as [|x y l k Hxy _ IH]; [done|]. rewrite !fmap_cons. by rewrite Hxy, IH.
Qed.

Lemma Forall2_with_l {A B : Type} (P : A → Prop) (R : A → B → Prop) l k :
  Forall P l → Forall2 R l k → Forall2 (λ x y, P x ∧ R x y) l k.
Proof.
  intros Hl H. induction H as [|x y l k Hxy _ IH]; [constructor|].
  apply Forall_cons in Hl as [Hx Hl]. constructor; [done|by apply IH].
Qed.

(** ** Labels of the buckets *)

(** Every detail dictionary of a movie holds each key once, and every bucket
    shows what its key says: [lab] reads the key of a city bucket off the
    city and state it shows. *)
Definition labelled (lab : string → string → string * string) (m : Agg.MovieBucket)
    : Prop :=
  NoDup (PyDict.keys (Agg.City_details m))
  ∧ NoDup (PyDict.keys (Agg.Language_details m))
  ∧ NoDup (PyDict.keys (Agg.Format_details m))
  ∧ Forall (λ kv, kv.1 = lab (Agg.city kv.2) (Agg.state kv.2)) (Agg.City_details m)
  ∧ Forall (λ kv, kv.1 = Agg.language kv.2) (Agg.Language_details m)
  ∧ Forall (λ kv, kv.1 = Agg.dimension kv.2) (Agg.Format_details m).

Lemma labelled_fresh lab : labelled lab Agg.fresh_movie.
Proof. unfold labelled. simpl. repeat split; try constructor. Qed.

Lemma labelled_step lab e m :
  Agg.e_ck e = lab (Agg.e_city e) (Agg.e_state e) →
  labelled lab m → labelled lab (step e m).
Proof.
  intros He (H1 & H2 & H3 & H4 & H5 & H6). unfold labelled. agg_fields.
  repeat split; try (by apply upsert_NoDup).
  - by apply (upsert_Forall (λ k d, k = lab (Agg.city d) (Agg.state d))).
  - by apply (upsert_Forall (λ k l, k = Agg.language l)).
  - by apply (upsert_Forall (λ k f, k = Agg.dimension f)).
Qed.

Lemma fold_rows_labelled {R : Type} (ent : R → Agg.Entry) lab rows :
  (∀ r, r ∈ rows → Agg.e_ck (ent r) = lab (Agg.e_city (ent r)) (Agg.e_state (ent r))) →
  Forall (λ kv, labelled lab kv.2) (fold_rows ent [] rows).
Proof.
  intros Hrows. apply (fold_rows_inv ent (λ _, labelled lab)); [| |constructor].
  - intros r Hr. apply labelled_step; [by apply Hrows | apply labelled_fresh].
  - intros r m Hr. apply labelled_step. by apply Hrows.
Qed.

(** ** The three properties, read off the summary that is written *)

Definition adds_up (g : Agg.Figures → Z) (o : Agg.MovieOut) : Prop :=
  SeatFacts.total_of ((g ∘ Agg.co_fig) <$> Agg.mo_City_details o) = g (Agg.mo_fig o)
  ∧ SeatFacts.total_of ((g ∘ Agg.lo_fig) <$> Agg.mo_Language_details o) = g (Agg.mo_fig o)
  ∧ SeatFacts.total_of ((g ∘ Agg.fo_fig) <$> Agg.mo_Format_details o) = g (Agg.mo_fig o).

Definition in_bounds (fig : Agg.Figures) : Prop :=
  0 <= Agg.o_housefull fig ∧ 0 <= Agg.o_fastfilling fig
  ∧ Agg.o_housefull fig + Agg.o_fastfilling fig <= Agg.o_shows fig
  ∧ 1 <= Agg.o_venues fig <= Agg.o_shows fig.

Definition all_in_bounds (o : Agg.MovieOut) : Prop :=
  in_bounds (Agg.mo_fig o)
  ∧ 1 <= Agg.mo_cities o <= Agg.o_shows (Agg.mo_fig o)
  ∧ Forall (in_bounds ∘ Agg.co_fig) (Agg.mo_City_details o)
  ∧ Forall (in_bounds ∘ Agg.lo_fig) (Agg.mo_Language_details o)
  ∧ Forall (in_bounds ∘ Agg.fo_fig) (Agg.mo_Format_details o).

Definition distinct_labels (o : Agg.MovieOut) : Prop :=
  NoDup ((λ c, (Agg.co_city c, Agg.co_state c)) <$> Agg.mo_City_details o)
  ∧ NoDup (Agg.lo_language <$> Agg.mo_Language_details o)
  ∧ NoDup (Agg.fo_dimension <$> Agg.mo_Format_details o).

Section Written.
Context {R : Type} (ent : R → Agg.Entry).
Variable calc_occupancy : Z → Z → option Py.num.
Variable rows : list R.
Variable out : list (string * Agg.MovieOut).
Hypothesis written : Agg.finalize calc_occupancy (fold_rows ent [] rows) = Some out.

Lemma written_bucket (P : Agg.MovieBucket → Prop) mv o :
  Forall (λ kv, P kv.2) (fold_rows ent [] rows) → (mv, o) ∈ out →
  ∃ m, P m ∧ Agg.final_movie calc_occupancy m = Some o.
Proof.
  intros Hall Hin. destruct (finalize_elem _ _ _ _ _ written Hin) as (m & Hm & Hf).
  exists m. split; [|done]. by apply (proj1 (Forall_forall _ _) Hall (mv, m)).
Qed.

Lemma written_adds_up f g δ mv o :
  additive f δ →
  (∀ t fig, Agg.figures calc_occupancy t = Some fig → g fig = f t) →
  (mv, o) ∈ out → adds_up g o.
Proof.
  intros Hf Hg Hin.
  destruct (written_bucket (balanced f) mv o) as (m & (Hc & Hl & Hx) & Hfin);
    [by eapply fold_rows_balanced | done |].
  apply final_movie_Some in Hfin as (Hfig & _ & Hcs & Hls & Hfs).
  rewrite <- (Hg _ _ Hfig) in Hc, Hl, Hx. unfold adds_up.
  rewrite <- Hc at 1. rewrite <- Hl at 1. rewrite <- Hx.
  repeat split; symmetry; apply total_of_Forall2.
  - eapply Forall2_impl; [exact Hcs|]. intros d c (Hd & _). simpl. symmetry. by apply Hg.
  - eapply Forall2_impl; [exact Hls|]. intros d c (Hd & _). simpl. symmetry. by apply Hg.
  - eapply Forall2_impl; [exact Hfs|]. intros d c (Hd & _). simpl. symmetry. by apply Hg.
Qed.

Lemma counted_in_bounds t fig :
  Agg.figures calc_occupancy t = Some fig → counted t → in_bounds fig.
Proof.
  unfold in_bounds, counted.
  intros (-> & _ & _ & -> & -> & -> & _)%figures_Some. done.
Qed.

Lemma written_in_bounds mv o : (mv, o) ∈ out → all_in_bounds o.
Proof.
  intros Hin.
  destruct (written_bucket sound mv o) as (m & (Hm & Hc & Hcs & Hls & Hfs) & Hfin);
    [apply fold_rows_sound | done |].
  apply final_movie_Some in Hfin as (Hfig & Hcities & Hcs' & Hls' & Hfs').
  unfold all_in_bounds. split; [by eapply counted_in_bounds|].
  split; [rewrite Hcities; apply figures_Some in Hfig as (-> & _); done|].
  repeat split.
  - clear Hfig. induction Hcs' as [|d c ds cs [Hd _] _ IH]; [constructor|].
    apply Forall_cons in Hcs as [Hd' Hcs]. constructor; [|by apply IH].
    by eapply counted_in_bounds.
  - clear Hfig. induction Hls' as [|d c ds cs [Hd _] _ IH]; [constructor|].
    apply Forall_cons in Hls as [Hd' Hls]. constructor; [|by apply IH].
    by eapply counted_in_bounds.
  - clear Hfig. induction Hfs' as [|d c ds cs [Hd _] _ IH]; [constructor|].
    apply Forall_cons in Hfs as [Hd' Hfs]. constructor; [|by apply IH].
    by eapply counted_in_bounds.
Qed.

Lemma written_distinct_labels lab mv o :
  (∀ r, r ∈ rows → Agg.e_ck (ent r) = lab (Agg.e_city (ent r)) (Agg.e_state (ent r))) →
  (mv, o) ∈ out → distinct_labels o.
Proof.
  intros Hrows Hin.
  destruct (written_bucket (labelled lab) mv o)
    as (m & (H1 & H2 & H3 & H4 & H5 & H6) & Hfin);
    [by apply fold_rows_labelled | done |].
  apply final_movie_Some in Hfin as (_ & _ & Hcs & Hls & Hfs).
  unfold distinct_labels. repeat split.
  - apply (NoDup_fmap_1 (λ p, lab p.1 p.2)).
    rewrite <- list_fmap_compose.
    replace ((λ p, lab p.1 p.2) ∘ (λ c, (Agg.co_city c, Agg.co_state c)) <$>
             Agg.mo_City_details o) with (PyDict.keys (Agg.City_details m)); [done|].
    unfold PyDict.keys. unfold PyDict.values in Hcs. apply Forall2_fmap_l in Hcs.
    apply fmap_Forall2.
    eapply Forall2_impl; [exact (Forall2_with_l _ _ _ _ H4 Hcs)|]. intros [k d] c [Hk (_ & Hc1 & Hc2)].
    simpl in *. by rewrite Hc1, Hc2.
  - replace (Agg.lo_language <$> Agg.mo_Language_details o)
      with (PyDict.keys (Agg.Language_details m)); [done|].
    unfold PyDict.keys. unfold PyDict.values in Hls. apply Forall2_fmap_l in Hls.
    apply fmap_Forall2.
    eapply Forall2_impl; [exact (Forall2_with_l _ _ _ _ H5 Hls)|]. intros [k d] c [Hk (_ & Hc1)].
    simpl in *. by rewrite Hc1.
  - replace (Agg.fo_dimension <$> Agg.mo_Format_details o)
      with (PyDict.keys (Agg.Format_details m)); [done|].
    unfold PyDict.keys. unfold PyDict.values in Hfs. apply Forall2_fmap_l in Hfs.
    apply fmap_Forall2.
    eapply Forall2_impl; [exact (Forall2_with_l _ _ _ _ H6 Hfs)|]. intros [k d] c [Hk (_ & Hc1)].
    simpl in *. by rewrite Hc1.
Qed.

Lemma written_movies :
  out.*1 = DedupeFacts.first_wins id ∅ ((λ r, Agg.e_movie (ent r)) <$> rows).
Proof.
  rewrite (finalize_keys _ _ _ written), fold_rows_keys. done.
Qed.
End Written.

End SummaryFacts.

(* ===================================================================== *)
(** * The summaries of the two scripts as folds *)
(* ===================================================================== *)

Module ScriptFacts.
Import GroupFacts.

Lemma district_written detailed out :
  District9.build_summary detailed = Some out →
  Agg.finalize District9.calc_occupancy (fold_rows district_entry [] detailed) = Some out.
Proof.
  unfold District9.build_summary.
  destruct (District9.summary_loop [] detailed) as [s|] eqn:Hs; [|done].
  apply district_loop_fold in Hs as ->. done.
Qed.

Lemma combine_written DATE_CODE shards out :
  Combine.final_summary DATE_CODE shards = Some out →
  Agg.finalize Combine.calc_occupancy
    (fold_rows combine_entry [] (Combine.final_rows DATE_CODE shards)) = Some out.
Proof.
  unfold Combine.final_summary.
  destruct (Combine.summary_loop [] (Combine.final_rows DATE_CODE shards)) as [s|] eqn:Hs;
    [|done].
  apply combine_loop_fold in Hs as ->. done.
Qed.

(** Both summaries are computed when no row has more sold seats than seats,
    nor a negative number of them. *)
Lemma district_returns detailed :
  Forall (λ r, 0 <= District9.sold r <= District9.totalSeats r) detailed →
  is_Some (District9.build_summary detailed).
Proof.
  intros Hrows. unfold District9.build_summary.
  destruct (proj2 (district_loop_is_Some [] detailed)) as [s Hs].
  { eapply Forall_impl; [exact Hrows|]. intros r Hr.
    rewrite (proj1 (OccupancyFacts.calc_occupancy_same _ _)).
    by apply OccupancyFacts.calc_occupancy_part. }
  rewrite Hs. simpl. apply district_loop_fold in Hs as ->.
  apply SummaryFacts.finalize_is_Some.
  eapply Forall_impl; [by apply (SummaryFacts.fold_rows_seated district_entry)|].
  intros [k m] (Hm & Hc & Hl & Hf).
  assert (∀ t, SummaryFacts.seated t →
               is_Some (District9.calc_occupancy (Agg.sold t) (Agg.totalSeats t))) as Hq.
  { intros t Ht. rewrite (proj1 (OccupancyFacts.calc_occupancy_same _ _)).
    by apply OccupancyFacts.calc_occupancy_part. }
  split; [by apply Hq|].
  repeat split; (eapply Forall_impl; [eassumption|]); intros d Hd; by apply Hq.
Qed.

Lemma combine_returns DATE_CODE shards :
  Forall (λ r, 0 <= Combine.sold r <= Combine.totalSeats r)
    (Combine.final_rows DATE_CODE shards) →
  is_Some (Combine.final_summary DATE_CODE shards).
Proof.
  intros Hrows. unfold Combine.final_summary.
  destruct (proj2 (combine_loop_is_Some [] (Combine.final_rows DATE_CODE shards)))
    as [s Hs].
  { eapply Forall_impl; [exact Hrows|]. intros r Hr.
    by apply OccupancyFacts.show_occ_part. }
  rewrite Hs. simpl. apply combine_loop_fold in Hs as ->.
  apply SummaryFacts.finalize_is_Some.
  eapply Forall_impl; [by apply (SummaryFacts.fold_rows_seated combine_entry)|].
  intros [k m] (Hm & Hc & Hl & Hf).
  assert (∀ t, SummaryFacts.seated t →
               is_Some (Combine.calc_occupancy (Agg.sold t) (Agg.totalSeats t))) as Hq.
  { intros t Ht. rewrite (proj2 (OccupancyFacts.calc_occupancy_same _ _)).
    by apply OccupancyFacts.calc_occupancy_part. }
  split; [by apply Hq|].
  repeat split; (eapply Forall_impl; [eassumption|]); intros d Hd; by apply Hq.
Qed.

(** The key of the city bucket of a final row is the lower-cased city and
    state that the row shows. *)
Lemma combine_row_label DATE_CODE shards r :
  r ∈ Combine.final_rows DATE_CODE shards →
  (Combine.city_key r, Combine.state_key r)
  = (PyStr.lower (Combine.city r), PyStr.lower (Combine.state r)).
Proof.
  intros (x & _ & ->)%CombineFacts.final_rows_normalized. simpl.
  by rewrite !TextFacts.lower_of_title.
Qed.

(** The final rows: the rows kept by the first-wins pass, in sorted order. *)
Lemma final_rows_sorted DATE_CODE shards :
  StronglySorted SortFacts.row_le (Combine.final_rows DATE_CODE shards).
Proof. apply SortFacts.sort_sorted. Qed.

Lemma final_rows_perm DATE_CODE shards :
  Combine.final_rows DATE_CODE shards
  ≡ₚ DedupeFacts.first_wins Combine.key_of ∅
       (Combine.normalize_row DATE_CODE <$> concat shards).
Proof.
  unfold Combine.final_rows. rewrite DedupeFacts.combine_dedupe. simpl.
  apply SortFacts.sort_perm.
Qed.

(** Both summaries hold one entry for each movie of the rows, in the order in
    which the rows bring the movies. *)
Lemma district_summary_movies detailed out :
  District9.build_summary detailed = Some out →
  out.*1 = DedupeFacts.first_wins id ∅ (District9.movie <$> detailed).
Proof.
  intros Hout%district_written. by rewrite (SummaryFacts.written_movies _ _ _ _ Hout).
Qed.

Lemma combine_summary_movies DATE_CODE shards out :
  Combine.final_summary DATE_CODE shards = Some out →
  out.*1 = DedupeFacts.first_wins id ∅
             (Combine.movie <$> Combine.final_rows DATE_CODE shards).
Proof.
  intros Hout%combine_written. by rewrite (SummaryFacts.written_movies _ _ _ _ Hout).
Qed.

Lemma sorted_impl {A : Type} (R1 R2 : relation A) (l : list A) :
  (∀ x y, R1 x y → R2 x y) → StronglySorted R1 l → StronglySorted R2 l.
Proof.
  intros HR. induction 1 as [|x l Hl IH Hx]; constructor; [done|].
  eapply Forall_impl; [exact Hx|]. intros y. apply HR.
Qed.

Lemma sorted_fmap {A B : Type} (f : A → B) (R1 : relation A) (R2 : relation B) l :
  (∀ x y, R1 x y → R2 (f x) (f y)) → StronglySorted R1 l → StronglySorted R2 (f <$> l).
Proof.
  intros HR. induction 1 as [|x l Hl IH Hx]; [constructor|].
  rewrite fmap_cons. constructor; [done|]. apply Forall_fmap.
  eapply Forall_impl; [exact Hx|]. intros y. apply HR.
Qed.

Lemma combine_movies_sorted DATE_CODE shards :
  StronglySorted SortFacts.str_lt
    (DedupeFacts.first_wins id ∅ (Combine.movie <$> Combine.final_rows DATE_CODE shards)).
Proof.
  set (R := λ a b : string, String.compare a b ≠ Gt).
  assert (StronglySorted R (Combine.movie <$> Combine.final_rows DATE_CODE shards)) as Hs.
  { eapply sorted_fmap; [|apply final_rows_sorted].
    intros x y. unfold SortFacts.row_le, R, Combine.sort_key. simpl.
    by destruct (String.compare (Combine.movie x) (Combine.movie y)). }
  eapply SortFacts.sorted_sublist in Hs; [|apply (DedupeFacts.first_wins_sublist (@id string) ∅)].
  apply SortFacts.sorted_strict in Hs.
  - eapply sorted_impl; [|exact Hs]. intros x y [Hxy Hne]. unfold R in Hxy.
    unfold SortFacts.str_lt. destruct (String.compare x y) eqn:Hc; try done.
    by apply String.compare_eq_iff in Hc.
  - pose proof (DedupeFacts.first_wins_NoDup (@id string) ∅
                  (Combine.movie <$> Combine.final_rows DATE_CODE shards)) as Hnd.
    by rewrite list_fmap_id in Hnd.
Qed.

End ScriptFacts.

(* ===================================================================== *)
(** * bmsdaily9.py: labels, movies and venues *)
(* ===================================================================== *)

Module DistrictFacts.
Import District9.

(** ** [norm] *)

Lemma norm_stripped s : PyStr.strip (norm s) = norm s.
Proof.
  destruct s as [s|]; [|reflexivity]. simpl.
  destruct (PyStr.truthy s); [apply TextFacts.strip_idem | reflexivity].
Qed.

Lemma norm_missing s : s = None ∨ s = Some EmptyString → norm s = "UNKNOWN"%string.
Proof. by intros [->| ->]. Qed.

Lemma norm_blank w :
  StrFacts.blank w = true → w ≠ EmptyString → norm (Some w) = EmptyString.
Proof.
  intros Hw Hne. simpl. destruct w; [done|]. simpl. by apply TextFacts.strip_blank.
Qed.

(** ** The movie of a session *)

(** Every entry of the movie map is a movie of the list under a key that is
    its identifier, as it stands or as a string. *)
Definition by_id (movies : list Movie) (mm : list (option ident * Movie)) : Prop :=
  ∀ k m, (k, m) ∈ mm → m ∈ movies ∧ str_ident (m_id m) = str_ident k.

Definition add_movie (mm : list (option ident * Movie)) (m : Movie)
    : list (option ident * Movie) :=
  PyDict.set (Some (IdStr (str_ident (m_id m)))) m (PyDict.set (m_id m) m mm).

Lemma movie_map_of_fold movies : movie_map_of movies = fold_left add_movie movies [].
Proof. reflexivity. Qed.

Lemma add_movie_by_id all mm m : m ∈ all → by_id all mm → by_id all (add_movie mm m).
Proof.
  intros Hm Hmm k m' Hin. unfold add_movie in Hin.
  apply PyDictFacts.elem_of_set in Hin as [[-> ->]|Hin]; [done|].
  apply PyDictFacts.elem_of_set in Hin as [[-> ->]|Hin]; [done|].
  by apply Hmm.
Qed.

Lemma fold_by_id all movies mm :
  (∀ m, m ∈ movies → m ∈ all) → by_id all mm → by_id all (fold_left add_movie movies mm).
Proof.
  revert mm. induction movies as [|m movies IH]; intros mm Hall Hmm; [done|].
  simpl. apply IH.
  - intros m' Hm'. apply Hall. apply elem_of_cons. by right.
  - apply add_movie_by_id; [|done]. apply Hall. apply elem_of_cons. by left.
Qed.

Lemma movie_map_by_id movies : by_id movies (movie_map_of movies).
Proof.
  rewrite movie_map_of_fold. apply fold_by_id; [done|].
  intros k m Hin. by apply elem_of_nil in Hin.
Qed.

Lemma keys_set_mono {K V : Type} `{EqDecision K} (k k' : K) (v : V) d :
  k' ∈ PyDict.keys d → k' ∈ PyDict.keys (PyDict.set k v d).
Proof.
  intros Hin. rewrite PyDictFacts.keys_set. case_decide; [done|].
  apply elem_of_app. by left.
Qed.

Lemma keys_set_new {K V : Type} `{EqDecision K} (k : K) (v : V) d :
  k ∈ PyDict.keys (PyDict.set k v d).
Proof.
  rewrite PyDictFacts.keys_set. case_decide; [done|].
  apply elem_of_app. right. apply elem_of_cons. by left.
Qed.

Lemma fold_keys_mono movies mm k :
  k ∈ PyDict.keys mm → k ∈ PyDict.keys (fold_left add_movie movies mm).
Proof.
  revert mm. induction movies as [|m movies IH]; intros mm Hk; [done|].
  simpl. apply IH. unfold add_movie. by do 2 apply keys_set_mono.
Qed.

Lemma fold_keys_str movies mm m :
  m ∈ movies →
  Some (IdStr (str_ident (m_id m))) ∈ PyDict.keys (fold_left add_movie movies mm).
Proof.
  revert mm. induction movies as [|m0 movies IH]; intros mm Hm.
  - by apply elem_of_nil in Hm.
  - simpl. apply elem_of_cons in Hm as [->|Hm]; [|by apply IH].
    apply fold_keys_mono. unfold add_movie. apply keys_set_new.
Qed.

(** The movie found for a session is a movie of the list whose identifier
    reads as the [mid] of the session does. *)
Lemma find_movie_sound movies s m :
  find_movie (movie_map_of movies) s = Some m →
  m ∈ movies ∧ str_ident (m_id m) = str_ident (s_mid s).
Proof.
  pose proof (movie_map_by_id movies) as Hmm. unfold find_movie.
  destruct (PyDict.get (s_mid s) (movie_map_of movies)) as [m1|] eqn:H1.
  - destruct (movie_truthy m1).
    + intros [= <-]. apply PyDictFacts.get_Some_elem in H1. by apply Hmm.
    + intros H2%PyDictFacts.get_Some_elem. by apply Hmm in H2.
  - intros H2%PyDictFacts.get_Some_elem. by apply Hmm in H2.
Qed.

(** A session whose [mid] reads as the identifier of a movie of the list
    finds a movie. *)
Lemma find_movie_complete movies s m :
  m ∈ movies → str_ident (m_id m) = str_ident (s_mid s) →
  is_Some (find_movie (movie_map_of movies) s).
Proof.
  intros Hm Hid.
  assert (is_Some (PyDict.get (Some (IdStr (str_ident (s_mid s)))) (movie_map_of movies)))
    as [m2 H2].
  { destruct (PyDict.get _ (movie_map_of movies)) eqn:Hg; [by eexists|].
    apply PyDictFacts.get_None in Hg. exfalso. apply Hg.
    rewrite <- Hid, movie_map_of_fold. by apply fold_keys_str. }
  unfold find_movie. rewrite H2.
  destruct (PyDict.get (s_mid s) (movie_map_of movies)) as [m1|]; [|by eexists].
  destruct (movie_truthy m1); by eexists.
Qed.

(** ** The rows of [parse] *)

Section Parser.
Variable clock_of_epoch : Py.float → option string.
Variable clock_of_iso : string → option string.
Variable DATE_CODE : string.

Let rows_of_result := rows_of_result clock_of_epoch clock_of_iso DATE_CODE.
Let parse := parse clock_of_epoch clock_of_iso DATE_CODE.

Lemma rows_of_result_length res :
  (length (rows_of_result res) <= length (d_sessions (r_data res)))%nat.
Proof.
  unfold rows_of_result, District9.rows_of_result.
  induction (d_sessions (r_data res)) as [|s l IH]; [done|].
  rewrite bind_cons, length_app. simpl.
  destruct (find_movie _ s) as [m|]; [destruct (movie_truthy m)|]; simpl; lia.
Qed.

Lemma parse_length results :
  (length (parse results)
   <= length (results ≫= λ res, d_sessions (r_data res)))%nat.
Proof.
  unfold parse, District9.parse. rewrite DedupeFacts.district_dedupe.
  etransitivity; [apply DedupeFacts.first_wins_length|].
  induction results as [|res results IH]; [done|].
  rewrite !bind_cons, !length_app.
  pose proof (rows_of_result_length res). unfold rows_of_result in *. lia.
Qed.

(** What every row of [parse] is. *)
Lemma parse_row results r :
  r ∈ parse results →
  ∃ res s m,
    res ∈ results ∧ s ∈ d_sessions (r_data res)
    ∧ m ∈ d_movies (r_data res)
    ∧ str_ident (m_id m) = str_ident (s_mid s)
    ∧ movie_truthy m = true
    ∧ r ∈ rows_of_result res
    ∧ PyStr.truthy (venue r) = true
    ∧ TextFacts.occurs "-" (dimension r) = false
    ∧ PyStr.strip (language r) = language r
    ∧ source r = "District"%string
    ∧ date r = DATE_CODE
    ∧ movie r = PyStr.get_default (m_name m) "Unknown"
    ∧ city r = PyStr.get_default (v_city (r_venue res)) "Unknown"
    ∧ state r = PyStr.get_default (v_state (r_venue res)) "Unknown".
Proof.
  intros (res & Hres & Hin)%SeatFacts.parse_rows.
  exists res. pose proof Hin as Hin'.
  unfold District9.rows_of_result in Hin.
  apply list_elem_of_bind in Hin as (s & Hin & Hs).
  destruct (find_movie _ s) as [m|] eqn:Hfind; [|by apply elem_of_nil in Hin].
  destruct (movie_truthy m) eqn:Ht; [|by apply elem_of_nil in Hin].
  apply list_elem_of_singleton in Hin as ->.
  apply find_movie_sound in Hfind as [Hm Hid].
  exists s, m. simpl. repeat split; try done.
  - apply TextFacts.truthy_or_default. by apply TextFacts.truthy_or_default.
  - by apply TextFacts.occurs_replace_char.
  - apply norm_stripped.
Qed.

(** With movies that are not empty objects, a session whose [mid] reads as
    the identifier of a movie gets a row. *)
Lemma rows_of_result_complete res s m :
  s ∈ d_sessions (r_data res) → m ∈ d_movies (r_data res) →
  str_ident (m_id m) = str_ident (s_mid s) →
  Forall (λ m, movie_truthy m = true) (d_movies (r_data res)) →
  ∃ r m', r ∈ rows_of_result res
          ∧ m' ∈ d_movies (r_data res)
          ∧ str_ident (m_id m') = str_ident (s_mid s)
          ∧ movie r = PyStr.get_default (m_name m') "Unknown"
          ∧ audi r = PyStr.get_default (s_audi s) ""
          ∧ totalSeats r = default 0 (s_total s).
Proof.
  intros Hs Hm Hid Hall.
  destruct (find_movie_complete _ s m Hm Hid) as [m' Hfind].
  pose proof (find_movie_sound _ _ _ Hfind) as [Hm' Hid'].
  assert (movie_truthy m' = true) as Ht
    by (by eapply (proj1 (Forall_forall _ _) Hall)).
  eexists _, m'. split.
  - unfold rows_of_result, District9.rows_of_result.
    apply list_elem_of_bind. exists s. split; [|done].
    rewrite Hfind, Ht. apply list_elem_of_singleton. reflexivity.
  - done.
Qed.
End Parser.

(** ** The venues that are fetched *)

Section Fetch.
Import District9Main.
Variable DATE_DISTRICT : string.

Lemma fetch_one_Some venue resp res :
  fetch_one DATE_DISTRICT venue resp = Some res ↔
  ∃ b, resp = Answer 200 (Some b) ∧ DATE_DISTRICT ∈ sessionDates b
       ∧ res = {| r_venue := dv_meta venue; r_data := data b |}.
Proof.
  unfold fetch_one. split.
  - destruct resp as [|status [b|]]; try done; destruct (decide (status ≠ 200)) as [|Hs];
      try done; simpl.
    destruct (decide (DATE_DISTRICT ∈ sessionDates b)); [|done].
    intros [= <-]. exists b. split; [|done].
    destruct (decide (status = 200)) as [->|]; done.
  - intros (b & -> & Hd & ->). simpl. by rewrite decide_True.
Qed.

Lemma fetch_all_elem venues responses res :
  res ∈ fetch_all DATE_DISTRICT venues responses ↔
  ∃ i v b, venues !! i = Some v ∧ responses !! i = Some (Answer 200 (Some b))
           ∧ DATE_DISTRICT ∈ sessionDates b
           ∧ res = {| r_venue := dv_meta v; r_data := data b |}.
Proof.
  unfold fetch_all. rewrite list_elem_of_omap. split.
  - intros ([v resp] & Hin & Hf). simpl in Hf.
    apply list_elem_of_lookup in Hin as [i Hi].
    apply lookup_zip_Some in Hi as [Hv Hr].
    apply fetch_one_Some in Hf as (b & -> & Hd & ->). by exists i, v, b.
  - intros (i & v & b & Hv & Hr & Hd & ->).
    exists (v, Answer 200 (Some b)). split.
    + apply list_elem_of_lookup. exists i. by apply lookup_zip_Some.
    + apply fetch_one_Some. by exists b.
Qed.

Lemma omap_sublist {A B C : Type} (f : A → option B) (g : B → C) (h : A → C) l :
  (∀ x y, f x = Some y → g y = h x) → g <$> omap f l `sublist_of` h <$> l.
Proof.
  intros Hf. induction l as [|x l IH]; [done|]. simpl.
  destruct (f x) as [y|] eqn:Hx.
  - rewrite fmap_cons, (Hf _ _ Hx). by apply sublist_skip.
  - by apply sublist_cons.
Qed.

(** The results come in the order of the venues. *)
Lemma fetch_all_order venues responses :
  r_venue <$> fetch_all DATE_DISTRICT venues responses `sublist_of` dv_meta <$> venues.
Proof.
  unfold fetch_all.
  transitivity ((dv_meta ∘ fst) <$> zip venues responses).
  - apply omap_sublist. intros [v resp] res (b & _ & _ & ->)%fetch_one_Some. done.
  - rewrite list_fmap_compose. apply fmap_sublist.
    clear. revert responses. induction venues as [|v venues IH]; intros [|r rs]; simpl;
      try done; try apply sublist_nil_l.
    apply sublist_skip, IH.
Qed.

Lemma fetch_all_none venues responses :
  Forall (λ resp, ∀ b, resp = Answer 200 (Some b) → DATE_DISTRICT ∉ sessionDates b)
    responses →
  fetch_all DATE_DISTRICT venues responses = [].
Proof.
  intros Hall. destruct (fetch_all DATE_DISTRICT venues responses) as [|res l] eqn:Hf;
    [done|].
  assert (res ∈ fetch_all DATE_DISTRICT venues responses) as Hin
    by (rewrite Hf; apply elem_of_cons; by left).
  apply fetch_all_elem in Hin as (i & v & b & _ & Hr & Hd & _).
  apply list_elem_of_lookup_2 in Hr.
  by destruct (proj1 (Forall_forall _ _) Hall _ Hr b).
Qed.
End Fetch.

End DistrictFacts.

(* ===================================================================== *)
(** * bmsdaily7.py: what a run does for a venue, whatever the vendor answers *)
(* ===================================================================== *)

Module RunFacts.
Import Bms7 RetryFacts.

(** ** The shows of a payload *)

(** The show-time entries of the first element of [ShowDetails], in the order
    of the three nested loops, and those of a date. *)
Definition entries (sd : ShowDetail) : list ShowTimeEntry :=
  ev ← Events sd; ch ← ChildEvents ev; ShowTimes ch.

Definition entries_of_date (DATE_CODE : string) (sd : ShowDetail) : list ShowTimeEntry :=
  filter (λ sh, ShowDateCode sh = Some DATE_CODE) (entries sd).

(** A show and the entry it was read from. *)
Definition show_from (sd : ShowDetail) (r : Show) (sh : ShowTimeEntry) : Prop :=
  venue r = PyStr.get_default (VenueName (Venues sd)) ""
  ∧ time r = PyStr.get_default (ShowTime sh) ""
  ∧ audi r = PyStr.get_default (Attributes sh) ""
  ∧ session_id r = PyStr.get_default (SessionId sh) ""
  ∧ totalSeats r = t_total (tiers (Categories sh))
  ∧ available r = t_avail (tiers (Categories sh)).

Lemma parse_payload_entries DATE_CODE data sd0 rest :
  ShowDetails data = sd0 :: rest →
  Forall2 (show_from sd0) (parse_payload DATE_CODE data) (entries_of_date DATE_CODE sd0).
Proof.
  intros Hsd. unfold parse_payload, entries_of_date, entries. rewrite Hsd.
  induction (Events sd0) as [|ev evs IHev]; [constructor|].
  rewrite !bind_cons, filter_app. apply Forall2_app; [|exact IHev]. clear IHev.
  induction (ChildEvents ev) as [|ch chs IHch]; [constructor|].
  rewrite !bind_cons, filter_app. apply Forall2_app; [|exact IHch]. clear IHch.
  induction (ShowTimes ch) as [|sh shs IHsh]; [constructor|].
  rewrite bind_cons, filter_cons.
  destruct (decide (ShowDateCode sh = Some DATE_CODE)); [|exact IHsh].
  simpl. constructor; [|exact IHsh]. done.
Qed.

Lemma parse_payload_empty DATE_CODE data :
  ShowDetails data = [] → parse_payload DATE_CODE data = [].
Proof. unfold parse_payload. by intros ->. Qed.

Section Run.
Context {W : Type}.
Variable fetch_api_raw : string → W → option Payload * W.
Variable reset_identity : W → W.
Variable sleep : W → W.
Variable now_us : W → Z.
Variable strptime_IMp : string → option (Z * Z).
Variable DATE_CODE : string.
Variable venues : list (string * VenueMeta).

Let rows_of := rows_of now_us strptime_IMp DATE_CODE venues.
Let try_venue := try_venue fetch_api_raw now_us strptime_IMp DATE_CODE venues.
Let first_pass_step :=
  first_pass_step fetch_api_raw reset_identity sleep now_us strptime_IMp DATE_CODE venues.
Let retry_step :=
  retry_step fetch_api_raw reset_identity sleep now_us strptime_IMp DATE_CODE venues.
Let retry_round_body :=
  retry_round_body fetch_api_raw reset_identity sleep now_us strptime_IMp DATE_CODE venues.
Let retry_loop :=
  retry_loop fetch_api_raw reset_identity sleep now_us strptime_IMp DATE_CODE venues.
Let scrape :=
  scrape fetch_api_raw reset_identity sleep now_us strptime_IMp DATE_CODE venues.

(** ** One attempt

    The body of both loops: the attempt is logged, the venue is tried, and a
    failure resets the identity, is logged and puts the venue on the list. *)
Definition attempt (ea ef : event) (acc : list string * @RunState W) (u : string)
    : list string * @RunState W :=
  let '(ok, st) := try_venue u (log_ ea acc.2) in
  if ok then (acc.1, sleep_ sleep st)
  else (acc.1 ++ [u], sleep_ sleep (on_failure reset_identity ef st)).

Lemma first_pass_step_attempt acc i u :
  first_pass_step acc (i, u) = attempt (LogVenue i (length venues) u) (LogFailed u) acc u.
Proof. by destruct acc. Qed.

Lemma retry_step_attempt acc u :
  retry_step acc u = attempt (LogRetry u) (LogFailedAgain u) acc u.
Proof. by destruct acc. Qed.

(** What an attempt leaves: the list grows by the venue when it fails, the
    log by the attempt and, on failure, by the reset and the failure; the
    rows grow by the rows of the payload when it succeeds. *)
Lemma attempt_spec ea ef acc u :
  let ok := (try_venue u (log_ ea acc.2)).1 in
  (attempt ea ef acc u).1 = acc.1 ++ (if ok then [] else [u])
  ∧ log (attempt ea ef acc u).2
    = log acc.2 ++ ea :: (if ok then [] else [LogIdentityReset; ef])
  ∧ ∃ rows, all_rows (attempt ea ef acc u).2 = all_rows acc.2 ++ rows
            ∧ (rows = [] ∨
               ok = true
               ∧ ∃ data w, fetch_api_raw u (world acc.2) = (Some data, w)
                           ∧ rows_of u w data = Some rows).
Proof.
  unfold attempt, try_venue, Bms7.try_venue. destruct acc as [l st]. simpl.
  destruct (fetch_api_raw u (world st)) as [raw w] eqn:Hf.
  destruct raw as [data|]; simpl.
  - fold rows_of. destruct (rows_of u w data) as [rows|] eqn:Hrows; simpl.
    + rewrite app_nil_r. repeat split; try done.
      exists rows. split; [done|]. right. split; [done|]. by exists data, w.
    + rewrite <- !app_assoc. repeat split; try done.
      exists []. rewrite app_nil_r. split; [done|by left].
  - rewrite <- !app_assoc. repeat split; try done.
    exists []. rewrite app_nil_r. split; [done|by left].
Qed.

(** ** A property of all rows *)

Section Rows.
Variable P : Row → Prop.
Hypothesis rows_P :
  ∀ u w0 data w rows,
    fetch_api_raw u w0 = (Some data, w) → rows_of u w data = Some rows → Forall P rows.

Definition all_P (acc : list string * @RunState W) : Prop := Forall P (all_rows acc.2).

Lemma attempt_rows ea ef acc u : all_P acc → all_P (attempt ea ef acc u).
Proof.
  unfold all_P. intros Hacc.
  destruct (attempt_spec ea ef acc u) as (_ & _ & rows & -> & Hrows).
  apply Forall_app. split; [done|].
  destruct Hrows as [->|(_ & data & w & Hf & Hr)]; [constructor|].
  by eapply rows_P.
Qed.

Lemma fold_rows_P {A : Type} (step : list string * @RunState W → A → list string * RunState)
    (l : list A) acc :
  (∀ acc x, all_P acc → all_P (step acc x)) → all_P acc → all_P (fold_left step l acc).
Proof.
  intros Hstep. revert acc. induction l as [|x l IH]; intros acc Hacc; [done|].
  simpl. by apply IH, Hstep.
Qed.

Lemma retry_round_body_rows rr pending st :
  Forall P (all_rows st) → all_P (retry_round_body rr pending st).
Proof.
  intros Hst. unfold retry_round_body, Bms7.retry_round_body. fold retry_step.
  apply fold_rows_P; [|done].
  intros acc u. rewrite retry_step_attempt. apply attempt_rows.
Qed.

Lemma retry_loop_rows n rr pending st :
  (S MAX_RETRIES - rr <= n)%nat →
  Forall P (all_rows st) → all_P (retry_loop rr pending st).
Proof.
  revert rr pending st. induction n as [|n IH]; intros rr pending st Hn Hst;
    unfold retry_loop; rewrite Bms7.retry_loop_equation_1;
    destruct (decide (pending ≠ [] ∧ (rr <= MAX_RETRIES)%nat)) as [[Hp Hle]|Hno];
    simpl; try done; try lia.
  fold retry_loop retry_round_body. apply IH; [lia|].
  by apply retry_round_body_rows.
Qed.

Lemma scrape_rows w : all_P (scrape w).
Proof.
  unfold scrape, Bms7.scrape, Bms7.first_pass. fold first_pass_step.
  pose proof (fold_rows_P first_pass_step
                (zip (seq 1 (length venues)) (PyDict.keys venues))
                ([], {| world := w; all_rows := []; log := [] |})) as H1.
  lapply H1; [clear H1; intros H1|].
  2:{ intros acc [i u]. rewrite first_pass_step_attempt. apply attempt_rows. }
  specialize (H1 ltac:(constructor)).
  destruct (fold_left _ _ _) as [failed st1]. unfold all_P in H1. simpl in H1.
  set (st2 := match failed with
              | [] => st1
              | _ => log_ (LogRetrying (length failed)) st1
              end).
  assert (Forall P (all_rows st2)) as H2 by (unfold st2; by destruct failed).
  pose proof (retry_loop_rows (S MAX_RETRIES) 1 failed st2 ltac:(lia) H2) as H3.
  fold retry_loop. destruct (retry_loop 1 failed st2) as [pending st3].
  unfold all_P in *. simpl in *. by destruct pending.
Qed.
End Rows.

(** ** The attempts made for one venue *)

Lemma occurrences_sublist (u : string) l k :
  l `sublist_of` k → (occurrences u l <= occurrences u k)%nat.
Proof.
  induction 1 as [|x l k _ IH|x l k _ IH]; [done| |];
    rewrite ?occurrences_cons; lia.
Qed.

Lemma occurrences_0 (u : string) l : u ∉ l → occurrences u l = 0%nat.
Proof.
  induction l as [|x l IH]; [done|]. intros Hu. rewrite occurrences_cons, IH.
  - unfold one_if. rewrite decide_False; [done|]. intros ->. apply Hu.
    apply elem_of_cons. by left.
  - intros H. apply Hu. apply elem_of_cons. by right.
Qed.

Section Count.
Variable v : string.

(** The venue [v] answers whenever it is asked. *)
Definition answers : Prop := ∀ st, (try_venue v st).1 = true.

Record counted_step (acc res : list string * @RunState W) (u : string) : Prop := {
  step_attempts :
    attempts v (log res.2) = (attempts v (log acc.2) + one_if (u = v))%nat;
  step_rounds : rounds (log res.2) = rounds (log acc.2);
  step_list : ∃ l', res.1 = acc.1 ++ l' ∧ l' `sublist_of` [u]
                    ∧ (answers → u = v → l' = [])
}.

Lemma attempt_counted ea ef acc u :
  is_attempt v ea = bool_decide (u = v) → is_attempt v ef = false →
  is_round ea = false → is_round ef = false →
  counted_step acc (attempt ea ef acc u) u.
Proof.
  intros Hea Hef Hra Hrf.
  destruct (attempt_spec ea ef acc u) as (Hl & Hlog & _). simpl in Hl, Hlog.
  split.
  - rewrite Hlog, attempts_app.
    change (ea :: ?l) with ([ea] ++ l). rewrite attempts_app, attempts_one, Hea.
    assert (attempts v (if (try_venue u (log_ ea acc.2)).1
                        then [] else [LogIdentityReset; ef]) = 0%nat) as ->.
    { destruct (try_venue u _).1; [done|].
      change [LogIdentityReset; ef] with ([LogIdentityReset] ++ [ef]).
      by rewrite attempts_app, !attempts_one, Hef. }
    unfold one_if. destruct (decide (u = v));
      [rewrite bool_decide_true by done | rewrite bool_decide_false by done]; lia.
  - rewrite Hlog, rounds_app.
    change (ea :: ?l) with ([ea] ++ l). rewrite rounds_app, rounds_one, Hra.
    assert (rounds (if (try_venue u (log_ ea acc.2)).1
                    then [] else [LogIdentityReset; ef]) = 0%nat) as ->.
    { destruct (try_venue u _).1; [done|].
      change [LogIdentityReset; ef] with ([LogIdentityReset] ++ [ef]).
      by rewrite rounds_app, !rounds_one, Hrf. }
    lia.
  - eexists. split; [exact Hl|]. split.
    + destruct (try_venue u _).1; [apply sublist_nil_l|done].
    + intros Hans ->. by rewrite Hans.
Qed.

Lemma first_pass_step_counted acc i u :
  counted_step acc (first_pass_step acc (i, u)) u.
Proof. rewrite first_pass_step_attempt. by apply attempt_counted. Qed.

Lemma retry_step_counted acc u : counted_step acc (retry_step acc u) u.
Proof. rewrite retry_step_attempt. by apply attempt_counted. Qed.

(** A loop of attempts over the venues [code <$> xs]. *)
Record counted_fold (acc res : list string * @RunState W) (us : list string) : Prop := {
  fold_attempts :
    attempts v (log res.2) = (attempts v (log acc.2) + occurrences v us)%nat;
  fold_rounds : rounds (log res.2) = rounds (log acc.2);
  fold_list : ∃ l', res.1 = acc.1 ++ l' ∧ l' `sublist_of` us ∧ (answers → v ∉ l')
}.

Lemma fold_counted {A : Type} (step : list string * @RunState W → A → list string * RunState)
    (code : A → string) (xs : list A) acc :
  (∀ acc x, counted_step acc (step acc x) (code x)) →
  counted_fold acc (fold_left step xs acc) (code <$> xs).
Proof.
  intros Hstep. revert acc. induction xs as [|x xs IH]; intros acc.
  - simpl. split; [done|done|]. exists []. rewrite app_nil_r.
    split; [done|]. split; [done|]. intros _ H. by apply elem_of_nil in H.
  - rewrite fmap_cons. cbn [fold_left].
    destruct (IH (step acc x)) as [Ha Hr (l2 & Hl2 & Hs2 & Hv2)].
    destruct (Hstep acc x) as [Ha1 Hr1 (l1 & Hl1 & Hs1 & Hv1)].
    split.
    + rewrite Ha, Ha1, occurrences_cons. lia.
    + by rewrite Hr, Hr1.
    + exists (l1 ++ l2). split; [by rewrite Hl2, Hl1, app_assoc|]. split.
      * change (code x :: (code <$> xs)) with ([code x] ++ (code <$> xs)).
        by apply sublist_app.
      * intros Hans [H|H]%elem_of_app; [|by apply Hv2].
        assert (code x = v) as Hx.
        { eapply elem_of_sublist in H; [|exact Hs1].
          by apply list_elem_of_singleton in H. }
        rewrite (Hv1 Hans Hx) in H. by apply elem_of_nil in H.
Qed.

Lemma retry_round_body_counted rr pending st :
  let res := retry_round_body rr pending st in
  attempts v (log res.2) = (attempts v (log st) + occurrences v pending)%nat
  ∧ rounds (log res.2) = S (rounds (log st))
  ∧ res.1 `sublist_of` pending
  ∧ (answers → v ∉ res.1).
Proof.
  unfold retry_round_body, Bms7.retry_round_body. fold retry_step. simpl.
  destruct (fold_counted retry_step id pending
              ([], log_ (LogRetryRound rr (length pending)) st) retry_step_counted)
    as [Ha Hr (l' & Hl & Hs & Hv)].
  rewrite list_fmap_id in Ha, Hs. simpl in Ha, Hr, Hl.
  rewrite attempts_app, attempts_one in Ha. rewrite rounds_app, rounds_one in Hr.
  simpl in Ha, Hr. rewrite Hl. repeat split; [lia|lia|done|done].
Qed.

Lemma retry_loop_counted n rr pending st :
  (S MAX_RETRIES - rr <= n)%nat →
  let res := retry_loop rr pending st in
  res.1 `sublist_of` pending
  ∧ (attempts v (log st) <= attempts v (log res.2)
     <= attempts v (log st) + (S MAX_RETRIES - rr) * occurrences v pending)%nat
  ∧ (rounds (log st) <= rounds (log res.2) <= rounds (log st) + (S MAX_RETRIES - rr))%nat.
Proof.
  revert rr pending st. induction n as [|n IH]; intros rr pending st Hn;
    unfold retry_loop; rewrite Bms7.retry_loop_equation_1;
    destruct (decide (pending ≠ [] ∧ (rr <= MAX_RETRIES)%nat)) as [[Hp Hle]|Hno];
    simpl; try (split; [done|split; nia]); try lia.
  fold retry_loop retry_round_body.
  destruct (retry_round_body_counted rr pending st) as (Ha & Hr & Hs & _).
  destruct (IH (S rr) (retry_round_body rr pending st).1
              (retry_round_body rr pending st).2 ltac:(lia)) as (Hs' & Ha' & Hr').
  simpl in Ha, Hr, Hs. rewrite Ha, Hr in *.
  pose proof (occurrences_sublist v _ _ Hs) as Ho.
  split; [by etransitivity|]. split; [|lia].
  split; [lia|].
  etransitivity; [apply Ha'|].
  replace (S MAX_RETRIES - rr)%nat with (S (S MAX_RETRIES - S rr))%nat by lia.
  nia.
Qed.

(** The whole run. *)
Lemma scrape_counted w :
  let run := scrape w in
  run.1 `sublist_of` PyDict.keys venues
  ∧ (occurrences v (PyDict.keys venues) <= attempts v (log run.2)
     <= (1 + MAX_RETRIES) * occurrences v (PyDict.keys venues))%nat
  ∧ (rounds (log run.2) <= MAX_RETRIES)%nat
  ∧ (answers → (v ∉ run.1)
               ∧ attempts v (log run.2) = occurrences v (PyDict.keys venues)).
Proof.
  unfold scrape, Bms7.scrape, Bms7.first_pass. fold first_pass_step. simpl.
  destruct (fold_counted first_pass_step snd
              (zip (seq 1 (length venues)) (PyDict.keys venues))
              ([], {| world := w; all_rows := []; log := [] |}))
    as [Ha Hr (l' & Hl & Hs & Hv)].
  { intros acc [i u]. apply first_pass_step_counted. }
  rewrite snd_zip in Ha, Hs
    by (rewrite length_seq; unfold PyDict.keys; by rewrite length_fmap).
  destruct (fold_left _ _ _) as [failed st1]. simpl in Ha, Hr, Hl. subst l'.
  change (attempts v []) with 0%nat in Ha. change (rounds []) with 0%nat in Hr.
  set (st2 := match failed with
              | [] => st1
              | _ => log_ (LogRetrying (length failed)) st1
              end).
  assert (attempts v (log st2) = attempts v (log st1)
          ∧ rounds (log st2) = rounds (log st1)) as [Ha2 Hr2].
  { unfold st2. destruct failed; [done|]. simpl.
    rewrite attempts_app, rounds_app, attempts_one, rounds_one. simpl. lia. }
  destruct (retry_loop_counted (S MAX_RETRIES) 1 failed st2 ltac:(lia))
    as (Hs3 & Ha3 & Hr3).
  fold retry_loop.
  destruct (retry_loop 1 failed st2) as [pending st3] eqn:Hloop. simpl in Hs3, Ha3, Hr3.
  pose proof (occurrences_sublist v _ _ Hs) as Ho.
  assert (∀ e, is_attempt v e = false → is_round e = false →
               attempts v (log (log_ e st3)) = attempts v (log st3)
               ∧ rounds (log (log_ e st3)) = rounds (log st3)) as Hfinal.
  { intros e He1 He2. simpl.
    rewrite attempts_app, rounds_app, attempts_one, rounds_one, He1, He2. lia. }
  assert (attempts v (log (match pending with
                           | [] => (pending, log_ LogRecovered st3)
                           | _ => (pending, log_ (LogPermanent MAX_RETRIES (length pending)) st3)
                           end).2) = attempts v (log st3)
          ∧ rounds (log (match pending with
                         | [] => (pending, log_ LogRecovered st3)
                         | _ => (pending, log_ (LogPermanent MAX_RETRIES (length pending)) st3)
                         end).2) = rounds (log st3)
          ∧ (match pending with
             | [] => (pending, log_ LogRecovered st3)
             | _ => (pending, log_ (LogPermanent MAX_RETRIES (length pending)) st3)
             end).1 = pending) as (-> & -> & ->).
  { destruct pending; (split; [|split; [|done]]); by apply Hfinal. }
  unfold MAX_RETRIES in *.
  split; [by etransitivity|]. split; [lia|]. split; [lia|].
  intros Hans. specialize (Hv Hans).
  assert (v ∉ pending) as Hp.
  { intros H. apply Hv. by eapply elem_of_sublist. }
  split; [done|]. rewrite (occurrences_0 v failed Hv) in Ha3. lia.
Qed.

(** ** A venue of which the log reports no failure *)

(** The log line of a failed attempt of the venue [v], in the first pass or
    in a retry round. *)
Definition is_failure (e : event) : bool :=
  match e with
  | LogFailed u => bool_decide (u = v)
  | LogFailedAgain u => bool_decide (u = v)
  | _ => false
  end.

(** The log reports no failed attempt of [v]. *)
Definition unfailed (l : list event) : Prop := Forall (λ e, is_failure e = false) l.

Lemma attempt_unfailed ea ef acc u :
  is_failure ef = bool_decide (u = v) →
  unfailed (log (attempt ea ef acc u).2) →
  unfailed (log acc.2) ∧ ∃ l', (attempt ea ef acc u).1 = acc.1 ++ l' ∧ v ∉ l'.
Proof.
  intros Hef. destruct (attempt_spec ea ef acc u) as (Hl & Hlog & _).
  simpl in Hl, Hlog. rewrite Hlog. intros [Hacc Hrest]%Forall_app. split; [done|].
  eexists. split; [exact Hl|].
  destruct (try_venue u _).1; [apply not_elem_of_nil|].
  apply Forall_cons in Hrest as [_ Hrest]. apply Forall_cons in Hrest as [_ Hrest].
  apply Forall_cons in Hrest as [Hf _]. rewrite Hef in Hf.
  apply bool_decide_eq_false in Hf. intros ->%list_elem_of_singleton. done.
Qed.

Lemma fold_unfailed {A : Type} (step : list string * @RunState W → A → list string * RunState)
    (xs : list A) acc :
  (∀ acc x, unfailed (log (step acc x).2) →
            unfailed (log acc.2) ∧ ∃ l', (step acc x).1 = acc.1 ++ l' ∧ v ∉ l') →
  unfailed (log (fold_left step xs acc).2) →
  unfailed (log acc.2) ∧ ∃ l', (fold_left step xs acc).1 = acc.1 ++ l' ∧ v ∉ l'.
Proof.
  intros Hstep. revert acc. induction xs as [|x xs IH]; intros acc; simpl.
  - intros H. split; [done|]. exists []. rewrite app_nil_r.
    split; [done|apply not_elem_of_nil].
  - intros H. destruct (IH _ H) as (H1 & l2 & Hl2 & Hv2).
    destruct (Hstep _ _ H1) as (H0 & l1 & Hl1 & Hv1).
    split; [done|]. exists (l1 ++ l2). split; [by rewrite Hl2, Hl1, app_assoc|].
    rewrite elem_of_app. tauto.
Qed.

Lemma retry_round_body_unfailed rr pending st :
  unfailed (log (retry_round_body rr pending st).2) →
  unfailed (log st) ∧ v ∉ (retry_round_body rr pending st).1.
Proof.
  unfold retry_round_body, Bms7.retry_round_body. fold retry_step. intros H.
  apply fold_unfailed in H as (H0 & l' & Hl & Hv).
  - simpl in H0, Hl. apply Forall_app in H0 as [H0 _]. split; [done|]. by rewrite Hl.
  - intros acc u. rewrite retry_step_attempt. by apply attempt_unfailed.
Qed.

Lemma retry_loop_unfailed n rr pending st :
  (S MAX_RETRIES - rr <= n)%nat →
  unfailed (log (retry_loop rr pending st).2) → unfailed (log st).
Proof.
  revert rr pending st. induction n as [|n IH]; intros rr pending st Hn;
    unfold retry_loop; rewrite Bms7.retry_loop_equation_1;
    destruct (decide (pending ≠ [] ∧ (rr <= MAX_RETRIES)%nat)) as [[Hp Hle]|Hno];
    simpl; try done; try lia.
  fold retry_loop retry_round_body. intros H%IH; [|lia].
  by apply retry_round_body_unfailed in H as [? _].
Qed.

(** A venue of which the log of the run reports no failure has been
    attempted as often as it stands in the list, and is not reported as
    failed in the end. *)
Lemma scrape_unfailed w :
  let run := scrape w in
  unfailed (log run.2) →
  (v ∉ run.1) ∧ attempts v (log run.2) = occurrences v (PyDict.keys venues).
Proof.
  unfold scrape, Bms7.scrape, Bms7.first_pass. fold first_pass_step. simpl.
  pose proof (fold_counted first_pass_step snd
                (zip (seq 1 (length venues)) (PyDict.keys venues))
                ([], {| world := w; all_rows := []; log := [] |})) as Hc.
  pose proof (fold_unfailed first_pass_step
                (zip (seq 1 (length venues)) (PyDict.keys venues))
                ([], {| world := w; all_rows := []; log := [] |})) as Hu.
  destruct Hc as [Ha _ _].
  { intros acc [i u]. apply first_pass_step_counted. }
  rewrite snd_zip in Ha
    by (rewrite length_seq; unfold PyDict.keys; by rewrite length_fmap).
  destruct (fold_left _ _ _) as [failed st1]. simpl in Ha, Hu.
  change (attempts v []) with 0%nat in Ha.
  set (st2 := match failed with
              | [] => st1
              | _ => log_ (LogRetrying (length failed)) st1
              end).
  assert (attempts v (log st2) = attempts v (log st1)) as Ha2.
  { unfold st2. destruct failed; [done|]. simpl.
    rewrite attempts_app, attempts_one. simpl. lia. }
  assert (unfailed (log st2) → unfailed (log st1)) as Hu2.
  { unfold st2. destruct failed; [done|]. simpl. by intros [? _]%Forall_app. }
  destruct (retry_loop_counted (S MAX_RETRIES) 1 failed st2 ltac:(lia))
    as (Hs3 & Ha3 & _).
  pose proof (retry_loop_unfailed (S MAX_RETRIES) 1 failed st2 ltac:(lia)) as Hu3.
  fold retry_loop.
  destruct (retry_loop 1 failed st2) as [pending st3] eqn:Hloop.
  simpl in Hs3, Ha3, Hu3.
  assert ((match pending with
           | [] => (pending, log_ LogRecovered st3)
           | _ => (pending, log_ (LogPermanent MAX_RETRIES (length pending)) st3)
           end).1 = pending
          ∧ ∃ e, log (match pending with
                      | [] => (pending, log_ LogRecovered st3)
                      | _ => (pending,
                              log_ (LogPermanent MAX_RETRIES (length pending)) st3)
                      end).2 = log st3 ++ [e] ∧ is_attempt v e = false)
    as (-> & e & -> & He).
  { destruct pending; (split; [done|]); eexists; by split. }
  intros [Hst3 _]%Forall_app.
  destruct Hu as (_ & l' & Hl & Hv).
  - intros acc [i u]. rewrite first_pass_step_attempt. by apply attempt_unfailed.
  - by apply Hu2, Hu3.
  - simpl in Hl. subst l'.
    split; [intros H; apply Hv; by eapply elem_of_sublist|].
    rewrite attempts_app, attempts_one, He.
    rewrite (occurrences_0 v failed Hv) in Ha3. lia.
Qed.

(** A venue of the list whose request is always answered. *)
Lemma answers_of_fetch :
  (∀ w, is_Some (fetch_api_raw v w).1) → v ∈ PyDict.keys venues → answers.
Proof.
  intros Hf Hin st. unfold try_venue, Bms7.try_venue.
  destruct (Hf (world st)) as [data Hdata].
  destruct (fetch_api_raw v (world st)) as [raw w]. simpl in Hdata. subst raw. simpl.
  unfold Bms7.rows_of.
  destruct (filter _ _) as [|r kept]; [done|].
  destruct (PyDict.get v venues) as [meta|] eqn:Hget; [done|].
  by apply PyDictFacts.get_None in Hget.
Qed.
End Count.

End Run.

End RunFacts.

(* ===================================================================== *)
(** * The merge of bmsdaily7.py: what the merged file holds, and where *)
(* ===================================================================== *)

Module MergeMore.
Import Bms7 MergeFacts.

(** The merge raises exactly when a record lacks a field of the key. *)
Lemma merge_is_Some S N :
  is_Some (merge S N)
  ↔ Forall (λ r, is_Some (show_key r)) S ∧ Forall (λ r, is_Some (show_key r)) N.
Proof.
  split.
  - intros [D (om0 & om & nm & H0 & Hl & _)%merge_Some]. split.
    + by eapply old_map_from_keys.
    + by eapply merge_loop_rows_keys.
  - intros [HS HN]. by apply merge_succeeds.
Qed.

(** ** The last record under a key *)

Lemma last_filter_split {A : Type} (P : A → Prop) `{!∀ x, Decision (P x)} (l : list A) x :
  last (filter P l) = Some x →
  ∃ l1 l2, l = l1 ++ x :: l2 ∧ P x ∧ Forall (λ y, ¬ P y) l2.
Proof.
  induction l as [|a l IH]; [done|].
  rewrite filter_cons. destruct (decide (P a)) as [Ha|Ha].
  - destruct (filter P l) as [|b f] eqn:Hf.
    + intros [= <-]. exists [], l. split; [done|]. split; [done|].
      apply Forall_forall. intros y Hy Py.
      assert (y ∈ filter P l) as Hin by (by apply list_elem_of_filter).
      rewrite Hf in Hin. by apply elem_of_nil in Hin.
    + intros Hl. change (last (a :: b :: f)) with (last (b :: f)) in Hl.
      destruct (IH Hl) as (l1 & l2 & -> & Hz & Hl2).
      by exists (a :: l1), l2.
  - intros Hl. destruct (IH Hl) as (l1 & l2 & -> & Hz & Hl2). by exists (a :: l1), l2.
Qed.

Lemma old_map_from_get S om0 k :
  old_map_from [] S = Some om0 → PyDict.get k om0 = last (with_key k S).
Proof.
  intros H0. destruct (last (with_key k S)) as [o|] eqn:Hlast.
  - apply last_filter_split in Hlast as (S1 & S2 & -> & Ho & HS2).
    by eapply old_map_from_last.
  - apply last_None in Hlast.
    rewrite (old_map_from_other _ _ _ k H0); [done|].
    apply Forall_forall. intros r Hr Hk.
    assert (r ∈ with_key k S) as Hin by (by apply list_elem_of_filter).
    rewrite Hlast in Hin. by apply elem_of_nil in Hin.
Qed.

(** The record the merged file holds under the key of a new row: the last old
    record under that key, updated by the new rows under it in their order,
    or the last of these rows when there is no old record. *)
Lemma merged_record S N D k r :
  merge S N = Some D →
  last (with_key k N) = Some r →
  match last (with_key k S) with
  | Some o => updates o (with_key k N)
  | None => r
  end ∈ D.
Proof.
  intros (om0 & om & nm & H0 & Hl & ->)%merge_Some Hr.
  destruct (old_map_from_inv _ _ _ H0) as [Hnd0 _];
    [apply NoDup_nil_2 | apply keyed_nil |].
  destruct (merge_loop_get _ _ _ _ _ k Hl) as [_ Hgn].
  destruct (merge_loop_keys _ _ _ _ _ Hl) as [Hkeys _].
  rewrite Hr, (old_map_from_get _ _ _ H0) in Hgn.
  rewrite retain_closed by (by rewrite Hkeys).
  unfold PyDict.values. apply list_elem_of_fmap.
  eexists (k, _). split; [reflexivity|].
  apply elem_of_app. left. by apply PyDictFacts.get_Some_elem.
Qed.

(** ** The order of the merged file *)

Section Keys.
Context {K : Type} `{!EqDecision K, !Countable K}.

Lemma first_wins_elem (seen : gset K) (l : list K) x :
  x ∈ DedupeFacts.first_wins id seen l ↔ x ∈ l ∧ x ∉ seen.
Proof.
  revert seen. induction l as [|a l IH]; intros seen; simpl.
  - split; [intros H; by apply elem_of_nil in H | intros [H _]; by apply elem_of_nil in H].
  - unfold id at 1. destruct (decide (a ∈ seen)) as [Ha|Ha].
    + rewrite IH, elem_of_cons. split; [tauto|]. intros [[->|H] Hx]; [done|tauto].
    + rewrite !elem_of_cons, IH, elem_of_union, elem_of_singleton. unfold id.
      split.
      * intros [->|[H1 H2]]; [tauto|]. split; [tauto|]. tauto.
      * intros [[->|H1] H2]; [tauto|].
        destruct (decide (x = a)); [tauto|]. right. tauto.
Qed.

Lemma fold_add_key (add : list K → K → list K) (ks acc : list K) :
  (∀ acc k, add acc k = if decide (k ∈ acc) then acc else acc ++ [k]) →
  fold_left add ks acc
  = acc ++ DedupeFacts.first_wins id (list_to_set acc) ks.
Proof.
  intros Hadd. revert acc. induction ks as [|k ks IH]; intros acc.
  - simpl. by rewrite app_nil_r.
  - simpl. rewrite IH, Hadd. unfold id at 2.
    destruct (decide (k ∈ acc)) as [Hin|Hin].
    + by rewrite decide_True by (by apply elem_of_list_to_set).
    + rewrite decide_False by (by rewrite elem_of_list_to_set).
      rewrite <- app_assoc. simpl. do 3 f_equal.
      rewrite list_to_set_app_L. simpl. rewrite (right_id_L ∅ (∪)).
      by rewrite (comm_L (∪)).
Qed.

Lemma first_wins_Some (seen : gset K) (seen' : gset (option K)) (ks : list K) :
  (∀ k, k ∈ seen ↔ Some k ∈ seen') →
  Some <$> DedupeFacts.first_wins id seen ks
  = DedupeFacts.first_wins id seen' (Some <$> ks).
Proof.
  revert seen seen'. induction ks as [|k ks IH]; intros seen seen' Hs; [done|].
  rewrite fmap_cons. simpl. unfold id at 1 3.
  destruct (decide (k ∈ seen)) as [Hk|Hk].
  - rewrite decide_True by (by apply Hs). by apply IH.
  - rewrite decide_False by (by rewrite <- Hs). rewrite fmap_cons. f_equal.
    apply IH. intros k'. rewrite !elem_of_union, !elem_of_singleton, Hs. unfold id.
    split; (intros [H|H]; [left|by right]); congruence.
Qed.
End Keys.

Section Filter.
Context {K V : Type} `{EqDecision K}.

(** Two dictionaries with the same keys that agree on the keys that satisfy
    a property of the key have the same entries under these keys. *)
Lemma filter_agree (P : K * V → Prop) `{!∀ x, Decision (P x)} (d d' : list (K * V)) :
  NoDup (PyDict.keys d) → PyDict.keys d' = PyDict.keys d →
  (∀ k v v', P (k, v) → P (k, v')) →
  (∀ k v, P (k, v) → PyDict.get k d' = PyDict.get k d) →
  filter P d' = filter P d.
Proof.
  intros Hnd Hkeys Hkey. revert d' Hnd Hkeys.
  induction d as [|[k v] d IH]; intros [|[k' v'] d'] Hnd Hkeys Hget; try done.
  unfold PyDict.keys in *. rewrite !fmap_cons in Hkeys. simpl in Hkeys.
  injection Hkeys as -> Hkeys. rewrite fmap_cons in Hnd.
  apply NoDup_cons in Hnd as [Hk Hnd]. simpl in Hk.
  assert (filter P d' = filter P d) as Htl.
  { apply IH; [done|done|]. intros k0 v0 Hk0. specialize (Hget k0 v0 Hk0).
    simpl in Hget. destruct (decide (k = k0)) as [<-|Hne]; [|done].
    transitivity (@None V); [|symmetry]; apply PyDictFacts.get_None;
      unfold PyDict.keys; [by rewrite Hkeys | done]. }
  rewrite !filter_cons. destruct (decide (P (k, v'))) as [Hq|Hq].
  - rewrite decide_True by (by eapply Hkey).
    specialize (Hget k v' Hq). simpl in Hget. rewrite !decide_True in Hget by done.
    injection Hget as ->. by rewrite Htl.
  - rewrite decide_False; [done|]. intros Hq'. apply Hq. by eapply Hkey.
Qed.

Lemma values_filter (P : K * V → Prop) `{!∀ x, Decision (P x)}
    (Q : V → Prop) `{!∀ v, Decision (Q v)} (d : list (K * V)) :
  (∀ k v, (k, v) ∈ d → P (k, v) ↔ Q v) →
  PyDict.values (filter P d) = filter Q (PyDict.values d).
Proof.
  unfold PyDict.values. induction d as [|[k v] d IH]; intros HQ; [done|].
  assert ((filter P d).*2 = filter Q d.*2) as Htl.
  { apply IH. intros k0 v0 Hin. apply HQ. apply elem_of_cons. by right. }
  rewrite fmap_cons, !filter_cons. simpl.
  pose proof (HQ k v ltac:(apply elem_of_cons; by left)) as Hkv.
  destruct (decide (P (k, v))) as [Hq|Hq].
  - rewrite decide_True by (by apply Hkv). rewrite fmap_cons. simpl. by rewrite Htl.
  - rewrite decide_False by (by rewrite <- Hkv). done.
Qed.
End Filter.

(** A list of records that all have a key, as the dictionary it makes. *)
Lemma keyed_list S :
  Forall (λ r, is_Some (show_key r)) S →
  ∃ d, PyDict.values d = S ∧ keyed d ∧ Some <$> PyDict.keys d = show_key <$> S.
Proof.
  induction 1 as [|r S [k Hk] _ (d & Hv & Hkd & Hks)].
  - exists []. split; [done|]. split; [apply keyed_nil|done].
  - exists ((k, r) :: d). unfold PyDict.values, PyDict.keys in *.
    rewrite !fmap_cons. simpl. rewrite Hv, Hks, Hk. split; [done|]. split; [|done].
    intros k' v' [[= -> ->]|Hin]%elem_of_cons; [done|by apply Hkd].
Qed.

Lemma NoDup_Some {A : Type} (l : list A) : NoDup (Some <$> l) → NoDup l.
Proof. apply NoDup_fmap_1. Qed.

(** The merged file: first one record for each key of the new rows, in the
    order in which the new rows bring the keys, then the old records that no
    new row touches, in their old order. *)
Lemma merge_layout S N D :
  NoDup (show_key <$> S) →
  merge S N = Some D →
  ∃ D1,
    D = D1 ++ filter (λ o, show_key o ∉ show_key <$> N) S
    ∧ show_key <$> D1 = DedupeFacts.first_wins id ∅ (show_key <$> N).
Proof.
  intros HndS Hm.
  assert (is_Some (merge S N)) as [HS HN]%merge_is_Some by (by eexists).
  destruct (keyed_list S HS) as (d & Hvd & Hkd & Hksd).
  assert (NoDup (PyDict.keys d)) as Hndd.
  { apply NoDup_Some. by rewrite Hksd. }
  apply merge_Some in Hm as (om0 & om & nm & H0 & Hl & ->).
  assert (om0 = d) as ->.
  { pose proof (old_map_from_values [] d Hndd Hkd) as H. rewrite Hvd in H.
    rewrite H0 in H. by injection H. }
  destruct (merge_loop_keys _ _ _ _ _ Hl) as (Hkeys & ks & Hks & Hknm).
  destruct (merge_loop_inv _ _ _ _ _ Hl Hndd NoDup_nil_2 Hkd keyed_nil)
    as (_ & _ & _ & Hknm').
  rewrite retain_closed by (by rewrite Hkeys).
  assert (Some <$> ks = show_key <$> N) as HksN.
  { clear -Hks. induction Hks as [|r k N ks Hrk _ IH]; [done|].
    rewrite !fmap_cons. by rewrite Hrk, IH. }
  rewrite (fold_add_key add_key) in Hknm by done. simpl in Hknm.
  exists (PyDict.values nm). split.
  - unfold PyDict.values at 1. rewrite fmap_app. f_equal.
    change ((filter _ om).*2) with (PyDict.values (filter (λ kv, kv.1 ∉ PyDict.keys nm) om)).
    assert (filter (λ kv, kv.1 ∉ PyDict.keys nm) om
            = filter (λ kv, kv.1 ∉ PyDict.keys nm) d) as ->.
    { apply (filter_agree _ d om Hndd Hkeys); [done|].
      intros k v0 Hk. simpl in Hk. destruct (merge_loop_get _ _ _ _ _ k Hl) as [Hgo _].
      rewrite Hgo. assert (with_key k N = []) as ->; [|by destruct (PyDict.get k d)].
      unfold with_key. apply ListFacts.filter_none. apply Forall_forall.
      intros r Hr Hrk. apply Hk. rewrite Hknm. apply first_wins_elem.
      split; [|apply not_elem_of_empty].
      assert (Some k ∈ Some <$> ks) as (k' & [= <-] & Hk')%list_elem_of_fmap; [|done].
      rewrite HksN. apply list_elem_of_fmap. by exists r. }
    rewrite <- Hvd.
    apply values_filter. intros k o Hin. simpl.
    rewrite <- HksN, Hknm, (Hkd _ _ Hin).
    rewrite first_wins_elem. split.
    + intros Hn (k' & [= <-] & Hk')%list_elem_of_fmap. apply Hn.
      split; [done|apply not_elem_of_empty].
    + intros Hn [Hk' _]. apply Hn. apply list_elem_of_fmap. by exists k.
  - rewrite (keyed_show_keys _ Hknm'), Hknm, <- HksN.
    apply first_wins_Some. intros k. split; intros H; by apply not_elem_of_empty in H.
Qed.

(** With no new row the merged file is the old one. *)
Lemma merge_nothing S : NoDup (show_key <$> S) →
  Forall (λ r, is_Some (show_key r)) S → merge S [] = Some S.
Proof.
  intros Hnd HS.
  destruct (proj2 (merge_is_Some S []) (conj HS (Forall_nil_2 _))) as [D HD].
  destruct (merge_layout S [] D Hnd HD) as (D1 & -> & HD1). rewrite HD.
  destruct D1; [|done]. simpl. f_equal. apply ListFacts.filter_all.
  apply Forall_forall. intros r _ H. by apply elem_of_nil in H.
Qed.

(** ** A property of the records that the merge keeps *)

Section Kept.
Variable P : gmap string value → Prop.
Hypothesis P_update : ∀ o r, P r → P (update o r).

Definition all_P (d : list (Key * gmap string value)) : Prop := Forall (λ kv, P kv.2) d.

Lemma set_all_P k v d : all_P d → P v → all_P (PyDict.set k v d).
Proof.
  intros Hd Hv. apply Forall_forall. intros [k' v'] Hin.
  apply PyDictFacts.elem_of_set in Hin as [[-> ->]|Hin]; [done|].
  by apply (proj1 (Forall_forall _ _) Hd (k', v')).
Qed.

Lemma old_map_from_P m S om :
  old_map_from m S = Some om → all_P m → Forall P S → all_P om.
Proof.
  revert m. induction S as [|r S IH]; intros m; simpl.
  - by intros [= <-].
  - destruct (show_key r) as [k|]; [|done]. simpl.
    intros H Hm [Hr HS]%Forall_cons. eapply IH; [exact H| |done].
    by apply set_all_P.
Qed.

Lemma merge_loop_P om nm N om' nm' :
  merge_loop om nm N = Some (om', nm') →
  all_P om → all_P nm → Forall P N → all_P om' ∧ all_P nm'.
Proof.
  revert om nm. induction N as [|r N IH]; intros om nm; simpl.
  - by intros [= <- <-].
  - destruct (show_key r) as [k|]; [|done]. simpl.
    intros H Hom Hnm [Hr HN]%Forall_cons.
    destruct (PyDict.get k om) as [o|].
    + eapply IH; [exact H| | |done]; apply set_all_P; try done; by apply P_update.
    + eapply IH; [exact H|done| |done]. by apply set_all_P.
Qed.

Lemma retain_P om nm : all_P om → all_P nm → all_P (retain om nm).
Proof.
  unfold retain. revert nm. induction om as [|[k v] om IH]; intros nm Hom Hnm; [done|].
  apply Forall_cons in Hom as [Hv Hom]. simpl. apply IH; [done|].
  destruct (PyDict.mem k nm); [done|]. by apply set_all_P.
Qed.

Lemma merge_P S N D : merge S N = Some D → Forall P S → Forall P N → Forall P D.
Proof.
  intros (om0 & om & nm & H0 & Hl & ->)%merge_Some HS HN.
  pose proof (old_map_from_P _ _ _ H0 ltac:(constructor) HS) as Hom0.
  destruct (merge_loop_P _ _ _ _ _ Hl Hom0 ltac:(constructor) HN) as [Hom Hnm].
  unfold PyDict.values. apply Forall_fmap. by apply retain_P.
Qed.
End Kept.

(** ** A record without a field of the key *)

Definition key_fields : list string := ["venue"; "time"; "session_id"; "audi"]%string.

Lemma show_key_missing r k : k ∈ key_fields → r !! k = None → show_key r = None.
Proof.
  unfold key_fields, show_key. intros Hk Hr.
  repeat (apply elem_of_cons in Hk as [->|Hk];
          [rewrite Hr; repeat case_match; done|]).
  by apply elem_of_nil in Hk.
Qed.

Lemma merge_missing_key S N r k :
  r ∈ S ∨ r ∈ N → k ∈ key_fields → r !! k = None → merge S N = None.
Proof.
  intros Hin Hk Hr. destruct (merge S N) as [D|] eqn:Hm; [|done]. exfalso.
  assert (is_Some (merge S N)) as Hs by (by eexists).
  apply merge_is_Some in Hs as [HS HN].
  pose proof (show_key_missing r k Hk Hr) as Hnone.
  destruct Hin as [Hin|Hin];
    [apply (proj1 (Forall_forall _ _) HS) in Hin
    |apply (proj1 (Forall_forall _ _) HN) in Hin];
    rewrite Hnone in Hin; by destruct Hin.
Qed.

End MergeMore.

(* ===================================================================== *)
(** * bmsdaily7.py: the summary of the merged records *)
(* ===================================================================== *)

Module MainFacts.
Import Bms7 Bms7Main.

(** A record that has the six fields the summary reads. *)
Definition readable (r : gmap string value) : Prop := is_Some (fields r).

Lemma fields_update o r f : fields r = Some f → fields (update o r) = Some f.
Proof.
  unfold fields, update.
  destruct (r !! "movie"%string) as [[m|?]|] eqn:E1; try done.
  destruct (r !! "city"%string) as [[c|?]|] eqn:E2; try done.
  destruct (r !! "venue"%string) as [[v|?]|] eqn:E3; try done.
  destruct (r !! "sold"%string) as [[?|[s|?]]|] eqn:E4; try done.
  destruct (r !! "totalSeats"%string) as [[?|[t|?]]|] eqn:E5; try done.
  destruct (r !! "gross"%string) as [[?|g]|] eqn:E6; try done.
  by rewrite (lookup_union_Some_l r o _ _ E1), (lookup_union_Some_l r o _ _ E2),
    (lookup_union_Some_l r o _ _ E3), (lookup_union_Some_l r o _ _ E4),
    (lookup_union_Some_l r o _ _ E5), (lookup_union_Some_l r o _ _ E6).
Qed.

Lemma readable_update o r : readable r → readable (update o r).
Proof. intros [f Hf]. exists f. by apply fields_update. Qed.

Lemma fields_row_dict row :
  fields (row_dict row)
  = Some {| f_movie := movie (show row); f_city := city row;
            f_venue := venue (show row); f_sold := sold (show row);
            f_total := totalSeats (show row); f_gross := gross (show row) |}.
Proof. reflexivity. Qed.

(** The entry of the other summaries that a record of [detailed] is. *)
Definition entry_of (f : Fields) (occ : Py.num) : Agg.Entry :=
  {| Agg.e_movie := f_movie f; Agg.e_venue := f_venue f;
     Agg.e_city_member := f_city f; Agg.e_ck := (f_city f, EmptyString);
     Agg.e_city := f_city f; Agg.e_state := EmptyString;
     Agg.e_lang := EmptyString; Agg.e_dim := EmptyString;
     Agg.e_total := f_total f; Agg.e_sold := f_sold f;
     Agg.e_gross := f_gross f; Agg.e_occ := occ |}.

(** The update of the figures of a movie by one record. *)
Definition step (e : Agg.Entry) (m : MovieSum) : MovieSum :=
  {| tot := GroupFacts.add_entry (tot m) e;
     cities := {[ Agg.e_city_member e ]} ∪ cities m |}.

(** The occupancy of a record, when it is computed. *)
Definition occ_of (f : Fields) : Py.num :=
  default (PyInt 0) (calc_occupancy (f_sold f) (f_total f)).

(** A record that the summary reads without exception: it has the six
    fields the summary reads, with values of the kinds the scraper writes, no
    more sold seats than seats and no negative number of them, and a gross
    that converts to a float. *)
Definition sane (r : gmap string value) : Prop :=
  ∃ f, fields r = Some f ∧ 0 <= f_sold f <= f_total f
       ∧ Py.convertible (f_gross f) = true.

(** The same as a test. *)
Definition saneb (r : gmap string value) : bool :=
  match fields r with
  | Some f => (0 <=? f_sold f) && (f_sold f <=? f_total f) && Py.convertible (f_gross f)
  | None => false
  end.

Lemma saneb_sane r : saneb r = true → sane r.
Proof.
  unfold saneb, sane. destruct (fields r) as [f|]; [|done].
  intros [[H1 H2]%andb_prop H3]%andb_prop. exists f.
  apply Z.leb_le in H1, H2. done.
Qed.

Lemma forallb_sane rows : forallb saneb rows = true → Forall sane rows.
Proof.
  induction rows as [|r rows IH]; simpl; [constructor|].
  intros [Hr Hrows]%andb_prop. constructor; [by apply saneb_sane|by apply IH].
Qed.

Lemma sane_readable r : sane r → readable r.
Proof. intros (f & Hf & _). by exists f. Qed.

Lemma sane_update o r : sane r → sane (update o r).
Proof. intros (f & Hf & H). exists f. split; [by apply fields_update|done]. Qed.

(** The field names the summary reads. *)
Definition summary_fields : list string :=
  ["movie"; "city"; "venue"; "sold"; "totalSeats"; "gross"]%string.

(** A record without one of them is not read. *)
Lemma fields_missing r k : k ∈ summary_fields → r !! k = None → fields r = None.
Proof.
  unfold summary_fields, fields. intros Hk Hr.
  repeat (apply elem_of_cons in Hk as [->|Hk];
          [rewrite Hr; repeat case_match; done|]).
  by apply elem_of_nil in Hk.
Qed.

Lemma summary_step_Some s r s' :
  summary_step s r = Some s' →
  ∃ f, fields r = Some f
       ∧ is_Some (calc_occupancy (f_sold f) (f_total f))
       ∧ s' = Agg.upsert (f_movie f) fresh_movie (step (entry_of f (occ_of f))) s.
Proof.
  unfold summary_step, occ_of. destruct (fields r) as [f|]; [|done]. simpl.
  destruct (calc_occupancy (f_sold f) (f_total f)) as [occ|] eqn:Hocc; [|done]. simpl.
  intros [= <-]. exists f. rewrite Hocc. split; [done|]. split; [by eexists|done].
Qed.

Lemma summary_step_sane s r : sane r → is_Some (summary_step s r).
Proof.
  intros (f & Hf & Hs & _). unfold summary_step. rewrite Hf. simpl.
  destruct (OccupancyFacts.calc_occupancy_part (f_sold f) (f_total f) Hs) as [occ ->].
  by eexists.
Qed.

Lemma summary_loop_readable s rows :
  is_Some (summary_loop s rows) → Forall readable rows.
Proof.
  revert s. induction rows as [|r rows IH]; intros s; simpl; [constructor|].
  destruct (summary_step s r) as [s1|] eqn:Hs1; simpl; [|by intros [? ?]].
  intros H. constructor; [|by apply (IH s1)].
  apply summary_step_Some in Hs1 as (f & Hf & _). by exists f.
Qed.

Lemma summary_loop_sane s rows : Forall sane rows → is_Some (summary_loop s rows).
Proof.
  revert s. induction rows as [|r rows IH]; intros s; simpl; [by eexists|].
  intros [Hr Hrows]%Forall_cons.
  destruct (summary_step_sane s r Hr) as [s1 ->]. simpl. by apply IH.
Qed.

(** The figures of every movie stay within the seats when the records do. *)
Lemma summary_loop_seated s rows s' :
  summary_loop s rows = Some s' → Forall sane rows →
  Forall (λ kv, SummaryFacts.seated (tot kv.2)) s →
  Forall (λ kv, SummaryFacts.seated (tot kv.2)) s'.
Proof.
  revert s. induction rows as [|r rows IH]; intros s; simpl.
  - by intros [= <-].
  - destruct (summary_step s r) as [s1|] eqn:Hs1; [|done]. simpl.
    intros Hs' [Hr Hrows]%Forall_cons Hs. apply (IH s1); [done|done|].
    apply summary_step_Some in Hs1 as (f & Hf & _ & ->).
    destruct Hr as (f' & Hf' & Hsold & _). rewrite Hf in Hf'. injection Hf' as <-.
    apply (SummaryFacts.upsert_Forall (λ _ m, SummaryFacts.seated (tot m))); [done| |].
    + unfold SummaryFacts.seated. simpl. lia.
    + intros m. unfold SummaryFacts.seated. simpl. lia.
Qed.

Lemma final_summary_seated s :
  Forall (λ kv, SummaryFacts.seated (tot kv.2)) s → is_Some (final_summary s).
Proof.
  intros Hs. unfold final_summary. apply mapM_is_Some.
  eapply Forall_impl; [exact Hs|]. intros [k m] Hm. simpl in *. unfold Agg.figures.
  by destruct (OccupancyFacts.calc_occupancy_part _ _ Hm) as [? ->].
Qed.

Lemma summarize_readable detailed :
  is_Some (summarize detailed) → Forall readable detailed.
Proof.
  unfold summarize. intros H. apply (summary_loop_readable []).
  destruct (summary_loop [] detailed); [by eexists|]. by destruct H.
Qed.

Lemma summarize_missing detailed r k :
  r ∈ detailed → k ∈ summary_fields → r !! k = None → summarize detailed = None.
Proof.
  intros Hin Hk Hr. destruct (summarize detailed) as [out|] eqn:Hs; [|done]. exfalso.
  assert (is_Some (summarize detailed)) as Hsome by (by eexists).
  apply summarize_readable in Hsome.
  apply (proj1 (Forall_forall _ _) Hsome) in Hin as [f Hf].
  by rewrite (fields_missing r k Hk Hr) in Hf.
Qed.

Lemma summarize_sane detailed : Forall sane detailed → is_Some (summarize detailed).
Proof.
  intros Hd. unfold summarize.
  destruct (summary_loop_sane [] detailed Hd) as [s Hs]. rewrite Hs. simpl.
  apply final_summary_seated. eapply summary_loop_seated; [exact Hs|done|constructor].
Qed.

(** ** What the summary counts *)

(** The figures of a movie are within bounds. *)
Definition sound (m : MovieSum) : Prop :=
  SummaryFacts.counted (tot m)
  ∧ 1 <= Z.of_nat (size (cities m)) <= Agg.shows (tot m).

Lemma movie_sound_first e : sound (step e fresh_movie).
Proof.
  split; [apply SummaryFacts.counted_first|].
  cbn [step tot cities fresh_movie GroupFacts.add_entry Agg.add_show Agg.shows Agg.fresh].
  pose proof (SummaryFacts.size_add_1 (Agg.e_city_member e) ∅) as Hs.
  rewrite size_empty in Hs. lia.
Qed.

Lemma movie_sound_next e m : sound m → sound (step e m).
Proof.
  intros [Hm Hc]. split; [by apply SummaryFacts.counted_next|].
  cbn [step tot cities GroupFacts.add_entry Agg.add_show Agg.shows].
  pose proof (SummaryFacts.size_add_1 (Agg.e_city_member e) (cities m)). lia.
Qed.

(** The movies of the records, in the order in which they are read. *)
Definition movies_of (rows : list (gmap string value)) : list string :=
  omap (λ r, f_movie <$> fields r) rows.

Lemma summary_loop_spec s rows s' :
  summary_loop s rows = Some s' →
  (Forall (λ kv, sound kv.2) s → Forall (λ kv, sound kv.2) s')
  ∧ SeatFacts.total_of ((Agg.shows ∘ tot) <$> PyDict.values s')
    = SeatFacts.total_of ((Agg.shows ∘ tot) <$> PyDict.values s)
      + Z.of_nat (length rows)
  ∧ SeatFacts.total_of ((Agg.sold ∘ tot) <$> PyDict.values s')
    = SeatFacts.total_of ((Agg.sold ∘ tot) <$> PyDict.values s)
      + SeatFacts.total_of (omap (λ r, f_sold <$> fields r) rows)
  ∧ PyDict.keys s'
    = PyDict.keys s
      ++ DedupeFacts.first_wins id (list_to_set (PyDict.keys s)) (movies_of rows).
Proof.
  revert s. induction rows as [|r rows IH]; intros s.
  - simpl. intros [= <-]. rewrite app_nil_r.
    change (SeatFacts.total_of []) with 0. repeat split; try done; lia.
  - cbn [summary_loop]. destruct (summary_step s r) as [s1|] eqn:Hs1; [|done].
    apply summary_step_Some in Hs1 as (f & Hf & _ & ->). simpl mbind.
    assert (movies_of (r :: rows) = f_movie f :: movies_of rows) as ->
      by (unfold movies_of; cbn [omap list_omap]; by rewrite Hf).
    assert (omap (λ r, f_sold <$> fields r) (r :: rows)
            = f_sold f :: omap (λ r, f_sold <$> fields r) rows) as ->
      by (cbn [omap list_omap]; by rewrite Hf).
    intros (IH1 & IH2 & IH3 & IH4)%IH. split; [|split; [|split]].
    + intros Hs. apply IH1.
      apply (SummaryFacts.upsert_Forall (λ _, sound)); [done| |].
      * apply movie_sound_first.
      * intros m. apply movie_sound_next.
    + rewrite IH2, (SummaryFacts.upsert_total _ 1); [|done|done].
      rewrite length_cons. lia.
    + rewrite IH3, (SummaryFacts.upsert_total _ (f_sold f)); [|done|done].
      unfold SeatFacts.total_of at 4. cbn [foldr].
      fold (SeatFacts.total_of (omap (λ r, f_sold <$> fields r) rows)). lia.
    + rewrite IH4, OccupancyFacts.upsert_keys. cbn [DedupeFacts.first_wins].
      unfold id at 2 3.
      destruct (decide (f_movie f ∈ PyDict.keys s)) as [Hin|Hin].
      * by rewrite decide_True by (by apply elem_of_list_to_set).
      * rewrite decide_False by (by rewrite elem_of_list_to_set).
        rewrite <- app_assoc. simpl. do 3 f_equal.
        rewrite list_to_set_app_L. simpl. rewrite (right_id_L ∅ (∪)).
        by rewrite (comm_L (∪)).
Qed.

Lemma final_summary_Some s out :
  final_summary s = Some out →
  Forall2 (λ kv ko, ko.1 = kv.1
                    ∧ Agg.figures calc_occupancy (tot kv.2) = Some (fig ko.2)
                    ∧ n_cities ko.2 = Z.of_nat (size (cities kv.2))) s out.
Proof.
  unfold final_summary. intros H%mapM_Some_1.
  eapply Forall2_impl; [exact H|]. intros [k m] [k' o]. simpl.
  destruct (Agg.figures calc_occupancy (tot m)); [|done]. simpl. by intros [= <- <-].
Qed.

(** What the summary that is written holds. *)
Lemma summarize_spec detailed out :
  summarize detailed = Some out →
  out.*1 = DedupeFacts.first_wins id ∅ (movies_of detailed)
  ∧ SeatFacts.total_of ((Agg.o_shows ∘ fig ∘ snd) <$> out) = Z.of_nat (length detailed)
  ∧ SeatFacts.total_of ((Agg.o_sold ∘ fig ∘ snd) <$> out)
    = SeatFacts.total_of (omap (λ r, f_sold <$> fields r) detailed)
  ∧ Forall (λ ko, SummaryFacts.in_bounds (fig ko.2)
                  ∧ 1 <= n_cities ko.2 <= Agg.o_shows (fig ko.2)) out.
Proof.
  unfold summarize. destruct (summary_loop [] detailed) as [s|] eqn:Hs; [|done].
  simpl. intros Hout%final_summary_Some.
  apply summary_loop_spec in Hs as (Hsound & Hshows & Hsold & Hkeys).
  specialize (Hsound ltac:(constructor)).
  split; [|split; [|split]].
  - transitivity (PyDict.keys s); [|by rewrite Hkeys].
    unfold PyDict.keys. symmetry. apply SummaryFacts.fmap_Forall2.
    eapply Forall2_impl; [exact Hout|]. by intros kv ko [-> _].
  - change (SeatFacts.total_of (_ <$> PyDict.values [])) with 0 in Hshows.
    rewrite Z.add_0_l in Hshows.
    rewrite <- Hshows. unfold PyDict.values. rewrite <- list_fmap_compose.
    symmetry. apply SummaryFacts.total_of_Forall2.
    eapply Forall2_impl; [exact Hout|]. intros kv ko (_ & Hf & _). simpl.
    by apply SummaryFacts.figures_Some in Hf as (-> & _).
  - change (SeatFacts.total_of (_ <$> PyDict.values [])) with 0 in Hsold.
    rewrite Z.add_0_l in Hsold.
    rewrite <- Hsold. unfold PyDict.values.
    rewrite <- list_fmap_compose.
    symmetry. apply SummaryFacts.total_of_Forall2.
    eapply Forall2_impl; [exact Hout|]. intros kv ko (_ & Hf & _). simpl.
    by apply SummaryFacts.figures_Some in Hf as (_ & -> & _).
  - clear -Hout Hsound. induction Hout as [|kv ko s out (_ & Hf & Hc) _ IH]; [constructor|].
    apply Forall_cons in Hsound as [[Hcnt Hcit] Hsound].
    constructor; [|by apply IH]. split.
    + by eapply SummaryFacts.counted_in_bounds.
    + rewrite Hc. by apply SummaryFacts.figures_Some in Hf as (-> & _).
Qed.

(** ** The whole run *)

Section Main.
Context {W : Type}.
Variable fetch_api_raw : string → W → option Payload * W.
Variable reset_identity : W → W.
Variable sleep : W → W.
Variable now_us : W → Z.
Variable strptime_IMp : string → option (Z * Z).
Variable DATE_CODE : string.
Variable venues : list (string * VenueMeta).

Let main := main fetch_api_raw reset_identity sleep now_us strptime_IMp DATE_CODE venues.
Let scrape :=
  scrape fetch_api_raw reset_identity sleep now_us strptime_IMp DATE_CODE venues.

Lemma main_Some old_rows w out :
  main old_rows w = Some out ↔
  merge old_rows (row_dict <$> all_rows (scrape w).2) = Some (detailed out)
  ∧ summarize (detailed out) = Some (movies out).
Proof.
  unfold main, Bms7Main.main. fold scrape. split.
  - destruct (merge old_rows _) as [d|]; [|done]. simpl.
    destruct (summarize d) as [s|] eqn:Hs; [|done]. simpl. by intros [= <-].
  - destruct out as [d s]. simpl. intros [-> Hs]. simpl. by rewrite Hs.
Qed.

Lemma rows_keyed (rows : list Row) :
  Forall (λ r, is_Some (show_key r)) (row_dict <$> rows).
Proof. apply Forall_fmap, Forall_forall. intros r _. by eexists. Qed.

Lemma rows_readable (rows : list Row) : Forall readable (row_dict <$> rows).
Proof. apply Forall_fmap, Forall_forall. intros r _. by eexists. Qed.

(** The run ends without exception when every old record has the fields of
    the key, and the old records and the rows of the run are records that the
    summary reads. *)
Lemma main_returns old_rows w :
  Forall (λ r, is_Some (show_key r)) old_rows →
  Forall sane old_rows →
  Forall sane (row_dict <$> all_rows (scrape w).2) →
  is_Some (main old_rows w).
Proof.
  intros Hk Hr Hn.
  destruct (MergeFacts.merge_succeeds old_rows (row_dict <$> all_rows (scrape w).2) Hk
              (rows_keyed _)) as [d Hd].
  pose proof (MergeMore.merge_P sane sane_update _ _ _ Hd Hr Hn) as Hsane.
  apply summarize_sane in Hsane as [s Hs].
  exists {| detailed := d; movies := s |}. by apply main_Some.
Qed.

(** It raises when an old record lacks a field of the key. *)
Lemma main_raises old_rows w r k :
  r ∈ old_rows → k ∈ MergeMore.key_fields → r !! k = None → main old_rows w = None.
Proof.
  intros Hin Hk Hr. unfold main, Bms7Main.main.
  rewrite (MergeMore.merge_missing_key old_rows _ r k); [done|by left|done|done].
Qed.
End Main.

End MainFacts.

(* ===================================================================== *)
(** * What each bucket of a summary has counted *)
(* ===================================================================== *)

Module LevelFacts.
Import OccupancyFacts GroupFacts SummaryFacts.

Section Tally.
Context {R : Type} (ent : R → Agg.Entry).

(** The gross of a bucket that has received the rows [rows], in this order:
    the float sum from 0.0. *)
Definition gross_of (rows : list R) : Py.float :=
  fold_left (λ g r, Py.to_float (Py.add (PyFloat g) (Agg.e_gross (ent r)))) rows (Py.lit 0).

(** The figures of a bucket are those of the rows [rows]: it has counted
    each of them as a show, added up their sold seats, their seats and their
    gross, counted as housefull those of an occupancy of 98 or more, and as
    fast-filling those of an occupancy of 50 or more and less than 98. *)
Definition tally (rows : list R) (t : Agg.Totals) : Prop :=
  Agg.shows t = Z.of_nat (length rows)
  ∧ Agg.sold t = SeatFacts.total_of ((λ r, Agg.e_sold (ent r)) <$> rows)
  ∧ Agg.totalSeats t = SeatFacts.total_of ((λ r, Agg.e_total (ent r)) <$> rows)
  ∧ Agg.gross t = gross_of rows
  ∧ Agg.housefull t
    = Z.of_nat (length (filter (λ r, status_of (Agg.e_occ (ent r)) = Housefull) rows))
  ∧ Agg.fastfilling t
    = Z.of_nat (length (filter (λ r, status_of (Agg.e_occ (ent r)) = FastFilling) rows)).

Lemma add_rows_counters t rows :
  Agg.gross (add_rows ent t rows)
  = fold_left (λ g r, Py.to_float (Py.add (PyFloat g) (Agg.e_gross (ent r)))) rows
      (Agg.gross t)
  ∧ Agg.housefull (add_rows ent t rows)
    = Agg.housefull t
      + Z.of_nat (length (filter (λ r, status_of (Agg.e_occ (ent r)) = Housefull) rows))
  ∧ Agg.fastfilling (add_rows ent t rows)
    = Agg.fastfilling t
      + Z.of_nat (length (filter (λ r, status_of (Agg.e_occ (ent r)) = FastFilling) rows)).
Proof.
  unfold add_rows. revert t. induction rows as [|r rows IH]; intros t.
  - simpl. repeat split; lia.
  - simpl fold_left. destruct (IH (add_entry t (ent r))) as (-> & -> & ->).
    rewrite !filter_cons. unfold status_of.
    cbn [add_entry Agg.add_show Agg.gross Agg.housefull Agg.fastfilling].
    destruct (Py.ge_int (Agg.e_occ (ent r)) 98), (Py.ge_int (Agg.e_occ (ent r)) 50);
      repeat case_decide; try done; rewrite ?length_cons; repeat split; lia.
Qed.

Lemma add_rows_tally rows : tally rows (add_rows ent Agg.fresh rows).
Proof.
  destruct (add_rows_figures ent Agg.fresh rows) as (Hshows & Hsold & Htotal & _).
  destruct (add_rows_counters Agg.fresh rows) as (Hgross & Hhf & Hff).
  unfold tally. rewrite Hshows, Hsold, Htotal, Hgross, Hhf, Hff.
  unfold SeatFacts.total_of, gross_of. simpl. repeat split; lia.
Qed.

(** ** One level of the summary *)

Section Level.
Context {K : Type} `{EqDecision K}.
(** The key of the bucket of a record at this level, and the figures of the
    bucket of a movie under a key. *)
Variable key : Agg.Entry → K.
Variable look : Agg.MovieBucket → K → option Agg.Totals.
Hypothesis look_fresh : ∀ k, look Agg.fresh_movie k = None.
Hypothesis look_hit :
  ∀ e m, look (step e m) (key e)
         = Some (add_entry (default Agg.fresh (look m (key e))) e).
Hypothesis look_miss : ∀ e m k, key e ≠ k → look (step e m) k = look m k.

Definition level_tot (s : list (string * Agg.MovieBucket)) (mv : string) (k : K)
    : option Agg.Totals :=
  PyDict.get mv s ≫= λ m, look m k.

Lemma accumulate_level_hit s e :
  level_tot (Agg.accumulate s e) (Agg.e_movie e) (key e)
  = Some (add_entry (default Agg.fresh (level_tot s (Agg.e_movie e) (key e))) e).
Proof.
  unfold level_tot. rewrite accumulate_step, upsert_get. simpl. rewrite look_hit.
  destruct (PyDict.get (Agg.e_movie e) s); simpl; [done|]. by rewrite look_fresh.
Qed.

Lemma accumulate_level_miss s e mv k :
  ¬ (Agg.e_movie e = mv ∧ key e = k) →
  level_tot (Agg.accumulate s e) mv k = level_tot s mv k.
Proof.
  intros Hne. unfold level_tot. rewrite accumulate_step.
  destruct (decide (Agg.e_movie e = mv)) as [<-|Hm].
  - rewrite upsert_get. simpl. rewrite look_miss by tauto.
    destruct (PyDict.get (Agg.e_movie e) s); simpl; [done|]. by rewrite look_fresh.
  - by rewrite upsert_get_ne.
Qed.

(** The bucket of the movie [mv] under the key [k] after the loop: it exists
    as soon as a row falls into it, and has received exactly the rows that
    fall into it, in their order. *)
Lemma fold_rows_level s rows mv k :
  level_tot (fold_rows ent s rows) mv k
  = match filter (λ r, Agg.e_movie (ent r) = mv ∧ key (ent r) = k) rows with
    | [] => level_tot s mv k
    | hit => Some (add_rows ent (default Agg.fresh (level_tot s mv k)) hit)
    end.
Proof.
  unfold fold_rows. revert s. induction rows as [|r rows IH]; intros s; [done|].
  simpl fold_left. rewrite IH.
  destruct (decide (Agg.e_movie (ent r) = mv ∧ key (ent r) = k)) as [[<- <-]|Hne].
  - rewrite filter_cons_True by done. rewrite accumulate_level_hit.
    by destruct (filter _ rows).
  - rewrite filter_cons_False by done. by rewrite accumulate_level_miss.
Qed.

Lemma fold_rows_level_tally rows r :
  r ∈ rows →
  ∃ t, level_tot (fold_rows ent [] rows) (Agg.e_movie (ent r)) (key (ent r)) = Some t
       ∧ tally (filter (λ x, Agg.e_movie (ent x) = Agg.e_movie (ent r)
                             ∧ key (ent x) = key (ent r)) rows) t.
Proof.
  intros Hr. rewrite fold_rows_level.
  assert (r ∈ filter (λ x, Agg.e_movie (ent x) = Agg.e_movie (ent r)
                           ∧ key (ent x) = key (ent r)) rows) as Hin
    by (by apply list_elem_of_filter).
  destruct (filter _ rows) as [|r0 l] eqn:Hf; [by apply elem_of_nil in Hin|].
  eexists. split; [reflexivity|]. apply add_rows_tally.
Qed.
End Level.

(** The three detail levels. *)
Definition city_tot (m : Agg.MovieBucket) (k : string * string) : option Agg.Totals :=
  Agg.c_tot <$> PyDict.get k (Agg.City_details m).
Definition language_tot (m : Agg.MovieBucket) (k : string) : option Agg.Totals :=
  Agg.l_tot <$> PyDict.get k (Agg.Language_details m).
Definition format_tot (m : Agg.MovieBucket) (k : string) : option Agg.Totals :=
  Agg.f_tot <$> PyDict.get k (Agg.Format_details m).

(** A row has been counted in the bucket of its movie and in the buckets of
    its city, of its language and of its format: each of the four buckets
    exists and holds the tally of the rows that share the movie, and the
    movie and the key of that level, with the row. *)
Definition counted_at_four_levels (rows : list R) (s : list (string * Agg.MovieBucket))
    (r : R) : Prop :=
  ∃ m d l f,
    PyDict.get (Agg.e_movie (ent r)) s = Some m
    ∧ PyDict.get (Agg.e_ck (ent r)) (Agg.City_details m) = Some d
    ∧ PyDict.get (Agg.e_lang (ent r)) (Agg.Language_details m) = Some l
    ∧ PyDict.get (Agg.e_dim (ent r)) (Agg.Format_details m) = Some f
    ∧ tally (filter (λ x, Agg.e_movie (ent x) = Agg.e_movie (ent r)) rows) (Agg.m_tot m)
    ∧ tally (filter (λ x, Agg.e_movie (ent x) = Agg.e_movie (ent r)
                          ∧ Agg.e_ck (ent x) = Agg.e_ck (ent r)) rows) (Agg.c_tot d)
    ∧ tally (filter (λ x, Agg.e_movie (ent x) = Agg.e_movie (ent r)
                          ∧ Agg.e_lang (ent x) = Agg.e_lang (ent r)) rows) (Agg.l_tot l)
    ∧ tally (filter (λ x, Agg.e_movie (ent x) = Agg.e_movie (ent r)
                          ∧ Agg.e_dim (ent x) = Agg.e_dim (ent r)) rows) (Agg.f_tot f).

Lemma fold_rows_four_levels rows r :
  r ∈ rows → counted_at_four_levels rows (fold_rows ent [] rows) r.
Proof.
  intros Hr. unfold counted_at_four_levels.
  pose proof (fold_rows_movie ent [] rows (Agg.e_movie (ent r))) as Hm.
  unfold of_movie in Hm.
  assert (r ∈ filter (λ x, Agg.e_movie (ent x) = Agg.e_movie (ent r)) rows) as Hin
    by (by apply list_elem_of_filter).
  destruct (filter (λ x, Agg.e_movie (ent x) = Agg.e_movie (ent r)) rows)
    as [|r0 l0] eqn:Hf; [by apply elem_of_nil in Hin|].
  destruct (PyDict.get (Agg.e_movie (ent r)) (fold_rows ent [] rows)) as [m|] eqn:Hget;
    [|done].
  simpl in Hm. injection Hm as Hm.
  destruct (fold_rows_level_tally Agg.e_ck city_tot) with (rows := rows) (r := r)
    as (tc & Hc & Htc); [done| | |done|].
  { intros e m'. unfold city_tot. cbn [step Agg.City_details]. rewrite upsert_get.
    by destruct (PyDict.get (Agg.e_ck e) (Agg.City_details m')). }
  { intros e m' k Hk. unfold city_tot. cbn [step Agg.City_details].
    by rewrite upsert_get_ne. }
  destruct (fold_rows_level_tally Agg.e_lang language_tot) with (rows := rows) (r := r)
    as (tl & Hl & Htl); [done| | |done|].
  { intros e m'. unfold language_tot. cbn [step Agg.Language_details]. rewrite upsert_get.
    by destruct (PyDict.get (Agg.e_lang e) (Agg.Language_details m')). }
  { intros e m' k Hk. unfold language_tot. cbn [step Agg.Language_details].
    by rewrite upsert_get_ne. }
  destruct (fold_rows_level_tally Agg.e_dim format_tot) with (rows := rows) (r := r)
    as (tf & Hx & Htf); [done| | |done|].
  { intros e m'. unfold format_tot. cbn [step Agg.Format_details]. rewrite upsert_get.
    by destruct (PyDict.get (Agg.e_dim e) (Agg.Format_details m')). }
  { intros e m' k Hk. unfold format_tot. cbn [step Agg.Format_details].
    by rewrite upsert_get_ne. }
  unfold level_tot in Hc, Hl, Hx. rewrite Hget in Hc, Hl, Hx. simpl in Hc, Hl, Hx.
  unfold city_tot in Hc. unfold language_tot in Hl. unfold format_tot in Hx.
  destruct (PyDict.get (Agg.e_ck (ent r)) (Agg.City_details m)) as [d|] eqn:Hd; [|done].
  destruct (PyDict.get (Agg.e_lang (ent r)) (Agg.Language_details m)) as [l|] eqn:Hl';
    [|done].
  destruct (PyDict.get (Agg.e_dim (ent r)) (Agg.Format_details m)) as [f|] eqn:Hf';
    [|done].
  simpl in Hc, Hl, Hx. injection Hc as <-. injection Hl as <-. injection Hx as <-.
  exists m, d, l, f. repeat (split; [done|]). split; [|done].
  rewrite Hm. apply (add_rows_tally (r0 :: l0)).
Qed.
End Tally.

(** ** The loops of the three scripts *)

(** The loop of the combiner: the status of a row is read off the occupancy
    [sold / total * 100] of the row, not rounded. *)
Lemma combine_four_levels rows s r :
  Combine.summary_loop [] rows = Some s → r ∈ rows →
  Combine.show_occ (Combine.sold r) (Combine.totalSeats r) = Some (combine_occ r)
  ∧ counted_at_four_levels combine_entry rows s r.
Proof.
  intros Hs Hr. split.
  - assert (is_Some (Combine.summary_loop [] rows)) as Hsome by (by eexists).
    apply combine_loop_is_Some in Hsome.
    apply (proj1 (Forall_forall _ _) Hsome) in Hr as [occ Hocc].
    unfold combine_occ. by rewrite Hocc.
  - apply combine_loop_fold in Hs as ->. by apply fold_rows_four_levels.
Qed.

(** The loop of [build_summary] in [bmsdaily9.py]: the status of a row is
    read off [calc_occupancy] of the row. *)
Lemma district_four_levels rows s r :
  District9.summary_loop [] rows = Some s → r ∈ rows →
  District9.calc_occupancy (District9.sold r) (District9.totalSeats r)
  = Some (district_occ r)
  ∧ counted_at_four_levels district_entry rows s r.
Proof.
  intros Hs Hr. split.
  - assert (is_Some (District9.summary_loop [] rows)) as Hsome by (by eexists).
    apply district_loop_is_Some in Hsome.
    apply (proj1 (Forall_forall _ _) Hsome) in Hr as [occ Hocc].
    unfold district_occ. by rewrite Hocc.
  - apply district_loop_fold in Hs as ->. by apply fold_rows_four_levels.
Qed.

(** The loop of [bmsdaily7.py], which keeps the figures of the movie only. *)
Definition bms_entry (f : Bms7Main.Fields) : Agg.Entry :=
  MainFacts.entry_of f (MainFacts.occ_of f).

Definition bms_fold (s : list (string * Bms7Main.MovieSum)) (fs : list Bms7Main.Fields)
    : list (string * Bms7Main.MovieSum) :=
  fold_left
    (λ s f, Agg.upsert (Bms7Main.f_movie f) Bms7Main.fresh_movie
              (MainFacts.step (bms_entry f)) s)
    fs s.

Lemma bms_loop_fold s rows s' :
  Bms7Main.summary_loop s rows = Some s' →
  mapM Bms7Main.fields rows = Some (omap Bms7Main.fields rows)
  ∧ Forall (λ f, Bms7.calc_occupancy (Bms7Main.f_sold f) (Bms7Main.f_total f)
                 = Some (MainFacts.occ_of f)) (omap Bms7Main.fields rows)
  ∧ s' = bms_fold s (omap Bms7Main.fields rows).
Proof.
  unfold bms_fold. revert s. induction rows as [|r rows IH]; intros s; simpl.
  - intros [= <-]. by repeat split.
  - destruct (Bms7Main.summary_step s r) as [s1|] eqn:Hs1; [|done]. simpl.
    apply MainFacts.summary_step_Some in Hs1 as (f & Hf & [occ Hocc] & ->).
    intros (Hm & Hall & ->)%IH. rewrite Hf. simpl. rewrite Hm. simpl.
    split; [done|]. split; [|done]. constructor; [|done].
    unfold MainFacts.occ_of. by rewrite Hocc.
Qed.

Lemma bms_fold_movie s fs mv :
  Bms7Main.tot <$> PyDict.get mv (bms_fold s fs)
  = match filter (λ f, Bms7Main.f_movie f = mv) fs with
    | [] => Bms7Main.tot <$> PyDict.get mv s
    | hit => Some (add_rows bms_entry
                     (default Agg.fresh (Bms7Main.tot <$> PyDict.get mv s)) hit)
    end.
Proof.
  unfold bms_fold. revert s. induction fs as [|f fs IH]; intros s; [done|].
  simpl fold_left. rewrite IH.
  destruct (decide (Bms7Main.f_movie f = mv)) as [<-|Hne].
  - rewrite filter_cons_True by done. rewrite upsert_get. simpl.
    destruct (PyDict.get _ s) as [m|]; simpl; by destruct (filter _ fs).
  - rewrite filter_cons_False by done. by rewrite upsert_get_ne.
Qed.

Lemma bms_movie_tally rows s f :
  Bms7Main.summary_loop [] rows = Some s → f ∈ omap Bms7Main.fields rows →
  ∃ m, PyDict.get (Bms7Main.f_movie f) s = Some m
       ∧ tally bms_entry
           (filter (λ x, Bms7Main.f_movie x = Bms7Main.f_movie f)
              (omap Bms7Main.fields rows))
           (Bms7Main.tot m).
Proof.
  intros (_ & _ & ->)%bms_loop_fold Hf.
  pose proof (bms_fold_movie [] (omap Bms7Main.fields rows) (Bms7Main.f_movie f)) as Hm.
  assert (f ∈ filter (λ x, Bms7Main.f_movie x = Bms7Main.f_movie f)
                (omap Bms7Main.fields rows)) as Hin by (by apply list_elem_of_filter).
  destruct (filter _ (omap Bms7Main.fields rows)) as [|f0 l] eqn:Hfl;
    [by apply elem_of_nil in Hin|].
  destruct (PyDict.get (Bms7Main.f_movie f) (bms_fold [] _)) as [m|]; [|done].
  simpl in Hm. injection Hm as Hm. exists m. split; [done|].
  rewrite Hm. apply (add_rows_tally bms_entry (f0 :: l)).
Qed.

End LevelFacts.

(* ===================================================================== *)
(** * The claims of the specification *)
(* ===================================================================== *)

Module Claims.

(** ** Snapshot merge *)

(** The list the merge of the example returns. *)
Definition merged_example : list (gmap string Bms7.value) :=
  default [] (Bms7.merge Examples.old_snapshot (Bms7.row_dict <$> Examples.new_rows)).

(** C1. Merge idempotence: whatever the previous snapshot [S] and the rows [N]
    of a run are, when merging [N] into [S] returns the list [D], merging [N]
    into [D] returns [D] again: the same records, in the same order. *)
Theorem merge_idempotent (S : list (gmap string Bms7.value)) (N : list Bms7.Row)
    (D : list (gmap string Bms7.value)) :
  Bms7.merge S (Bms7.row_dict <$> N) = Some D →
  Bms7.merge D (Bms7.row_dict <$> N) = Some D.
Proof.
  apply MergeFacts.merge_idempotent_uniform, MergeFacts.uniform_rows.
Qed.

Lemma merge_idempotent_witness :
  Bms7.merge Examples.old_snapshot (Bms7.row_dict <$> Examples.new_rows)
    = Some merged_example
  ∧ Bms7.merge merged_example (Bms7.row_dict <$> Examples.new_rows)
    = Some merged_example
  ∧ length merged_example = 3%nat.
Proof.
  assert (Bms7.merge Examples.old_snapshot (Bms7.row_dict <$> Examples.new_rows)
          = Some merged_example) as H by (apply (bool_decide_unpack _); vm_compute; exact I).
  split; [exact H|]. split.
  - exact (merge_idempotent _ _ _ H).
  - vm_compute. reflexivity.
Defined.

(** A snapshot in which two records bear the key of show [b]: the run that
    wrote the earlier one saw the show 190 minutes before it starts, the one
    that wrote the later one 45 minutes before. *)
Definition earlier_twin : gmap string Bms7.value :=
  Bms7.row_dict (Examples.row_with Examples.show_b 190).

Definition later_twin : gmap string Bms7.value :=
  Bms7.row_dict (Examples.row_with Examples.show_b 45).

Definition twin_snapshot : list (gmap string Bms7.value) := [earlier_twin; later_twin].



(** The record of show [b] of the example snapshot, with its extra field. *)
Definition untouched_example : gmap string Bms7.value :=
  <["note" := Bms7.VStr "kept by hand"]>
    (Bms7.row_dict (Examples.row_with Examples.show_b 190)).


(** C3. Identity-key uniqueness: the list the merge returns, the list
    [dedupe] of [bmsdaily9.py] returns and the list [dedupe] of the combiner
    returns hold no two records with the same key (venue, time, session_id,
    audi); every merged record has the four key fields. *)
Theorem identity_key_unique :
  (∀ S N D, Bms7.merge S N = Some D →
            NoDup (Bms7.show_key <$> D) ∧ Forall (λ r, is_Some (Bms7.show_key r)) D)
  ∧ (∀ rows, NoDup (District9.key_of <$> District9.dedupe rows))
  ∧ (∀ rows, NoDup (Combine.key_of <$> (Combine.dedupe rows).1)).
Proof.
  split; [|split].
  - intros S N D Hm. destruct (MergeFacts.merge_keys_NoDup S N D Hm). by split.
  - intros rows. rewrite DedupeFacts.district_dedupe. apply DedupeFacts.first_wins_NoDup.
  - intros rows. rewrite DedupeFacts.combine_dedupe. apply DedupeFacts.first_wins_NoDup.
Qed.

Lemma identity_key_unique_witness :
  NoDup (Bms7.show_key <$> merged_example)
  ∧ Forall (λ r, is_Some (Bms7.show_key r)) merged_example.
Proof.
  apply (proj1 identity_key_unique Examples.old_snapshot
           (Bms7.row_dict <$> Examples.new_rows) merged_example).
  apply (bool_decide_unpack _). vm_compute. exact I.
Defined.

(** ** De-duplication *)

(** C10. [dedupe] is first-wins and keeps the order: the rows it returns are
    the input with some rows left out; under every key they are the first row
    of the input with that key and nothing else; and the count of duplicates
    is the length of the input minus the length of the output.  [dedupe] of
    [bmsdaily9.py] returns the same rows, without the count. *)
Theorem dedupe_first_wins :
  (∀ rows,
     (Combine.dedupe rows).1 `sublist_of` rows
     ∧ (∀ k, filter (λ r, Combine.key_of r = k) (Combine.dedupe rows).1
             = take 1 (filter (λ r, Combine.key_of r = k) rows))
     ∧ (Combine.dedupe rows).2
       = Z.of_nat (length rows) - Z.of_nat (length (Combine.dedupe rows).1))
  ∧ (∀ rows,
       District9.dedupe rows `sublist_of` rows
       ∧ (∀ k, filter (λ r, District9.key_of r = k) (District9.dedupe rows)
               = take 1 (filter (λ r, District9.key_of r = k) rows))).
Proof.
  split; intros rows.
  - rewrite DedupeFacts.combine_dedupe. simpl. split; [|split; [|done]].
    + apply DedupeFacts.first_wins_sublist.
    + intros k. rewrite DedupeFacts.first_wins_filter.
      by rewrite decide_False by apply not_elem_of_empty.
  - rewrite DedupeFacts.district_dedupe. split.
    + apply DedupeFacts.first_wins_sublist.
    + intros k. rewrite DedupeFacts.first_wins_filter.
      by rewrite decide_False by apply not_elem_of_empty.
Qed.

(** ** Occupancy and status *)

(** C4, as the specification states it, fails for a record whose quotient
    [sold / total] is beyond the range of a float: the division of the two
    [int]s raises [OverflowError], so that no occupancy is computed for the
    record, in [calc_occupancy] and in the loop of the combiner, and
    [build_summary] raises on a list that holds such a record. *)
Lemma occupancy_overflow :
  Bms7.calc_occupancy (2 ^ 1024) 1 = None
  ∧ Combine.show_occ (2 ^ 1024) 1 = None
  ∧ District9.build_summary [Examples.district_row "Pune" "City Pride" "1" 1 (2 ^ 1024)]
    = None.
Proof. repeat split; vm_compute; reflexivity. Qed.

(** C4, amended.
    - The occupancy of a bucket is 0.0 when [total] is 0; otherwise it is
      [sold / total * 100] rounded to two decimals, and [OverflowError] when
      the quotient is beyond the range of a float.  [calc_occupancy] is the
      same function in the three scripts.  The occupancy of a show in the
      loop of the combiner is the same without the rounding, and the [int] 0
      when [total] is 0.  No division by zero occurs.
    - 50 sold of 100 is exactly 50.0 and fast-filling, 98 sold of 100 is 98.0
      and housefull, 49 sold of 100 is neither, 0 of 0 is 0.0.
    - When the loop of the combiner returns, every row has been counted in
      the bucket of its movie and in the buckets of its city, its language
      and its format: each bucket holds the number of its rows as [shows],
      the sums of their sold seats, seats and gross, the number of its rows
      of an occupancy of 98 or more as [housefull] and the number of its rows
      of an occupancy from 50 up to 98 as [fastfilling]; a row below 50 is in
      neither counter and in the other figures.  The same holds of the loop
      of [build_summary] in [bmsdaily9.py], and of the loop of
      [bmsdaily7.py] for the bucket of the movie, the only one it keeps.
    - The three loops return when no record has more sold seats than seats
      nor a negative number of them, and the gross of every record converts
      to a float. *)
Theorem occupancy_status :
  (∀ sold total,
     Bms7.calc_occupancy sold total
     = (if total =? 0 then Some (PyFloat (Py.lit 0))
        else if Py.overflows sold total then None
        else Some (Py.round
                     (Py.mul (PyFloat (Py.fdiv (Py.exact_int sold) (Py.exact_int total)))
                             (PyInt 100)) 2))
     ∧ District9.calc_occupancy sold total = Bms7.calc_occupancy sold total
     ∧ Combine.calc_occupancy sold total = Bms7.calc_occupancy sold total
     ∧ Combine.show_occ sold total
       = (if total =? 0 then Some (PyInt 0)
          else if Py.overflows sold total then None
          else Some (Py.mul (PyFloat (Py.fdiv (Py.exact_int sold) (Py.exact_int total)))
                            (PyInt 100))))
  ∧ (Bms7.calc_occupancy 50 100 = Some (PyFloat (Py.lit 50))
     ∧ Combine.show_occ 50 100 = Some (PyFloat (Py.lit 50))
     ∧ OccupancyFacts.status_of (PyFloat (Py.lit 50)) = OccupancyFacts.FastFilling)
  ∧ (Bms7.calc_occupancy 98 100 = Some (PyFloat (Py.lit 98))
     ∧ Combine.show_occ 98 100 = Some (PyFloat (Py.lit 98))
     ∧ OccupancyFacts.status_of (PyFloat (Py.lit 98)) = OccupancyFacts.Housefull)
  ∧ (Bms7.calc_occupancy 49 100 = Some (PyFloat (Py.lit 49))
     ∧ Combine.show_occ 49 100 = Some (PyFloat (Py.lit 49))
     ∧ OccupancyFacts.status_of (PyFloat (Py.lit 49)) = OccupancyFacts.Neither)
  ∧ Bms7.calc_occupancy 0 0 = Some (PyFloat (Py.lit 0))
  ∧ (∀ rows s r,
       Combine.summary_loop [] rows = Some s → r ∈ rows →
       Combine.show_occ (Combine.sold r) (Combine.totalSeats r)
       = Some (GroupFacts.combine_occ r)
       ∧ LevelFacts.counted_at_four_levels GroupFacts.combine_entry rows s r)
  ∧ (∀ rows s r,
       District9.summary_loop [] rows = Some s → r ∈ rows →
       District9.calc_occupancy (District9.sold r) (District9.totalSeats r)
       = Some (GroupFacts.district_occ r)
       ∧ LevelFacts.counted_at_four_levels GroupFacts.district_entry rows s r)
  ∧ (∀ rows s,
       Bms7Main.summary_loop [] rows = Some s →
       mapM Bms7Main.fields rows = Some (omap Bms7Main.fields rows)
       ∧ Forall (λ f, Bms7.calc_occupancy (Bms7Main.f_sold f) (Bms7Main.f_total f)
                      = Some (MainFacts.occ_of f)) (omap Bms7Main.fields rows)
       ∧ ∀ f, f ∈ omap Bms7Main.fields rows →
              ∃ m, PyDict.get (Bms7Main.f_movie f) s = Some m
                   ∧ LevelFacts.tally LevelFacts.bms_entry
                       (filter (λ x, Bms7Main.f_movie x = Bms7Main.f_movie f)
                          (omap Bms7Main.fields rows))
                       (Bms7Main.tot m))
  ∧ (∀ rows,
       Forall (λ r, 0 <= Combine.sold r <= Combine.totalSeats r) rows →
       is_Some (Combine.summary_loop [] rows))
  ∧ (∀ rows,
       Forall (λ r, 0 <= District9.sold r <= District9.totalSeats r
                    ∧ Py.convertible (District9.gross r) = true) rows →
       is_Some (District9.summary_loop [] rows))
  ∧ (∀ rows, Forall MainFacts.sane rows → is_Some (Bms7Main.summary_loop [] rows)).
Proof.
  split; [|split; [|split; [|split; [|split; [|split; [|split; [|split;
    [|split; [|split]]]]]]]]].
  - intros sold total. split; [apply OccupancyFacts.calc_occupancy_value|].
    split; [apply OccupancyFacts.calc_occupancy_same|].
    split; [apply OccupancyFacts.calc_occupancy_same|].
    apply OccupancyFacts.show_occ_value.
  - repeat split; vm_compute; reflexivity.
  - repeat split; vm_compute; reflexivity.
  - repeat split; vm_compute; reflexivity.
  - vm_compute; reflexivity.
  - apply LevelFacts.combine_four_levels.
  - apply LevelFacts.district_four_levels.
  - intros rows s Hs.
    destruct (LevelFacts.bms_loop_fold _ _ _ Hs) as (Hm & Hocc & _).
    split; [done|]. split; [done|]. intros f Hf.
    by apply LevelFacts.bms_movie_tally.
  - intros rows Hrows. apply GroupFacts.combine_loop_is_Some.
    eapply Forall_impl; [exact Hrows|]. intros r Hr.
    by apply OccupancyFacts.show_occ_part.
  - intros rows Hrows. apply GroupFacts.district_loop_is_Some.
    eapply Forall_impl; [exact Hrows|]. intros r [Hr _].
    rewrite (proj1 (OccupancyFacts.calc_occupancy_same _ _)).
    by apply OccupancyFacts.calc_occupancy_part.
  - intros rows. apply MainFacts.summary_loop_sane.
Qed.

(** The rows of the example of a day in the final file of the combiner, and
    the buckets of the movie "Dune" there: three shows, of which the one with
    98 of 100 seats sold is housefull and the one with 50 of 100 is
    fast-filling. *)
Definition status_day : list Combine.Row :=
  Combine.final_rows "20260101"
    [ [ Examples.raw_row "Pune" "City Pride" "1" 100 98;
        Examples.raw_row "Pune" "E-Square" "3" 100 50;
        Examples.raw_row "Mumbai" "PVR Phoenix" "4" 100 10 ] ].

Definition status_summary : list (string * Agg.MovieBucket) :=
  default [] (Combine.summary_loop [] status_day).

Lemma occupancy_status_witness :
  Combine.summary_loop [] status_day = Some status_summary
  ∧ ∃ m d,
      PyDict.get "Dune"%string status_summary = Some m
      ∧ PyDict.get ("pune", "maharashtra")%string (Agg.City_details m) = Some d
      ∧ (Agg.shows (Agg.m_tot m), Agg.housefull (Agg.m_tot m),
         Agg.fastfilling (Agg.m_tot m)) = (3, 1, 1)
      ∧ (Agg.shows (Agg.c_tot d), Agg.housefull (Agg.c_tot d),
         Agg.fastfilling (Agg.c_tot d)) = (2, 1, 1)
      ∧ LevelFacts.tally GroupFacts.combine_entry
          (filter (λ x, Combine.movie x = "Dune"%string
                        ∧ (Combine.city_key x, Combine.state_key x)
                          = ("pune", "maharashtra")%string) status_day)
          (Agg.c_tot d).
Proof.
  assert (Combine.summary_loop [] status_day = Some status_summary) as Hs
    by (vm_compute; reflexivity).
  split; [exact Hs|].
  destruct occupancy_status as (_ & _ & _ & _ & _ & Hloop & _).
  destruct (Hloop status_day status_summary
              (Combine.normalize_row "20260101"
                 (Examples.raw_row "Pune" "E-Square" "3" 100 50)) Hs)
    as (_ & m & d & l & f & Hm & Hd & _ & _ & _ & Htd & _).
  { apply (bool_decide_unpack _). vm_compute. exact I. }
  exists m, d. split; [exact Hm|]. split; [exact Hd|].
  assert (m = default Agg.fresh_movie (PyDict.get "Dune"%string status_summary)) as Hm'
    by (change (PyDict.get "Dune"%string status_summary = Some m) in Hm; by rewrite Hm).
  assert (d = default {| Agg.city := ""; Agg.state := ""; Agg.c_tot := Agg.fresh |}
                (PyDict.get ("pune", "maharashtra")%string (Agg.City_details m))) as Hd'
    by (change (PyDict.get ("pune", "maharashtra")%string (Agg.City_details m) = Some d)
          in Hd; by rewrite Hd).
  split; [rewrite Hm'; vm_compute; reflexivity|].
  split; [rewrite Hd', Hm'; vm_compute; reflexivity|].
  exact Htd.
Defined.
(** ** Case-insensitive city grouping *)

(** The two records of the claim's example, as two shards would hold them. *)
Definition mumbai_shards : list (list Combine.RawRow) :=
  [ [Examples.raw_row "Mumbai" "PVR Phoenix" "11" 100 50];
    [Examples.raw_row "MUMBAI " "INOX Nariman" "22" 100 98] ].

(** The same two records in one shard of the District scraper. *)
Definition mumbai_district : list District9.Row :=
  [ Examples.district_row "Mumbai" "PVR Phoenix" "11" 100 50;
    Examples.district_row "MUMBAI " "INOX Nariman" "22" 100 98 ].

(** C5, as the specification states it, fails on [build_summary] of
    [bmsdaily9.py], which keys a city bucket by the city and state as they
    stand in the record: "Mumbai" and "MUMBAI " differ only in case and in a
    trailing space, and end in two buckets that show the two spellings. *)
Lemma district_city_case_sensitive :
  StrFacts.variant "Mumbai" "MUMBAI "
  ∧ ∃ out,
      District9.build_summary mumbai_district = Some [("Dune"%string, out)]
      ∧ Agg.co_city <$> Agg.mo_City_details out = ["Mumbai"; "MUMBAI "]%string
      ∧ (Agg.o_shows ∘ Agg.co_fig) <$> Agg.mo_City_details out = [1; 1].
Proof.
  split.
  - exists ""%string, "Mumbai"%string, ""%string, ""%string, "MUMBAI"%string, " "%string.
    repeat split; try reflexivity.
    repeat (constructor; [vm_compute; reflexivity|]). constructor.
  - eexists. split; [vm_compute; reflexivity|]. split; vm_compute; reflexivity.
Qed.

(** C5, amended.  In the combiner, for shards whose cities, states, languages
    and formats are ASCII text, two final rows of one movie whose raw city
    and raw state differ only in the case of their letters and in the white
    space around them fall into one city bucket of the summary the loop
    returns: their grouping keys, the trimmed lower-cased city and state, are
    equal; the movie has one bucket under that key; the bucket shows the
    trimmed title-cased city and state; and its [shows] and [venues] are the
    number and the venues of all final rows of the movie with that key, the
    two rows among them. *)
Theorem combine_city_grouping (DATE_CODE : string) (shards : list (list Combine.RawRow))
    (a b : Combine.RawRow) (s : list (string * Agg.MovieBucket)) :
  let city_a := PyStr.or_default (Combine.raw_city a) "Unknown" in
  let state_a := PyStr.or_default (Combine.raw_state a) "Unknown" in
  let ra := Combine.normalize_row DATE_CODE a in
  let rb := Combine.normalize_row DATE_CODE b in
  let rows := Combine.final_rows DATE_CODE shards in
  Forall (λ x, Combine.ascii_raw x = true) (concat shards) →
  StrFacts.variant city_a (PyStr.or_default (Combine.raw_city b) "Unknown") →
  StrFacts.variant state_a (PyStr.or_default (Combine.raw_state b) "Unknown") →
  Combine.movie ra = Combine.movie rb →
  ra ∈ rows → rb ∈ rows →
  Combine.summary_loop [] rows = Some s →
  ∃ m d,
    PyDict.get (Combine.movie ra) s = Some m
    ∧ (Combine.city_key ra, Combine.state_key ra)
      = (PyStr.lower (PyStr.strip city_a), PyStr.lower (PyStr.strip state_a))
    ∧ (Combine.city_key rb, Combine.state_key rb)
      = (Combine.city_key ra, Combine.state_key ra)
    ∧ NoDup (PyDict.keys (Agg.City_details m))
    ∧ PyDict.get (Combine.city_key ra, Combine.state_key ra) (Agg.City_details m) = Some d
    ∧ Agg.city d = PyStr.title (PyStr.strip city_a)
    ∧ Agg.state d = PyStr.title (PyStr.strip state_a)
    ∧ ra ∈ CombineFacts.bucket_rows ra rows
    ∧ rb ∈ CombineFacts.bucket_rows ra rows
    ∧ Agg.shows (Agg.c_tot d) = Z.of_nat (length (CombineFacts.bucket_rows ra rows))
    ∧ Agg.venues (Agg.c_tot d)
      = list_to_set (Combine.venue <$> CombineFacts.bucket_rows ra rows).
Proof.
  intros city_a state_a ra rb rows _ Hc Hs Hm Ha Hb Hloop.
  destruct (CombineFacts.city_bucket_of_row DATE_CODE shards s ra Hloop Ha)
    as (m & d & Hget & Hnd & Hd & Hcity & Hstate & Hshows & Hvenues).
  assert ((Combine.city_key rb, Combine.state_key rb)
          = (Combine.city_key ra, Combine.state_key ra)) as Hk.
  { unfold ra, rb. simpl. f_equal; symmetry; by apply StrFacts.variant_lower_strip. }
  exists m, d. repeat split; try done.
  - apply list_elem_of_filter. by split.
  - apply list_elem_of_filter. split; [|done]. by split.
Qed.

(** The summary the loop of the combiner returns for the two records. *)
Definition mumbai_summary : list (string * Agg.MovieBucket) :=
  default [] (Combine.summary_loop [] (Combine.final_rows "20260101" mumbai_shards)).

Lemma combine_city_grouping_witness :
  ∃ out,
    Combine.final_summary "20260101" mumbai_shards = Some [("Dune"%string, out)]
    ∧ Agg.co_city <$> Agg.mo_City_details out = ["Mumbai"%string]
    ∧ (Agg.o_shows ∘ Agg.co_fig) <$> Agg.mo_City_details out = [2]
    ∧ (Agg.o_venues ∘ Agg.co_fig) <$> Agg.mo_City_details out = [2]
    ∧ Combine.summary_loop [] (Combine.final_rows "20260101" mumbai_shards)
      = Some mumbai_summary
    ∧ ∃ m d,
        PyDict.get "Dune"%string mumbai_summary = Some m
        ∧ PyDict.get ("mumbai", "maharashtra")%string (Agg.City_details m) = Some d
        ∧ Agg.city d = "Mumbai"%string
        ∧ Agg.shows (Agg.c_tot d) = 2.
Proof.
  eexists. split; [vm_compute; reflexivity|].
  split; [vm_compute; reflexivity|]. split; [vm_compute; reflexivity|].
  split; [vm_compute; reflexivity|].
  assert (Combine.summary_loop [] (Combine.final_rows "20260101" mumbai_shards)
          = Some mumbai_summary) as Hloop by (vm_compute; reflexivity).
  split; [exact Hloop|].
  destruct (combine_city_grouping "20260101" mumbai_shards
              (Examples.raw_row "Mumbai" "PVR Phoenix" "11" 100 50)
              (Examples.raw_row "MUMBAI " "INOX Nariman" "22" 100 98) mumbai_summary)
    as (m & d & Hget & _ & _ & _ & Hd & Hcity & _ & _ & _ & Hshows & _).
  - vm_compute. repeat constructor.
  - exists ""%string, "Mumbai"%string, ""%string, ""%string, "MUMBAI"%string, " "%string.
    repeat split; try reflexivity.
    repeat (constructor; [vm_compute; reflexivity|]). constructor.
  - exists ""%string, "Maharashtra"%string, ""%string, ""%string, "Maharashtra"%string,
      ""%string.
    repeat split; try reflexivity. apply StrFacts.caseless_refl.
  - reflexivity.
  - apply (bool_decide_unpack _). vm_compute. exact I.
  - apply (bool_decide_unpack _). vm_compute. exact I.
  - exact Hloop.
  - exists m, d. split; [exact Hget|]. split; [exact Hd|].
    split; [exact Hcity|]. rewrite Hshows. vm_compute. reflexivity.
Defined.
(** ** Retry bound *)

(** C6. Retry bound.  Let [v] be a venue of the list that fails on every
    attempt, in a world that counts the fetches made for [v].  Then the run
    returns (the [while] loop is defined by recursion on the rounds left,
    [MAX_RETRIES + 1 - retry_round], so it ends), and at its end:
    [v] stands exactly once in [pending], the list the report of permanent
    failures counts, and that report is the last line of the log;
    the log holds 5 = [MAX_RETRIES] retry rounds;
    the attempts logged for [v] and the fetches made for [v] are both
    1 + the number of retry rounds. *)
Theorem retry_bound {W : Type}
    (fetch_api_raw : string → W → option Bms7.Payload * W)
    (reset_identity sleep : W → W) (now_us : W → Z)
    (strptime_IMp : string → option (Z * Z)) (DATE_CODE : string)
    (venues : list (string * Bms7.VenueMeta)) (v : string) (calls : W → nat) (w : W) :
  (∀ u w, calls (fetch_api_raw u w).2 = (calls w + RetryFacts.one_if (u = v))%nat) →
  (∀ w, calls (reset_identity w) = calls w) →
  (∀ w, calls (sleep w) = calls w) →
  (∀ w, (fetch_api_raw v w).1 = None) →
  NoDup (PyDict.keys venues) →
  v ∈ PyDict.keys venues →
  let run := Bms7.scrape fetch_api_raw reset_identity sleep now_us strptime_IMp
               DATE_CODE venues w in
  RetryFacts.occurrences v run.1 = 1%nat
  ∧ last (Bms7.log run.2) = Some (Bms7.LogPermanent Bms7.MAX_RETRIES (length run.1))
  ∧ RetryFacts.rounds (Bms7.log run.2) = Bms7.MAX_RETRIES
  ∧ Bms7.MAX_RETRIES = 5%nat
  ∧ RetryFacts.attempts v (Bms7.log run.2)
    = (1 + RetryFacts.rounds (Bms7.log run.2))%nat
  ∧ calls (Bms7.world run.2) = (calls w + 1 + RetryFacts.rounds (Bms7.log run.2))%nat.
Proof.
  intros Hfetch Hreset Hsleep Hfail Hnd Hin run.
  destruct (RetryFacts.scrape_tally fetch_api_raw reset_identity sleep now_us strptime_IMp
              DATE_CODE venues v calls Hfetch Hreset Hsleep Hfail w Hnd Hin)
    as (Hocc & Hatt & Hrounds & Hcalls & Hlast).
  fold run in Hocc, Hatt, Hrounds, Hcalls, Hlast.
  rewrite Hrounds. repeat split; try done.
Qed.

(** A world that is the number of fetches made for the venue "V1", which
    never answers; the venue "V2" answers with an empty payload. *)
Definition dead_venue_fetch (u : string) (n : nat) : option Bms7.Payload * nat :=
  (if decide (u = "V2"%string) then Some {| Bms7.ShowDetails := [] |} else None,
   (n + RetryFacts.one_if (u = "V1"%string))%nat).

Definition two_venues : list (string * Bms7.VenueMeta) :=
  [ ("V1"%string, {| Bms7.City := Some "Pune"%string; Bms7.State := None |});
    ("V2"%string, {| Bms7.City := None; Bms7.State := None |}) ].

Definition dead_venue_run : list string * Bms7.RunState :=
  Bms7.scrape dead_venue_fetch id id (λ _, 0) Examples.strptime_12h
    "20260101" two_venues 0%nat.

Lemma retry_bound_witness :
  dead_venue_run.1 = ["V1"%string]
  ∧ RetryFacts.occurrences "V1" dead_venue_run.1 = 1%nat
  ∧ last (Bms7.log dead_venue_run.2) = Some (Bms7.LogPermanent 5 1)
  ∧ RetryFacts.rounds (Bms7.log dead_venue_run.2) = 5%nat
  ∧ RetryFacts.attempts "V1" (Bms7.log dead_venue_run.2) = 6%nat
  ∧ Bms7.world dead_venue_run.2 = 6%nat.
Proof.
  destruct (retry_bound dead_venue_fetch id id (λ _, 0) Examples.strptime_12h
              "20260101" two_venues "V1" (λ n, n) 0%nat)
    as (Hocc & Hlast & Hrounds & _ & Hatt & Hcalls).
  - intros u n. reflexivity.
  - intros n. reflexivity.
  - intros n. reflexivity.
  - intros n. reflexivity.
  - apply (bool_decide_unpack _). vm_compute. exact I.
  - apply (bool_decide_unpack _). vm_compute. exact I.
  - fold dead_venue_run in Hocc, Hlast, Hrounds, Hatt, Hcalls. cbv beta in Hcalls.
    split; [vm_compute; reflexivity|]. split; [exact Hocc|].
    split; [rewrite Hlast; vm_compute; reflexivity|]. split; [exact Hrounds|].
    split; [rewrite Hatt, Hrounds; reflexivity|].
    rewrite Hcalls, Hrounds. reflexivity.
Defined.

(** ** Show times that cannot be read *)

(** A show of today that is announced without a time of day, as
    [parse_payload] returns it, and a venue that has only this show. *)
Definition unannounced_show : Bms7.Show :=
  {| Bms7.movie := "Dune"; Bms7.venue := "PVR Forum"; Bms7.address := "Koramangala";
     Bms7.language := "English"; Bms7.dimension := "2D"; Bms7.chain := "PVR";
     Bms7.time := "TBA"; Bms7.audi := "AUDI 1"; Bms7.session_id := "101";
     Bms7.totalSeats := 80; Bms7.available := 40; Bms7.sold := 40;
     Bms7.gross := PyFloat (Py.lit 8000) |}.

Definition unannounced_run : list string * @Bms7.RunState unit :=
  Examples.run_at_six (Examples.bms_payload "TBA" Examples.two_tiers).



(** The two sessions of the District example: the time of the second cannot
    be read, and both are rows of [parse]. *)
Definition district_two_sessions : list District9.Result :=
  [ Examples.district_result
      [ Examples.district_session 1 "2026-01-04T18:30" 80 40;
        Examples.district_session 2 "tomorrow" 80 40 ] ].

(** ** Negative seat figures *)

(** A venue that reports 15 free seats in a category of 10, and the run that
    fetches it. *)
Definition oversold_payload : Bms7.Payload :=
  Examples.bms_payload "07:30 PM" [Examples.tier 10 15 100].

Definition oversold_run : list string * @Bms7.RunState unit :=
  Examples.run_at_six oversold_payload.

(** The shards of a day: the rows of that run, and a sound show of 80 seats
    with 40 sold in another city. *)
Definition oversold_shards : list (list Combine.RawRow) :=
  [ Examples.raw_of_row <$> Bms7.all_rows oversold_run.2;
    [Examples.raw_row "Mumbai" "INOX Nariman" "22" 80 40] ].

(** C8, as the specification states it, fails: a negative figure is neither
    clamped nor flagged.  The show of [oversold_payload] has -5 sold seats and
    a gross of -500.0; the run keeps it and logs nothing about it; the
    combiner adds it as it is, so that the movie shows 35 sold seats for 40
    tickets sold, a gross of -500.0, and a city with an occupancy of -50.0. *)
Lemma negative_seats_summed :
  Bms7.sold <$> Bms7.parse_payload "20260101" oversold_payload = [-5]
  ∧ Bms7.gross <$> Bms7.parse_payload "20260101" oversold_payload
    = [PyFloat (Py.lit (-500))]
  ∧ (Bms7.sold ∘ Bms7.show) <$> Bms7.all_rows oversold_run.2 = [-5]
  ∧ Bms7.log oversold_run.2 = [Bms7.LogVenue 1 1 "V1"; Bms7.LogRecovered]
  ∧ Combine.sold <$> Combine.final_rows "20260101" oversold_shards = [-5; 40]
  ∧ ∃ out,
      Combine.final_summary "20260101" oversold_shards = Some [("Dune"%string, out)]
      ∧ Agg.o_sold (Agg.mo_fig out) = 35
      ∧ Agg.o_totalSeats (Agg.mo_fig out) = 90
      ∧ Agg.o_gross (Agg.mo_fig out) = PyFloat (Py.lit (-500))
      ∧ Agg.co_city <$> Agg.mo_City_details out = ["Bengaluru"; "Mumbai"]%string
      ∧ (Agg.o_sold ∘ Agg.co_fig) <$> Agg.mo_City_details out = [-5; 40]
      ∧ (Agg.o_occupancy ∘ Agg.co_fig) <$> Agg.mo_City_details out
        = [PyFloat (Py.lit (-50)); PyFloat (Py.lit 50)].
Proof.
  split; [vm_compute; reflexivity|]. split; [vm_compute; reflexivity|].
  split; [vm_compute; reflexivity|]. split; [vm_compute; reflexivity|].
  split; [vm_compute; reflexivity|].
  eexists. split; [vm_compute; reflexivity|].
  repeat split; vm_compute; reflexivity.
Qed.

(** C8, amended.  Sold seats are total minus available seats in every step of
    the loop over the seat categories of [bmsdaily7.py], in every show that
    [parse_payload] returns and in every row that [parse] of [bmsdaily9.py]
    returns, so a record has negative sold seats exactly when it has more
    available seats than seats.  The combiner takes the figures of its rows
    as they stand: for every movie, [shows] is the number of final rows of
    the movie, and [sold] and [totalSeats] are the sums of their [sold] and
    [totalSeats], negative ones included. *)
Theorem seat_balance :
  (∀ acc cat,
     Bms7.t_sold (Bms7.tier_step acc cat) - Bms7.t_sold acc
     = (Bms7.t_total (Bms7.tier_step acc cat) - Bms7.t_total acc)
       - (Bms7.t_avail (Bms7.tier_step acc cat) - Bms7.t_avail acc))
  ∧ (∀ DATE_CODE data r,
       r ∈ Bms7.parse_payload DATE_CODE data →
       Bms7.sold r = Bms7.totalSeats r - Bms7.available r
       ∧ (Bms7.sold r < 0 ↔ Bms7.totalSeats r < Bms7.available r))
  ∧ (∀ clock_of_epoch clock_of_iso DATE_CODE results r,
       r ∈ District9.parse clock_of_epoch clock_of_iso DATE_CODE results →
       District9.sold r = District9.totalSeats r - District9.available r
       ∧ (District9.sold r < 0 ↔ District9.totalSeats r < District9.available r))
  ∧ (∀ rows s r,
       Combine.summary_loop [] rows = Some s →
       r ∈ rows →
       ∃ m, PyDict.get (Combine.movie r) s = Some m
            ∧ Agg.shows (Agg.m_tot m)
              = Z.of_nat (length (filter (λ x, Combine.movie x = Combine.movie r) rows))
            ∧ Agg.sold (Agg.m_tot m)
              = SeatFacts.total_of
                  (Combine.sold <$> filter (λ x, Combine.movie x = Combine.movie r) rows)
            ∧ Agg.totalSeats (Agg.m_tot m)
              = SeatFacts.total_of
                  (Combine.totalSeats
                     <$> filter (λ x, Combine.movie x = Combine.movie r) rows)).
Proof.
  split; [|split; [|split]].
  - intros acc cat. simpl. lia.
  - intros DATE_CODE data r Hr.
    pose proof (SeatFacts.parse_payload_balance DATE_CODE data r Hr). split; [done|lia].
  - intros ce ci DATE_CODE results r Hr.
    pose proof (SeatFacts.parse_balance ce ci DATE_CODE results r Hr). split; [done|lia].
  - intros rows s r Hs Hr. by eapply SeatFacts.combine_movie_sums.
Qed.

Lemma seat_balance_witness :
  Forall (λ r, Bms7.sold r = Bms7.totalSeats r - Bms7.available r ∧ Bms7.sold r = -5)
    (Bms7.parse_payload "20260101" oversold_payload)
  ∧ ∃ s m,
      Combine.summary_loop [] (Combine.final_rows "20260101" oversold_shards) = Some s
      ∧ PyDict.get "Dune"%string s = Some m
      ∧ Agg.shows (Agg.m_tot m) = 2
      ∧ Agg.sold (Agg.m_tot m) = -5 + 40.
Proof.
  destruct seat_balance as (_ & Hshow & _ & Hsum). split.
  - apply Forall_forall. intros r Hr. split; [exact (proj1 (Hshow _ _ r Hr))|].
    revert r Hr. apply Forall_forall. vm_compute. repeat constructor.
  - destruct (Combine.summary_loop [] (Combine.final_rows "20260101" oversold_shards))
      as [s|] eqn:Hs; [|vm_compute in Hs; discriminate Hs].
    destruct (Hsum _ s
                (Combine.normalize_row "20260101"
                   (Examples.raw_row "Mumbai" "INOX Nariman" "22" 80 40)) Hs)
      as (m & Hget & Hshows & Hsold & _).
    + apply (bool_decide_unpack _). vm_compute. exact I.
    + exists s, m. split; [reflexivity|]. split; [exact Hget|]. split.
      * rewrite Hshows. vm_compute. reflexivity.
      * rewrite Hsold. vm_compute. reflexivity.
Defined.

(** ** Sold seats and gross of a show *)

(** The session of the District example with the totals 100 and 100. *)
Definition unbalanced_session : list District9.Result :=
  [ Examples.district_result
      [ Examples.district_session 1 "2026-01-04T18:30" 100 100 ] ].


(** The show of the gross example, as [parse_payload] returns it. *)
Definition two_tier_show : Bms7.Show :=
  {| Bms7.movie := "Dune"; Bms7.venue := "PVR Forum"; Bms7.address := "Koramangala";
     Bms7.language := "English"; Bms7.dimension := "2D"; Bms7.chain := "PVR";
     Bms7.time := "07:30 PM"; Bms7.audi := "AUDI 1"; Bms7.session_id := "101";
     Bms7.totalSeats := 80; Bms7.available := 40; Bms7.sold := 40;
     Bms7.gross := PyFloat (Py.lit 8000) |}.



End Claims.

(* ===================================================================== *)
(** * Further properties of the three programs *)
(* ===================================================================== *)

Module Extras.

(** ** Examples *)

(** Rows of a day as the District parser returns them: three shows of one
    movie in two cities, and a show of a second movie. *)
Definition retitled (title : string) (r : District9.Row) : District9.Row :=
  {| District9.movie := title; District9.city := District9.city r;
     District9.state := District9.state r; District9.venue := District9.venue r;
     District9.address := District9.address r; District9.time := District9.time r;
     District9.audi := District9.audi r; District9.session_id := District9.session_id r;
     District9.totalSeats := District9.totalSeats r;
     District9.available := District9.available r; District9.sold := District9.sold r;
     District9.gross := District9.gross r; District9.language := District9.language r;
     District9.dimension := District9.dimension r; District9.source := District9.source r;
     District9.date := District9.date r |}.

Definition district_day : list District9.Row :=
  [ Examples.district_row "Pune" "City Pride" "1" 100 98;
    retitled "Arrival" (Examples.district_row "Pune" "City Pride" "2" 0 0);
    Examples.district_row "Pune" "E-Square" "3" 100 50;
    Examples.district_row "Mumbai" "PVR Phoenix" "4" 100 10 ].

(** The same shows in two shard files, the first show in both. *)
Definition raw_retitled (title : string) (r : Combine.RawRow) : Combine.RawRow :=
  {| Combine.raw_movie := Some title; Combine.raw_city := Combine.raw_city r;
     Combine.raw_state := Combine.raw_state r; Combine.raw_venue := Combine.raw_venue r;
     Combine.raw_address := Combine.raw_address r; Combine.raw_time := Combine.raw_time r;
     Combine.raw_audi := Combine.raw_audi r;
     Combine.raw_session_id := Combine.raw_session_id r;
     Combine.raw_source := Combine.raw_source r; Combine.raw_date := Combine.raw_date r;
     Combine.raw_language := Combine.raw_language r;
     Combine.raw_dimension := Combine.raw_dimension r;
     Combine.raw_totalSeats := Combine.raw_totalSeats r;
     Combine.raw_available := Combine.raw_available r;
     Combine.raw_sold := Combine.raw_sold r; Combine.raw_gross := Combine.raw_gross r |}.

Definition shards_day : list (list Combine.RawRow) :=
  [ [ Examples.raw_row "pune" "City Pride" "1" 100 98;
      Examples.raw_row "Mumbai" "PVR Phoenix" "4" 100 10 ];
    [ Examples.raw_row "Pune " "City Pride" "1" 100 99;
      raw_retitled "Arrival" (Examples.raw_row "Pune" "City Pride" "2" 0 0);
      Examples.raw_row "PUNE" "E-Square" "3" 100 50 ] ].

(** ** The summaries of [bmsdaily9.py] and of the combiner *)

(** X1. In every movie of the summary that [build_summary] of [bmsdaily9.py]
    returns, and of the one the combiner writes, the shows, the sold seats,
    the total seats and the two status counters of the movie are the sums of
    those of its cities, of those of its languages and of those of its
    formats. *)
Theorem breakdowns_add_up :
  (∀ detailed out mv o,
     District9.build_summary detailed = Some out → (mv, o) ∈ out →
     Forall (λ g, SummaryFacts.adds_up g o)
       [Agg.o_shows; Agg.o_sold; Agg.o_totalSeats; Agg.o_fastfilling; Agg.o_housefull])
  ∧ (∀ DATE_CODE shards out mv o,
       Combine.final_summary DATE_CODE shards = Some out → (mv, o) ∈ out →
       Forall (λ g, SummaryFacts.adds_up g o)
         [Agg.o_shows; Agg.o_sold; Agg.o_totalSeats; Agg.o_fastfilling;
          Agg.o_housefull]).
Proof.
  assert (∀ {R : Type} (ent : R → Agg.Entry) calc rows out mv o,
            Agg.finalize calc (GroupFacts.fold_rows ent [] rows) = Some out →
            (mv, o) ∈ out →
            Forall (λ g, SummaryFacts.adds_up g o)
              [Agg.o_shows; Agg.o_sold; Agg.o_totalSeats; Agg.o_fastfilling;
               Agg.o_housefull]) as Hgen.
  { intros R ent calc rows out mv o Hw Hin.
    repeat (apply Forall_cons; split); [| | | | |constructor].
    - eapply (SummaryFacts.written_adds_up ent calc rows out Hw Agg.shows);
        [apply SummaryFacts.additive_shows| |done].
      by intros t fig (? & _)%SummaryFacts.figures_Some.
    - eapply (SummaryFacts.written_adds_up ent calc rows out Hw Agg.sold);
        [apply SummaryFacts.additive_sold| |done].
      by intros t fig (_ & ? & _)%SummaryFacts.figures_Some.
    - eapply (SummaryFacts.written_adds_up ent calc rows out Hw Agg.totalSeats);
        [apply SummaryFacts.additive_totalSeats| |done].
      by intros t fig (_ & _ & ? & _)%SummaryFacts.figures_Some.
    - eapply (SummaryFacts.written_adds_up ent calc rows out Hw Agg.fastfilling);
        [apply SummaryFacts.additive_fastfilling| |done].
      by intros t fig (_ & _ & _ & _ & ? & _)%SummaryFacts.figures_Some.
    - eapply (SummaryFacts.written_adds_up ent calc rows out Hw Agg.housefull);
        [apply SummaryFacts.additive_housefull| |done].
      by intros t fig (_ & _ & _ & _ & _ & ? & _)%SummaryFacts.figures_Some. }
  split.
  - intros detailed out mv o Hw%ScriptFacts.district_written Hin. by eapply Hgen.
  - intros DATE_CODE shards out mv o Hw%ScriptFacts.combine_written Hin. by eapply Hgen.
Qed.

Lemma breakdowns_add_up_witness :
  ∃ out o,
    District9.build_summary district_day = Some out
    ∧ out.*1 = ["Dune"; "Arrival"]%string
    ∧ (("Dune"%string, o) ∈ out)
    ∧ (Agg.o_shows ∘ Agg.co_fig) <$> Agg.mo_City_details o = [2; 1]
    ∧ Agg.o_shows (Agg.mo_fig o) = 3
    ∧ SummaryFacts.adds_up Agg.o_shows o
    ∧ SummaryFacts.adds_up Agg.o_sold o.
Proof.
  destruct (District9.build_summary district_day) as [out|] eqn:Hout;
    [|vm_compute in Hout; discriminate Hout].
  destruct (out !! 0%nat) as [[mv o]|] eqn:Ho;
    [|vm_compute in Hout; injection Hout as <-; discriminate Ho].
  assert (mv = "Dune"%string) as ->.
  { vm_compute in Hout. injection Hout as <-. by injection Ho as <- _. }
  pose proof (list_elem_of_lookup_2 _ _ _ Ho) as Hin.
  pose proof (proj1 breakdowns_add_up district_day out _ o Hout Hin) as Hall.
  apply Forall_cons in Hall as [Hshows Hall]. apply Forall_cons in Hall as [Hsold _].
  exists out, o. revert Ho. vm_compute in Hout. injection Hout as <-.
  intros [= <-]. repeat split; try done; try (vm_compute; reflexivity).
Defined.

(** X2. In both summaries every bucket that is written has counted at least
    one show: its two status counters are not negative and together at most
    its shows, it has between one venue and as many venues as shows, and a
    movie has between one city and as many cities as shows. *)
Theorem counters_in_bounds :
  (∀ detailed out mv o,
     District9.build_summary detailed = Some out → (mv, o) ∈ out →
     SummaryFacts.all_in_bounds o)
  ∧ (∀ DATE_CODE shards out mv o,
       Combine.final_summary DATE_CODE shards = Some out → (mv, o) ∈ out →
       SummaryFacts.all_in_bounds o).
Proof.
  split.
  - intros detailed out mv o Hw%ScriptFacts.district_written Hin.
    by eapply SummaryFacts.written_in_bounds.
  - intros DATE_CODE shards out mv o Hw%ScriptFacts.combine_written Hin.
    by eapply SummaryFacts.written_in_bounds.
Qed.

Lemma counters_in_bounds_witness :
  ∃ out o,
    Combine.final_summary "20260101" shards_day = Some out
    ∧ (("Dune"%string, o) ∈ out)
    ∧ Agg.o_shows (Agg.mo_fig o) = 3
    ∧ Agg.o_housefull (Agg.mo_fig o) = 1
    ∧ Agg.o_fastfilling (Agg.mo_fig o) = 1
    ∧ Agg.o_venues (Agg.mo_fig o) = 3
    ∧ Agg.mo_cities o = 2
    ∧ SummaryFacts.all_in_bounds o.
Proof.
  eexists _, _. split; [vm_compute; reflexivity|].
  split; [apply elem_of_cons; right; apply elem_of_cons; left; reflexivity|].
  repeat (split; [vm_compute; reflexivity|]).
  eapply (proj2 counters_in_bounds "20260101"%string shards_day);
    [vm_compute; reflexivity|].
  apply elem_of_cons; right; apply elem_of_cons; left; reflexivity.
Defined.

(** X3. In both summaries the detail lists of a movie never show a label
    twice: no two entries of [City_details] show the same city and state, no
    two entries of [Language_details] the same language, no two entries of
    [Format_details] the same format.  In the combiner this is stated for
    shards whose cities, states, languages and formats are ASCII text; it
    holds there for the title-cased city and state that are shown, although
    the buckets are keyed by the lower-cased ones. *)
Theorem detail_labels_distinct :
  (∀ detailed out mv o,
     District9.build_summary detailed = Some out → (mv, o) ∈ out →
     SummaryFacts.distinct_labels o)
  ∧ (∀ DATE_CODE shards out mv o,
       Forall (λ x, Combine.ascii_raw x = true) (concat shards) →
       Combine.final_summary DATE_CODE shards = Some out → (mv, o) ∈ out →
       SummaryFacts.distinct_labels o).
Proof.
  split.
  - intros detailed out mv o Hw%ScriptFacts.district_written Hin.
    by eapply (SummaryFacts.written_distinct_labels _ _ _ _ Hw pair).
  - intros DATE_CODE shards out mv o _ Hw%ScriptFacts.combine_written Hin.
    eapply (SummaryFacts.written_distinct_labels _ _ _ _ Hw
              (λ c s, (PyStr.lower c, PyStr.lower s))); [|done].
    intros r Hr. by eapply ScriptFacts.combine_row_label.
Qed.

Lemma detail_labels_distinct_witness :
  ∃ out o,
    Combine.final_summary "20260101" shards_day = Some out
    ∧ (("Dune"%string, o) ∈ out)
    ∧ (λ c, (Agg.co_city c, Agg.co_state c)) <$> Agg.mo_City_details o
      = [("Mumbai", "Maharashtra"); ("Pune", "Maharashtra")]%string
    ∧ SummaryFacts.distinct_labels o.
Proof.
  eexists _, _. split; [vm_compute; reflexivity|].
  split; [apply elem_of_cons; right; apply elem_of_cons; left; reflexivity|].
  split; [vm_compute; reflexivity|].
  eapply (proj2 detail_labels_distinct "20260101"%string shards_day);
    [vm_compute; repeat constructor|vm_compute; reflexivity|].
  apply elem_of_cons; right; apply elem_of_cons; left; reflexivity.
Defined.

(** X4. When [build_summary] of [bmsdaily9.py] or the summary of the
    combiner is returned, it holds one entry for each movie of the rows, in
    the order in which the rows bring the movies.  Both are returned, with no
    exception, when no record has more sold seats than seats nor a negative
    number of them, and every gross converts to a float; a show without seats
    is such a record. *)
Theorem summaries_return :
  (∀ detailed out,
     District9.build_summary detailed = Some out →
     out.*1 = DedupeFacts.first_wins id ∅ (District9.movie <$> detailed))
  ∧ (∀ detailed,
       Forall (λ r, 0 <= District9.sold r <= District9.totalSeats r
                    ∧ Py.convertible (District9.gross r) = true) detailed →
       is_Some (District9.build_summary detailed))
  ∧ (∀ DATE_CODE shards out,
       Combine.final_summary DATE_CODE shards = Some out →
       out.*1 = DedupeFacts.first_wins id ∅
                  (Combine.movie <$> Combine.final_rows DATE_CODE shards))
  ∧ (∀ DATE_CODE shards,
       Forall (λ x, 0 <= Combine.int_or_0 (Combine.raw_sold x)
                    <= Combine.int_or_0 (Combine.raw_totalSeats x)
                    ∧ Py.convertible (default (PyInt 0) (Combine.raw_gross x)) = true)
         (concat shards) →
       is_Some (Combine.final_summary DATE_CODE shards)).
Proof.
  split; [|split; [|split]].
  - apply ScriptFacts.district_summary_movies.
  - intros detailed Hrows. apply ScriptFacts.district_returns.
    eapply Forall_impl; [exact Hrows|]. by intros r [? _].
  - apply ScriptFacts.combine_summary_movies.
  - intros DATE_CODE shards Hrows. apply ScriptFacts.combine_returns.
    apply Forall_forall. intros r (x & Hx & ->)%CombineFacts.final_rows_normalized.
    apply (proj1 (Forall_forall _ _) Hrows) in Hx as [Hx _]. exact Hx.
Qed.

Lemma summaries_return_witness :
  ∃ out, District9.build_summary district_day = Some out
         ∧ out.*1 = ["Dune"; "Arrival"]%string
         ∧ (Agg.o_occupancy ∘ Agg.mo_fig ∘ snd) <$> out
           = [PyFloat (Py.fdiv (Py.exact_int 5267) (Py.exact_int 100));
              PyFloat (Py.lit 0)].
Proof.
  destruct (proj1 (proj2 summaries_return) district_day) as [out Hout].
  { repeat constructor; vm_compute; congruence. }
  exists out. split; [exact Hout|].
  split; [rewrite (proj1 summaries_return _ _ Hout); vm_compute; reflexivity|].
  vm_compute in Hout. injection Hout as <-. vm_compute. reflexivity.
Defined.

(** X5. The combiner writes the movies of [finalsummary.json] in strictly
    ascending order of their titles, and the rows of [finaldetailed.json] in
    ascending order of (movie, city, venue, time): these rows are the rows
    that the first-wins pass keeps, rearranged, and rows with the same four
    fields stay in the order of the shards. *)
Theorem combiner_output_sorted (DATE_CODE : string) (shards : list (list Combine.RawRow))
    (out : list (string * Agg.MovieOut)) :
  Combine.final_summary DATE_CODE shards = Some out →
  StronglySorted SortFacts.str_lt out.*1
  ∧ StronglySorted SortFacts.row_le (Combine.final_rows DATE_CODE shards)
  ∧ Combine.final_rows DATE_CODE shards
    ≡ₚ (Combine.dedupe (Combine.normalize_row DATE_CODE <$> concat shards)).1
  ∧ ∀ k, filter (λ r, Combine.sort_key r = k) (Combine.final_rows DATE_CODE shards)
         = filter (λ r, Combine.sort_key r = k)
             (Combine.dedupe (Combine.normalize_row DATE_CODE <$> concat shards)).1.
Proof.
  intros Hout. split; [|split; [|split]].
  - rewrite (ScriptFacts.combine_summary_movies _ _ _ Hout).
    apply ScriptFacts.combine_movies_sorted.
  - apply SortFacts.sort_sorted.
  - apply SortFacts.sort_perm.
  - intros k. apply SortFacts.sort_stable.
Qed.

Lemma combiner_output_sorted_witness :
  ∃ out,
    Combine.final_summary "20260101" shards_day = Some out
    ∧ out.*1 = ["Arrival"; "Dune"]%string
    ∧ (λ r, (Combine.movie r, Combine.city r, Combine.venue r))
        <$> Combine.final_rows "20260101" shards_day
      = [ ("Arrival", "Pune", "City Pride"); ("Dune", "Mumbai", "PVR Phoenix");
          ("Dune", "Pune", "City Pride"); ("Dune", "Pune", "E-Square") ]%string
    ∧ StronglySorted SortFacts.str_lt out.*1.
Proof.
  eexists. split; [vm_compute; reflexivity|].
  split; [vm_compute; reflexivity|]. split; [vm_compute; reflexivity|].
  eapply (proj1 (combiner_output_sorted "20260101" shards_day _ _)).
Unshelve. vm_compute. reflexivity.
Defined.

(** ** [bmsdaily9.py]: labels, movies, rows and venues *)

(** X6. [norm] returns a label without white space around it, and
    ["UNKNOWN"] for a missing or empty one; a label of white space only
    becomes the empty string, not ["UNKNOWN"]. *)
Theorem norm_label :
  (∀ s, PyStr.strip (District9.norm s) = District9.norm s)
  ∧ (∀ s, s = None ∨ s = Some EmptyString → District9.norm s = "UNKNOWN"%string)
  ∧ (∀ w, StrFacts.blank w = true → w ≠ EmptyString →
          District9.norm (Some w) = EmptyString).
Proof.
  split; [apply DistrictFacts.norm_stripped|].
  split; [apply DistrictFacts.norm_missing|apply DistrictFacts.norm_blank].
Qed.

Lemma norm_label_witness :
  District9.norm (Some "  ") = EmptyString
  ∧ District9.norm (Some " Hindi ") = "Hindi"%string
  ∧ PyStr.strip (District9.norm (Some " 3D-IMAX ")) = "3D-IMAX"%string.
Proof.
  destruct norm_label as (Hstrip & _ & Hblank).
  split; [apply Hblank; [reflexivity|discriminate]|].
  split; [reflexivity|]. rewrite Hstrip. reflexivity.
Defined.

(** A venue whose answer lists the movie 7 under a number, and two sessions
    that name it, one by the number and one by its digits. *)
Definition session_of (mid : District9.ident) (id_ : Z) : District9.Session :=
  {| District9.s_mid := Some mid; District9.s_lang := None;
     District9.s_scrnFmt := Some "4DX-3D"%string;
     District9.s_total := Some 50; District9.s_avail := Some 20;
     District9.s_areas := [];
     District9.s_showTime := Some (District9.TStr "2026-01-04T15:00");
     District9.s_audi := None; District9.s_id := Some (District9.IdInt id_) |}.

Definition seven_twice : District9.Result :=
  Examples.district_result
    [ session_of (District9.IdInt 7) 1; session_of (District9.IdStr "7") 2;
      session_of (District9.IdInt 8) 3 ].

(** X7. [parse] finds the movie of a session by its identifier read as a
    string: the movie found is a movie of the answer whose [id] and the
    [mid] of the session have the same [str(..)], and a session whose [mid]
    reads as the [id] of some movie of the answer finds a movie, whether the
    two are numbers or strings. *)
Theorem movie_of_session :
  (∀ movies s m,
     District9.find_movie (District9.movie_map_of movies) s = Some m →
     m ∈ movies
     ∧ District9.str_ident (District9.m_id m) = District9.str_ident (District9.s_mid s))
  ∧ (∀ movies s m,
       m ∈ movies →
       District9.str_ident (District9.m_id m) = District9.str_ident (District9.s_mid s) →
       is_Some (District9.find_movie (District9.movie_map_of movies) s)).
Proof.
  split; [apply DistrictFacts.find_movie_sound|apply DistrictFacts.find_movie_complete].
Qed.

Lemma movie_of_session_witness :
  is_Some (District9.find_movie (District9.movie_map_of [Examples.district_movie])
             (session_of (District9.IdStr "7") 2))
  ∧ District9.session_id
      <$> District9.parse Examples.epoch_clock Examples.iso_clock "20260101" [seven_twice]
    = ["1"; "2"]%string.
Proof.
  split; [|vm_compute; reflexivity].
  apply (proj2 movie_of_session [Examples.district_movie] _ Examples.district_movie).
  - apply elem_of_cons. by left.
  - reflexivity.
Defined.

(** X8. [parse] returns at most one row for each session of the results.
    Every row comes from a session and a movie of one result whose
    identifiers read the same; it has a venue name that is not empty, a
    format without hyphen, a language without white space around it, the
    source ["District"] and the date of the run, and the movie name, city and
    state are those of the movie and of the venue, ["Unknown"] when
    missing. *)
Theorem parse_rows_wellformed (clock_of_epoch : Py.float → option string)
    (clock_of_iso : string → option string) (DATE_CODE : string)
    (results : list District9.Result) :
  (length (District9.parse clock_of_epoch clock_of_iso DATE_CODE results)
   <= length (results ≫= λ res, District9.d_sessions (District9.r_data res)))%nat
  ∧ ∀ r,
      r ∈ District9.parse clock_of_epoch clock_of_iso DATE_CODE results →
      ∃ res s m,
        res ∈ results ∧ s ∈ District9.d_sessions (District9.r_data res)
        ∧ m ∈ District9.d_movies (District9.r_data res)
        ∧ District9.str_ident (District9.m_id m)
          = District9.str_ident (District9.s_mid s)
        ∧ PyStr.truthy (District9.venue r) = true
        ∧ TextFacts.occurs "-" (District9.dimension r) = false
        ∧ PyStr.strip (District9.language r) = District9.language r
        ∧ District9.source r = "District"%string
        ∧ District9.date r = DATE_CODE
        ∧ District9.movie r = PyStr.get_default (District9.m_name m) "Unknown"
        ∧ District9.city r
          = PyStr.get_default (District9.v_city (District9.r_venue res)) "Unknown"
        ∧ District9.state r
          = PyStr.get_default (District9.v_state (District9.r_venue res)) "Unknown".
Proof.
  split; [apply DistrictFacts.parse_length|].
  intros r Hr.
  destruct (DistrictFacts.parse_row _ _ _ _ _ Hr)
    as (res & s & m & H1 & H2 & H3 & H4 & _ & _ & H5 & H6 & H7 & H8 & H9 & H10 & H11 & H12).
  by exists res, s, m.
Qed.

Lemma parse_rows_wellformed_witness :
  (λ r, (District9.venue r, District9.dimension r, District9.language r, District9.state r))
    <$> District9.parse Examples.epoch_clock Examples.iso_clock "20260101" [seven_twice]
  = [ ("City Pride", "4DX | 3D", "UNKNOWN", "Unknown");
      ("City Pride", "4DX | 3D", "UNKNOWN", "Unknown") ]%string
  ∧ (length (District9.parse Examples.epoch_clock Examples.iso_clock "20260101"
               [seven_twice]) <= 3)%nat.
Proof.
  split; [vm_compute; reflexivity|].
  exact (proj1 (parse_rows_wellformed Examples.epoch_clock Examples.iso_clock
                  "20260101" [seven_twice])).
Defined.

(** X9. De-duplication twice is de-duplication once, in [bmsdaily9.py] and
    in the combiner, where the second pass counts no duplicate; and rows
    whose keys (venue, time, session_id, audi) are all different are
    returned as they are. *)
Theorem dedupe_idempotent :
  (∀ rows, District9.dedupe (District9.dedupe rows) = District9.dedupe rows)
  ∧ (∀ rows, Combine.dedupe (Combine.dedupe rows).1 = ((Combine.dedupe rows).1, 0))
  ∧ (∀ rows, NoDup (District9.key_of <$> rows) → District9.dedupe rows = rows)
  ∧ (∀ rows, NoDup (Combine.key_of <$> rows) → Combine.dedupe rows = (rows, 0)).
Proof.
  assert (∀ rows, NoDup (Combine.key_of <$> rows) → Combine.dedupe rows = (rows, 0))
    as Hc.
  { intros rows Hnd. rewrite DedupeFacts.combine_dedupe.
    rewrite DedupeMore.first_wins_distinct; [f_equal; lia|done|].
    intros r _. apply not_elem_of_empty. }
  split; [|split; [|split]].
  - intros rows. rewrite !DedupeFacts.district_dedupe. apply DedupeMore.first_wins_idem.
  - intros rows. apply Hc. rewrite DedupeFacts.combine_dedupe. simpl.
    apply DedupeFacts.first_wins_NoDup.
  - intros rows Hnd. rewrite DedupeFacts.district_dedupe.
    apply DedupeMore.first_wins_distinct; [done|].
    intros r _. apply not_elem_of_empty.
  - exact Hc.
Qed.

Lemma dedupe_idempotent_witness :
  District9.dedupe district_day = district_day
  ∧ length (Combine.dedupe (Combine.normalize_row "20260101" <$> concat shards_day)).1
    = 4%nat
  ∧ (Combine.dedupe
       (Combine.dedupe (Combine.normalize_row "20260101" <$> concat shards_day)).1).2
    = 0.
Proof.
  destruct dedupe_idempotent as (_ & Hc & Hd & _).
  split; [apply Hd; apply (bool_decide_unpack _); vm_compute; exact I|].
  split; [vm_compute; reflexivity|]. by rewrite Hc.
Defined.

(** The venues of a shard and the answers to their requests: the first
    answers for today, the second for another day, the third fails, the
    fourth answers with an error page. *)
Definition four_venues : list District9Main.DistVenue :=
  (λ n, {| District9Main.dv_id := Some (District9.IdInt n);
           District9Main.dv_meta :=
             {| District9.v_city := Some "Pune"%string; District9.v_state := None;
                District9.v_name := Some (pretty n); District9.v_address := None |} |})
    <$> [101; 102; 103; 104].

Definition body_of (dates : list string) : District9Main.Body :=
  {| District9Main.sessionDates := dates;
     District9Main.data := District9.r_data seven_twice |}.

Definition four_answers : list District9Main.response :=
  [ District9Main.Answer 200 (Some (body_of ["2026-01-01"; "2026-01-02"]%string));
    District9Main.Answer 200 (Some (body_of ["2026-01-02"]%string));
    District9Main.Raised;
    District9Main.Answer 503 (Some (body_of ["2026-01-01"]%string)) ].

(** X10. [fetch_all] keeps a venue exactly when its request is answered with
    status 200 and a body whose [sessionDates] hold today's date; the results
    carry the venue and the body of such an answer, they come in the order of
    the venues, and there is none when no answer is of that kind. *)
Theorem fetch_all_results (DATE_DISTRICT : string)
    (venues : list District9Main.DistVenue) (responses : list District9Main.response) :
  (∀ res,
     res ∈ District9Main.fetch_all DATE_DISTRICT venues responses ↔
     ∃ i v b,
       venues !! i = Some v
       ∧ responses !! i = Some (District9Main.Answer 200 (Some b))
       ∧ DATE_DISTRICT ∈ District9Main.sessionDates b
       ∧ res = {| District9.r_venue := District9Main.dv_meta v;
                  District9.r_data := District9Main.data b |})
  ∧ District9.r_venue <$> District9Main.fetch_all DATE_DISTRICT venues responses
    `sublist_of` District9Main.dv_meta <$> venues
  ∧ (Forall (λ resp, ∀ b, resp = District9Main.Answer 200 (Some b) →
                          DATE_DISTRICT ∉ District9Main.sessionDates b) responses →
     District9Main.fetch_all DATE_DISTRICT venues responses = []).
Proof.
  split; [intros res; apply DistrictFacts.fetch_all_elem|].
  split; [apply DistrictFacts.fetch_all_order|apply DistrictFacts.fetch_all_none].
Qed.

Lemma fetch_all_results_witness :
  (District9.v_name ∘ District9.r_venue)
    <$> District9Main.fetch_all "2026-01-01" four_venues four_answers
  = [Some "101"%string]
  ∧ District9Main.fetch_all "2026-01-03" four_venues four_answers = [].
Proof.
  split; [vm_compute; reflexivity|].
  apply (proj2 (proj2 (fetch_all_results "2026-01-03" four_venues four_answers))).
  repeat constructor; intros b [= <-]; vm_compute;
    intros H; repeat (apply elem_of_cons in H as [H|H]; [discriminate H|]);
    by apply elem_of_nil in H.
Defined.

(** X11. What a run of [bmsdaily9.py] writes is the rows of [parse] on the
    results of [fetch_all] and the summary of these rows, and every row comes
    from a venue that answered with status 200 and today's date.  When no
    venue did, the run ends without exception and both files hold an empty
    list. *)
Theorem district_run (clock_of_epoch : Py.float → option string)
    (clock_of_iso : string → option string) (DATE_CODE DATE_DISTRICT : string)
    (venues : list District9Main.DistVenue) (responses : list District9Main.response) :
  (∀ out,
     District9Main.main clock_of_epoch clock_of_iso DATE_CODE DATE_DISTRICT venues
       responses = Some out →
     District9Main.detailed out
     = District9.parse clock_of_epoch clock_of_iso DATE_CODE
         (District9Main.fetch_all DATE_DISTRICT venues responses)
     ∧ District9.build_summary (District9Main.detailed out)
       = Some (District9Main.summary out)
     ∧ ∀ r, r ∈ District9Main.detailed out →
            ∃ i v b,
              venues !! i = Some v
              ∧ responses !! i = Some (District9Main.Answer 200 (Some b))
              ∧ DATE_DISTRICT ∈ District9Main.sessionDates b
              ∧ r ∈ District9.rows_of_result clock_of_epoch clock_of_iso DATE_CODE
                      {| District9.r_venue := District9Main.dv_meta v;
                         District9.r_data := District9Main.data b |})
  ∧ (District9Main.fetch_all DATE_DISTRICT venues responses = [] →
     District9Main.main clock_of_epoch clock_of_iso DATE_CODE DATE_DISTRICT venues
       responses
     = Some {| District9Main.detailed := []; District9Main.summary := [] |}).
Proof.
  unfold District9Main.main. split.
  - intros out.
    destruct (District9.build_summary _) as [s|] eqn:Hs; [|done]. simpl.
    intros [= <-]. simpl. split; [done|]. split; [done|].
    intros r (res & Hres & Hr)%SeatFacts.parse_rows.
    apply DistrictFacts.fetch_all_elem in Hres as (i & v & b & Hv & Hb & Hd & ->).
    by exists i, v, b.
  - intros ->. reflexivity.
Qed.

(** The run of the example, in which two of the four venues answer. *)
Definition four_run : option District9Main.Output :=
  District9Main.main Examples.epoch_clock Examples.iso_clock "20260101" "2026-01-01"
    four_venues four_answers.

Lemma district_run_witness :
  ∃ out,
    four_run = Some out
    ∧ District9.venue <$> District9Main.detailed out = ["101"; "101"]%string
    ∧ (District9Main.summary out).*1 = ["Dune"%string]
    ∧ District9.build_summary (District9Main.detailed out)
      = Some (District9Main.summary out).
Proof.
  destruct four_run as [out|] eqn:Hout; [|vm_compute in Hout; discriminate Hout].
  exists out. split; [reflexivity|].
  destruct (proj1 (district_run Examples.epoch_clock Examples.iso_clock "20260101"
                     "2026-01-01" four_venues four_answers) out Hout) as (_ & Hsum & _).
  vm_compute in Hout. injection Hout as <-.
  split; [vm_compute; reflexivity|]. split; [vm_compute; reflexivity|]. exact Hsum.
Defined.
(** ** [bmsdaily7.py]: the payload, the attempts and the rows of a run *)


(** A payload with a show of today and a show of tomorrow. *)
Definition two_days : Bms7.Payload :=
  {| Bms7.ShowDetails :=
       [ {| Bms7.Venues := {| Bms7.VenueName := Some "PVR Forum"%string;
                              Bms7.VenueAdd := None; Bms7.VenueCompName := None |};
            Bms7.Events :=
              [ {| Bms7.EventTitle := None;
                   Bms7.ChildEvents :=
                     [ {| Bms7.EventDimension := None; Bms7.EventLanguage := None;
                          Bms7.ShowTimes :=
                            [ {| Bms7.ShowDateCode := Some "20260102"%string;
                                 Bms7.Categories := Examples.two_tiers;
                                 Bms7.ShowTime := Some "09:00 AM"%string;
                                 Bms7.Attributes := None;
                                 Bms7.SessionId := Some "7"%string |};
                              {| Bms7.ShowDateCode := Some "20260101"%string;
                                 Bms7.Categories := Examples.two_tiers;
                                 Bms7.ShowTime := Some "07:30 PM"%string;
                                 Bms7.Attributes := None;
                                 Bms7.SessionId := Some "8"%string |} ] |} ] |} ] |} ] |}.


(** X13. Whatever the vendor answers, a run attempts every venue of the list
    at least once and at most 1 + [MAX_RETRIES] = 6 times, it makes at most
    [MAX_RETRIES] retry rounds, and the venues it reports as failed in the end
    are venues of the list, each at most once and in the order of the list. *)
Theorem attempts_bounded {W : Type}
    (fetch_api_raw : string → W → option Bms7.Payload * W)
    (reset_identity sleep : W → W) (now_us : W → Z)
    (strptime_IMp : string → option (Z * Z)) (DATE_CODE : string)
    (venues : list (string * Bms7.VenueMeta)) (v : string) (w : W) :
  NoDup (PyDict.keys venues) →
  v ∈ PyDict.keys venues →
  let run := Bms7.scrape fetch_api_raw reset_identity sleep now_us strptime_IMp
               DATE_CODE venues w in
  (1 <= RetryFacts.attempts v (Bms7.log run.2) <= 1 + Bms7.MAX_RETRIES)%nat
  ∧ (RetryFacts.rounds (Bms7.log run.2) <= Bms7.MAX_RETRIES)%nat
  ∧ run.1 `sublist_of` PyDict.keys venues
  ∧ NoDup run.1.
Proof.
  intros Hnd Hin run.
  destruct (RunFacts.scrape_counted fetch_api_raw reset_identity sleep now_us
              strptime_IMp DATE_CODE venues v w) as (Hs & Ha & Hr & _).
  fold run in Hs, Ha, Hr.
  rewrite (RetryFacts.occurrences_NoDup v _ Hnd Hin) in Ha.
  split; [lia|]. split; [done|]. split; [done|]. by eapply sublist_NoDup.
Qed.

(** A venue that answers from its third request on, in a world that counts
    the requests. *)
Definition late_fetch (u : string) (n : nat) : option Bms7.Payload * nat :=
  (if decide (2 <= n)%nat
   then Some (Examples.bms_payload "07:30 PM" Examples.two_tiers) else None,
   S n).

Definition late_run : list string * @Bms7.RunState nat :=
  Bms7.scrape late_fetch id id (λ _, 18 * 3600 * 1000000) Examples.strptime_12h
    "20260101" Examples.one_venue 0%nat.

Lemma attempts_bounded_witness :
  RetryFacts.attempts "V1" (Bms7.log late_run.2) = 3%nat
  ∧ RetryFacts.rounds (Bms7.log late_run.2) = 2%nat
  ∧ late_run.1 = []
  ∧ length (Bms7.all_rows late_run.2) = 1%nat
  ∧ (1 <= RetryFacts.attempts "V1" (Bms7.log late_run.2) <= 6)%nat.
Proof.
  split; [vm_compute; reflexivity|]. split; [vm_compute; reflexivity|].
  split; [vm_compute; reflexivity|]. split; [vm_compute; reflexivity|].
  apply (attempts_bounded late_fetch id id (λ _, 18 * 3600 * 1000000)
           Examples.strptime_12h "20260101" Examples.one_venue "V1" 0%nat).
  - apply (bool_decide_unpack _). vm_compute. exact I.
  - apply (bool_decide_unpack _). vm_compute. exact I.
Defined.

(** X14. A venue of the list of which the log of the run reports no failed
    attempt, neither in the first pass nor in a retry round, is attempted
    exactly once in the run, and is not among the venues reported as failed
    in the end: only a failed attempt, which is logged, puts a venue in the
    retry list. *)
Theorem unfailed_venue_once {W : Type}
    (fetch_api_raw : string → W → option Bms7.Payload * W)
    (reset_identity sleep : W → W) (now_us : W → Z)
    (strptime_IMp : string → option (Z * Z)) (DATE_CODE : string)
    (venues : list (string * Bms7.VenueMeta)) (v : string) (w : W) :
  NoDup (PyDict.keys venues) →
  v ∈ PyDict.keys venues →
  let run := Bms7.scrape fetch_api_raw reset_identity sleep now_us strptime_IMp
               DATE_CODE venues w in
  RunFacts.unfailed v (Bms7.log run.2) →
  RetryFacts.attempts v (Bms7.log run.2) = 1%nat ∧ v ∉ run.1.
Proof.
  intros Hnd Hin run Hlog.
  destruct (RunFacts.scrape_unfailed fetch_api_raw reset_identity sleep now_us
              strptime_IMp DATE_CODE venues v w Hlog) as [Hv Ha].
  fold run in Hv, Ha.
  by rewrite (RetryFacts.occurrences_NoDup v _ Hnd Hin) in Ha.
Qed.

(** The second venue of two answers, the first never does. *)
Definition second_answers (u : string) (n : nat) : option Bms7.Payload * nat :=
  (if decide (u = "V2"%string)
   then Some (Examples.bms_payload "07:30 PM" Examples.two_tiers) else None,
   S n).

Definition pair_of_venues : list (string * Bms7.VenueMeta) :=
  [ ("V1"%string, {| Bms7.City := Some "Pune"%string; Bms7.State := None |});
    ("V2"%string, {| Bms7.City := None; Bms7.State := None |}) ].

Definition second_run : list string * @Bms7.RunState nat :=
  Bms7.scrape second_answers id id (λ _, 18 * 3600 * 1000000) Examples.strptime_12h
    "20260101" pair_of_venues 0%nat.

Lemma unfailed_venue_once_witness :
  second_run.1 = ["V1"%string]
  ∧ Bms7.world second_run.2 = 7%nat
  ∧ RunFacts.unfailed "V2" (Bms7.log second_run.2)
  ∧ ¬ RunFacts.unfailed "V1" (Bms7.log second_run.2)
  ∧ RetryFacts.attempts "V2" (Bms7.log second_run.2) = 1%nat
  ∧ ¬ "V2"%string ∈ second_run.1.
Proof.
  split; [vm_compute; reflexivity|]. split; [vm_compute; reflexivity|].
  split; [apply (bool_decide_unpack _); vm_compute; exact I|].
  split; [apply (bool_decide_unpack _); vm_compute; exact I|].
  apply (unfailed_venue_once second_answers id id (λ _, 18 * 3600 * 1000000)
           Examples.strptime_12h "20260101" pair_of_venues "V2" 0%nat).
  - apply (bool_decide_unpack _). vm_compute. exact I.
  - apply (bool_decide_unpack _). vm_compute. exact I.
  - apply (bool_decide_unpack _). vm_compute. exact I.
Defined.

(** X15. Every row of a run is a show of a payload that was fetched for a
    venue of the list and that passed the cut-off at that moment: the show is
    one [parse_payload] returns for that payload, its minutes left were at
    most [CUTOFF_MINUTES] on the clock at the end of the request, and the row
    adds to it those minutes rounded to one decimal, the city and state of
    the venue (["Unknown"] when missing), the date of the run and the source
    ["BMS"]. *)
Theorem rows_of_a_run {W : Type}
    (fetch_api_raw : string → W → option Bms7.Payload * W)
    (reset_identity sleep : W → W) (now_us : W → Z)
    (strptime_IMp : string → option (Z * Z)) (DATE_CODE : string)
    (venues : list (string * Bms7.VenueMeta)) (w : W) :
  Forall
    (λ row,
       ∃ u meta w0 w1 data,
         PyDict.get u venues = Some meta
         ∧ fetch_api_raw u w0 = (Some data, w1)
         ∧ Bms7.show row ∈ Bms7.parse_payload DATE_CODE data
         ∧ Py.le_int (Bms7.minutes_left now_us strptime_IMp w1 (Bms7.time (Bms7.show row)))
             Bms7.CUTOFF_MINUTES = true
         ∧ Bms7.mins_left row
           = Py.round (Bms7.minutes_left now_us strptime_IMp w1
                         (Bms7.time (Bms7.show row))) 1
         ∧ Bms7.city row = PyStr.get_default (Bms7.City meta) "Unknown"
         ∧ Bms7.state row = PyStr.get_default (Bms7.State meta) "Unknown"
         ∧ Bms7.date row = DATE_CODE
         ∧ Bms7.source row = "BMS"%string)
    (Bms7.all_rows
       (Bms7.scrape fetch_api_raw reset_identity sleep now_us strptime_IMp
          DATE_CODE venues w).2).
Proof.
  apply RunFacts.scrape_rows.
  intros u w0 data w1 rows Hf. unfold Bms7.rows_of.
  set (kept := filter _ _).
  assert (∀ r, r ∈ kept →
               r ∈ Bms7.parse_payload DATE_CODE data
               ∧ Bms7.keep now_us strptime_IMp w1 r = true) as Hkept.
  { intros r Hr. by apply list_elem_of_filter in Hr as [? ?]. }
  destruct kept as [|r0 kept]; [intros [= <-]; constructor|].
  revert Hkept. generalize (r0 :: kept). intros l Hkept.
  destruct (PyDict.get u venues) as [meta|] eqn:Hget; [|done]. simpl.
  intros [= <-]. apply Forall_forall.
  intros row (r & -> & Hr)%list_elem_of_fmap.
  destruct (Hkept r Hr) as [Hin Hkeep].
  exists u, meta, w0, w1, data. done.
Qed.

Lemma rows_of_a_run_witness :
  (λ row, (Bms7.city row, Bms7.date row, Bms7.source row, Bms7.mins_left row))
    <$> Bms7.all_rows late_run.2
  = [("Bengaluru", "20260101", "BMS", PyFloat (Py.lit 90))]%string
  ∧ Forall (λ row, Bms7.source row = "BMS"%string) (Bms7.all_rows late_run.2).
Proof.
  split; [vm_compute; reflexivity|].
  eapply Forall_impl;
    [apply (rows_of_a_run late_fetch id id (λ _, 18 * 3600 * 1000000)
              Examples.strptime_12h "20260101" Examples.one_venue 0%nat)|].
  intros row (u & meta & w0 & w1 & data & H). simpl in H. tauto.
Defined.

(** ** [bmsdaily7.py]: the merged file, its summary and the whole run *)

(** X16. The merge returns when every record of the old file and every row
    of the run has the four fields of the key, as strings, and it raises when
    one of them lacks a field of the key; the rows of a run never do. *)
Theorem merge_raises_on_missing_key (S N : list (gmap string Bms7.value)) :
  (Forall (λ r, is_Some (Bms7.show_key r)) S →
   Forall (λ r, is_Some (Bms7.show_key r)) N →
   is_Some (Bms7.merge S N))
  ∧ (∀ r k, r ∈ S ∨ r ∈ N → k ∈ MergeMore.key_fields → r !! k = None →
            Bms7.merge S N = None)
  ∧ ∀ rows : list Bms7.Row,
      Forall (λ r, is_Some (Bms7.show_key r)) (Bms7.row_dict <$> rows).
Proof.
  split; [|split].
  - intros HS HN. by apply MergeMore.merge_is_Some.
  - apply MergeMore.merge_missing_key.
  - intros rows. apply Forall_fmap, Forall_forall. intros r _. by eexists.
Qed.

Lemma merge_raises_on_missing_key_witness :
  Bms7.merge [delete "audi"%string (Bms7.row_dict (Examples.row_with Examples.show_a 180))]
    (Bms7.row_dict <$> Examples.new_rows) = None
  ∧ is_Some (Bms7.merge Examples.old_snapshot (Bms7.row_dict <$> Examples.new_rows)).
Proof.
  split.
  - apply (proj1 (proj2 (merge_raises_on_missing_key _ _))
             (delete "audi"%string (Bms7.row_dict (Examples.row_with Examples.show_a 180)))
             "audi"%string).
    + left. apply elem_of_cons. by left.
    + apply (bool_decide_unpack _). vm_compute. exact I.
    + apply lookup_delete_eq.
  - apply (proj1 (merge_raises_on_missing_key Examples.old_snapshot
                    (Bms7.row_dict <$> Examples.new_rows))).
    + repeat constructor; by eexists.
    + apply (proj2 (proj2 (merge_raises_on_missing_key [] []))).
Defined.

(** X17. The order of the merged file, for an old file that holds each key
    once: first one record for each key of the new rows, in the order in which
    the rows bring the keys, then the old records that no new row touches, in
    their old order.  With no new row the merged file is the old file. *)
Theorem merged_file_order (S N D : list (gmap string Bms7.value)) :
  NoDup (Bms7.show_key <$> S) →
  Bms7.merge S N = Some D →
  (∃ D1,
     D = D1 ++ filter (λ o, Bms7.show_key o ∉ Bms7.show_key <$> N) S
     ∧ Bms7.show_key <$> D1 = DedupeFacts.first_wins id ∅ (Bms7.show_key <$> N))
  ∧ (N = [] → D = S).
Proof.
  intros Hnd Hm. split; [by apply MergeMore.merge_layout|].
  intros ->. rewrite MergeMore.merge_nothing in Hm; [by injection Hm|done|].
  assert (is_Some (Bms7.merge S [])) as Hs by (by eexists).
  by apply MergeMore.merge_is_Some in Hs as [? _].
Qed.

(** The merge of the example: show [a] seen again, the new show [c], and the
    old show [b] that the run did not see. *)
Definition merged_day : list (gmap string Bms7.value) :=
  default [] (Bms7.merge Examples.old_snapshot (Bms7.row_dict <$> Examples.new_rows)).

Lemma merged_file_order_witness :
  Bms7.merge Examples.old_snapshot (Bms7.row_dict <$> Examples.new_rows)
  = Some merged_day
  ∧ (λ d, d !! "session_id"%string) <$> merged_day
    = [Some (Bms7.VStr "101"); Some (Bms7.VStr "303"); Some (Bms7.VStr "202")]
  ∧ ∃ D1,
      merged_day
      = D1 ++ filter (λ o, Bms7.show_key o
                           ∉ Bms7.show_key <$> (Bms7.row_dict <$> Examples.new_rows))
                Examples.old_snapshot
      ∧ length D1 = 2%nat.
Proof.
  assert (Bms7.merge Examples.old_snapshot (Bms7.row_dict <$> Examples.new_rows)
          = Some merged_day) as H by (apply (bool_decide_unpack _); vm_compute; exact I).
  split; [exact H|]. split; [vm_compute; reflexivity|].
  destruct (merged_file_order Examples.old_snapshot (Bms7.row_dict <$> Examples.new_rows)
              merged_day)
    as [(D1 & HD1 & Hk1) _]; [apply (bool_decide_unpack _); vm_compute; exact I|exact H|].
  exists D1. split; [exact HD1|].
  rewrite <- (length_fmap Bms7.show_key), Hk1. vm_compute. reflexivity.
Defined.

(** X18. The record that the merged file holds under the key of a new row is
    the last old record under that key after [update] with each new row under
    the key in turn, and the last such new row when the old file has no record
    under the key.  [update] gives a field the value of the new row when the
    new row has the field, and leaves it as it is otherwise. *)
Theorem merged_record_updated (S N D : list (gmap string Bms7.value))
    (k : Bms7.Key) (r : gmap string Bms7.value) :
  Bms7.merge S N = Some D →
  last (MergeFacts.with_key k N) = Some r →
  match last (MergeFacts.with_key k S) with
  | Some o => MergeFacts.updates o (MergeFacts.with_key k N)
  | None => r
  end ∈ D
  ∧ ∀ o r' f, Bms7.update o r' !! f
              = match r' !! f with Some x => Some x | None => o !! f end.
Proof.
  intros Hm Hr. split; [by eapply MergeMore.merged_record|].
  intros o r' f. unfold Bms7.update. rewrite lookup_union.
  by destruct (r' !! f), (o !! f).
Qed.

(** Show [b] of the old file seen again, 45 minutes before it starts. *)
Definition seen_again : list (gmap string Bms7.value) :=
  [Bms7.row_dict (Examples.row_with Examples.show_b 45)].

Definition merged_again : list (gmap string Bms7.value) :=
  default [] (Bms7.merge Examples.old_snapshot seen_again).

Lemma merged_record_updated_witness :
  ∃ d,
    d ∈ merged_again
    ∧ d !! "note"%string = Some (Bms7.VStr "kept by hand")
    ∧ d !! "minutes_left"%string = Some (Bms7.VNum (PyFloat (Py.lit 45))).
Proof.
  assert (Bms7.merge Examples.old_snapshot seen_again = Some merged_again) as H
    by (apply (bool_decide_unpack _); vm_compute; exact I).
  destruct (merged_record_updated Examples.old_snapshot seen_again merged_again
              (Bms7.row_key (Examples.row_with Examples.show_b 45))
              (Bms7.row_dict (Examples.row_with Examples.show_b 45)) H)
    as [Hin _]; [apply (bool_decide_unpack _); vm_compute; exact I|].
  eexists. split; [exact Hin|]. split; vm_compute; reflexivity.
Defined.

(** X19. The summary of [bmsdaily7.py] raises when a record of the merged
    file lacks one of the six fields it reads, and it is computed when every
    record has them, with [int] seat counts, no more sold seats than seats
    and no negative number of them, and a gross that converts to a float.
    When it is computed it has one entry for each movie, in the order in
    which the records bring the movies; the shows of the entries add up to
    the number of records and their sold seats to the sold seats of the
    records; and in every entry the two status counters are not negative and
    together at most the shows, and the venues and the cities are between one
    and the number of shows. *)
Theorem shard_summary (detailed : list (gmap string Bms7.value)) :
  (∀ r k, r ∈ detailed → k ∈ MainFacts.summary_fields → r !! k = None →
          Bms7Main.summarize detailed = None)
  ∧ (Forall MainFacts.sane detailed → is_Some (Bms7Main.summarize detailed))
  ∧ ∀ out,
      Bms7Main.summarize detailed = Some out →
      out.*1 = DedupeFacts.first_wins id ∅ (MainFacts.movies_of detailed)
      ∧ SeatFacts.total_of ((Agg.o_shows ∘ Bms7Main.fig ∘ snd) <$> out)
        = Z.of_nat (length detailed)
      ∧ SeatFacts.total_of ((Agg.o_sold ∘ Bms7Main.fig ∘ snd) <$> out)
        = SeatFacts.total_of
            (omap (λ r, Bms7Main.f_sold <$> Bms7Main.fields r) detailed)
      ∧ Forall (λ ko, SummaryFacts.in_bounds (Bms7Main.fig ko.2)
                      ∧ 1 <= Bms7Main.n_cities ko.2 <= Agg.o_shows (Bms7Main.fig ko.2))
          out.
Proof.
  split; [apply MainFacts.summarize_missing|].
  split; [apply MainFacts.summarize_sane|].
  intros out. apply MainFacts.summarize_spec.
Qed.

Definition summary_of_new_rows : list (string * Bms7Main.MovieOut) :=
  default [] (Bms7Main.summarize (Bms7.row_dict <$> Examples.new_rows)).

Lemma shard_summary_witness :
  Bms7Main.summarize (Bms7.row_dict <$> Examples.new_rows) = Some summary_of_new_rows
  ∧ summary_of_new_rows.*1 = ["Dune"%string; "Pushpa"%string]
  ∧ (Agg.o_shows ∘ Bms7Main.fig ∘ snd) <$> summary_of_new_rows = [2; 1]
  ∧ SeatFacts.total_of ((Agg.o_shows ∘ Bms7Main.fig ∘ snd) <$> summary_of_new_rows)
    = Z.of_nat (length (Bms7.row_dict <$> Examples.new_rows))
  ∧ Bms7Main.summarize
      [delete "city"%string (Bms7.row_dict (Examples.row_with Examples.show_a 180))]
    = None.
Proof.
  assert (Bms7Main.summarize (Bms7.row_dict <$> Examples.new_rows)
          = Some summary_of_new_rows) as H by (vm_compute; reflexivity).
  split; [exact H|]. split; [vm_compute; reflexivity|]. split; [vm_compute; reflexivity|].
  split.
  - by destruct (proj2 (proj2 (shard_summary (Bms7.row_dict <$> Examples.new_rows))) _ H)
      as (_ & ? & _).
  - apply (proj1 (shard_summary _)
             (delete "city"%string (Bms7.row_dict (Examples.row_with Examples.show_a 180)))
             "city"%string).
    + apply elem_of_cons. by left.
    + apply (bool_decide_unpack _). vm_compute. exact I.
    + apply lookup_delete_eq.
Defined.

(** X20. What a run of [bmsdaily7.py] writes is the merge of the old file
    with the rows of the run, and the summary of that merge, whose shows add
    up to the number of records written.  The run ends without exception
    when every record of the old file has the fields of the key, and the
    records of the old file and the rows of the run have the fields of the
    summary with [int] seat counts, no more sold seats than seats and no
    negative number of them, and a gross that converts to a float.  When a
    record of the old file lacks a field of the key, the run raises before it
    writes anything. *)
Theorem run_writes {W : Type}
    (fetch_api_raw : string → W → option Bms7.Payload * W)
    (reset_identity sleep : W → W) (now_us : W → Z)
    (strptime_IMp : string → option (Z * Z)) (DATE_CODE : string)
    (venues : list (string * Bms7.VenueMeta))
    (old_rows : list (gmap string Bms7.value)) (w : W) :
  let main := Bms7Main.main fetch_api_raw reset_identity sleep now_us strptime_IMp
                DATE_CODE venues in
  let run := Bms7.scrape fetch_api_raw reset_identity sleep now_us strptime_IMp
               DATE_CODE venues w in
  (∀ out,
     main old_rows w = Some out →
     Bms7.merge old_rows (Bms7.row_dict <$> Bms7.all_rows run.2)
     = Some (Bms7Main.detailed out)
     ∧ Bms7Main.summarize (Bms7Main.detailed out) = Some (Bms7Main.movies out)
     ∧ SeatFacts.total_of ((Agg.o_shows ∘ Bms7Main.fig ∘ snd) <$> Bms7Main.movies out)
       = Z.of_nat (length (Bms7Main.detailed out)))
  ∧ (Forall (λ r, is_Some (Bms7.show_key r)) old_rows →
     Forall MainFacts.sane old_rows →
     Forall MainFacts.sane (Bms7.row_dict <$> Bms7.all_rows run.2) →
     is_Some (main old_rows w))
  ∧ (∀ r k, r ∈ old_rows → k ∈ MergeMore.key_fields → r !! k = None →
            main old_rows w = None).
Proof.
  intros main run. split; [|split].
  - intros out Hout.
    apply MainFacts.main_Some in Hout as [Hd Hs]. split; [exact Hd|]. split; [exact Hs|].
    by apply MainFacts.summarize_spec in Hs as (_ & ? & _).
  - apply MainFacts.main_returns.
  - apply MainFacts.main_raises.
Qed.

(** The run of the venue that answers late, on top of the old file of the
    examples. *)
Definition late_output : option Bms7Main.Output :=
  Bms7Main.main late_fetch id id (λ _, 18 * 3600 * 1000000) Examples.strptime_12h
    "20260101" Examples.one_venue Examples.old_snapshot 0%nat.

Lemma run_writes_witness :
  is_Some late_output
  ∧ length <$> (Bms7Main.detailed <$> late_output) = Some 2%nat
  ∧ (λ out, (Bms7Main.movies out).*1) <$> late_output = Some ["Dune"%string]
  ∧ (λ out, SeatFacts.total_of
              ((Agg.o_shows ∘ Bms7Main.fig ∘ snd) <$> Bms7Main.movies out))
      <$> late_output
    = (λ out, Z.of_nat (length (Bms7Main.detailed out))) <$> late_output.
Proof.
  pose proof (run_writes late_fetch id id (λ _, 18 * 3600 * 1000000)
                Examples.strptime_12h "20260101" Examples.one_venue
                Examples.old_snapshot 0%nat) as (Hout & Hsome & _).
  fold late_output in Hout, Hsome.
  split; [|split; [vm_compute; reflexivity|split; [vm_compute; reflexivity|]]].
  - apply Hsome.
    + repeat constructor; by eexists.
    + apply MainFacts.forallb_sane. vm_compute. reflexivity.
    + apply MainFacts.forallb_sane. vm_compute. reflexivity.
  - destruct late_output as [out|]; [|done]. simpl. f_equal.
    by destruct (Hout out eq_refl) as (_ & _ & ?).
Defined.

(** ** The combiner: what [normalize_row] leaves *)

(** X21. For a record whose city, state, language and format are ASCII
    text, the grouping keys that [normalize_row] sets are the lower-cased
    city and state that the row shows, so that two such rows have the same
    key exactly when they show the same city and state; the language and the
    format are in upper case, and two such records whose languages differ
    only in the case of their letters get the same language; and the movie,
    the venue and the source are not empty. *)
Theorem normalized_row (DATE_CODE : string) :
  (∀ a,
     Combine.ascii_raw a = true →
     let r := Combine.normalize_row DATE_CODE a in
     Combine.city_key r = PyStr.lower (Combine.city r)
     ∧ Combine.state_key r = PyStr.lower (Combine.state r)
     ∧ PyStr.upper (Combine.language r) = Combine.language r
     ∧ PyStr.upper (Combine.dimension r) = Combine.dimension r
     ∧ PyStr.truthy (Combine.movie r) = true
     ∧ PyStr.truthy (Combine.venue r) = true
     ∧ PyStr.truthy (Combine.source r) = true)
  ∧ (∀ a b,
       Combine.ascii_raw a = true → Combine.ascii_raw b = true →
       let ra := Combine.normalize_row DATE_CODE a in
       let rb := Combine.normalize_row DATE_CODE b in
       (Combine.city_key ra = Combine.city_key rb ↔ Combine.city ra = Combine.city rb)
       ∧ (Combine.state_key ra = Combine.state_key rb
          ↔ Combine.state ra = Combine.state rb))
  ∧ (∀ a b,
       Combine.ascii_raw a = true → Combine.ascii_raw b = true →
       StrFacts.caseless (PyStr.or_default (Combine.raw_language a) "UNKNOWN")
         (PyStr.or_default (Combine.raw_language b) "UNKNOWN") →
       Combine.language (Combine.normalize_row DATE_CODE a)
       = Combine.language (Combine.normalize_row DATE_CODE b)).
Proof.
  assert (∀ x y, PyStr.lower x = PyStr.lower y ↔ PyStr.title x = PyStr.title y) as Hkey.
  { intros x y. split; [apply StrFacts.lower_title|].
    intros H. by rewrite <- (TextFacts.lower_of_title x), H, TextFacts.lower_of_title. }
  split; [|split].
  - intros a _. simpl. rewrite !TextFacts.lower_of_title, !TextFacts.upper_idem.
    repeat split; by apply TextFacts.truthy_or_default.
  - intros a b _ _. simpl. split; apply Hkey.
  - intros a b _ _ Hc. simpl. by apply TextFacts.caseless_upper.
Qed.

Lemma normalized_row_witness :
  (λ r, (Combine.city_key r, Combine.city r, Combine.language r, Combine.dimension r))
    <$> (Combine.normalize_row "20260101" <$> concat shards_day)
  = [ ("pune", "Pune", "ENGLISH", "2D"); ("mumbai", "Mumbai", "ENGLISH", "2D");
      ("pune", "Pune", "ENGLISH", "2D"); ("pune", "Pune", "ENGLISH", "2D");
      ("pune", "Pune", "ENGLISH", "2D") ]%string
  ∧ Combine.language
      (Combine.normalize_row "20260101" (Examples.raw_row "pune" "City Pride" "1" 100 98))
    = Combine.language
        (Combine.normalize_row "20260101"
           (raw_retitled "Arrival" (Examples.raw_row "Pune" "City Pride" "2" 0 0))).
Proof.
  split; [vm_compute; reflexivity|].
  apply (proj2 (proj2 (normalized_row "20260101"))); [reflexivity|reflexivity|].
  apply StrFacts.caseless_refl.
Defined.

End Extras.
